(** * Resource bindings of the Vulkan backend

    A shallow embedding of [src/vulkan/vulkan-resource-bindings.cpp]:
    binding layouts (fixed and bindless), the pool-size table computed by
    [bake], descriptor tables, the pipeline-layout builder and the
    descriptor-set binding loop of the command list.

    Conventions.
    - [uint32_t] and [uint64_t] values are integers of [Z]; every place where
      the C++ arithmetic is done modulo a power of two is written with
      [wrap32] or [wrap64].
    - native handles ([vk::DescriptorSet], [vk::DescriptorSetLayout], ...) are
      opaque integers, [0] being the null handle.
    - the code runs in the monad [M]: it threads a [World] (the chronological
      trace of diagnostics and native calls, the buffer view caches and the
      resources referenced by the command buffer) and it may stop with a
      [Fault] where the C++ code hits an [assert] or a fail-fast helper.
    - [static_vector<T, N>] is a list together with its capacity [N]; going
      past the capacity or indexing past the size is a [Fault]. *)

From Stdlib Require Import ZArith String List Lia Bool.
From stdpp Require Import base decidable option list gmap fin_maps strings.

Local Open Scope Z_scope.

(** ** Machine integers *)

Definition wrap32 (z : Z) : Z := z mod 2 ^ 32.
Definition wrap64 (z : Z) : Z := z mod 2 ^ 64.

(** [std::numeric_limits<uint32_t>::max()] *)
Definition UINT32_MAX : Z := 4294967295.

Definition is_uint32 (z : Z) : Prop := 0 <= z < 2 ^ 32.
Definition is_uint64 (z : Z) : Prop := 0 <= z < 2 ^ 64.

(** ** Enumerations *)

Module ResourceType.
Inductive t : Type :=
| None
| Texture_SRV
| Texture_UAV
| TypedBuffer_SRV
| TypedBuffer_UAV
| StructuredBuffer_SRV
| StructuredBuffer_UAV
| RawBuffer_SRV
| RawBuffer_UAV
| ConstantBuffer
| VolatileConstantBuffer
| Sampler
| RayTracingAccelStruct
| PushConstants
| Count.

#[global] Instance eq_dec : EqDecision t.
Proof. solve_decision. Defined.

Definition eqb (a b : t) : bool := bool_decide (a = b).
End ResourceType.

(** [vk::DescriptorType]: the descriptor types of the target API. *)
Inductive vk_DescriptorType : Type :=
| eSampler
| eCombinedImageSampler
| eSampledImage
| eStorageImage
| eUniformTexelBuffer
| eStorageTexelBuffer
| eUniformBuffer
| eStorageBuffer
| eUniformBufferDynamic
| eStorageBufferDynamic
| eInputAttachment
| eAccelerationStructureKHR
| eMutableEXT.

#[export] Instance vk_DescriptorType_eq_dec : EqDecision vk_DescriptorType.
Proof. solve_decision. Defined.

Definition vk_DescriptorType_to_nat (d : vk_DescriptorType) : nat :=
  match d with
  | eSampler => 0 | eCombinedImageSampler => 1 | eSampledImage => 2
  | eStorageImage => 3 | eUniformTexelBuffer => 4 | eStorageTexelBuffer => 5
  | eUniformBuffer => 6 | eStorageBuffer => 7 | eUniformBufferDynamic => 8
  | eStorageBufferDynamic => 9 | eInputAttachment => 10
  | eAccelerationStructureKHR => 11 | eMutableEXT => 12
  end%nat.

Definition vk_DescriptorType_of_nat (n : nat) : option vk_DescriptorType :=
  match n with
  | 0 => Some eSampler | 1 => Some eCombinedImageSampler | 2 => Some eSampledImage
  | 3 => Some eStorageImage | 4 => Some eUniformTexelBuffer
  | 5 => Some eStorageTexelBuffer | 6 => Some eUniformBuffer
  | 7 => Some eStorageBuffer | 8 => Some eUniformBufferDynamic
  | 9 => Some eStorageBufferDynamic | 10 => Some eInputAttachment
  | 11 => Some eAccelerationStructureKHR | 12 => Some eMutableEXT
  | _ => Datatypes.None
  end%nat.

#[export] Program Instance vk_DescriptorType_countable : Countable vk_DescriptorType :=
  inj_countable vk_DescriptorType_to_nat vk_DescriptorType_of_nat _.
Next Obligation. by intros []. Qed.

(** [vk::Result], as far as the code looks at it. *)
Inductive vk_Result : Type :=
| eSuccess
| eError (code : Z).

#[export] Instance vk_Result_eq_dec : EqDecision vk_Result.
Proof. solve_decision. Defined.

(** [BindlessLayoutDesc::LayoutType] *)
Module LayoutType.
Inductive t : Type :=
| Immutable
| MutableSrvUavCbv
| MutableCounters
| MutableSampler.

#[global] Instance eq_dec : EqDecision t.
Proof. solve_decision. Defined.
End LayoutType.

(** ** Descriptions *)

Module VulkanBindingOffsets.
Record t : Type := mk {
  shaderResource : Z;
  sampler : Z;
  constantBuffer : Z;
  unorderedAccess : Z }.
End VulkanBindingOffsets.

Module BindingLayoutItem.
Record t : Type := mk {
  slot : Z;
  type : ResourceType.t;
  size : Z }.
End BindingLayoutItem.

Module BindingLayoutDesc.
Record t : Type := mk {
  visibility : Z;
  registerSpace : Z;
  registerSpaceIsDescriptorSet : bool;
  bindings : list BindingLayoutItem.t;
  bindingOffsets : VulkanBindingOffsets.t }.
End BindingLayoutDesc.

Module BindlessLayoutDesc.
Record t : Type := mk {
  visibility : Z;
  maxCapacity : Z;
  registerSpaces : list BindingLayoutItem.t;
  layoutType : LayoutType.t }.
End BindlessLayoutDesc.

(** ** Native structures *)

Module DescriptorSetLayoutBinding.
Record t : Type := mk {
  binding : Z;
  descriptorCount : Z;
  descriptorType : vk_DescriptorType;
  stageFlags : Z }.
End DescriptorSetLayoutBinding.

Module DescriptorPoolSize.
Record t : Type := mk {
  type : vk_DescriptorType;
  descriptorCount : Z }.
End DescriptorPoolSize.

(** What [bake] hands to [createDescriptorSetLayout]: the bindings, the
    per-binding flags (always "partially bound", one per binding) and, for a
    mutable bindless layout, the list of descriptor types the single binding
    may hold. *)
Module DescriptorSetLayoutCreateInfo.
Record t : Type := mk {
  pBindings : list DescriptorSetLayoutBinding.t;
  bindingFlagCount : option Z;
  mutableTypeList : option (list vk_DescriptorType) }.
End DescriptorSetLayoutCreateInfo.

Inductive vk_ImageLayout : Type :=
| eUndefined
| eGeneral
| eShaderReadOnlyOptimal.

(** A descriptor write points at exactly one of an image info, a buffer info
    or a texel buffer view; [payload] is the structure pointed at. *)
Module WriteDescriptorSet.
Inductive payload : Type :=
| ImageInfo (imageView : Z) (sampler : Z) (imageLayout : vk_ImageLayout)
| BufferInfo (buffer : Z) (offset : Z) (range : Z)
| TexelBufferView (view : Z).

Record t : Type := mk {
  dstSet : Z;
  dstBinding : Z;
  dstArrayElement : Z;
  descriptorCount : Z;
  descriptorType : vk_DescriptorType;
  data : payload }.
End WriteDescriptorSet.

Module BufferViewCreateInfo.
Record t : Type := mk {
  buffer : Z;
  offset : Z;
  range : Z;
  format : Z }.
End BufferViewCreateInfo.

Module PushConstantRange.
Record t : Type := mk {
  offset : Z;
  size : Z;
  stageFlags : Z }.
End PushConstantRange.

Module PipelineLayoutCreateInfo.
Record t : Type := mk {
  pSetLayouts : list Z;
  pushConstantRangeCount : Z;
  pPushConstantRanges : PushConstantRange.t }.
End PipelineLayoutCreateInfo.

(** ** Objects of the backend *)

Module BindingLayout.
Record t : Type := mk {
  desc : BindingLayoutDesc.t;
  bindlessDesc : BindlessLayoutDesc.t;
  isBindless : bool;
  vulkanLayoutBindings : list DescriptorSetLayoutBinding.t;
  descriptorSetLayout : Z;
  descriptorPoolSizeInfo : list DescriptorPoolSize.t }.
End BindingLayout.

Module BufferDesc.
Record t : Type := mk {
  byteSize : Z;
  debugName : string }.
End BufferDesc.

(** A [Buffer*]: [address] is the identity of the object, which is what the
    per-command-list map of volatile buffer states is keyed by. *)
Module Buffer.
Record t : Type := mk {
  address : Z;
  desc : BufferDesc.t;
  buffer : Z }.
End Buffer.

Module VolatileBufferState.
Record t : Type := mk {
  latestVersion : Z }.
End VolatileBufferState.

Module BindingSetDesc.
Record t : Type := mk {
  trackLiveness : bool }.
End BindingSetDesc.

Module BindingSet.
Record t : Type := mk {
  desc : BindingSetDesc.t;
  layout : BindingLayout.t;
  descriptorSet : Z;
  volatileConstantBuffers : list Buffer.t }.
End BindingSet.

Module DescriptorTable.
Record t : Type := mk {
  layout : BindingLayout.t;
  capacity : Z;
  descriptorPool : Z;
  descriptorSet : Z }.
End DescriptorTable.

(** [IBindingSet*]: a binding set or a descriptor table. *)
Inductive IBindingSet : Type :=
| IsBindingSet (s : BindingSet.t)
| IsDescriptorTable (t : DescriptorTable.t).

(** [IBindingSet::getDesc]: the description of a binding set, null for a
    descriptor table. *)
Definition IBindingSet_getDesc (h : IBindingSet) : option BindingSetDesc.t :=
  match h with
  | IsBindingSet s => Some (BindingSet.desc s)
  | IsDescriptorTable _ => Datatypes.None
  end.

(** A resource behind a [BindingSetItem]; [checked_cast] picks the variant. *)
Inductive IResource : Type :=
| IsTexture (texture : Z)
| IsBuffer (b : Buffer.t)
| IsSampler (sampler : Z)
| IsAccelStruct (accelStruct : Z).

Module BindingSetItem.
Record t : Type := mk {
  resourceHandle : option IResource;
  slot : Z;
  type : ResourceType.t;
  format : Z;
  dimension : Z;
  subresources : Z * Z * Z * Z;
  range : Z * Z }.
End BindingSetItem.

(** The three local vectors of [writeDescriptorTable]. *)
Module TableWrites.
Record t : Type := mk {
  descriptorImageInfo : list WriteDescriptorSet.payload;
  descriptorBufferInfo : list WriteDescriptorSet.payload;
  descriptorWriteInfo : list WriteDescriptorSet.t }.
End TableWrites.

(** The loop state of [CommandList::bindBindingSets]. *)
Module BindLoop.
Record t : Type := mk {
  descriptorSets : list Z;
  nextDescriptorSetToBind : Z;
  dynamicOffsets : list Z }.
End BindLoop.

(** The out-parameters of [createPipelineLayout]. *)
Module PipelineLayoutOut.
Record t : Type := mk {
  outPipelineLayout : Z;
  outBindingLayouts : list (option BindingLayout.t);
  outPushConstantVisibility : Z;
  outDescriptorSetIdxToBindingIdx : list Z }.
End PipelineLayoutOut.

(** ** The world and the monad *)

Inductive Event : Type :=
| EvError (message : string)
| EvCreateDescriptorSetLayout (info : DescriptorSetLayoutCreateInfo.t)
| EvCreateBufferView (info : BufferViewCreateInfo.t)
| EvUpdateDescriptorSets (descriptorWriteCount : Z)
    (pDescriptorWrites : list WriteDescriptorSet.t)
| EvBindDescriptorSets (bindPoint pipelineLayout firstSet descriptorSetCount : Z)
    (pDescriptorSets : list Z) (dynamicOffsetCount : Z) (pDynamicOffsets : list Z)
| EvCreatePipelineLayout (info : PipelineLayoutCreateInfo.t).

Record World : Type := mkWorld {
  trace : list Event;
  viewCache : gmap (Z * Z) Z;
  referencedResources : list IBindingSet }.

Inductive Outcome (A : Type) : Type :=
| Ok (a : A)
| Fault (what : string).
Arguments Ok {A} a.
Arguments Fault {A} what.

Definition M (A : Type) : Type := World -> Outcome (A * World).

Definition ret {A} (a : A) : M A := fun w => Ok (a, w).

Definition bind {A B} (m : M A) (k : A -> M B) : M B :=
  fun w => match m w with
           | Ok (a, w') => k a w'
           | Fault s => Fault s
           end.

Declare Scope m_scope.
Delimit Scope m_scope with M.
Notation "x <- m ;; k" := (bind m (fun x => k))
  (at level 100, m at next level, right associativity) : m_scope.
Notation "m ;;; k" := (bind m (fun _ => k))
  (at level 100, right associativity) : m_scope.
Local Open Scope m_scope.

Definition fault {A} (what : string) : M A := fun _ => Fault what.

(** [assert(cond)] *)
Definition assert (cond : bool) : M unit :=
  if cond then ret tt else fault "assertion failed".

Definition emit (e : Event) : M unit :=
  fun w => Ok (tt, mkWorld (trace w ++ [e]) (viewCache w) (referencedResources w)).

(** [m_Context.error(message)]: the message goes to the message callback. *)
Definition error (message : string) : M unit := emit (EvError message).

(** Monadic left fold: a [for] loop over [l] with loop state [a]. *)
Fixpoint foldM {A B} (f : A -> B -> M A) (l : list B) (a : A) : M A :=
  match l with
  | [] => ret a
  | x :: l' => a' <- f a x ;; foldM f l' a'
  end.

(** ** Collaborators

    Functions, constants and types that the file uses and that are declared
    elsewhere in the repository or by the target API.  They are taken as
    parameters: nothing below depends on what they compute. *)

Inductive vk_ImageUsageFlagBits : Type :=
| eSampled
| eStorage.

Module FormatInfo.
Record t : Type := mk {
  hasDepth : bool;
  hasStencil : bool }.
End FormatInfo.

Module TextureSubresourceViewType.
Inductive t : Type :=
| AllAspects
| DepthOnly
| StencilOnly.
End TextureSubresourceViewType.

Class Collaborators : Type := {
  (** [convertResourceType], [convertShaderTypeToShaderStageFlagBits] and
      [convertFormat] of the backend's conversion tables *)
  convertResourceType : ResourceType.t -> vk_DescriptorType;
  convertShaderTypeToShaderStageFlagBits : Z -> Z;
  convertFormat : Z -> Z;
  (** [Format::UNKNOWN] and [getFormatInfo] *)
  Format_UNKNOWN : Z;
  getFormatInfo : Z -> FormatInfo.t;
  (** [utils::DebugNameToString] *)
  DebugNameToString : string -> string;
  (** the three [nvrhi::hash_combine] calls on a zero seed *)
  viewInfoHash : Z -> Z -> Z -> Z;
  (** [BufferRange::resolve] and [TextureSubresourceSet::resolve] *)
  BufferRange_resolve : Z * Z -> BufferDesc.t -> Z * Z;
  TextureSubresourceSet_resolve : Z * Z * Z * Z -> Z -> bool -> Z * Z * Z * Z;
  (** [texture->desc.format] and [Texture::getSubresourceView(...).view] *)
  Texture_format : Z -> Z;
  Texture_getSubresourceView :
    Z -> Z * Z * Z * Z -> Z -> Z -> vk_ImageUsageFlagBits ->
    TextureSubresourceViewType.t -> Z;
  (** default-constructed descriptions *)
  BindingLayoutDesc_default : BindingLayoutDesc.t;
  BindlessLayoutDesc_default : BindlessLayoutDesc.t;
  (** capacities of the [static_vector]s *)
  c_MaxBindingLayouts : nat;
  c_MaxVolatileConstantBuffers : nat;
  c_MaxBindlessRegisterSpaces : nat;
  (** the native device: result code and created handle of each call *)
  vkCreateDescriptorSetLayout : DescriptorSetLayoutCreateInfo.t -> vk_Result * Z;
  vkCreateBufferView : BufferViewCreateInfo.t -> vk_Result * Z;
  vkCreatePipelineLayout : PipelineLayoutCreateInfo.t -> vk_Result * Z }.

(** The part of [VulkanContext] the file reads. *)
Module VulkanContext.
Record t : Type := mk {
  extensions_EXT_mutable_descriptor_type : bool;
  emptyDescriptorSetLayout : Z }.
End VulkanContext.

(** Modelled from the spec: [utils::InvalidEnum], [utils::NotImplemented] and
    [utils::NotSupported] are defined outside this file; an unknown or
    unsupported type "is a programming-error fault (fail fast, not a
    recoverable error)". *)
Definition InvalidEnum : M unit := fault "Invalid Enumeration Value".
Definition NotImplemented : M unit := fault "Not Implemented".
Definition NotSupported : M unit := fault "Not Supported".

(** ** [static_vector] *)

(** [v.push_back(x)] on a vector of capacity [cap] *)
Definition push_back {A} (cap : nat) (v : list A) (x : A) : M (list A) :=
  assert (bool_decide (length v < cap)%nat) ;;; ret (v ++ [x]).

(** [v[i]] for reading *)
Definition at_ {A} (v : list A) (i : Z) : M A :=
  match (if bool_decide (0 <= i) then v !! Z.to_nat i else Datatypes.None) with
  | Some x => ret x
  | Datatypes.None => fault "index out of range"
  end.

(** [v[i] = x] *)
Definition set_at {A} (v : list A) (i : Z) (x : A) : M (list A) :=
  assert (bool_decide (0 <= i) && bool_decide (Z.to_nat i < length v)%nat) ;;;
  ret (<[Z.to_nat i := x]> v).

(** [v.resize(n)]: cut, or fill up with value-initialised elements *)
Definition resize {A} (cap : nat) (dflt : A) (v : list A) (n : Z) : M (list A) :=
  assert (bool_decide (0 <= n) && bool_decide (Z.to_nat n <= cap)%nat) ;;;
  ret (take (Z.to_nat n) v ++ replicate (Z.to_nat n - length v) dflt).

Section Backend.
Context `{Collaborators}.

(** ** Binding layouts *)

Definition getRegisterOffsetForResourceType
    (bindingOffsets : VulkanBindingOffsets.t) (type : ResourceType.t) : M Z :=
  match type with
  | ResourceType.Texture_SRV
  | ResourceType.TypedBuffer_SRV
  | ResourceType.StructuredBuffer_SRV
  | ResourceType.RawBuffer_SRV
  | ResourceType.RayTracingAccelStruct =>
      ret (VulkanBindingOffsets.shaderResource bindingOffsets)
  | ResourceType.Texture_UAV
  | ResourceType.TypedBuffer_UAV
  | ResourceType.StructuredBuffer_UAV
  | ResourceType.RawBuffer_UAV =>
      ret (VulkanBindingOffsets.unorderedAccess bindingOffsets)
  | ResourceType.ConstantBuffer
  | ResourceType.VolatileConstantBuffer
  | ResourceType.PushConstants =>
      ret (VulkanBindingOffsets.constantBuffer bindingOffsets)
  | ResourceType.Sampler =>
      ret (VulkanBindingOffsets.sampler bindingOffsets)
  | _ =>
      InvalidEnum ;;; ret 0
  end.

(** One turn of the loop of the fixed-layout constructor. *)
Definition BindingLayout_addBinding (_desc : BindingLayoutDesc.t)
    (vulkanLayoutBindings : list DescriptorSetLayoutBinding.t)
    (binding : BindingLayoutItem.t) : M (list DescriptorSetLayoutBinding.t) :=
  let shaderStageFlags :=
    convertShaderTypeToShaderStageFlagBits (BindingLayoutDesc.visibility _desc) in
  if bool_decide (BindingLayoutItem.type binding = ResourceType.PushConstants)
  then ret vulkanLayoutBindings
  else
    let descriptorType := convertResourceType (BindingLayoutItem.type binding) in
    let descriptorCount := BindingLayoutItem.size binding in
    registerOffset <-
      getRegisterOffsetForResourceType (BindingLayoutDesc.bindingOffsets _desc)
        (BindingLayoutItem.type binding) ;;
    let bindingLocation := wrap32 (registerOffset + BindingLayoutItem.slot binding) in
    ret (vulkanLayoutBindings ++
         [DescriptorSetLayoutBinding.mk bindingLocation descriptorCount
            descriptorType shaderStageFlags]).

(** [BindingLayout::BindingLayout(context, const BindingLayoutDesc&)] *)
Definition BindingLayout_BindingLayout (_desc : BindingLayoutDesc.t)
    : M BindingLayout.t :=
  vulkanLayoutBindings <-
    foldM (BindingLayout_addBinding _desc) (BindingLayoutDesc.bindings _desc) [] ;;
  ret (BindingLayout.mk _desc BindlessLayoutDesc_default false
         vulkanLayoutBindings 0 []).

(** One turn of the loop over the register spaces of an immutable bindless
    layout; the loop state is the vector and [bindingPoint]. *)
Definition BindingLayout_addRegisterSpace (shaderStageFlags arraySize : Z)
    (st : list DescriptorSetLayoutBinding.t * Z) (space : BindingLayoutItem.t)
    : M (list DescriptorSetLayoutBinding.t * Z) :=
  let '(vulkanLayoutBindings, bindingPoint) := st in
  let descriptorType := convertResourceType (BindingLayoutItem.type space) in
  (if bool_decide (BindingLayoutItem.type space = ResourceType.VolatileConstantBuffer)
   then error "Volatile constant buffers are not supported in bindless layouts"
   else ret tt) ;;;
  ret (vulkanLayoutBindings ++
       [DescriptorSetLayoutBinding.mk bindingPoint arraySize descriptorType
          shaderStageFlags],
       wrap32 (bindingPoint + 1)).

(** [BindingLayout::BindingLayout(context, const BindlessLayoutDesc&)] *)
Definition BindingLayout_BindingLayout_bindless (m_Context : VulkanContext.t)
    (_desc : BindlessLayoutDesc.t) : M BindingLayout.t :=
  let bindlessDesc := _desc in
  let desc :=
    BindingLayoutDesc.mk (BindlessLayoutDesc.visibility bindlessDesc)
      (BindingLayoutDesc.registerSpace BindingLayoutDesc_default)
      (BindingLayoutDesc.registerSpaceIsDescriptorSet BindingLayoutDesc_default)
      (BindingLayoutDesc.bindings BindingLayoutDesc_default)
      (BindingLayoutDesc.bindingOffsets BindingLayoutDesc_default) in
  let shaderStageFlags :=
    convertShaderTypeToShaderStageFlagBits (BindlessLayoutDesc.visibility bindlessDesc) in
  let bindingPoint := 0 in
  let arraySize := BindlessLayoutDesc.maxCapacity bindlessDesc in
  if bool_decide (BindlessLayoutDesc.layoutType bindlessDesc <> LayoutType.Immutable)
  then
    (if negb (VulkanContext.extensions_EXT_mutable_descriptor_type m_Context)
     then error "Mutable descriptor types are not supported by this device. VK_EXT_mutable_descriptor_type extension is required for mutable bindless layouts."
     else ret tt) ;;;
    (if bool_decide (0 < length (BindlessLayoutDesc.registerSpaces bindlessDesc))%nat
     then error "Mutable descriptor sets cannot specify register spaces"
     else ret tt) ;;;
    ret (BindingLayout.mk desc bindlessDesc true
           [DescriptorSetLayoutBinding.mk bindingPoint arraySize eMutableEXT
              shaderStageFlags] 0 [])
  else
    st <- foldM (BindingLayout_addRegisterSpace shaderStageFlags arraySize)
            (BindlessLayoutDesc.registerSpaces bindlessDesc) ([], bindingPoint) ;;
    ret (BindingLayout.mk desc bindlessDesc true (fst st) 0 []).

(** Modelled from the spec: [BindingLayout::getDesc] and
    [BindingLayout::getBindlessDesc] are declared in the backend's header; a
    layout "owns either a BindingLayoutDesc or BindlessLayoutDesc (tagged by
    isBindless)", so each accessor gives the description of its own mode and
    null in the other. *)
Definition BindingLayout_getDesc (layout : BindingLayout.t)
    : option BindingLayoutDesc.t :=
  if BindingLayout.isBindless layout then Datatypes.None
  else Some (BindingLayout.desc layout).

Definition BindingLayout_getBindlessDesc (layout : BindingLayout.t)
    : option BindlessLayoutDesc.t :=
  if BindingLayout.isBindless layout then Some (BindingLayout.bindlessDesc layout)
  else Datatypes.None.

(** Dereferencing the result of an accessor: a null pointer is a fault. *)
Definition deref {A} (p : option A) : M A :=
  match p with
  | Some a => ret a
  | Datatypes.None => fault "null pointer dereference"
  end.

(** *** [bake] *)

Definition cbvSrvUavTypes : list vk_DescriptorType :=
  [eSampledImage; eStorageImage; eUniformTexelBuffer; eStorageTexelBuffer;
   eUniformBuffer; eStorageBuffer].
Definition counterTypes : list vk_DescriptorType := [eStorageBuffer].
Definition samplerTypes : list vk_DescriptorType := [eSampler].

(** The first loop at the end of [bake]: one turn, on the map from descriptor
    type to [uint32_t] count. *)
Definition countDescriptors (poolSizeMap : gmap vk_DescriptorType Z)
    (layoutBinding : DescriptorSetLayoutBinding.t) : gmap vk_DescriptorType Z :=
  let ty := DescriptorSetLayoutBinding.descriptorType layoutBinding in
  let poolSizeMap1 :=
    match poolSizeMap !! ty with
    | Datatypes.None => <[ty := 0]> poolSizeMap
    | Some _ => poolSizeMap
    end in
  <[ty := wrap32 (default 0 (poolSizeMap1 !! ty)
                  + DescriptorSetLayoutBinding.descriptorCount layoutBinding)]>
    poolSizeMap1.

(** The second loop: one turn, on the pool-size table.  The order in which a
    [std::unordered_map] is traversed is not specified; the model goes
    through [map_to_list]. *)
Definition addPoolSize (descriptorPoolSizeInfo : list DescriptorPoolSize.t)
    (poolSizeIter : vk_DescriptorType * Z) : list DescriptorPoolSize.t :=
  if bool_decide (0 < snd poolSizeIter)
  then descriptorPoolSizeInfo ++
       [DescriptorPoolSize.mk (fst poolSizeIter) (snd poolSizeIter)]
  else descriptorPoolSizeInfo.

(** [BindingLayout::bake]: the result code and the layout after the call. *)
Definition bake (layout : BindingLayout.t) : M (vk_Result * BindingLayout.t) :=
  let vulkanLayoutBindings := BindingLayout.vulkanLayoutBindings layout in
  let bindlessDesc := BindingLayout.bindlessDesc layout in
  let pMutableDescriptorTypeLists :=
    if bool_decide (BindlessLayoutDesc.layoutType bindlessDesc = LayoutType.MutableCounters)
    then counterTypes
    else if bool_decide (BindlessLayoutDesc.layoutType bindlessDesc = LayoutType.MutableSampler)
    then samplerTypes
    else cbvSrvUavTypes in
  let bindingCount := wrap32 (Z.of_nat (length vulkanLayoutBindings)) in
  let descriptorSetLayoutInfo :=
    if BindingLayout.isBindless layout
    then
      if bool_decide (BindlessLayoutDesc.layoutType bindlessDesc <> LayoutType.Immutable)
      then DescriptorSetLayoutCreateInfo.mk vulkanLayoutBindings (Some bindingCount)
             (Some pMutableDescriptorTypeLists)
      else DescriptorSetLayoutCreateInfo.mk vulkanLayoutBindings (Some bindingCount)
             Datatypes.None
    else DescriptorSetLayoutCreateInfo.mk vulkanLayoutBindings Datatypes.None
           Datatypes.None in
  emit (EvCreateDescriptorSetLayout descriptorSetLayoutInfo) ;;;
  let '(res, descriptorSetLayout) := vkCreateDescriptorSetLayout descriptorSetLayoutInfo in
  let layout1 :=
    BindingLayout.mk (BindingLayout.desc layout) bindlessDesc
      (BindingLayout.isBindless layout) vulkanLayoutBindings descriptorSetLayout
      (BindingLayout.descriptorPoolSizeInfo layout) in
  if bool_decide (res <> eSuccess) then ret (res, layout1)
  else
    let poolSizeMap := fold_left countDescriptors vulkanLayoutBindings ∅ in
    let descriptorPoolSizeInfo :=
      fold_left addPoolSize (map_to_list poolSizeMap)
        (BindingLayout.descriptorPoolSizeInfo layout) in
    ret (eSuccess,
         BindingLayout.mk (BindingLayout.desc layout) bindlessDesc
           (BindingLayout.isBindless layout) vulkanLayoutBindings
           descriptorSetLayout descriptorPoolSizeInfo).

(** [Device::createBindingLayout] and [Device::createBindlessLayout]: the
    result of [bake] is not looked at. *)
Definition createBindingLayout (desc : BindingLayoutDesc.t) : M BindingLayout.t :=
  ret0 <- BindingLayout_BindingLayout desc ;;
  baked <- bake ret0 ;;
  ret (snd baked).

Definition createBindlessLayout (m_Context : VulkanContext.t)
    (desc : BindlessLayoutDesc.t) : M BindingLayout.t :=
  ret0 <- BindingLayout_BindingLayout_bindless m_Context desc ;;
  baked <- bake ret0 ;;
  ret (snd baked).

(** ** Descriptor tables *)

(** [Device::resizeDescriptorTable]: the table after the call. *)
Definition resizeDescriptorTable (_descriptorTable : DescriptorTable.t)
    (newSize : Z) (keepContents : bool) : M DescriptorTable.t :=
  bindlessDesc <-
    deref (BindingLayout_getBindlessDesc (DescriptorTable.layout _descriptorTable)) ;;
  assert (bool_decide (newSize <= BindlessLayoutDesc.maxCapacity bindlessDesc)) ;;;
  ret _descriptorTable.

Definition getTextureViewType (bindingFormat textureFormat : Z)
    : TextureSubresourceViewType.t :=
  let format :=
    if bool_decide (bindingFormat = Format_UNKNOWN) then textureFormat
    else bindingFormat in
  let formatInfo := getFormatInfo format in
  if FormatInfo.hasDepth formatInfo then TextureSubresourceViewType.DepthOnly
  else if FormatInfo.hasStencil formatInfo then TextureSubresourceViewType.StencilOnly
  else TextureSubresourceViewType.AllAspects.

(** [checked_cast<T*>(binding.resourceHandle)] followed by a use of the
    object: a null handle or an object of another class is a fault. *)
Definition checked_cast_Texture (r : option IResource) : M Z :=
  match r with
  | Some (IsTexture texture) => ret texture
  | _ => fault "checked_cast<Texture*>"
  end.

Definition checked_cast_Buffer (r : option IResource) : M Buffer.t :=
  match r with
  | Some (IsBuffer buffer) => ret buffer
  | _ => fault "checked_cast<Buffer*>"
  end.

Definition checked_cast_Sampler (r : option IResource) : M Z :=
  match r with
  | Some (IsSampler sampler) => ret sampler
  | _ => fault "checked_cast<Sampler*>"
  end.

(** The lambda [generateWriteDescriptorData] of [writeDescriptorTable] *)
Definition generateWriteDescriptorData (descriptorTable : DescriptorTable.t)
    (binding : BindingSetItem.t) (st : TableWrites.t) (bindingLocation : Z)
    (descriptorType : vk_DescriptorType) (data : WriteDescriptorSet.payload)
    : M TableWrites.t :=
  writes <-
    push_back c_MaxBindlessRegisterSpaces (TableWrites.descriptorWriteInfo st)
      (WriteDescriptorSet.mk (DescriptorTable.descriptorSet descriptorTable)
         bindingLocation (BindingSetItem.slot binding) 1 descriptorType data) ;;
  ret (TableWrites.mk (TableWrites.descriptorImageInfo st)
         (TableWrites.descriptorBufferInfo st) writes).

Definition emplace_imageInfo (st : TableWrites.t) (info : WriteDescriptorSet.payload)
    : M TableWrites.t :=
  infos <- push_back c_MaxBindlessRegisterSpaces (TableWrites.descriptorImageInfo st) info ;;
  ret (TableWrites.mk infos (TableWrites.descriptorBufferInfo st)
         (TableWrites.descriptorWriteInfo st)).

Definition emplace_bufferInfo (st : TableWrites.t) (info : WriteDescriptorSet.payload)
    : M TableWrites.t :=
  infos <- push_back c_MaxBindlessRegisterSpaces (TableWrites.descriptorBufferInfo st) info ;;
  ret (TableWrites.mk (TableWrites.descriptorImageInfo st) infos
         (TableWrites.descriptorWriteInfo st)).

(** Look up or create the buffer view of a typed buffer: the view cache of
    the buffer is keyed by the hash of (offset, size, format); a missing
    entry is first inserted, then filled by [createBufferView]. *)
Definition typedBufferView (buffer : Buffer.t) (binding : BindingSetItem.t) : M Z :=
  let vkformat := convertFormat (BindingSetItem.format binding) in
  let range := BufferRange_resolve (BindingSetItem.range binding) (Buffer.desc buffer) in
  let hash := viewInfoHash (fst range) (snd range) vkformat in
  fun w =>
    match viewCache w !! (Buffer.address buffer, hash) with
    | Some bufferView => Ok (bufferView, w)
    | Datatypes.None =>
        let bufferViewInfo :=
          BufferViewCreateInfo.mk (Buffer.buffer buffer) (fst range) (snd range) vkformat in
        let '(res, bufferView) := vkCreateBufferView bufferViewInfo in
        (assert (bool_decide (BindingSetItem.format binding <> Format_UNKNOWN)) ;;;
         emit (EvCreateBufferView bufferViewInfo) ;;;
         assert (bool_decide (res = eSuccess)) ;;;
         ret bufferView)
          (mkWorld (trace w)
             (<[(Buffer.address buffer, hash) := bufferView]> (viewCache w))
             (referencedResources w))
    end.

(** The lambda [writeDescriptorForBinding] of [writeDescriptorTable] *)
Definition writeDescriptorForBinding (descriptorTable : DescriptorTable.t)
    (binding : BindingSetItem.t) (st : TableWrites.t)
    (layoutBinding : DescriptorSetLayoutBinding.t) : M TableWrites.t :=
  let location := DescriptorSetLayoutBinding.binding layoutBinding in
  let descriptorType := convertResourceType (BindingSetItem.type binding) in
  match BindingSetItem.type binding with
  | ResourceType.Texture_SRV =>
      texture <- checked_cast_Texture (BindingSetItem.resourceHandle binding) ;;
      let subresource :=
        TextureSubresourceSet_resolve (BindingSetItem.subresources binding) texture false in
      let textureViewType :=
        getTextureViewType (BindingSetItem.format binding) (Texture_format texture) in
      let view :=
        Texture_getSubresourceView texture subresource (BindingSetItem.dimension binding)
          (BindingSetItem.format binding) eSampled textureViewType in
      let imageInfo := WriteDescriptorSet.ImageInfo view 0 eShaderReadOnlyOptimal in
      st1 <- emplace_imageInfo st imageInfo ;;
      generateWriteDescriptorData descriptorTable binding st1 location descriptorType imageInfo
  | ResourceType.Texture_UAV =>
      texture <- checked_cast_Texture (BindingSetItem.resourceHandle binding) ;;
      let subresource :=
        TextureSubresourceSet_resolve (BindingSetItem.subresources binding) texture true in
      let textureViewType :=
        getTextureViewType (BindingSetItem.format binding) (Texture_format texture) in
      let view :=
        Texture_getSubresourceView texture subresource (BindingSetItem.dimension binding)
          (BindingSetItem.format binding) eStorage textureViewType in
      let imageInfo := WriteDescriptorSet.ImageInfo view 0 eGeneral in
      st1 <- emplace_imageInfo st imageInfo ;;
      generateWriteDescriptorData descriptorTable binding st1 location descriptorType imageInfo
  | ResourceType.TypedBuffer_SRV
  | ResourceType.TypedBuffer_UAV =>
      buffer <- checked_cast_Buffer (BindingSetItem.resourceHandle binding) ;;
      bufferView <- typedBufferView buffer binding ;;
      generateWriteDescriptorData descriptorTable binding st location descriptorType
        (WriteDescriptorSet.TexelBufferView bufferView)
  | ResourceType.StructuredBuffer_SRV
  | ResourceType.StructuredBuffer_UAV
  | ResourceType.RawBuffer_SRV
  | ResourceType.RawBuffer_UAV
  | ResourceType.ConstantBuffer
  | ResourceType.VolatileConstantBuffer =>
      buffer <- checked_cast_Buffer (BindingSetItem.resourceHandle binding) ;;
      let range := BufferRange_resolve (BindingSetItem.range binding) (Buffer.desc buffer) in
      let bufferInfo :=
        WriteDescriptorSet.BufferInfo (Buffer.buffer buffer) (fst range) (snd range) in
      st1 <- emplace_bufferInfo st bufferInfo ;;
      assert (bool_decide (Buffer.buffer buffer <> 0)) ;;;
      generateWriteDescriptorData descriptorTable binding st1 location descriptorType bufferInfo
  | ResourceType.Sampler =>
      sampler <- checked_cast_Sampler (BindingSetItem.resourceHandle binding) ;;
      let imageInfo := WriteDescriptorSet.ImageInfo 0 sampler eUndefined in
      st1 <- emplace_imageInfo st imageInfo ;;
      generateWriteDescriptorData descriptorTable binding st1 location descriptorType imageInfo
  | ResourceType.RayTracingAccelStruct =>
      NotImplemented ;;; ret st
  | ResourceType.PushConstants =>
      NotSupported ;;; ret st
  | _ =>
      InvalidEnum ;;; ret st
  end.

(** One turn of the loop over the register spaces in [writeDescriptorTable] *)
Definition writeMatchingSpace (descriptorTable : DescriptorTable.t)
    (binding : BindingSetItem.t) (st : TableWrites.t) (bindingLocation : Z)
    : M TableWrites.t :=
  let layout := DescriptorTable.layout descriptorTable in
  space <-
    at_ (BindlessLayoutDesc.registerSpaces (BindingLayout.bindlessDesc layout))
      bindingLocation ;;
  if bool_decide (BindingLayoutItem.type space = BindingSetItem.type binding)
  then
    layoutBinding <- at_ (BindingLayout.vulkanLayoutBindings layout) bindingLocation ;;
    writeDescriptorForBinding descriptorTable binding st layoutBinding
  else ret st.

(** [Device::writeDescriptorTable] *)
Definition writeDescriptorTable (descriptorTable : DescriptorTable.t)
    (binding : BindingSetItem.t) : M bool :=
  let layout := DescriptorTable.layout descriptorTable in
  if bool_decide (BindingSetItem.slot binding >= DescriptorTable.capacity descriptorTable)
  then ret false
  else if bool_decide (BindingSetItem.type binding = ResourceType.None)
  then ret true
  else
    let st0 := TableWrites.mk [] [] [] in
    st <-
      (if bool_decide (BindlessLayoutDesc.layoutType (BindingLayout.bindlessDesc layout)
                       <> LayoutType.Immutable)
       then
         assert (bool_decide (0 < length (BindingLayout.vulkanLayoutBindings layout))%nat) ;;;
         layoutBinding <- at_ (BindingLayout.vulkanLayoutBindings layout) 0 ;;
         writeDescriptorForBinding descriptorTable binding st0 layoutBinding
       else
         foldM (writeMatchingSpace descriptorTable binding)
           (seqZ 0 (wrap32 (Z.of_nat (length
              (BindlessLayoutDesc.registerSpaces (BindingLayout.bindlessDesc layout))))))
           st0) ;;
    emit (EvUpdateDescriptorSets
            (wrap32 (Z.of_nat (length (TableWrites.descriptorWriteInfo st))))
            (TableWrites.descriptorWriteInfo st)) ;;;
    ret true.

(** ** Binding descriptor sets *)

(** The index that marks a hole in the descriptor-set index map. *)
Definition c_Hole : Z := 4294967295.

(** [m_CurrentCmdBuf->cmdBuf.bindDescriptorSets(...)] with the sets and the
    dynamic offsets gathered so far. *)
Definition bindDescriptorSets (bindPoint pipelineLayout : Z) (st : BindLoop.t)
    : M unit :=
  emit (EvBindDescriptorSets bindPoint pipelineLayout
          (BindLoop.nextDescriptorSetToBind st)
          (wrap32 (Z.of_nat (length (BindLoop.descriptorSets st))))
          (BindLoop.descriptorSets st)
          (wrap32 (Z.of_nat (length (BindLoop.dynamicOffsets st))))
          (BindLoop.dynamicOffsets st)).

(** [m_CurrentCmdBuf->referencedResources.push_back(bindingSetHandle)] *)
Definition referenceResource (bindingSetHandle : IBindingSet) : M unit :=
  fun w => Ok (tt, mkWorld (trace w) (viewCache w)
                     (referencedResources w ++ [bindingSetHandle])).

(** One turn of the loop over the volatile constant buffers of a binding
    set.  [latestVersion] is converted to [uint32_t]; the product with the
    64-bit byte size is a 64-bit product. *)
Definition pushVolatileOffset (m_VolatileBufferStates : gmap Z VolatileBufferState.t)
    (dynamicOffsets : list Z) (constantBuffer : Buffer.t) : M (list Z) :=
  match m_VolatileBufferStates !! Buffer.address constantBuffer with
  | Datatypes.None =>
      error (String.append "Binding volatile constant buffer "
               (String.append
                  (DebugNameToString (BufferDesc.debugName (Buffer.desc constantBuffer)))
                  " before writing into it is invalid.")) ;;;
      push_back c_MaxVolatileConstantBuffers dynamicOffsets 0
  | Some found =>
      let version := wrap32 (VolatileBufferState.latestVersion found) in
      let offset := wrap64 (version * BufferDesc.byteSize (Buffer.desc constantBuffer)) in
      assert (bool_decide (offset < UINT32_MAX)) ;;;
      push_back c_MaxVolatileConstantBuffers dynamicOffsets (wrap32 offset)
  end.

(** The handle at descriptor-set position [i]: direct without an index map,
    through the map otherwise, null for a hole. *)
Definition bindingSetHandleAt (bindings : list (option IBindingSet))
    (descriptorSetIdxToBindingIdx : list Z) (i : Z) : M (option IBindingSet) :=
  if bool_decide (descriptorSetIdxToBindingIdx = [])
  then at_ bindings i
  else
    idx <- at_ descriptorSetIdxToBindingIdx i ;;
    if bool_decide (idx <> c_Hole) then at_ bindings idx
    else ret Datatypes.None.

(** The body of the loop of [bindBindingSets] *)
Definition bindBindingSets_step (m_VolatileBufferStates : gmap Z VolatileBufferState.t)
    (bindPoint pipelineLayout : Z) (bindings : list (option IBindingSet))
    (descriptorSetIdxToBindingIdx : list Z) (st : BindLoop.t) (i : Z)
    : M BindLoop.t :=
  bindingSetHandle <- bindingSetHandleAt bindings descriptorSetIdxToBindingIdx i ;;
  match bindingSetHandle with
  | Datatypes.None =>
      st1 <-
        (if bool_decide (BindLoop.descriptorSets st <> [])
         then
           bindDescriptorSets bindPoint pipelineLayout st ;;;
           ret (BindLoop.mk [] (BindLoop.nextDescriptorSetToBind st) [])
         else ret st) ;;
      ret (BindLoop.mk (BindLoop.descriptorSets st1) (wrap32 (i + 1))
             (BindLoop.dynamicOffsets st1))
  | Some (IsBindingSet bindingSet) =>
      descriptorSets <-
        push_back c_MaxBindingLayouts (BindLoop.descriptorSets st)
          (BindingSet.descriptorSet bindingSet) ;;
      dynamicOffsets <-
        foldM (pushVolatileOffset m_VolatileBufferStates)
          (BindingSet.volatileConstantBuffers bindingSet)
          (BindLoop.dynamicOffsets st) ;;
      (if BindingSetDesc.trackLiveness (BindingSet.desc bindingSet)
       then referenceResource (IsBindingSet bindingSet)
       else ret tt) ;;;
      ret (BindLoop.mk descriptorSets (BindLoop.nextDescriptorSetToBind st)
             dynamicOffsets)
  | Some (IsDescriptorTable table) =>
      descriptorSets <-
        push_back c_MaxBindingLayouts (BindLoop.descriptorSets st)
          (DescriptorTable.descriptorSet table) ;;
      ret (BindLoop.mk descriptorSets (BindLoop.nextDescriptorSetToBind st)
             (BindLoop.dynamicOffsets st))
  end.

(** [CommandList::bindBindingSets] *)
Definition bindBindingSets (m_VolatileBufferStates : gmap Z VolatileBufferState.t)
    (bindPoint pipelineLayout : Z) (bindings : list (option IBindingSet))
    (descriptorSetIdxToBindingIdx : list Z) : M unit :=
  let numBindings := wrap32 (Z.of_nat (length bindings)) in
  let numDescriptorSets :=
    if bool_decide (descriptorSetIdxToBindingIdx = []) then numBindings
    else wrap32 (Z.of_nat (length descriptorSetIdxToBindingIdx)) in
  st <-
    foldM (bindBindingSets_step m_VolatileBufferStates bindPoint pipelineLayout
             bindings descriptorSetIdxToBindingIdx)
      (seqZ 0 numDescriptorSets) (BindLoop.mk [] 0 []) ;;
  if bool_decide (BindLoop.descriptorSets st <> [])
  then bindDescriptorSets bindPoint pipelineLayout st
  else ret tt.

(** ** Pipeline layouts *)

(** The first loop of [createPipelineLayout]: the flag of the first layout
    that is not bindless. *)
Fixpoint usesDescriptorSetIdxToBindingIdx (inBindingLayouts : list BindingLayout.t)
    : M bool :=
  match inBindingLayouts with
  | [] => ret false
  | layout :: rest =>
      if negb (BindingLayout.isBindless layout)
      then
        desc <- deref (BindingLayout_getDesc layout) ;;
        ret (BindingLayoutDesc.registerSpaceIsDescriptorSet desc)
      else usesDescriptorSetIdxToBindingIdx rest
  end.

(** One turn of the loop that counts the regular descriptor sets *)
Definition countRegularDescriptorSets (numRegularDescriptorSets : Z)
    (layout : BindingLayout.t) : M Z :=
  if negb (BindingLayout.isBindless layout)
  then
    desc <- deref (BindingLayout_getDesc layout) ;;
    ret (Z.max numRegularDescriptorSets
           (wrap32 (BindingLayoutDesc.registerSpace desc + 1)))
  else ret numRegularDescriptorSets.

(** One turn of the loop that places the layouts, on the two out-vectors *)
Definition placeLayout (out : list (option BindingLayout.t) * list Z)
    (il : Z * BindingLayout.t) : M (list (option BindingLayout.t) * list Z) :=
  let '(outBindingLayouts, outDescriptorSetIdxToBindingIdx) := out in
  let '(i, layout) := il in
  if BindingLayout.isBindless layout
  then
    outBindingLayouts1 <- push_back c_MaxBindingLayouts outBindingLayouts (Some layout) ;;
    outDescriptorSetIdxToBindingIdx1 <-
      push_back c_MaxBindingLayouts outDescriptorSetIdxToBindingIdx i ;;
    ret (outBindingLayouts1, outDescriptorSetIdxToBindingIdx1)
  else
    desc <- deref (BindingLayout_getDesc layout) ;;
    let descriptorSetIdx := BindingLayoutDesc.registerSpace desc in
    previous <- at_ outBindingLayouts descriptorSetIdx ;;
    assert (bool_decide (previous = Datatypes.None)) ;;;
    outBindingLayouts1 <- set_at outBindingLayouts descriptorSetIdx (Some layout) ;;
    outDescriptorSetIdxToBindingIdx1 <-
      set_at outDescriptorSetIdxToBindingIdx descriptorSetIdx i ;;
    ret (outBindingLayouts1, outDescriptorSetIdxToBindingIdx1).

(** The loop state of the last loop of [createPipelineLayout] *)
Definition gatherSetLayout (context : VulkanContext.t) (st : list Z * Z * Z)
    (layout : option BindingLayout.t) : M (list Z * Z * Z) :=
  let '(descriptorSetLayouts, pushConstantSize, outPushConstantVisibility) := st in
  match layout with
  | Some layout =>
      descriptorSetLayouts1 <-
        push_back c_MaxBindingLayouts descriptorSetLayouts
          (BindingLayout.descriptorSetLayout layout) ;;
      if negb (BindingLayout.isBindless layout)
      then
        match List.find
                (fun item => bool_decide
                   (BindingLayoutItem.type item = ResourceType.PushConstants))
                (BindingLayoutDesc.bindings (BindingLayout.desc layout)) with
        | Some item =>
            ret (descriptorSetLayouts1, BindingLayoutItem.size item,
                 convertShaderTypeToShaderStageFlagBits
                   (BindingLayoutDesc.visibility (BindingLayout.desc layout)))
        | Datatypes.None =>
            ret (descriptorSetLayouts1, pushConstantSize, outPushConstantVisibility)
        end
      else ret (descriptorSetLayouts1, pushConstantSize, outPushConstantVisibility)
  | Datatypes.None =>
      descriptorSetLayouts1 <-
        push_back c_MaxBindingLayouts descriptorSetLayouts
          (VulkanContext.emptyDescriptorSetLayout context) ;;
      ret (descriptorSetLayouts1, pushConstantSize, outPushConstantVisibility)
  end.

(** [createPipelineLayout]; the first two arguments are the contents of
    [outBindingLayouts] and [outDescriptorSetIdxToBindingIdx] on entry. *)
Definition createPipelineLayout (outBindingLayouts0 : list (option BindingLayout.t))
    (outDescriptorSetIdxToBindingIdx0 : list Z) (context : VulkanContext.t)
    (inBindingLayouts : list BindingLayout.t) : M (vk_Result * PipelineLayoutOut.t) :=
  createDescriptorSetIdxToBindingIdx <- usesDescriptorSetIdxToBindingIdx inBindingLayouts ;;
  out <-
    (if createDescriptorSetIdxToBindingIdx : bool
     then
       numRegularDescriptorSets <- foldM countRegularDescriptorSets inBindingLayouts 0 ;;
       outBindingLayouts1 <-
         resize c_MaxBindingLayouts Datatypes.None outBindingLayouts0
           numRegularDescriptorSets ;;
       outDescriptorSetIdxToBindingIdx1 <-
         resize c_MaxBindingLayouts 0 outDescriptorSetIdxToBindingIdx0
           numRegularDescriptorSets ;;
       outDescriptorSetIdxToBindingIdx2 <-
         foldM (fun v i => set_at v i c_Hole) (seqZ 0 numRegularDescriptorSets)
           outDescriptorSetIdxToBindingIdx1 ;;
       foldM placeLayout
         (zip (seqZ 0 (wrap32 (Z.of_nat (length inBindingLayouts)))) inBindingLayouts)
         (outBindingLayouts1, outDescriptorSetIdxToBindingIdx2)
     else
       outBindingLayouts1 <-
         foldM (fun v layout => push_back c_MaxBindingLayouts v (Some layout))
           inBindingLayouts outBindingLayouts0 ;;
       ret (outBindingLayouts1, outDescriptorSetIdxToBindingIdx0)) ;;
  st <- foldM (gatherSetLayout context) (fst out) ([], 0, 0) ;;
  let '(descriptorSetLayouts, pushConstantSize, outPushConstantVisibility) := st in
  let pushConstantRange :=
    PushConstantRange.mk 0 pushConstantSize outPushConstantVisibility in
  let pipelineLayoutInfo :=
    PipelineLayoutCreateInfo.mk descriptorSetLayouts
      (if bool_decide (pushConstantSize <> 0) then 1 else 0) pushConstantRange in
  emit (EvCreatePipelineLayout pipelineLayoutInfo) ;;;
  let '(res, outPipelineLayout) := vkCreatePipelineLayout pipelineLayoutInfo in
  ret (res, PipelineLayoutOut.mk outPipelineLayout (fst out)
              outPushConstantVisibility (snd out)).

End Backend.

(** ** Vocabulary of the statements *)

Section Vocabulary.
Context `{Collaborators}.

(** The resource types [getRegisterOffsetForResourceType] knows. *)
Definition knownType (type : ResourceType.t) : Prop :=
  type <> ResourceType.None /\ type <> ResourceType.Count.

(** What the entry of a binding item looks like. *)
Definition entryOf (desc : BindingLayoutDesc.t) (w : World)
    (item : BindingLayoutItem.t) (entry : DescriptorSetLayoutBinding.t) : Prop :=
  exists registerOffset,
    getRegisterOffsetForResourceType (BindingLayoutDesc.bindingOffsets desc)
      (BindingLayoutItem.type item) w = Ok (registerOffset, w) /\
    DescriptorSetLayoutBinding.binding entry
      = wrap32 (registerOffset + BindingLayoutItem.slot item) /\
    DescriptorSetLayoutBinding.descriptorCount entry = BindingLayoutItem.size item /\
    DescriptorSetLayoutBinding.descriptorType entry
      = convertResourceType (BindingLayoutItem.type item) /\
    DescriptorSetLayoutBinding.stageFlags entry
      = convertShaderTypeToShaderStageFlagBits (BindingLayoutDesc.visibility desc).

(** Modelled from the spec: the classes of the offset policy.  "Four
    independent numeric base offsets exist for shader-resource (SRV,
    accel-struct), unordered-access (UAV), constant-buffer, sampler
    classes; PushConstants consumes no offset", and an unknown type has no
    class. *)
Inductive OffsetClass : Type :=
  | ShaderResourceClass
  | UnorderedAccessClass
  | ConstantBufferClass
  | SamplerClass.

(** Modelled from the spec: the class of a resource type. *)
Definition offsetClassOf (type : ResourceType.t) : option OffsetClass :=
  match type with
  | ResourceType.Texture_SRV
  | ResourceType.TypedBuffer_SRV
  | ResourceType.StructuredBuffer_SRV
  | ResourceType.RawBuffer_SRV
  | ResourceType.RayTracingAccelStruct => Some ShaderResourceClass
  | ResourceType.Texture_UAV
  | ResourceType.TypedBuffer_UAV
  | ResourceType.StructuredBuffer_UAV
  | ResourceType.RawBuffer_UAV => Some UnorderedAccessClass
  | ResourceType.ConstantBuffer
  | ResourceType.VolatileConstantBuffer => Some ConstantBufferClass
  | ResourceType.Sampler => Some SamplerClass
  | _ => Datatypes.None
  end.

(** Modelled from the spec: [offset = policy.baseOffsetFor(resourceType)],
    the base offset of the class of the type. *)
Definition baseOffsetFor (policy : VulkanBindingOffsets.t) (type : ResourceType.t)
    : option Z :=
  match offsetClassOf type with
  | Some ShaderResourceClass => Some (VulkanBindingOffsets.shaderResource policy)
  | Some UnorderedAccessClass => Some (VulkanBindingOffsets.unorderedAccess policy)
  | Some ConstantBufferClass => Some (VulkanBindingOffsets.constantBuffer policy)
  | Some SamplerClass => Some (VulkanBindingOffsets.sampler policy)
  | Datatypes.None => Datatypes.None
  end.

(** The entry of a binding item at the location the offset policy gives it:
    the base offset of the item's type plus the item's slot, as the
    [uint32_t] sum of the code. *)
Definition entryAtPolicyOffset (desc : BindingLayoutDesc.t)
    (item : BindingLayoutItem.t) (entry : DescriptorSetLayoutBinding.t) : Prop :=
  exists baseOffset,
    baseOffsetFor (BindingLayoutDesc.bindingOffsets desc) (BindingLayoutItem.type item)
    = Some baseOffset /\
    DescriptorSetLayoutBinding.binding entry
      = wrap32 (baseOffset + BindingLayoutItem.slot item) /\
    DescriptorSetLayoutBinding.descriptorCount entry = BindingLayoutItem.size item /\
    DescriptorSetLayoutBinding.descriptorType entry
      = convertResourceType (BindingLayoutItem.type item) /\
    DescriptorSetLayoutBinding.stageFlags entry
      = convertShaderTypeToShaderStageFlagBits (BindingLayoutDesc.visibility desc).

Definition notPushConstants (item : BindingLayoutItem.t) : Prop :=
  BindingLayoutItem.type item <> ResourceType.PushConstants.

(** The diagnostics of the bindless constructor. *)
Definition volatileInBindlessError : Event :=
  EvError "Volatile constant buffers are not supported in bindless layouts".

Definition registerSpacesInMutableError : Event :=
  EvError "Mutable descriptor sets cannot specify register spaces".

Definition mutableUnsupportedError : Event :=
  EvError "Mutable descriptor types are not supported by this device. VK_EXT_mutable_descriptor_type extension is required for mutable bindless layouts.".

Definition isVolatileSpace (space : BindingLayoutItem.t) : Prop :=
  BindingLayoutItem.type space = ResourceType.VolatileConstantBuffer.

(** The schema entry of register space number [i] of a bindless layout. *)
Definition spaceEntry (desc : BindlessLayoutDesc.t) (i : Z)
    (space : BindingLayoutItem.t) : DescriptorSetLayoutBinding.t :=
  DescriptorSetLayoutBinding.mk i (BindlessLayoutDesc.maxCapacity desc)
    (convertResourceType (BindingLayoutItem.type space))
    (convertShaderTypeToShaderStageFlagBits (BindlessLayoutDesc.visibility desc)).

(** The single schema entry of a mutable bindless layout. *)
Definition mutableEntry (desc : BindlessLayoutDesc.t) : DescriptorSetLayoutBinding.t :=
  DescriptorSetLayoutBinding.mk 0 (BindlessLayoutDesc.maxCapacity desc) eMutableEXT
    (convertShaderTypeToShaderStageFlagBits (BindlessLayoutDesc.visibility desc)).

End Vocabulary.

(** The world after more events have been added to the trace. *)
Definition addErrors (w : World) (errors : list Event) : World :=
  mkWorld (trace w ++ errors) (viewCache w) (referencedResources w).

Arguments addErrors : simpl never.

(** The descriptor writes of a trace, in the order they were issued, and what
    a descriptor holds after the trace: the last write to its set, binding
    location and array element. *)
Definition writesOf (tr : list Event) : list WriteDescriptorSet.t :=
  flat_map (fun e => match e with
                     | EvUpdateDescriptorSets _ writes => writes
                     | _ => []
                     end) tr.

Definition descriptorContents (tr : list Event) (set binding element : Z)
    : option WriteDescriptorSet.t :=
  last (filter (fun write =>
                  WriteDescriptorSet.dstSet write = set /\
                  WriteDescriptorSet.dstBinding write = binding /\
                  WriteDescriptorSet.dstArrayElement write = element)
          (writesOf tr)).

(** The number of descriptors of native type [ty] a schema asks for: the sum
    of the counts of the entries of that type, as the [uint32_t] it is
    accumulated in. *)
Definition sumZ (l : list Z) : Z := foldr Z.add 0 l.

Definition hasType (ty : vk_DescriptorType) (entry : DescriptorSetLayoutBinding.t)
    : Prop :=
  DescriptorSetLayoutBinding.descriptorType entry = ty.

#[global] Instance hasType_dec ty entry : Decision (hasType ty entry).
Proof. unfold hasType. apply _. Defined.

Definition schemaTotal (ty : vk_DescriptorType)
    (schema : list DescriptorSetLayoutBinding.t) : Z :=
  wrap32 (sumZ (map DescriptorSetLayoutBinding.descriptorCount
                  (filter (hasType ty) schema))).

(** Events of a trace that are descriptor updates, and events that create a
    buffer view. *)
Definition isCreateBufferView (e : Event) : Prop :=
  match e with
  | EvCreateBufferView _ => True
  | _ => False
  end.

Definition updatesOf (tr : list Event) : list Event :=
  filter (fun e => match e with
                   | EvUpdateDescriptorSets _ _ => true
                   | _ => false
                   end = true) tr.

(** The binding locations of the register spaces whose type is [ty], in
    increasing order. *)
Definition matchingLocations (spaces : list BindingLayoutItem.t)
    (ty : ResourceType.t) : list Z :=
  filter (fun i => BindingLayoutItem.type <$> spaces !! Z.to_nat i = Some ty)
    (seqZ 0 (Z.of_nat (length spaces))).

(** A write in a descriptor table made for [binding]. *)
Section TableWriteVocabulary.
Context `{Collaborators}.

Definition tableWriteFor (table : DescriptorTable.t) (binding : BindingSetItem.t)
    (write : WriteDescriptorSet.t) : Prop :=
  WriteDescriptorSet.dstSet write = DescriptorTable.descriptorSet table /\
  WriteDescriptorSet.dstArrayElement write = BindingSetItem.slot binding /\
  WriteDescriptorSet.descriptorCount write = 1 /\
  WriteDescriptorSet.descriptorType write
  = convertResourceType (BindingSetItem.type binding).

(** The claim "exactly one single-element descriptor-update call per
    successful write", for one call. *)
Definition issuesSingleElementUpdate (table : DescriptorTable.t)
    (binding : BindingSetItem.t) (w : World) : Prop :=
  forall w',
    writeDescriptorTable table binding w = Ok (true, w') ->
    exists write,
      updatesOf (drop (length (trace w)) (trace w')) = [EvUpdateDescriptorSets 1 [write]].

End TableWriteVocabulary.

(** *** Binding descriptor sets *)

Section BindVocabulary.
Context `{Collaborators}.

(** The handle at each descriptor-set position: the vector itself without an
    index map, the vector read through the map otherwise, a hole of the map
    being a null handle. *)
Definition resolvedHandles (bindings : list (option IBindingSet))
    (descriptorSetIdxToBindingIdx : list Z) : list (option IBindingSet) :=
  if decide (descriptorSetIdxToBindingIdx = []) then bindings
  else map (fun idx => if decide (idx = c_Hole) then Datatypes.None
                       else mjoin (bindings !! Z.to_nat idx))
         descriptorSetIdxToBindingIdx.

Definition validIndexMap (bindings : list (option IBindingSet))
    (descriptorSetIdxToBindingIdx : list Z) : Prop :=
  Forall (fun idx => idx = c_Hole \/ 0 <= idx < Z.of_nat (length bindings))
    descriptorSetIdxToBindingIdx.

(** The maximal runs of concrete handles: each with the position of its
    first handle.  [runsFrom start cur hs] are the runs of a vector that
    goes on with [hs] after a run [cur] that began at position [start]. *)
Fixpoint runsFrom (start : nat) (cur : list IBindingSet)
    (hs : list (option IBindingSet)) : list (nat * list IBindingSet) :=
  match hs with
  | [] => match cur with [] => [] | _ => [(start, cur)] end
  | Datatypes.None :: hs' =>
      match cur with [] => [] | _ => [(start, cur)] end
      ++ runsFrom (start + length cur + 1) [] hs'
  | Some h :: hs' => runsFrom start (cur ++ [h]) hs'
  end.

Definition runsOf (hs : list (option IBindingSet)) : list (nat * list IBindingSet) :=
  runsFrom 0 [] hs.

(** [len] handles from position [start] on are a maximal run of [hs]: they
    are all concrete, and the run cannot be extended on either side. *)
Definition MaximalRun (hs : list (option IBindingSet)) (start len : nat) : Prop :=
  (0 < len)%nat /\
  (forall i, (start <= i < start + len)%nat -> exists h, hs !! i = Some (Some h)) /\
  (start = 0%nat \/ hs !! (start - 1)%nat = Some Datatypes.None) /\
  (hs !! (start + len)%nat = Datatypes.None
   \/ hs !! (start + len)%nat = Some Datatypes.None).

(** Where a run begins and how long it is. *)
Definition runShape (r : nat * list IBindingSet) : nat * nat :=
  (fst r, length (snd r)).

Definition handleDescriptorSet (h : IBindingSet) : Z :=
  match h with
  | IsBindingSet bindingSet => BindingSet.descriptorSet bindingSet
  | IsDescriptorTable table => DescriptorTable.descriptorSet table
  end.

Definition volatileBuffersOf (h : IBindingSet) : list Buffer.t :=
  match h with
  | IsBindingSet bindingSet => BindingSet.volatileConstantBuffers bindingSet
  | IsDescriptorTable _ => []
  end.

(** The dynamic offset of a volatile constant buffer: zero without a
    recorded write, latest version times byte size with one. *)
Definition dynamicOffsetOf (m_VolatileBufferStates : gmap Z VolatileBufferState.t)
    (constantBuffer : Buffer.t) : Z :=
  match m_VolatileBufferStates !! Buffer.address constantBuffer with
  | Datatypes.None => 0
  | Some found =>
      VolatileBufferState.latestVersion found
      * BufferDesc.byteSize (Buffer.desc constantBuffer)
  end.

Definition unwritten (m_VolatileBufferStates : gmap Z VolatileBufferState.t)
    (constantBuffer : Buffer.t) : Prop :=
  m_VolatileBufferStates !! Buffer.address constantBuffer = Datatypes.None.

(** The diagnostic for a volatile constant buffer bound before a write. *)
Definition unwrittenError (constantBuffer : Buffer.t) : Event :=
  EvError (String.append "Binding volatile constant buffer "
             (String.append
                (DebugNameToString (BufferDesc.debugName (Buffer.desc constantBuffer)))
                " before writing into it is invalid.")).

(** The volatile constant buffers of the sets of a run, in the order of the
    sets and, within a set, in the order the set holds them. *)
Definition runBuffers (r : nat * list IBindingSet) : list Buffer.t :=
  flat_map volatileBuffersOf (snd r).

(** What binding a run adds to the trace: the diagnostics for its unwritten
    buffers, then one bind call for the whole run. *)
Definition runCall (m_VolatileBufferStates : gmap Z VolatileBufferState.t)
    (bindPoint pipelineLayout : Z) (r : nat * list IBindingSet) : Event :=
  let offsets := map (dynamicOffsetOf m_VolatileBufferStates) (runBuffers r) in
  EvBindDescriptorSets bindPoint pipelineLayout
    (Z.of_nat (fst r)) (Z.of_nat (length (snd r))) (map handleDescriptorSet (snd r))
    (wrap32 (Z.of_nat (length offsets))) offsets.

Definition runEvents (m_VolatileBufferStates : gmap Z VolatileBufferState.t)
    (bindPoint pipelineLayout : Z) (r : nat * list IBindingSet) : list Event :=
  map unwrittenError (filter (unwritten m_VolatileBufferStates) (runBuffers r))
  ++ [runCall m_VolatileBufferStates bindPoint pipelineLayout r].

(** The version and the byte size of a written buffer give an offset that
    passes the assertion of the code. *)
Definition offsetRepresentable (m_VolatileBufferStates : gmap Z VolatileBufferState.t)
    (constantBuffer : Buffer.t) : Prop :=
  match m_VolatileBufferStates !! Buffer.address constantBuffer with
  | Datatypes.None => True
  | Some found =>
      0 <= VolatileBufferState.latestVersion found /\
      0 <= BufferDesc.byteSize (Buffer.desc constantBuffer) /\
      VolatileBufferState.latestVersion found
      * BufferDesc.byteSize (Buffer.desc constantBuffer) < UINT32_MAX
  end.

(** A run fits the vectors of the binding loop. *)
Definition runFits (m_VolatileBufferStates : gmap Z VolatileBufferState.t)
    (r : nat * list IBindingSet) : Prop :=
  (length (snd r) <= c_MaxBindingLayouts)%nat /\
  (length (runBuffers r) <= c_MaxVolatileConstantBuffers)%nat /\
  Forall (offsetRepresentable m_VolatileBufferStates) (runBuffers r).

(** The inputs [bindBindingSets] is made for. *)
Definition bindable (m_VolatileBufferStates : gmap Z VolatileBufferState.t)
    (bindings : list (option IBindingSet)) (descriptorSetIdxToBindingIdx : list Z)
    : Prop :=
  validIndexMap bindings descriptorSetIdxToBindingIdx /\
  Z.of_nat (length (resolvedHandles bindings descriptorSetIdxToBindingIdx)) < 2 ^ 32 /\
  Forall (runFits m_VolatileBufferStates)
    (runsOf (resolvedHandles bindings descriptorSetIdxToBindingIdx)).

(** The state of the binding loop after a run [cur] that began at position
    [start], and what the code does with the state after the loop. *)
Definition loopState (m_VolatileBufferStates : gmap Z VolatileBufferState.t)
    (start : nat) (cur : list IBindingSet) : BindLoop.t :=
  BindLoop.mk (map handleDescriptorSet cur) (Z.of_nat start)
    (map (dynamicOffsetOf m_VolatileBufferStates) (flat_map volatileBuffersOf cur)).

Definition bindRemaining (bindPoint pipelineLayout : Z) (st : BindLoop.t) : M unit :=
  if bool_decide (BindLoop.descriptorSets st <> [])
  then bindDescriptorSets bindPoint pipelineLayout st
  else ret tt.

(** The bind calls of a trace: first set, count, sets and dynamic offsets. *)
Definition bindCallsOf (tr : list Event) : list (Z * Z * list Z * list Z) :=
  flat_map (fun e => match e with
                     | EvBindDescriptorSets _ _ firstSet count sets _ offsets =>
                         [(firstSet, count, sets, offsets)]
                     | _ => []
                     end) tr.

End BindVocabulary.

(** *** Pipeline layouts *)

Section PipelineVocabulary.
Context `{Collaborators}.

Definition isRegular (layout : BindingLayout.t) : Prop :=
  BindingLayout.isBindless layout = false.

Definition isBindlessLayout (layout : BindingLayout.t) : Prop :=
  BindingLayout.isBindless layout = true.

#[global] Instance isRegular_dec layout : Decision (isRegular layout).
Proof. unfold isRegular. apply _. Defined.

#[global] Instance isBindlessLayout_dec layout : Decision (isBindlessLayout layout).
Proof. unfold isBindlessLayout. apply _. Defined.

Definition spaceOf (layout : BindingLayout.t) : Z :=
  BindingLayoutDesc.registerSpace (BindingLayout.desc layout).

(** The register spaces of the layouts that are not bindless. *)
Definition regularSpaces (layouts : list BindingLayout.t) : list Z :=
  map spaceOf (filter isRegular layouts).

(** Indexed mode: the first layout that is not bindless says that register
    spaces are descriptor sets. *)
Definition indexedMode (layouts : list BindingLayout.t) : Prop :=
  match List.find (fun layout => negb (BindingLayout.isBindless layout)) layouts with
  | Some layout =>
      BindingLayoutDesc.registerSpaceIsDescriptorSet (BindingLayout.desc layout) = true
  | Datatypes.None => False
  end.

(** The number of regular descriptor-set slots. *)
Definition regularSlotCount (layouts : list BindingLayout.t) : Z :=
  fold_left (fun n layout =>
               if BindingLayout.isBindless layout then n
               else Z.max n (spaceOf layout + 1)) layouts 0.

(** The layouts with their positions in the input. *)
Definition indexed (layouts : list BindingLayout.t) : list (Z * BindingLayout.t) :=
  zip (seqZ 0 (Z.of_nat (length layouts))) layouts.

(** The regular slots after the layouts [il] have been placed: each layout
    that is not bindless puts [f] of itself at its register space. *)
Definition placeWith {A} (f : Z * BindingLayout.t -> A)
    (il : list (Z * BindingLayout.t)) (slots : list A) : list A :=
  fold_left (fun slots p =>
               if BindingLayout.isBindless (snd p) then slots
               else <[Z.to_nat (spaceOf (snd p)) := f p]> slots) il slots.

(** The native layout that stands at a slot. *)
Definition setLayoutOf (context : VulkanContext.t) (slot : option BindingLayout.t) : Z :=
  match slot with
  | Some layout => BindingLayout.descriptorSetLayout layout
  | Datatypes.None => VulkanContext.emptyDescriptorSetLayout context
  end.

(** The inputs [createPipelineLayout] is made for, in indexed mode: register
    spaces of the regular layouts pairwise distinct and below the largest
    [uint32_t], and everything within the capacity of the vectors. *)
Definition indexedInputs (layouts : list BindingLayout.t) : Prop :=
  indexedMode layouts /\
  NoDup (regularSpaces layouts) /\
  Forall (fun space => 0 <= space < 2 ^ 32 - 1) (regularSpaces layouts) /\
  Z.of_nat (length layouts) < 2 ^ 32 /\
  (Z.to_nat (regularSlotCount layouts) + length (filter isBindlessLayout layouts)
   <= c_MaxBindingLayouts)%nat.

End PipelineVocabulary.

(** ** A sample configuration

    One concrete choice of the collaborators, used to run the model on
    examples: the conversion table of the backend, capacities of 8, 6 and 16,
    and a device whose calls succeed. *)

Definition sample_convertResourceType (type : ResourceType.t) : vk_DescriptorType :=
  match type with
  | ResourceType.Texture_SRV => eSampledImage
  | ResourceType.Texture_UAV => eStorageImage
  | ResourceType.TypedBuffer_SRV => eUniformTexelBuffer
  | ResourceType.TypedBuffer_UAV => eStorageTexelBuffer
  | ResourceType.StructuredBuffer_SRV
  | ResourceType.StructuredBuffer_UAV
  | ResourceType.RawBuffer_SRV
  | ResourceType.RawBuffer_UAV => eStorageBuffer
  | ResourceType.ConstantBuffer => eUniformBuffer
  | ResourceType.VolatileConstantBuffer => eUniformBufferDynamic
  | ResourceType.Sampler => eSampler
  | ResourceType.RayTracingAccelStruct => eAccelerationStructureKHR
  | _ => eSampler
  end.

Definition sample_offsets : VulkanBindingOffsets.t :=
  VulkanBindingOffsets.mk 0 128 256 384.

Definition sample_collaborators : Collaborators := {|
  convertResourceType := sample_convertResourceType;
  convertShaderTypeToShaderStageFlagBits := fun visibility => visibility;
  convertFormat := fun format => format;
  Format_UNKNOWN := 0;
  getFormatInfo := fun _ => FormatInfo.mk false false;
  DebugNameToString := fun name => name;
  viewInfoHash := fun offset size format => offset + 1000 * size + 1000000 * format;
  BufferRange_resolve := fun range _ => range;
  TextureSubresourceSet_resolve := fun subresources _ _ => subresources;
  Texture_format := fun _ => 1;
  Texture_getSubresourceView := fun texture _ _ _ _ _ => texture + 1;
  BindingLayoutDesc_default := BindingLayoutDesc.mk 0 0 false [] sample_offsets;
  BindlessLayoutDesc_default := BindlessLayoutDesc.mk 0 0 [] LayoutType.Immutable;
  c_MaxBindingLayouts := 8;
  c_MaxVolatileConstantBuffers := 6;
  c_MaxBindlessRegisterSpaces := 16;
  vkCreateDescriptorSetLayout := fun _ => (eSuccess, 1000);
  vkCreateBufferView := fun _ => (eSuccess, 2000);
  vkCreatePipelineLayout := fun _ => (eSuccess, 3000) |}.

Definition sample_context : VulkanContext.t := VulkanContext.mk true 99.

Definition emptyWorld : World := mkWorld [] ∅ [].

(** A fixed layout with a texture at t3, a constant buffer at b0, push
    constants and a sampler at s1. *)
Definition sample_layoutDesc : BindingLayoutDesc.t :=
  BindingLayoutDesc.mk 1 0 false
    [BindingLayoutItem.mk 3 ResourceType.Texture_SRV 1;
     BindingLayoutItem.mk 0 ResourceType.ConstantBuffer 1;
     BindingLayoutItem.mk 0 ResourceType.PushConstants 16;
     BindingLayoutItem.mk 1 ResourceType.Sampler 1]
    sample_offsets.

(** An immutable bindless layout with two texture spaces and a buffer space,
    a mutable one, and an invalid immutable one with a volatile constant
    buffer space. *)
Definition sample_bindlessDesc : BindlessLayoutDesc.t :=
  BindlessLayoutDesc.mk 1 1024
    [BindingLayoutItem.mk 1 ResourceType.Texture_SRV 1;
     BindingLayoutItem.mk 2 ResourceType.RawBuffer_SRV 1;
     BindingLayoutItem.mk 3 ResourceType.Texture_SRV 1]
    LayoutType.Immutable.

Definition sample_mutableDesc : BindlessLayoutDesc.t :=
  BindlessLayoutDesc.mk 1 512 [] LayoutType.MutableSrvUavCbv.

Definition sample_volatileBindlessDesc : BindlessLayoutDesc.t :=
  BindlessLayoutDesc.mk 1 64
    [BindingLayoutItem.mk 1 ResourceType.VolatileConstantBuffer 1]
    LayoutType.Immutable.

(** The layouts of the sample descriptions, as the constructors build them,
    and descriptor tables on them. *)
Definition sample_bindlessLayout : BindingLayout.t :=
  BindingLayout.mk (BindingLayoutDesc.mk 1 0 false [] sample_offsets)
    sample_bindlessDesc true
    [DescriptorSetLayoutBinding.mk 0 1024 eSampledImage 1;
     DescriptorSetLayoutBinding.mk 1 1024 eStorageBuffer 1;
     DescriptorSetLayoutBinding.mk 2 1024 eSampledImage 1]
    1000
    [DescriptorPoolSize.mk eSampledImage 2048;
     DescriptorPoolSize.mk eStorageBuffer 1024].

Definition sample_table : DescriptorTable.t :=
  DescriptorTable.mk sample_bindlessLayout 1024 70 71.

Definition sample_textureBinding (slot : Z) : BindingSetItem.t :=
  BindingSetItem.mk (Some (IsTexture 500)) slot ResourceType.Texture_SRV 1 0
    (0, 1, 0, 1) (0, 0).

Definition sample_clearBinding (slot : Z) : BindingSetItem.t :=
  BindingSetItem.mk Datatypes.None slot ResourceType.None 0 0 (0, 0, 0, 0) (0, 0).

(** A layout before [bake]: two sampled-image entries, one storage buffer
    entry and an entry of count zero. *)
Definition sample_unbakedLayout : BindingLayout.t :=
  BindingLayout.mk sample_layoutDesc
    (BindlessLayoutDesc.mk 0 0 [] LayoutType.Immutable) false
    [DescriptorSetLayoutBinding.mk 3 4 eSampledImage 1;
     DescriptorSetLayoutBinding.mk 384 2 eStorageBuffer 1;
     DescriptorSetLayoutBinding.mk 5 1 eSampledImage 1;
     DescriptorSetLayoutBinding.mk 129 0 eSampler 1]
    0 [].

Definition sample_rawBufferBinding (slot : Z) : BindingSetItem.t :=
  BindingSetItem.mk
    (Some (IsBuffer (Buffer.mk 7000 (BufferDesc.mk 256 "scene") 41)))
    slot ResourceType.RawBuffer_SRV 0 0 (0, 0, 0, 0) (0, 256).

(** Binding sets: [sample_set0] with a written and an unwritten volatile
    constant buffer, [sample_set2] without any. *)
Definition sample_writtenBuffer : Buffer.t :=
  Buffer.mk 8000 (BufferDesc.mk 256 "frame") 42.

Definition sample_unwrittenBuffer : Buffer.t :=
  Buffer.mk 8100 (BufferDesc.mk 64 "pass") 43.

Definition sample_volatileStates : gmap Z VolatileBufferState.t :=
  {[ 8000 := VolatileBufferState.mk 3 ]}.

Definition sample_fixedLayout : BindingLayout.t :=
  BindingLayout.mk sample_layoutDesc
    (BindlessLayoutDesc.mk 0 0 [] LayoutType.Immutable) false
    [DescriptorSetLayoutBinding.mk 3 1 eSampledImage 1;
     DescriptorSetLayoutBinding.mk 256 1 eUniformBuffer 1;
     DescriptorSetLayoutBinding.mk 129 1 eSampler 1]
    1000
    [DescriptorPoolSize.mk eUniformBuffer 1; DescriptorPoolSize.mk eSampledImage 1;
     DescriptorPoolSize.mk eSampler 1].

Definition sample_set0 : IBindingSet :=
  IsBindingSet (BindingSet.mk (BindingSetDesc.mk true) sample_fixedLayout 10
                  [sample_writtenBuffer; sample_unwrittenBuffer]).

Definition sample_set2 : IBindingSet :=
  IsBindingSet (BindingSet.mk (BindingSetDesc.mk false) sample_fixedLayout 12 []).

(** Two fixed layouts for register spaces 0 and 2, with register spaces as
    descriptor sets. *)
Definition sample_layoutA : BindingLayout.t :=
  BindingLayout.mk
    (BindingLayoutDesc.mk 1 0 true
       [BindingLayoutItem.mk 0 ResourceType.Texture_SRV 1] sample_offsets)
    (BindlessLayoutDesc.mk 0 0 [] LayoutType.Immutable) false
    [DescriptorSetLayoutBinding.mk 0 1 eSampledImage 1]
    1001 [DescriptorPoolSize.mk eSampledImage 1].

Definition sample_layoutB : BindingLayout.t :=
  BindingLayout.mk
    (BindingLayoutDesc.mk 1 2 true
       [BindingLayoutItem.mk 0 ResourceType.Sampler 1] sample_offsets)
    (BindlessLayoutDesc.mk 0 0 [] LayoutType.Immutable) false
    [DescriptorSetLayoutBinding.mk 128 1 eSampler 1]
    1002 [DescriptorPoolSize.mk eSampler 1].

(** ** Vocabulary for the rest of the file *)

Section PipelineVocabulary2.
Context `{Collaborators}.

(** Direct mode: the first layout that is not bindless has
    registerSpaceIsDescriptorSet clear, or every layout is bindless. *)
Definition directMode (layouts : list BindingLayout.t) : Prop :=
  match List.find (fun layout => negb (BindingLayout.isBindless layout)) layouts with
  | Some layout =>
      BindingLayoutDesc.registerSpaceIsDescriptorSet (BindingLayout.desc layout) = false
  | Datatypes.None => True
  end.

(** The push constants a slot declares: size and stage flags, from the first
    PushConstants item of a layout that is not bindless. *)
Definition declaredPushConstants (slot : option BindingLayout.t) : option (Z * Z) :=
  match slot with
  | Some layout =>
      if BindingLayout.isBindless layout then Datatypes.None
      else
        match List.find
                (fun item => bool_decide
                   (BindingLayoutItem.type item = ResourceType.PushConstants))
                (BindingLayoutDesc.bindings (BindingLayout.desc layout)) with
        | Some item =>
            Some (BindingLayoutItem.size item,
                  convertShaderTypeToShaderStageFlagBits
                    (BindingLayoutDesc.visibility (BindingLayout.desc layout)))
        | Datatypes.None => Datatypes.None
        end
  | Datatypes.None => Datatypes.None
  end.

End PipelineVocabulary2.

(** [w'] differs from [w] in the trace only. *)
Definition sameStore (w w' : World) : Prop :=
  referencedResources w' = referencedResources w /\ viewCache w' = viewCache w.

Section BindVocabulary2.
Context `{Collaborators}.

(** The binding sets a bind call keeps alive: the concrete handles that are
    binding sets with [trackLiveness] set. *)
Definition trackedSets (handles : list (option IBindingSet)) : list IBindingSet :=
  flat_map (fun handle =>
              match handle with
              | Some (IsBindingSet bindingSet) =>
                  if BindingSetDesc.trackLiveness (BindingSet.desc bindingSet)
                  then [IsBindingSet bindingSet] else []
              | _ => []
              end) handles.

End BindVocabulary2.

(** A computation that can be replayed: a successful run adds nothing to
    the trace but buffer views it created, only adds to the cache of buffer
    views, and from any world whose cache holds what the run left, the same
    computation gives the same result and changes nothing. *)
Definition replayable {A} (m : M A) : Prop :=
  forall w a w',
    m w = Ok (a, w') ->
    (exists pre, trace w' = trace w ++ pre /\ Forall isCreateBufferView pre) /\
    viewCache w ⊆ viewCache w' /\
    forall wx, viewCache w' ⊆ viewCache wx -> m wx = Ok (a, wx).

(** The descriptor types a mutable bindless layout allows. *)
Definition mutableTypesOf (layoutType : LayoutType.t) : list vk_DescriptorType :=
  match layoutType with
  | LayoutType.MutableCounters => counterTypes
  | LayoutType.MutableSampler => samplerTypes
  | _ => cbvSrvUavTypes
  end.

(** ** More of the sample configuration *)

(** A descriptor table with one register space of typed buffers, and a
    typed-buffer binding for it. *)
Definition sample_typedTable : DescriptorTable.t :=
  DescriptorTable.mk
    (BindingLayout.mk (BindingLayoutDesc.mk 1 0 false [] sample_offsets)
       (BindlessLayoutDesc.mk 1 64
          [BindingLayoutItem.mk 1 ResourceType.TypedBuffer_SRV 1] LayoutType.Immutable)
       true
       [DescriptorSetLayoutBinding.mk 0 64 eUniformTexelBuffer 1]
       1000 [DescriptorPoolSize.mk eUniformTexelBuffer 64])
    64 72 73.

Definition sample_typedBufferBinding (slot : Z) : BindingSetItem.t :=
  BindingSetItem.mk
    (Some (IsBuffer (Buffer.mk 7000 (BufferDesc.mk 256 "scene") 41)))
    slot ResourceType.TypedBuffer_SRV 2 0 (0, 0, 0, 0) (0, 256).

(** * Descriptor pools: binding sets and descriptor tables

    [Device::createBindingSet], [Device::createDescriptorTable] and the
    destructors make native calls the trace of the first part has no event
    for.  They run in a second monad whose state is the list of all calls
    made on the device, the events of the first part among them, and the
    cache of buffer views. *)

Module DescriptorPoolCreateInfo.
Record t : Type := mk {
  poolSizeCount : Z;
  pPoolSizes : list DescriptorPoolSize.t;
  maxSets : Z }.
End DescriptorPoolCreateInfo.

Module DescriptorSetAllocateInfo.
Record t : Type := mk {
  descriptorPool : Z;
  descriptorSetCount : Z;
  pSetLayouts : Z }.
End DescriptorSetAllocateInfo.

(** The values of [ResourceStates] this file names. *)
Module ResourceStates.
Inductive t : Type :=
| ShaderResource
| UnorderedAccess
| ConstantBuffer.
End ResourceStates.

(** An item of the bindings of a [BindingSetDesc]: the fields the table code
    reads, and [arrayElement]. *)
Module SetBinding.
Record t : Type := mk {
  item : BindingSetItem.t;
  arrayElement : Z }.
End SetBinding.

(** [BindingSetDesc] with its bindings. *)
Module SetDesc.
Record t : Type := mk {
  bindings : list SetBinding.t;
  trackLiveness : bool }.
End SetDesc.

(** A [BindingSet] with all the fields [createBindingSet] fills.
    Modelled from the spec: the class is declared in the backend's header; a
    binding set "holds the resolved resource strong-references, the list of
    binding indices needing a state transition before use, and the list of
    volatile constant buffers referenced". *)
Module SetObject.
Record t : Type := mk {
  desc : SetDesc.t;
  layout : BindingLayout.t;
  descriptorPool : Z;
  descriptorSet : Z;
  resources : list IResource;
  volatileConstantBuffers : list Buffer.t;
  bindingsThatNeedTransitions : list Z }.
End SetObject.

(** The binding set as [bindBindingSets] sees it. *)
Definition asBindingSet (set : SetObject.t) : BindingSet.t :=
  BindingSet.mk (BindingSetDesc.mk (SetDesc.trackLiveness (SetObject.desc set)))
    (SetObject.layout set) (SetObject.descriptorSet set)
    (SetObject.volatileConstantBuffers set).

(** A descriptor write of [createBindingSet]: what a write of the table code
    points at, or the acceleration-structure structure chained by [pNext]. *)
Module SetWrite.
Inductive payload : Type :=
| Resource (data : WriteDescriptorSet.payload)
| AccelerationStructure (accelerationStructureCount : Z) (pAccelerationStructures : Z).

Record t : Type := mk {
  dstSet : Z;
  dstBinding : Z;
  dstArrayElement : Z;
  descriptorCount : Z;
  descriptorType : vk_DescriptorType;
  data : payload }.
End SetWrite.

(** The vectors [createBindingSet] fills while it goes through the
    bindings: three of the object it returns, four of its own. *)
Module SetWrites.
Record t : Type := mk {
  resources : list IResource;
  volatileConstantBuffers : list Buffer.t;
  bindingsThatNeedTransitions : list Z;
  descriptorImageInfo : list WriteDescriptorSet.payload;
  descriptorBufferInfo : list WriteDescriptorSet.payload;
  descriptorWriteInfo : list SetWrite.t;
  accelStructWriteInfo : list SetWrite.payload }.
End SetWrites.

(** ** The device and its monad *)

Inductive DeviceCall : Type :=
| CallTraced (e : Event)
| CallCreateDescriptorPool (info : DescriptorPoolCreateInfo.t)
| CallAllocateDescriptorSets (info : DescriptorSetAllocateInfo.t)
| CallUpdateDescriptorSets (descriptorWriteCount : Z) (pDescriptorWrites : list SetWrite.t)
| CallDestroyDescriptorPool (descriptorPool : Z)
| CallDestroyDescriptorSetLayout (descriptorSetLayout : Z).

Record Device : Type := mkDevice {
  calls : list DeviceCall;
  bufferViews : gmap (Z * Z) Z }.

Definition D (A : Type) : Type := Device -> Outcome (A * Device).

Definition retD {A} (a : A) : D A := fun d => Ok (a, d).

Definition bindD {A B} (m : D A) (k : A -> D B) : D B :=
  fun d => match m d with
           | Ok (a, d') => k a d'
           | Fault s => Fault s
           end.

Declare Scope d_scope.
Delimit Scope d_scope with D.
Notation "x <- m ;; k" := (bindD m (fun x => k))
  (at level 100, m at next level, right associativity) : d_scope.
Notation "m ;;; k" := (bindD m (fun _ => k))
  (at level 100, right associativity) : d_scope.

Definition call (c : DeviceCall) : D unit :=
  fun d => Ok (tt, mkDevice (calls d ++ [c]) (bufferViews d)).

(** A computation of the first part, run on the device: it sees the cache of
    buffer views, and what it adds to its trace is added to the calls. *)
Definition liftM {A} (m : M A) : D A :=
  fun d =>
    match m (mkWorld [] (bufferViews d) []) with
    | Ok (a, w) => Ok (a, mkDevice (calls d ++ map CallTraced (trace w)) (viewCache w))
    | Fault s => Fault s
    end.

Fixpoint foldD {A B} (f : A -> B -> D A) (l : list B) (a : A) : D A :=
  match l with
  | [] => retD a
  | x :: l' => bindD (f a x) (fun a' => foldD f l' a')
  end.

(** [static_cast<uint16_t>] *)
Definition wrap16 (z : Z) : Z := z mod 2 ^ 16.

(** What the rest of the backend gives this part of the file: the two
    native calls on descriptor pools, fields of textures and buffers that
    the records of the first part do not carry, and
    [verifyPermanentResourceState], which is handed the message callback:
    its result here is the list of messages it sends. *)
Class DeviceCollaborators : Type := {
  vkCreateDescriptorPool : DescriptorPoolCreateInfo.t -> vk_Result * Z;
  vkAllocateDescriptorSets : DescriptorSetAllocateInfo.t -> vk_Result * Z;
  (** [texture->permanentState] and [texture->desc.debugName]; a state of 0
      is no permanent state *)
  Texture_permanentState : Z -> Z;
  Texture_debugName : Z -> string;
  (** [buffer->permanentState] and fields of [buffer->desc] *)
  Buffer_permanentState : Buffer.t -> Z;
  Buffer_format : Buffer.t -> Z;
  Buffer_canHaveTypedViews : Buffer.t -> bool;
  Buffer_canHaveUAVs : Buffer.t -> bool;
  Buffer_canHaveRawViews : Buffer.t -> bool;
  Buffer_isVolatile : Buffer.t -> bool;
  Buffer_structStride : Buffer.t -> Z;
  verifyPermanentResourceState : Z -> ResourceStates.t -> bool -> string -> list string }.

Section DeviceBackend.
Context `{Collaborators} `{DeviceCollaborators}.

Definition checked_cast_AccelStruct (r : option IResource) : M Z :=
  match r with
  | Some (IsAccelStruct accelStruct) => ret accelStruct
  | _ => fault "checked_cast<AccelStruct*>"
  end.

(** The messages of [verifyPermanentResourceState] go to the callback. *)
Definition report (messages : list string) : D unit :=
  fun d =>
    Ok (tt, mkDevice (calls d ++ map (fun message => CallTraced (EvError message)) messages)
              (bufferViews d)).

(** ** [Device::createBindingSet] *)

(** The lambda [generateWriteDescriptorData] of [createBindingSet] *)
Definition createBindingSet_generateWriteDescriptorData (descriptorSet : Z)
    (st : SetWrites.t) (bindingLocation arrayElement : Z)
    (descriptorType : vk_DescriptorType) (data : SetWrite.payload) : SetWrites.t :=
  SetWrites.mk (SetWrites.resources st) (SetWrites.volatileConstantBuffers st)
    (SetWrites.bindingsThatNeedTransitions st) (SetWrites.descriptorImageInfo st)
    (SetWrites.descriptorBufferInfo st)
    (SetWrites.descriptorWriteInfo st
     ++ [SetWrite.mk descriptorSet bindingLocation arrayElement 1 descriptorType data])
    (SetWrites.accelStructWriteInfo st).

(** [ret->resources.push_back(binding.resourceHandle)] *)
Definition retainResource (st : SetWrites.t) (resource : IResource) : SetWrites.t :=
  SetWrites.mk (SetWrites.resources st ++ [resource])
    (SetWrites.volatileConstantBuffers st) (SetWrites.bindingsThatNeedTransitions st)
    (SetWrites.descriptorImageInfo st) (SetWrites.descriptorBufferInfo st)
    (SetWrites.descriptorWriteInfo st) (SetWrites.accelStructWriteInfo st).

(** [ret->bindingsThatNeedTransitions.push_back(static_cast<uint16_t>(bindingIndex))] *)
Definition needsTransition (st : SetWrites.t) (bindingIndex : Z) : SetWrites.t :=
  SetWrites.mk (SetWrites.resources st) (SetWrites.volatileConstantBuffers st)
    (SetWrites.bindingsThatNeedTransitions st ++ [wrap16 bindingIndex])
    (SetWrites.descriptorImageInfo st) (SetWrites.descriptorBufferInfo st)
    (SetWrites.descriptorWriteInfo st) (SetWrites.accelStructWriteInfo st).

(** [ret->volatileConstantBuffers.push_back(buffer)].
    Modelled from the spec: the vector is declared in the backend's header;
    it is "the list of volatile constant buffers referenced (for
    dynamic-offset binding)" and is given the capacity of the vector of
    dynamic offsets it feeds, beyond which the push is a fault. *)
Definition pushVolatileConstantBuffer (st : SetWrites.t) (buffer : Buffer.t)
    : M SetWrites.t :=
  buffers <-
    push_back c_MaxVolatileConstantBuffers (SetWrites.volatileConstantBuffers st) buffer ;;
  ret (SetWrites.mk (SetWrites.resources st) buffers
         (SetWrites.bindingsThatNeedTransitions st) (SetWrites.descriptorImageInfo st)
         (SetWrites.descriptorBufferInfo st) (SetWrites.descriptorWriteInfo st)
         (SetWrites.accelStructWriteInfo st)).

Definition emplace_back_imageInfo (st : SetWrites.t) (info : WriteDescriptorSet.payload)
    : SetWrites.t :=
  SetWrites.mk (SetWrites.resources st) (SetWrites.volatileConstantBuffers st)
    (SetWrites.bindingsThatNeedTransitions st) (SetWrites.descriptorImageInfo st ++ [info])
    (SetWrites.descriptorBufferInfo st) (SetWrites.descriptorWriteInfo st)
    (SetWrites.accelStructWriteInfo st).

Definition emplace_back_bufferInfo (st : SetWrites.t) (info : WriteDescriptorSet.payload)
    : SetWrites.t :=
  SetWrites.mk (SetWrites.resources st) (SetWrites.volatileConstantBuffers st)
    (SetWrites.bindingsThatNeedTransitions st) (SetWrites.descriptorImageInfo st)
    (SetWrites.descriptorBufferInfo st ++ [info]) (SetWrites.descriptorWriteInfo st)
    (SetWrites.accelStructWriteInfo st).

Definition emplace_back_accelStructWrite (st : SetWrites.t) (info : SetWrite.payload)
    : SetWrites.t :=
  SetWrites.mk (SetWrites.resources st) (SetWrites.volatileConstantBuffers st)
    (SetWrites.bindingsThatNeedTransitions st) (SetWrites.descriptorImageInfo st)
    (SetWrites.descriptorBufferInfo st) (SetWrites.descriptorWriteInfo st)
    (SetWrites.accelStructWriteInfo st ++ [info]).

(** The end of the cases for textures and buffers: a resource without a
    permanent state is put on the list of bindings that need transitions,
    the state of one with a permanent state is verified. *)
Definition transitionOrVerify (st : SetWrites.t) (bindingIndex permanentState : Z)
    (requiredState : ResourceStates.t) (isTexture : bool) (debugName : string)
    : D SetWrites.t :=
  (if bool_decide (permanentState = 0)
   then retD (needsTransition st bindingIndex)
   else
     report (verifyPermanentResourceState permanentState requiredState isTexture
               debugName) ;;;
     retD st)%D.

(** Look up or create the buffer view of a typed buffer for a format and a
    range, as [createBindingSet] does it. *)
Definition cachedBufferView (buffer : Buffer.t) (format : Z) (bindingRange : Z * Z)
    : M Z :=
  let vkformat := convertFormat format in
  let range := BufferRange_resolve bindingRange (Buffer.desc buffer) in
  let hash := viewInfoHash (fst range) (snd range) vkformat in
  fun w =>
    match viewCache w !! (Buffer.address buffer, hash) with
    | Some bufferView => Ok (bufferView, w)
    | Datatypes.None =>
        let bufferViewInfo :=
          BufferViewCreateInfo.mk (Buffer.buffer buffer) (fst range) (snd range) vkformat in
        let '(res, bufferView) := vkCreateBufferView bufferViewInfo in
        (assert (bool_decide (format <> Format_UNKNOWN)) ;;;
         emit (EvCreateBufferView bufferViewInfo) ;;;
         assert (bool_decide (res = eSuccess)) ;;;
         ret bufferView)
          (mkWorld (trace w)
             (<[(Buffer.address buffer, hash) := bufferView]> (viewCache w))
             (referencedResources w))
    end.

(** The body of the loop over the bindings, for the binding at
    [bindingIndex] *)
Definition createBindingSet_binding (layout : BindingLayout.t) (descriptorSet : Z)
    (st : SetWrites.t) (indexedBinding : Z * SetBinding.t) : D SetWrites.t :=
  let '(bindingIndex, setBinding) := indexedBinding in
  let binding := SetBinding.item setBinding in
  let arrayElement := SetBinding.arrayElement setBinding in
  match BindingSetItem.resourceHandle binding with
  | Datatypes.None => retD st
  | Some resource =>
      (let st := retainResource st resource in
       let descriptorType := convertResourceType (BindingSetItem.type binding) in
       registerOffset <-
         liftM (getRegisterOffsetForResourceType
                  (BindingLayoutDesc.bindingOffsets (BindingLayout.desc layout))
                  (BindingSetItem.type binding)) ;;
       let bindingLocation := wrap32 (registerOffset + BindingSetItem.slot binding) in
       match BindingSetItem.type binding with
       | ResourceType.Texture_SRV =>
           texture <- liftM (checked_cast_Texture (BindingSetItem.resourceHandle binding)) ;;
           let subresource :=
             TextureSubresourceSet_resolve (BindingSetItem.subresources binding)
               texture false in
           let textureViewType :=
             getTextureViewType (BindingSetItem.format binding) (Texture_format texture) in
           let view :=
             Texture_getSubresourceView texture subresource
               (BindingSetItem.dimension binding) (BindingSetItem.format binding)
               eSampled textureViewType in
           let imageInfo := WriteDescriptorSet.ImageInfo view 0 eShaderReadOnlyOptimal in
           let st := emplace_back_imageInfo st imageInfo in
           let st :=
             createBindingSet_generateWriteDescriptorData descriptorSet st bindingLocation
               arrayElement descriptorType (SetWrite.Resource imageInfo) in
           transitionOrVerify st bindingIndex (Texture_permanentState texture)
             ResourceStates.ShaderResource true (Texture_debugName texture)
       | ResourceType.Texture_UAV =>
           texture <- liftM (checked_cast_Texture (BindingSetItem.resourceHandle binding)) ;;
           let subresource :=
             TextureSubresourceSet_resolve (BindingSetItem.subresources binding)
               texture true in
           let textureViewType :=
             getTextureViewType (BindingSetItem.format binding) (Texture_format texture) in
           let view :=
             Texture_getSubresourceView texture subresource
               (BindingSetItem.dimension binding) (BindingSetItem.format binding)
               eStorage textureViewType in
           let imageInfo := WriteDescriptorSet.ImageInfo view 0 eGeneral in
           let st := emplace_back_imageInfo st imageInfo in
           let st :=
             createBindingSet_generateWriteDescriptorData descriptorSet st bindingLocation
               arrayElement descriptorType (SetWrite.Resource imageInfo) in
           transitionOrVerify st bindingIndex (Texture_permanentState texture)
             ResourceStates.UnorderedAccess true (Texture_debugName texture)
       | ResourceType.TypedBuffer_SRV
       | ResourceType.TypedBuffer_UAV =>
           buffer <- liftM (checked_cast_Buffer (BindingSetItem.resourceHandle binding)) ;;
           liftM (assert (Buffer_canHaveTypedViews buffer)) ;;;
           let isUAV :=
             bool_decide (BindingSetItem.type binding = ResourceType.TypedBuffer_UAV) in
           (if isUAV then liftM (assert (Buffer_canHaveUAVs buffer)) else retD tt) ;;;
           let format :=
             if bool_decide (BindingSetItem.format binding = Format_UNKNOWN)
             then Buffer_format buffer
             else BindingSetItem.format binding in
           bufferView <-
             liftM (cachedBufferView buffer format (BindingSetItem.range binding)) ;;
           let st :=
             createBindingSet_generateWriteDescriptorData descriptorSet st bindingLocation
               arrayElement descriptorType
               (SetWrite.Resource (WriteDescriptorSet.TexelBufferView bufferView)) in
           transitionOrVerify st bindingIndex (Buffer_permanentState buffer)
             (if isUAV then ResourceStates.UnorderedAccess
              else ResourceStates.ShaderResource)
             false (BufferDesc.debugName (Buffer.desc buffer))
       | ResourceType.StructuredBuffer_SRV
       | ResourceType.StructuredBuffer_UAV
       | ResourceType.RawBuffer_SRV
       | ResourceType.RawBuffer_UAV
       | ResourceType.ConstantBuffer
       | ResourceType.VolatileConstantBuffer =>
           buffer <- liftM (checked_cast_Buffer (BindingSetItem.resourceHandle binding)) ;;
           let type := BindingSetItem.type binding in
           (if bool_decide (type = ResourceType.StructuredBuffer_UAV)
               || bool_decide (type = ResourceType.RawBuffer_UAV)
            then liftM (assert (Buffer_canHaveUAVs buffer)) else retD tt) ;;;
           (if bool_decide (type = ResourceType.StructuredBuffer_UAV)
               || bool_decide (type = ResourceType.StructuredBuffer_SRV)
            then liftM (assert (bool_decide (Buffer_structStride buffer <> 0)))
            else retD tt) ;;;
           (if bool_decide (type = ResourceType.RawBuffer_SRV)
               || bool_decide (type = ResourceType.RawBuffer_UAV)
            then liftM (assert (Buffer_canHaveRawViews buffer)) else retD tt) ;;;
           let range :=
             BufferRange_resolve (BindingSetItem.range binding) (Buffer.desc buffer) in
           let bufferInfo :=
             WriteDescriptorSet.BufferInfo (Buffer.buffer buffer) (fst range) (snd range) in
           let st := emplace_back_bufferInfo st bufferInfo in
           liftM (assert (bool_decide (Buffer.buffer buffer <> 0))) ;;;
           let st :=
             createBindingSet_generateWriteDescriptorData descriptorSet st bindingLocation
               arrayElement descriptorType (SetWrite.Resource bufferInfo) in
           if bool_decide (type = ResourceType.VolatileConstantBuffer)
           then
             liftM (assert (Buffer_isVolatile buffer)) ;;;
             liftM (pushVolatileConstantBuffer st buffer)
           else
             let requiredState :=
               if bool_decide (type = ResourceType.StructuredBuffer_UAV)
                  || bool_decide (type = ResourceType.RawBuffer_UAV)
               then ResourceStates.UnorderedAccess
               else if bool_decide (type = ResourceType.ConstantBuffer)
               then ResourceStates.ConstantBuffer
               else ResourceStates.ShaderResource in
             transitionOrVerify st bindingIndex (Buffer_permanentState buffer)
               requiredState false (BufferDesc.debugName (Buffer.desc buffer))
       | ResourceType.Sampler =>
           sampler <- liftM (checked_cast_Sampler (BindingSetItem.resourceHandle binding)) ;;
           let imageInfo := WriteDescriptorSet.ImageInfo 0 sampler eUndefined in
           let st := emplace_back_imageInfo st imageInfo in
           retD (createBindingSet_generateWriteDescriptorData descriptorSet st
                   bindingLocation arrayElement descriptorType
                   (SetWrite.Resource imageInfo))
       | ResourceType.RayTracingAccelStruct =>
           accelStruct <-
             liftM (checked_cast_AccelStruct (BindingSetItem.resourceHandle binding)) ;;
           let accelStructWrite := SetWrite.AccelerationStructure 1 accelStruct in
           let st := emplace_back_accelStructWrite st accelStructWrite in
           let st :=
             createBindingSet_generateWriteDescriptorData descriptorSet st bindingLocation
               arrayElement descriptorType accelStructWrite in
           retD (needsTransition st bindingIndex)
       | ResourceType.PushConstants => retD st
       | _ => liftM InvalidEnum ;;; retD st
       end)%D
  end.

(** [Device::createBindingSet]; [CHECK_VK_FAIL], a macro of the backend's
    header, returns a null handle when the result is not [eSuccess]: the
    result is then [None]. *)
Definition createBindingSet (desc : SetDesc.t) (layout : BindingLayout.t)
    : D (option SetObject.t) :=
  let descriptorSetLayout := BindingLayout.descriptorSetLayout layout in
  let poolSizes := BindingLayout.descriptorPoolSizeInfo layout in
  let poolInfo :=
    DescriptorPoolCreateInfo.mk (wrap32 (Z.of_nat (length poolSizes))) poolSizes 1 in
  (call (CallCreateDescriptorPool poolInfo) ;;;
   let '(res, descriptorPool) := vkCreateDescriptorPool poolInfo in
   if bool_decide (res <> eSuccess) then retD Datatypes.None
   else
     let descriptorSetAllocInfo :=
       DescriptorSetAllocateInfo.mk descriptorPool 1 descriptorSetLayout in
     call (CallAllocateDescriptorSets descriptorSetAllocInfo) ;;;
     let '(res, descriptorSet) := vkAllocateDescriptorSets descriptorSetAllocInfo in
     if bool_decide (res <> eSuccess) then retD Datatypes.None
     else
       st <-
         foldD (createBindingSet_binding layout descriptorSet)
           (zip (seqZ 0 (Z.of_nat (length (SetDesc.bindings desc))))
              (SetDesc.bindings desc))
           (SetWrites.mk [] [] [] [] [] [] []) ;;
       call (CallUpdateDescriptorSets
               (wrap32 (Z.of_nat (length (SetWrites.descriptorWriteInfo st))))
               (SetWrites.descriptorWriteInfo st)) ;;;
       retD (Some (SetObject.mk desc layout descriptorPool descriptorSet
                     (SetWrites.resources st) (SetWrites.volatileConstantBuffers st)
                     (SetWrites.bindingsThatNeedTransitions st))))%D.

(** [BindingSet::~BindingSet]: the object after the body has run. *)
Definition BindingSet_destroy (set : SetObject.t) : D SetObject.t :=
  (if bool_decide (SetObject.descriptorPool set <> 0)
   then
     call (CallDestroyDescriptorPool (SetObject.descriptorPool set)) ;;;
     retD (SetObject.mk (SetObject.desc set) (SetObject.layout set) 0 0
             (SetObject.resources set) (SetObject.volatileConstantBuffers set)
             (SetObject.bindingsThatNeedTransitions set))
   else retD set)%D.

(** ** Descriptor tables *)

(** [Device::createDescriptorTable]; [vulkanLayoutBindings[0]] of an empty
    vector is a fault. *)
Definition createDescriptorTable (layout : BindingLayout.t)
    : D (option DescriptorTable.t) :=
  (first <- liftM (at_ (BindingLayout.vulkanLayoutBindings layout) 0) ;;
   let capacity := DescriptorSetLayoutBinding.descriptorCount first in
   let descriptorSetLayout := BindingLayout.descriptorSetLayout layout in
   let poolSizes := BindingLayout.descriptorPoolSizeInfo layout in
   let poolInfo :=
     DescriptorPoolCreateInfo.mk (wrap32 (Z.of_nat (length poolSizes))) poolSizes 1 in
   call (CallCreateDescriptorPool poolInfo) ;;;
   let '(res, descriptorPool) := vkCreateDescriptorPool poolInfo in
   if bool_decide (res <> eSuccess) then retD Datatypes.None
   else
     let descriptorSetAllocInfo :=
       DescriptorSetAllocateInfo.mk descriptorPool 1 descriptorSetLayout in
     call (CallAllocateDescriptorSets descriptorSetAllocInfo) ;;;
     let '(res, descriptorSet) := vkAllocateDescriptorSets descriptorSetAllocInfo in
     if bool_decide (res <> eSuccess) then retD Datatypes.None
     else retD (Some (DescriptorTable.mk layout capacity descriptorPool descriptorSet)))%D.

(** [DescriptorTable::~DescriptorTable] and [BindingLayout::~BindingLayout]:
    the object after the body has run. *)
Definition DescriptorTable_destroy (table : DescriptorTable.t) : D DescriptorTable.t :=
  (if bool_decide (DescriptorTable.descriptorPool table <> 0)
   then
     call (CallDestroyDescriptorPool (DescriptorTable.descriptorPool table)) ;;;
     retD (DescriptorTable.mk (DescriptorTable.layout table)
             (DescriptorTable.capacity table) 0 0)
   else retD table)%D.

Definition BindingLayout_destroy (layout : BindingLayout.t) : D BindingLayout.t :=
  (if bool_decide (BindingLayout.descriptorSetLayout layout <> 0)
   then
     call (CallDestroyDescriptorSetLayout (BindingLayout.descriptorSetLayout layout)) ;;;
     retD (BindingLayout.mk (BindingLayout.desc layout) (BindingLayout.bindlessDesc layout)
             (BindingLayout.isBindless layout) (BindingLayout.vulkanLayoutBindings layout)
             0 (BindingLayout.descriptorPoolSizeInfo layout))
   else retD layout)%D.

End DeviceBackend.

(** ** Vocabulary for binding sets and descriptor tables *)

Section ViewVocabulary.
Context `{Collaborators}.

(** The view of a typed buffer in a format, for the range of a binding: what
    is created, and the key under which the cache holds it. *)
Definition viewInfoFor (format : Z) (binding : BindingSetItem.t) (buffer : Buffer.t)
    : BufferViewCreateInfo.t :=
  let range := BufferRange_resolve (BindingSetItem.range binding) (Buffer.desc buffer) in
  BufferViewCreateInfo.mk (Buffer.buffer buffer) (fst range) (snd range)
    (convertFormat format).

Definition viewKeyFor (format : Z) (binding : BindingSetItem.t) (buffer : Buffer.t)
    : Z * Z :=
  let range := BufferRange_resolve (BindingSetItem.range binding) (Buffer.desc buffer) in
  (Buffer.address buffer, viewInfoHash (fst range) (snd range) (convertFormat format)).

(** What the descriptor of a binding points at, for a cache of buffer views
    and the format [formatOf] gives the view of a typed buffer: the image
    view of the texture in the layout of its use, the view of the typed
    buffer that the cache holds, the range of the buffer, the sampler. *)
Definition resolvedPayloadFor (formatOf : BindingSetItem.t -> Buffer.t -> Z)
    (views : gmap (Z * Z) Z) (binding : BindingSetItem.t)
    : option WriteDescriptorSet.payload :=
  match BindingSetItem.resourceHandle binding, BindingSetItem.type binding with
  | Some (IsTexture texture), ResourceType.Texture_SRV =>
      Some (WriteDescriptorSet.ImageInfo
              (Texture_getSubresourceView texture
                 (TextureSubresourceSet_resolve (BindingSetItem.subresources binding)
                    texture false)
                 (BindingSetItem.dimension binding) (BindingSetItem.format binding)
                 eSampled
                 (getTextureViewType (BindingSetItem.format binding)
                    (Texture_format texture)))
              0 eShaderReadOnlyOptimal)
  | Some (IsTexture texture), ResourceType.Texture_UAV =>
      Some (WriteDescriptorSet.ImageInfo
              (Texture_getSubresourceView texture
                 (TextureSubresourceSet_resolve (BindingSetItem.subresources binding)
                    texture true)
                 (BindingSetItem.dimension binding) (BindingSetItem.format binding)
                 eStorage
                 (getTextureViewType (BindingSetItem.format binding)
                    (Texture_format texture)))
              0 eGeneral)
  | Some (IsBuffer buffer), ResourceType.TypedBuffer_SRV
  | Some (IsBuffer buffer), ResourceType.TypedBuffer_UAV =>
      WriteDescriptorSet.TexelBufferView
        <$> views !! viewKeyFor (formatOf binding buffer) binding buffer
  | Some (IsBuffer buffer), ResourceType.StructuredBuffer_SRV
  | Some (IsBuffer buffer), ResourceType.StructuredBuffer_UAV
  | Some (IsBuffer buffer), ResourceType.RawBuffer_SRV
  | Some (IsBuffer buffer), ResourceType.RawBuffer_UAV
  | Some (IsBuffer buffer), ResourceType.ConstantBuffer
  | Some (IsBuffer buffer), ResourceType.VolatileConstantBuffer =>
      let range :=
        BufferRange_resolve (BindingSetItem.range binding) (Buffer.desc buffer) in
      Some (WriteDescriptorSet.BufferInfo (Buffer.buffer buffer) (fst range) (snd range))
  | Some (IsSampler sampler), ResourceType.Sampler =>
      Some (WriteDescriptorSet.ImageInfo 0 sampler eUndefined)
  | _, _ => Datatypes.None
  end.

(** In a descriptor table the view of a typed buffer has the format of the
    binding. *)
Definition tablePayload (views : gmap (Z * Z) Z) (binding : BindingSetItem.t)
    : option WriteDescriptorSet.payload :=
  resolvedPayloadFor (fun binding _ => BindingSetItem.format binding) views binding.

(** A binding [writeDescriptorTable] can resolve: a resource of the class
    that goes with the type, which passes the assertions of its case. *)
Definition tableBindingOk (binding : BindingSetItem.t) : Prop :=
  match BindingSetItem.type binding, BindingSetItem.resourceHandle binding with
  | ResourceType.Texture_SRV, Some (IsTexture _)
  | ResourceType.Texture_UAV, Some (IsTexture _) => True
  | ResourceType.TypedBuffer_SRV, Some (IsBuffer buffer)
  | ResourceType.TypedBuffer_UAV, Some (IsBuffer buffer) =>
      BindingSetItem.format binding <> Format_UNKNOWN /\
      fst (vkCreateBufferView
             (viewInfoFor (BindingSetItem.format binding) binding buffer)) = eSuccess
  | ResourceType.StructuredBuffer_SRV, Some (IsBuffer buffer)
  | ResourceType.StructuredBuffer_UAV, Some (IsBuffer buffer)
  | ResourceType.RawBuffer_SRV, Some (IsBuffer buffer)
  | ResourceType.RawBuffer_UAV, Some (IsBuffer buffer)
  | ResourceType.ConstantBuffer, Some (IsBuffer buffer)
  | ResourceType.VolatileConstantBuffer, Some (IsBuffer buffer) =>
      Buffer.buffer buffer <> 0
  | ResourceType.Sampler, Some (IsSampler _) => True
  | _, _ => False
  end.

(** The write of [writeDescriptorTable] for a binding at a binding
    location. *)
Definition tableWriteAt (table : DescriptorTable.t) (binding : BindingSetItem.t)
    (payload : WriteDescriptorSet.payload) (bindingLocation : Z)
    : WriteDescriptorSet.t :=
  WriteDescriptorSet.mk (DescriptorTable.descriptorSet table) bindingLocation
    (BindingSetItem.slot binding) 1 (convertResourceType (BindingSetItem.type binding))
    payload.

(** The typed buffer of a binding whose view, in the format of the binding,
    a cache does not hold. *)
Definition missingTableView (views : gmap (Z * Z) Z) (binding : BindingSetItem.t)
    : option Buffer.t :=
  match BindingSetItem.resourceHandle binding, BindingSetItem.type binding with
  | Some (IsBuffer buffer), ResourceType.TypedBuffer_SRV
  | Some (IsBuffer buffer), ResourceType.TypedBuffer_UAV =>
      match views !! viewKeyFor (BindingSetItem.format binding) binding buffer with
      | Some _ => Datatypes.None
      | Datatypes.None => Some buffer
      end
  | _, _ => Datatypes.None
  end.

(** The world once the view of a binding is in the cache: as it was when
    the view was there or the binding needs none, else after the creation of
    the view, which the cache then holds. *)
Definition withTableView (w : World) (binding : BindingSetItem.t) : World :=
  match missingTableView (viewCache w) binding with
  | Some buffer =>
      let info := viewInfoFor (BindingSetItem.format binding) binding buffer in
      mkWorld (trace w ++ [EvCreateBufferView info])
        (<[viewKeyFor (BindingSetItem.format binding) binding buffer
           := snd (vkCreateBufferView info)]> (viewCache w))
        (referencedResources w)
  | Datatypes.None => w
  end.

(** The binding locations [writeDescriptorTable] writes for a binding: those
    of the register spaces of its type, or location 0 of a mutable
    layout. *)
Definition tableLocations (desc : BindlessLayoutDesc.t) (binding : BindingSetItem.t)
    : list Z :=
  if decide (BindlessLayoutDesc.layoutType desc = LayoutType.Immutable)
  then matchingLocations (BindlessLayoutDesc.registerSpaces desc)
         (BindingSetItem.type binding)
  else [0].

(** The vectors of [writeDescriptorTable] never hold more infos than
    writes. *)
Definition infosWithinWrites (st : TableWrites.t) : Prop :=
  (length (TableWrites.descriptorImageInfo st)
   <= length (TableWrites.descriptorWriteInfo st))%nat /\
  (length (TableWrites.descriptorBufferInfo st)
   <= length (TableWrites.descriptorWriteInfo st))%nat.

End ViewVocabulary.

Section DeviceVocabulary.
Context `{Collaborators} `{DeviceCollaborators}.

(** The resource a binding makes the set retain. *)
Definition retainedOf (b : SetBinding.t) : list IResource :=
  match BindingSetItem.resourceHandle (SetBinding.item b) with
  | Some resource => [resource]
  | Datatypes.None => []
  end.

(** Bindings that get a descriptor write: a resource, and not push
    constants. *)
Definition isWritten (b : SetBinding.t) : Prop :=
  BindingSetItem.resourceHandle (SetBinding.item b) <> Datatypes.None /\
  BindingSetItem.type (SetBinding.item b) <> ResourceType.PushConstants.

#[global] Instance isWritten_dec b : Decision (isWritten b).
Proof. unfold isWritten. apply _. Defined.

(** The volatile constant buffer of a binding. *)
Definition volatileOf (b : SetBinding.t) : list Buffer.t :=
  match BindingSetItem.resourceHandle (SetBinding.item b),
        BindingSetItem.type (SetBinding.item b) with
  | Some (IsBuffer buffer), ResourceType.VolatileConstantBuffer => [buffer]
  | _, _ => []
  end.

(** The permanent state that decides whether a binding needs transitions:
    that of its texture or buffer; an acceleration structure has none, a
    volatile constant buffer, a sampler and push constants are not tracked. *)
Definition trackedStateOf (b : SetBinding.t) : option Z :=
  match BindingSetItem.resourceHandle (SetBinding.item b),
        BindingSetItem.type (SetBinding.item b) with
  | Some (IsTexture texture), ResourceType.Texture_SRV
  | Some (IsTexture texture), ResourceType.Texture_UAV =>
      Some (Texture_permanentState texture)
  | Some (IsBuffer buffer), ResourceType.TypedBuffer_SRV
  | Some (IsBuffer buffer), ResourceType.TypedBuffer_UAV
  | Some (IsBuffer buffer), ResourceType.StructuredBuffer_SRV
  | Some (IsBuffer buffer), ResourceType.StructuredBuffer_UAV
  | Some (IsBuffer buffer), ResourceType.RawBuffer_SRV
  | Some (IsBuffer buffer), ResourceType.RawBuffer_UAV
  | Some (IsBuffer buffer), ResourceType.ConstantBuffer =>
      Some (Buffer_permanentState buffer)
  | Some (IsAccelStruct _), ResourceType.RayTracingAccelStruct => Some 0
  | _, _ => Datatypes.None
  end.

(** The entry a binding at position [fst ib] adds to
    [bindingsThatNeedTransitions]. *)
Definition transitionOf (ib : Z * SetBinding.t) : list Z :=
  match trackedStateOf (snd ib) with
  | Some permanentState =>
      if bool_decide (permanentState = 0) then [wrap16 (fst ib)] else []
  | Datatypes.None => []
  end.

(** The header of the descriptor write of a binding. *)
Definition setWriteFor (layout : BindingLayout.t) (descriptorSet : Z)
    (b : SetBinding.t) (write : SetWrite.t) : Prop :=
  exists registerOffset,
    (forall w,
       getRegisterOffsetForResourceType
         (BindingLayoutDesc.bindingOffsets (BindingLayout.desc layout))
         (BindingSetItem.type (SetBinding.item b)) w = Ok (registerOffset, w)) /\
    SetWrite.dstSet write = descriptorSet /\
    SetWrite.dstBinding write
    = wrap32 (registerOffset + BindingSetItem.slot (SetBinding.item b)) /\
    SetWrite.dstArrayElement write = SetBinding.arrayElement b /\
    SetWrite.descriptorCount write = 1 /\
    SetWrite.descriptorType write
    = convertResourceType (BindingSetItem.type (SetBinding.item b)).

(** The format of the view of a typed buffer: that of the binding, or of the
    buffer when the binding has none; and the view that is created. *)
Definition typedViewFormat (binding : BindingSetItem.t) (buffer : Buffer.t) : Z :=
  if bool_decide (BindingSetItem.format binding = Format_UNKNOWN)
  then Buffer_format buffer
  else BindingSetItem.format binding.

Definition typedViewInfo (binding : BindingSetItem.t) (buffer : Buffer.t)
    : BufferViewCreateInfo.t :=
  viewInfoFor (typedViewFormat binding buffer) binding buffer.

Definition typedViewKey (binding : BindingSetItem.t) (buffer : Buffer.t) : Z * Z :=
  viewKeyFor (typedViewFormat binding buffer) binding buffer.

Definition viewCreatable (binding : BindingSetItem.t) (buffer : Buffer.t) : Prop :=
  typedViewFormat binding buffer <> Format_UNKNOWN /\
  fst (vkCreateBufferView (typedViewInfo binding buffer)) = eSuccess.

(** Calls that [createBindingSet] makes between the allocation and the
    update: messages of the state check, and the views of the bindings of
    typed buffers. *)
Definition setCall (bindings : list SetBinding.t) (c : DeviceCall) : Prop :=
  match c with
  | CallTraced (EvError _) => True
  | CallTraced (EvCreateBufferView info) =>
      exists b buffer,
        In b bindings /\
        BindingSetItem.resourceHandle (SetBinding.item b) = Some (IsBuffer buffer) /\
        (BindingSetItem.type (SetBinding.item b) = ResourceType.TypedBuffer_SRV \/
         BindingSetItem.type (SetBinding.item b) = ResourceType.TypedBuffer_UAV) /\
        info = typedViewInfo (SetBinding.item b) buffer
  | _ => False
  end.

(** In a binding set the view of a typed buffer has the format of the
    binding or, when the binding has none, that of the buffer. *)
Definition resolvedPayload (views : gmap (Z * Z) Z) (binding : BindingSetItem.t)
    : option WriteDescriptorSet.payload :=
  resolvedPayloadFor typedViewFormat views binding.

(** The same for a write of [createBindingSet], which also knows
    acceleration structures. *)
Definition setPayloadOf (views : gmap (Z * Z) Z) (binding : BindingSetItem.t)
    : option SetWrite.payload :=
  match BindingSetItem.resourceHandle binding, BindingSetItem.type binding with
  | Some (IsAccelStruct accelStruct), ResourceType.RayTracingAccelStruct =>
      Some (SetWrite.AccelerationStructure 1 accelStruct)
  | _, _ => SetWrite.Resource <$> resolvedPayload views binding
  end.

(** The write of a binding: its header and what it points at. *)
Definition setWriteOf (layout : BindingLayout.t) (descriptorSet : Z)
    (views : gmap (Z * Z) Z) (b : SetBinding.t) (write : SetWrite.t) : Prop :=
  setWriteFor layout descriptorSet b write /\
  setPayloadOf views (SetBinding.item b) = Some (SetWrite.data write).

(** A binding [createBindingSet] can resolve: no resource at all, or a
    resource of the class that goes with the type, which passes the
    assertions of its case. *)
Definition bindingOk (b : SetBinding.t) : Prop :=
  let binding := SetBinding.item b in
  match BindingSetItem.resourceHandle binding with
  | Datatypes.None => True
  | Some resource =>
      match BindingSetItem.type binding, resource with
      | ResourceType.Texture_SRV, IsTexture _
      | ResourceType.Texture_UAV, IsTexture _ => True
      | ResourceType.TypedBuffer_SRV, IsBuffer buffer =>
          Buffer_canHaveTypedViews buffer = true /\ viewCreatable binding buffer
      | ResourceType.TypedBuffer_UAV, IsBuffer buffer =>
          Buffer_canHaveTypedViews buffer = true /\ Buffer_canHaveUAVs buffer = true /\
          viewCreatable binding buffer
      | ResourceType.StructuredBuffer_SRV, IsBuffer buffer =>
          Buffer_structStride buffer <> 0 /\ Buffer.buffer buffer <> 0
      | ResourceType.StructuredBuffer_UAV, IsBuffer buffer =>
          Buffer_canHaveUAVs buffer = true /\ Buffer_structStride buffer <> 0 /\
          Buffer.buffer buffer <> 0
      | ResourceType.RawBuffer_SRV, IsBuffer buffer =>
          Buffer_canHaveRawViews buffer = true /\ Buffer.buffer buffer <> 0
      | ResourceType.RawBuffer_UAV, IsBuffer buffer =>
          Buffer_canHaveUAVs buffer = true /\ Buffer_canHaveRawViews buffer = true /\
          Buffer.buffer buffer <> 0
      | ResourceType.ConstantBuffer, IsBuffer buffer => Buffer.buffer buffer <> 0
      | ResourceType.VolatileConstantBuffer, IsBuffer buffer =>
          Buffer_isVolatile buffer = true /\ Buffer.buffer buffer <> 0
      | ResourceType.Sampler, IsSampler _ => True
      | ResourceType.RayTracingAccelStruct, IsAccelStruct _ => True
      | ResourceType.PushConstants, _ => True
      | _, _ => False
      end
  end.

(** The bindings with their positions in the description. *)
Definition indexedBindings (start : Z) (bindings : list SetBinding.t)
    : list (Z * SetBinding.t) :=
  zip (seqZ start (Z.of_nat (length bindings))) bindings.

(** What [createBindingSet] asks of the device for a layout. *)
Definition poolInfoOf (layout : BindingLayout.t) : DescriptorPoolCreateInfo.t :=
  DescriptorPoolCreateInfo.mk
    (wrap32 (Z.of_nat (length (BindingLayout.descriptorPoolSizeInfo layout))))
    (BindingLayout.descriptorPoolSizeInfo layout) 1.

Definition allocInfoOf (layout : BindingLayout.t) (descriptorPool : Z)
    : DescriptorSetAllocateInfo.t :=
  DescriptorSetAllocateInfo.mk descriptorPool 1 (BindingLayout.descriptorSetLayout layout).

(** The device after more calls. *)
Definition addCalls (d : Device) (more : list DeviceCall) : Device :=
  mkDevice (calls d ++ more) (bufferViews d).

End DeviceVocabulary.

Section DeviceVocabulary2.
Context `{Collaborators} `{DeviceCollaborators}.

(** The key of the buffer view a binding of a typed buffer needs. *)
Definition typedKeysOf (b : SetBinding.t) : list (Z * Z) :=
  match BindingSetItem.resourceHandle (SetBinding.item b),
        BindingSetItem.type (SetBinding.item b) with
  | Some (IsBuffer buffer), ResourceType.TypedBuffer_SRV
  | Some (IsBuffer buffer), ResourceType.TypedBuffer_UAV =>
      [typedViewKey (SetBinding.item b) buffer]
  | _, _ => []
  end.

(** What one turn of the loop of [createBindingSet] does to the vectors and
    to the device. *)
Definition bindingStep (layout : BindingLayout.t) (descriptorSet : Z)
    (ib : Z * SetBinding.t) (st st' : SetWrites.t) (d d' : Device) : Prop :=
  SetWrites.resources st' = SetWrites.resources st ++ retainedOf (snd ib) /\
  SetWrites.volatileConstantBuffers st'
  = SetWrites.volatileConstantBuffers st ++ volatileOf (snd ib) /\
  SetWrites.bindingsThatNeedTransitions st'
  = SetWrites.bindingsThatNeedTransitions st ++ transitionOf ib /\
  (exists writes,
     SetWrites.descriptorWriteInfo st' = SetWrites.descriptorWriteInfo st ++ writes /\
     Forall2 (setWriteOf layout descriptorSet (bufferViews d'))
       (filter isWritten [snd ib]) writes) /\
  (exists mid, calls d' = calls d ++ mid /\ Forall (setCall [snd ib]) mid) /\
  bufferViews d ⊆ bufferViews d' /\
  Forall (fun key => is_Some (bufferViews d' !! key)) (typedKeysOf (snd ib)).

End DeviceVocabulary2.

(** ** A sample device *)

(** A device that gives out pool 4000 and set 5000; textures other than 500
    have a permanent state, buffers have none. *)
Definition sample_deviceCollaborators : DeviceCollaborators := {|
  vkCreateDescriptorPool := fun _ => (eSuccess, 4000);
  vkAllocateDescriptorSets := fun _ => (eSuccess, 5000);
  Texture_permanentState := fun texture => if bool_decide (texture = 500) then 0 else 2;
  Texture_debugName := fun _ => "texture";
  Buffer_permanentState := fun _ => 0;
  Buffer_format := fun _ => 3;
  Buffer_canHaveTypedViews := fun _ => true;
  Buffer_canHaveUAVs := fun _ => true;
  Buffer_canHaveRawViews := fun _ => true;
  Buffer_isVolatile := fun _ => true;
  Buffer_structStride := fun _ => 16;
  verifyPermanentResourceState := fun _ _ _ _ => [] |}.

(** A device that has no pool to give, and one that has a pool but no set. *)
Definition sample_deviceWithoutPools : DeviceCollaborators := {|
  vkCreateDescriptorPool := fun _ => (eError (-1), 0);
  vkAllocateDescriptorSets := fun _ => (eSuccess, 5000);
  Texture_permanentState := fun _ => 0;
  Texture_debugName := fun _ => "texture";
  Buffer_permanentState := fun _ => 0;
  Buffer_format := fun _ => 3;
  Buffer_canHaveTypedViews := fun _ => true;
  Buffer_canHaveUAVs := fun _ => true;
  Buffer_canHaveRawViews := fun _ => true;
  Buffer_isVolatile := fun _ => true;
  Buffer_structStride := fun _ => 16;
  verifyPermanentResourceState := fun _ _ _ _ => [] |}.

Definition sample_deviceWithoutSets : DeviceCollaborators := {|
  vkCreateDescriptorPool := fun _ => (eSuccess, 4000);
  vkAllocateDescriptorSets := fun _ => (eError (-2), 0);
  Texture_permanentState := fun _ => 0;
  Texture_debugName := fun _ => "texture";
  Buffer_permanentState := fun _ => 0;
  Buffer_format := fun _ => 3;
  Buffer_canHaveTypedViews := fun _ => true;
  Buffer_canHaveUAVs := fun _ => true;
  Buffer_canHaveRawViews := fun _ => true;
  Buffer_isVolatile := fun _ => true;
  Buffer_structStride := fun _ => 16;
  verifyPermanentResourceState := fun _ _ _ _ => [] |}.

Definition emptyDevice : Device := mkDevice [] ∅.

(** A description for the sample fixed layout: the texture at t3, a constant
    buffer at b0, a binding without a resource, push constants with a
    resource, and a sampler at s1. *)
Definition sample_setDesc : SetDesc.t :=
  SetDesc.mk
    [SetBinding.mk (sample_textureBinding 3) 0;
     SetBinding.mk
       (BindingSetItem.mk (Some (IsBuffer sample_writtenBuffer)) 0
          ResourceType.ConstantBuffer 0 0 (0, 0, 0, 0) (0, 256)) 0;
     SetBinding.mk
       (BindingSetItem.mk Datatypes.None 7 ResourceType.Texture_UAV 0 0 (0, 0, 0, 0) (0, 0)) 0;
     SetBinding.mk
       (BindingSetItem.mk (Some (IsBuffer sample_writtenBuffer)) 0
          ResourceType.PushConstants 0 0 (0, 0, 0, 0) (0, 0)) 0;
     SetBinding.mk
       (BindingSetItem.mk (Some (IsSampler 600)) 1 ResourceType.Sampler 0 0
          (0, 0, 0, 0) (0, 0)) 2]
    true.

(** A description with two volatile constant buffers and a typed buffer
    between them. *)
Definition sample_volatileSetDesc : SetDesc.t :=
  SetDesc.mk
    [SetBinding.mk
       (BindingSetItem.mk (Some (IsBuffer sample_writtenBuffer)) 0
          ResourceType.VolatileConstantBuffer 0 0 (0, 0, 0, 0) (0, 256)) 0;
     SetBinding.mk (sample_typedBufferBinding 4) 0;
     SetBinding.mk
       (BindingSetItem.mk (Some (IsBuffer sample_unwrittenBuffer)) 1
          ResourceType.VolatileConstantBuffer 0 0 (0, 0, 0, 0) (0, 64)) 0]
    false.

(** * Properties *)

(** ** The monad *)

Lemma bind_Ok {A B} (m : M A) (k : A -> M B) (w w' : World) (a : A) :
  m w = Ok (a, w') -> bind m k w = k a w'.
Proof. unfold bind. intros ->. reflexivity. Qed.

Lemma bind_inv {A B} (m : M A) (k : A -> M B) (w w'' : World) (b : B) :
  bind m k w = Ok (b, w'') ->
  exists a w', m w = Ok (a, w') /\ k a w' = Ok (b, w'').
Proof.
  unfold bind. destruct (m w) as [[a w']|]; [|discriminate].
  intros Hk. exists a, w'. split; [reflexivity|exact Hk].
Qed.

Lemma assert_true (w : World) : assert true w = Ok (tt, w).
Proof. reflexivity. Qed.

Lemma assert_inv (c : bool) (w w' : World) (u : unit) :
  assert c w = Ok (u, w') -> c = true /\ w' = w.
Proof. destruct c; simpl; [|discriminate]. intros [= _ ->]. auto. Qed.

Lemma foldM_app {A B} (f : A -> B -> M A) (l1 l2 : list B) (a : A) (w : World) :
  foldM f (l1 ++ l2) a w = bind (foldM f l1 a) (foldM f l2) w.
Proof.
  revert a w. induction l1 as [|x l1 IH]; intros a w; simpl; [reflexivity|].
  unfold bind in *. destruct (f a x w) as [[a' w']|]; [|reflexivity].
  apply IH.
Qed.

Lemma wrap32_small (z : Z) : 0 <= z < 2 ^ 32 -> wrap32 z = z.
Proof. intros Hz. unfold wrap32. apply Z.mod_small. exact Hz. Qed.

Lemma wrap32_range (z : Z) : 0 <= wrap32 z < 2 ^ 32.
Proof. unfold wrap32. apply Z.mod_pos_bound. lia. Qed.

Lemma wrap32_add_l (a b : Z) : wrap32 (wrap32 a + b) = wrap32 (a + b).
Proof. unfold wrap32. apply Zplus_mod_idemp_l. Qed.

Lemma push_back_ok {A} (cap : nat) (v : list A) (x : A) (w : World) :
  (length v < cap)%nat -> push_back cap v x w = Ok (v ++ [x], w).
Proof.
  intros Hlen. unfold push_back. rewrite bool_decide_eq_true_2 by exact Hlen.
  reflexivity.
Qed.

Lemma push_back_inv {A} (cap : nat) (v v' : list A) (x : A) (w w' : World) :
  push_back cap v x w = Ok (v', w') -> v' = v ++ [x] /\ w' = w /\ (length v < cap)%nat.
Proof.
  unfold push_back. case_bool_decide as Hlen; simpl; [|discriminate].
  intros [= <- <-]. auto.
Qed.

Lemma at_ok {A} (v : list A) (i : nat) (x : A) (w : World) :
  v !! i = Some x -> at_ v (Z.of_nat i) w = Ok (x, w).
Proof.
  intros Hx. unfold at_. rewrite bool_decide_eq_true_2 by lia.
  rewrite Nat2Z.id, Hx. reflexivity.
Qed.

Lemma at_inv {A} (v : list A) (i : Z) (x : A) (w w' : World) :
  at_ v i w = Ok (x, w') -> 0 <= i /\ v !! Z.to_nat i = Some x /\ w' = w.
Proof.
  unfold at_. case_bool_decide as Hi.
  - destruct (v !! Z.to_nat i) as [y|] eqn:Hy; simpl; [|discriminate].
    intros [= -> ->]. auto.
  - discriminate.
Qed.

(** ** Fixed binding layouts *)

Section FixedLayout.
Context `{Collaborators}.

Lemma getRegisterOffsetForResourceType_total bindingOffsets type w :
  knownType type ->
  exists registerOffset,
    getRegisterOffsetForResourceType bindingOffsets type w = Ok (registerOffset, w).
Proof.
  intros [HNone HCount]. destruct type; try congruence; eexists; reflexivity.
Qed.

Lemma addBinding_loop desc items acc w :
  Forall (fun item => knownType (BindingLayoutItem.type item)) items ->
  exists entries,
    foldM (BindingLayout_addBinding desc) items acc w = Ok (acc ++ entries, w) /\
    Forall2 (entryOf desc w) (filter notPushConstants items) entries.
Proof.
  intros Hknown. revert acc.
  induction Hknown as [|item items Hitem _ IH]; intros acc.
  - exists []. simpl. rewrite app_nil_r. split; [reflexivity|constructor].
  - cbn [foldM]. unfold bind at 1. unfold BindingLayout_addBinding at 1.
    case_bool_decide as Hpc.
    + destruct (IH acc) as (entries & Hrun & Hall).
      exists entries. split; [exact Hrun|].
      rewrite filter_cons_False; [exact Hall|].
      unfold notPushConstants. tauto.
    + destruct (getRegisterOffsetForResourceType_total
                  (BindingLayoutDesc.bindingOffsets desc) _ w Hitem) as [off Hoff].
      rewrite (bind_Ok _ _ _ _ _ Hoff). unfold ret at 1.
      match goal with |- context [foldM _ items (acc ++ [?e])] => set (entry := e) end.
      destruct (IH (acc ++ [entry])) as (entries & Hrun & Hall).
      exists (entry :: entries). split.
      * rewrite Hrun. rewrite <- app_assoc. reflexivity.
      * rewrite filter_cons_True by exact Hpc.
        constructor; [|exact Hall].
        exists off. subst entry. simpl. auto.
Qed.

(** The code's [getRegisterOffsetForResourceType] refines the offset policy:
    for a type that is not PushConstants, what it returns is the base offset
    of the class of the type, and it returns only for a type with a class. *)
Lemma getRegisterOffsetForResourceType_policy bindingOffsets type registerOffset w w' :
  type <> ResourceType.PushConstants ->
  getRegisterOffsetForResourceType bindingOffsets type w = Ok (registerOffset, w') ->
  baseOffsetFor bindingOffsets type = Some registerOffset.
Proof.
  intros Hpc Hrun.
  destruct type; try contradiction; try discriminate Hrun;
    unfold ret in Hrun; injection Hrun as <- _; reflexivity.
Qed.

Lemma entryOf_policy desc w item entry :
  notPushConstants item ->
  entryOf desc w item entry -> entryAtPolicyOffset desc item entry.
Proof.
  intros Hpc (registerOffset & Hoffset & Hrest).
  exists registerOffset. split; [|exact Hrest].
  eapply getRegisterOffsetForResourceType_policy; [exact Hpc|exact Hoffset].
Qed.

Lemma Forall2_impl_Forall {A B} (P R : A -> B -> Prop) (Q : A -> Prop) l k :
  Forall Q l -> Forall2 P l k ->
  (forall x y, Q x -> P x y -> R x y) -> Forall2 R l k.
Proof.
  intros HQ HP Himpl. induction HP as [|x y l k Hxy _ IH]; [constructor|].
  apply Forall_cons in HQ. destruct HQ as [Hx HQ].
  constructor; [apply Himpl; assumption|apply IH; exact HQ].
Qed.

(** C1. For every fixed layout description whose items have known resource
    types, the constructor succeeds without touching the world, and its
    schema has, in the order of the description, exactly one entry per item
    that is not PushConstants: the entry's binding location is the base
    offset that the offset policy gives the class of the item's type
    (shader resource, unordered access, constant buffer, sampler) plus the
    item's slot (a [uint32_t] sum), its count is the item's size, its type
    the converted resource type.  No PushConstants item has an entry. *)
Theorem fixed_layout_binding_locations (desc : BindingLayoutDesc.t) (w : World) :
  Forall (fun item => knownType (BindingLayoutItem.type item))
    (BindingLayoutDesc.bindings desc) ->
  exists layout,
    BindingLayout_BindingLayout desc w = Ok (layout, w) /\
    BindingLayout.isBindless layout = false /\
    Forall2 (entryAtPolicyOffset desc)
      (filter notPushConstants (BindingLayoutDesc.bindings desc))
      (BindingLayout.vulkanLayoutBindings layout).
Proof.
  intros Hknown.
  destruct (addBinding_loop desc _ [] w Hknown) as (entries & Hrun & Hall).
  eexists. unfold BindingLayout_BindingLayout.
  rewrite (bind_Ok _ _ _ _ _ Hrun). unfold ret. simpl.
  split; [reflexivity|]. split; [reflexivity|].
  apply (Forall2_impl_Forall (entryOf desc w) _ notPushConstants);
    [|exact Hall|intros item entry; apply entryOf_policy].
  rewrite Forall_forall. intros item Hitem.
  apply list_elem_of_filter in Hitem. tauto.
Qed.

End FixedLayout.

Lemma fixed_layout_binding_locations_witness :
  exists layout,
    BindingLayout_BindingLayout (H := sample_collaborators) sample_layoutDesc emptyWorld
      = Ok (layout, emptyWorld) /\
    map DescriptorSetLayoutBinding.binding (BindingLayout.vulkanLayoutBindings layout)
    = [3; 256; 129] /\
    Forall2 (entryAtPolicyOffset (H := sample_collaborators) sample_layoutDesc)
      (filter notPushConstants (BindingLayoutDesc.bindings sample_layoutDesc))
      (BindingLayout.vulkanLayoutBindings layout).
Proof.
  destruct (fixed_layout_binding_locations (H := sample_collaborators)
              sample_layoutDesc emptyWorld) as (layout & Hrun & _ & Hall).
  - simpl. repeat constructor; discriminate.
  - exists layout. split; [exact Hrun|]. split; [|exact Hall].
    vm_compute in Hrun. injection Hrun as <-. reflexivity.
Defined.

(** ** Bindless binding layouts *)

Section BindlessLayout.
Context `{Collaborators}.

Lemma addErrors_nil w : addErrors w [] = w.
Proof. destruct w. unfold addErrors. simpl. rewrite app_nil_r. reflexivity. Qed.

Lemma addErrors_app w e1 e2 : addErrors (addErrors w e1) e2 = addErrors w (e1 ++ e2).
Proof. unfold addErrors. simpl. rewrite app_assoc. reflexivity. Qed.

Lemma emit_addErrors e w : emit e w = Ok (tt, addErrors w [e]).
Proof. reflexivity. Qed.

(** The loop over the register spaces: entry number [i] of the result is at
    binding location [bindingPoint + i], and every volatile space adds one
    diagnostic. *)
Lemma addRegisterSpace_loop desc spaces acc bindingPoint w :
  0 <= bindingPoint ->
  bindingPoint + Z.of_nat (length spaces) < 2 ^ 32 ->
  exists errors,
    foldM (BindingLayout_addRegisterSpace
             (convertShaderTypeToShaderStageFlagBits (BindlessLayoutDesc.visibility desc))
             (BindlessLayoutDesc.maxCapacity desc))
      spaces (acc, bindingPoint) w
    = Ok ((acc ++ imap (fun i => spaceEntry desc (bindingPoint + Z.of_nat i)) spaces,
           wrap32 (bindingPoint + Z.of_nat (length spaces))),
          addErrors w errors) /\
    errors = map (fun _ => volatileInBindlessError) (filter isVolatileSpace spaces).
Proof.
  revert acc bindingPoint w.
  induction spaces as [|space spaces IH]; intros acc bp w Hbp Hlen.
  - exists []. simpl length in *. cbn [foldM imap map filter]. unfold ret.
    rewrite app_nil_r, Z.add_0_r, addErrors_nil.
    rewrite wrap32_small by lia. auto.
  - assert (Himap : imap (fun i => spaceEntry desc (bp + Z.of_nat i)) (space :: spaces)
                    = spaceEntry desc bp space
                      :: imap (fun i => spaceEntry desc (bp + 1 + Z.of_nat i)) spaces).
    { cbn [imap]. rewrite Z.add_0_r. f_equal. apply imap_ext.
      intros i x _. unfold compose. f_equal. lia. }
    assert (Hlen' : bp + Z.of_nat (length (space :: spaces))
                    = bp + 1 + Z.of_nat (length spaces)) by (simpl length; lia).
    rewrite Himap, Hlen'. rewrite Hlen' in Hlen.
    cbn [foldM]. unfold bind at 1. unfold BindingLayout_addRegisterSpace at 1.
    assert (Hw : wrap32 (bp + 1) = bp + 1) by (apply wrap32_small; lia).
    destruct (IH (acc ++ [spaceEntry desc bp space]) (bp + 1)
                (addErrors w (if bool_decide (isVolatileSpace space)
                              then [volatileInBindlessError] else [])))
      as (errors & Hrun & Herrors); [lia|lia|].
    rewrite addErrors_app, <- app_assoc in Hrun. cbn [app] in Hrun.
    exists ((if bool_decide (isVolatileSpace space)
             then [volatileInBindlessError] else []) ++ errors).
    split.
    + unfold isVolatileSpace, volatileInBindlessError in *.
      unfold spaceEntry in Hrun at 1.
      case_bool_decide as Hvol.
      * unfold error. unfold bind at 1. rewrite emit_addErrors. unfold ret at 1.
        rewrite Hw. exact Hrun.
      * unfold bind at 1. unfold ret at 1 2.
        rewrite addErrors_nil in Hrun. rewrite Hw. exact Hrun.
    + subst errors. destruct (decide (isVolatileSpace space)) as [Hvol|Hvol].
      * rewrite filter_cons_True by exact Hvol.
        rewrite bool_decide_eq_true_2 by exact Hvol. reflexivity.
      * rewrite filter_cons_False by exact Hvol.
        rewrite bool_decide_eq_false_2 by exact Hvol. reflexivity.
Qed.

Lemma bindless_ctor_immutable m_Context desc w :
  BindlessLayoutDesc.layoutType desc = LayoutType.Immutable ->
  Z.of_nat (length (BindlessLayoutDesc.registerSpaces desc)) < 2 ^ 32 ->
  exists layout,
    BindingLayout_BindingLayout_bindless m_Context desc w
    = Ok (layout,
          addErrors w (map (fun _ => volatileInBindlessError)
                         (filter isVolatileSpace (BindlessLayoutDesc.registerSpaces desc)))) /\
    BindingLayout.bindlessDesc layout = desc /\
    BindingLayout.isBindless layout = true /\
    BindingLayout.vulkanLayoutBindings layout
    = imap (fun i => spaceEntry desc (Z.of_nat i)) (BindlessLayoutDesc.registerSpaces desc).
Proof.
  intros Himm Hlen.
  destruct (addRegisterSpace_loop desc (BindlessLayoutDesc.registerSpaces desc) [] 0 w)
    as (errors & Hrun & ->); [lia|lia|].
  unfold BindingLayout_BindingLayout_bindless.
  rewrite bool_decide_eq_false_2 by (rewrite Himm; auto).
  rewrite (bind_Ok _ _ _ _ _ Hrun). unfold ret. cbn [fst].
  eexists. split; [reflexivity|]. cbn.
  split; [reflexivity|]. split; [reflexivity|]. reflexivity.
Qed.

Lemma bindless_ctor_mutable m_Context desc w :
  BindlessLayoutDesc.layoutType desc <> LayoutType.Immutable ->
  exists layout,
    BindingLayout_BindingLayout_bindless m_Context desc w
    = Ok (layout,
          addErrors w
            ((if VulkanContext.extensions_EXT_mutable_descriptor_type m_Context
              then [] else [mutableUnsupportedError]) ++
             (match BindlessLayoutDesc.registerSpaces desc with
              | [] => []
              | _ :: _ => [registerSpacesInMutableError]
              end))) /\
    BindingLayout.bindlessDesc layout = desc /\
    BindingLayout.isBindless layout = true /\
    BindingLayout.vulkanLayoutBindings layout = [mutableEntry desc].
Proof.
  intros Hmut. unfold BindingLayout_BindingLayout_bindless.
  rewrite bool_decide_eq_true_2 by exact Hmut.
  eexists. split.
  - unfold error.
    destruct (VulkanContext.extensions_EXT_mutable_descriptor_type m_Context);
      cbn [negb]; case_bool_decide as Hlen;
      destruct (BindlessLayoutDesc.registerSpaces desc) as [|space spaces];
      simpl length in Hlen; try lia;
      unfold bind; rewrite ?emit_addErrors; unfold ret;
      rewrite ?emit_addErrors, ?addErrors_app, ?addErrors_nil; reflexivity.
  - cbn. split; [reflexivity|split; reflexivity].
Qed.

(** C6. For every immutable bindless layout description with N register
    spaces, the constructor succeeds and its schema has exactly N entries;
    entry number i (in input order) is at binding location i, has count
    maxCapacity and the converted type of space i.  Every register space of
    type VolatileConstantBuffer is reported through the error callback as not
    supported, and these are the only events of the construction. *)
Theorem immutable_bindless_schema (m_Context : VulkanContext.t)
    (desc : BindlessLayoutDesc.t) (w : World) :
  BindlessLayoutDesc.layoutType desc = LayoutType.Immutable ->
  Z.of_nat (length (BindlessLayoutDesc.registerSpaces desc)) < 2 ^ 32 ->
  exists layout w',
    BindingLayout_BindingLayout_bindless m_Context desc w = Ok (layout, w') /\
    length (BindingLayout.vulkanLayoutBindings layout)
    = length (BindlessLayoutDesc.registerSpaces desc) /\
    (forall (i : nat) space,
       BindlessLayoutDesc.registerSpaces desc !! i = Some space ->
       BindingLayout.vulkanLayoutBindings layout !! i
       = Some (DescriptorSetLayoutBinding.mk (Z.of_nat i)
                 (BindlessLayoutDesc.maxCapacity desc)
                 (convertResourceType (BindingLayoutItem.type space))
                 (convertShaderTypeToShaderStageFlagBits
                    (BindlessLayoutDesc.visibility desc)))) /\
    w' = addErrors w (map (fun _ => volatileInBindlessError)
                        (filter isVolatileSpace (BindlessLayoutDesc.registerSpaces desc))) /\
    (Exists isVolatileSpace (BindlessLayoutDesc.registerSpaces desc) <->
     In volatileInBindlessError (drop (length (trace w)) (trace w'))).
Proof.
  intros Himm Hlen.
  destruct (bindless_ctor_immutable m_Context desc w Himm Hlen)
    as (layout & Hrun & _ & _ & Hschema).
  exists layout. eexists. split; [exact Hrun|].
  rewrite Hschema. split; [apply length_imap|]. split.
  - intros i space Hspace. rewrite list_lookup_imap, Hspace. reflexivity.
  - split; [reflexivity|].
    unfold addErrors. cbn [trace]. rewrite drop_app_length.
    rewrite Exists_exists. split.
    + intros (space & Hin & Hvol). apply in_map_iff. exists space.
      split; [reflexivity|]. apply list_elem_of_In, list_elem_of_filter.
      split; [exact Hvol|exact Hin].
    + intros Hin. apply in_map_iff in Hin. destruct Hin as (space & _ & Hin).
      apply list_elem_of_In, list_elem_of_filter in Hin. destruct Hin as [Hvol Hin].
      exists space. split; [exact Hin|exact Hvol].
Qed.

(** C7. For every mutable (not Immutable) bindless layout description the
    constructor succeeds and its schema is the single entry at binding
    location 0 with count maxCapacity and the mutable descriptor type,
    whatever register spaces were given.  A non-empty list of register
    spaces is reported through the error callback, as is a device without
    mutable descriptor types; there is no other event. *)
Theorem mutable_bindless_schema (m_Context : VulkanContext.t)
    (desc : BindlessLayoutDesc.t) (w : World) :
  BindlessLayoutDesc.layoutType desc <> LayoutType.Immutable ->
  exists layout w',
    BindingLayout_BindingLayout_bindless m_Context desc w = Ok (layout, w') /\
    BindingLayout.vulkanLayoutBindings layout
    = [DescriptorSetLayoutBinding.mk 0 (BindlessLayoutDesc.maxCapacity desc)
         eMutableEXT
         (convertShaderTypeToShaderStageFlagBits (BindlessLayoutDesc.visibility desc))] /\
    w' = addErrors w
           ((if VulkanContext.extensions_EXT_mutable_descriptor_type m_Context
             then [] else [mutableUnsupportedError]) ++
            (match BindlessLayoutDesc.registerSpaces desc with
             | [] => []
             | _ :: _ => [registerSpacesInMutableError]
             end)) /\
    (BindlessLayoutDesc.registerSpaces desc <> [] <->
     In registerSpacesInMutableError (drop (length (trace w)) (trace w'))).
Proof.
  intros Hmut.
  destruct (bindless_ctor_mutable m_Context desc w Hmut)
    as (layout & Hrun & _ & _ & Hschema).
  exists layout. eexists. split; [exact Hrun|].
  split; [exact Hschema|]. split; [reflexivity|].
  unfold addErrors. cbn [trace]. rewrite drop_app_length.
  destruct (VulkanContext.extensions_EXT_mutable_descriptor_type m_Context);
    destruct (BindlessLayoutDesc.registerSpaces desc) as [|space spaces];
    cbn; split; try tauto; try congruence.
  all: try (intros [Hin|[]]; discriminate Hin).
  all: try (intros _; right; left; reflexivity).
  all: try (intros _; discriminate).
Qed.

End BindlessLayout.

Lemma immutable_bindless_schema_witness :
  exists layout w',
    BindingLayout_BindingLayout_bindless (H := sample_collaborators) sample_context
      sample_volatileBindlessDesc emptyWorld = Ok (layout, w') /\
    length (BindingLayout.vulkanLayoutBindings layout) = 1%nat /\
    In volatileInBindlessError (trace w').
Proof.
  destruct (immutable_bindless_schema (H := sample_collaborators) sample_context
              sample_volatileBindlessDesc emptyWorld)
    as (layout & w' & Hrun & Hlen & _ & _ & Hvol).
  - reflexivity.
  - simpl. lia.
  - exists layout, w'. split; [exact Hrun|]. split; [exact Hlen|].
    apply Hvol. constructor. reflexivity.
Defined.

Lemma mutable_bindless_schema_witness :
  exists layout w',
    BindingLayout_BindingLayout_bindless (H := sample_collaborators) sample_context
      sample_mutableDesc emptyWorld = Ok (layout, w') /\
    BindingLayout.vulkanLayoutBindings layout
    = [DescriptorSetLayoutBinding.mk 0 512 eMutableEXT 1] /\
    w' = emptyWorld.
Proof.
  destruct (mutable_bindless_schema (H := sample_collaborators) sample_context
              sample_mutableDesc emptyWorld)
    as (layout & w' & Hrun & Hschema & Hw & _).
  - discriminate.
  - exists layout, w'. split; [exact Hrun|]. split; [exact Hschema|]. exact Hw.
Defined.

(** ** Descriptor tables *)

Section DescriptorTables.
Context `{Collaborators}.

(** C10. For every descriptor table of a bindless layout and every new size
    not above the layout's maxCapacity, resizeDescriptorTable returns with
    the table as it was (same capacity, pool and descriptor set) and the
    world as it was: no native call is made, so every descriptor holds what
    it held, and the call does the same for both values of keepContents. *)
Theorem resize_changes_nothing (table : DescriptorTable.t) (newSize : Z)
    (keepContents : bool) (w : World) :
  BindingLayout.isBindless (DescriptorTable.layout table) = true ->
  newSize <= BindlessLayoutDesc.maxCapacity
               (BindingLayout.bindlessDesc (DescriptorTable.layout table)) ->
  exists table' w',
    resizeDescriptorTable table newSize keepContents w = Ok (table', w') /\
    DescriptorTable.capacity table' = DescriptorTable.capacity table /\
    DescriptorTable.descriptorPool table' = DescriptorTable.descriptorPool table /\
    DescriptorTable.descriptorSet table' = DescriptorTable.descriptorSet table /\
    table' = table /\
    w' = w /\
    (forall set binding element,
       descriptorContents (trace w') set binding element
       = descriptorContents (trace w) set binding element) /\
    resizeDescriptorTable table newSize (negb keepContents) w = Ok (table', w').
Proof.
  intros Hbindless Hsize. exists table, w.
  assert (Hrun : forall keep, resizeDescriptorTable table newSize keep w = Ok (table, w)).
  { intros keep. unfold resizeDescriptorTable, BindingLayout_getBindlessDesc.
    rewrite Hbindless. unfold bind, deref, ret.
    rewrite bool_decide_eq_true_2 by exact Hsize. reflexivity. }
  rewrite !Hrun. repeat split; reflexivity.
Qed.

(** C4. For every descriptor table and binding item: when the item's slot is
    at or above the table's capacity, writeDescriptorTable returns false and
    leaves the world as it was (no native call at all); when the slot is
    below the capacity and the item's type is None, it returns true and
    leaves the world as it was. *)
Theorem write_out_of_range_or_none (table : DescriptorTable.t)
    (binding : BindingSetItem.t) (w : World) :
  (DescriptorTable.capacity table <= BindingSetItem.slot binding ->
   writeDescriptorTable table binding w = Ok (false, w)) /\
  (BindingSetItem.slot binding < DescriptorTable.capacity table ->
   BindingSetItem.type binding = ResourceType.None ->
   writeDescriptorTable table binding w = Ok (true, w)).
Proof.
  unfold writeDescriptorTable. split.
  - intros Hslot. rewrite bool_decide_eq_true_2 by lia. reflexivity.
  - intros Hslot Hnone. rewrite bool_decide_eq_false_2 by lia.
    rewrite bool_decide_eq_true_2 by exact Hnone. reflexivity.
Qed.

End DescriptorTables.

Lemma resize_changes_nothing_witness :
  exists table' w',
    resizeDescriptorTable sample_table 100 true emptyWorld
    = Ok (table', w') /\
    table' = sample_table /\ w' = emptyWorld.
Proof.
  destruct (resize_changes_nothing sample_table 100 true
              emptyWorld)
    as (table' & w' & Hrun & _ & _ & _ & Htable & Hw & _).
  - reflexivity.
  - simpl. lia.
  - exists table', w'. auto.
Defined.

Lemma write_out_of_range_or_none_witness :
  writeDescriptorTable (H := sample_collaborators) sample_table
    (sample_textureBinding 1024) emptyWorld = Ok (false, emptyWorld) /\
  writeDescriptorTable (H := sample_collaborators) sample_table
    (sample_clearBinding 7) emptyWorld = Ok (true, emptyWorld).
Proof.
  split.
  - apply (write_out_of_range_or_none (H := sample_collaborators)). simpl. lia.
  - apply (write_out_of_range_or_none (H := sample_collaborators)).
    + simpl. lia.
    + reflexivity.
Defined.

(** ** The pool-size table *)

Section PoolSizes.
Context `{Collaborators}.

Lemma wrap32_wrap32_add (a b c : Z) : wrap32 (wrap32 (a + b) + c) = wrap32 (a + (b + c)).
Proof. rewrite wrap32_add_l. f_equal. lia. Qed.

(** The counting loop: a type without entries keeps what the map had, a type
    with entries holds the map's value plus their counts. *)
Lemma countDescriptors_loop (schema : list DescriptorSetLayoutBinding.t)
    (m : gmap vk_DescriptorType Z) (ty : vk_DescriptorType) :
  fold_left countDescriptors schema m !! ty
  = match filter (hasType ty) schema with
    | [] => m !! ty
    | entries =>
        Some (wrap32 (default 0 (m !! ty)
                      + sumZ (map DescriptorSetLayoutBinding.descriptorCount entries)))
    end.
Proof.
  revert m. induction schema as [|entry schema IH]; intros m; [reflexivity|].
  cbn [fold_left]. rewrite IH. clear IH.
  set (ty' := DescriptorSetLayoutBinding.descriptorType entry).
  assert (Hstep : forall t,
            countDescriptors m entry !! t
            = if decide (ty' = t)
              then Some (wrap32 (default 0 (m !! ty')
                                 + DescriptorSetLayoutBinding.descriptorCount entry))
              else m !! t).
  { intros t. unfold countDescriptors. fold ty'.
    destruct (m !! ty') as [c|] eqn:Hm.
    - rewrite Hm. cbn [default]. rewrite lookup_insert. reflexivity.
    - rewrite lookup_insert_eq. cbn [default]. rewrite lookup_insert.
      destruct (decide (ty' = t)) as [Heq|Hne]; [reflexivity|].
      rewrite lookup_insert_ne by exact Hne. reflexivity. }
  rewrite Hstep.
  destruct (decide (ty' = ty)) as [Heq|Hne].
  - rewrite filter_cons_True by exact Heq. subst ty.
    destruct (filter (hasType ty') schema) as [|e es]; cbn [default map sumZ foldr].
    + rewrite Z.add_0_r. reflexivity.
    + unfold id. rewrite wrap32_wrap32_add. reflexivity.
  - rewrite filter_cons_False by exact Hne. reflexivity.
Qed.

Lemma addPoolSize_loop (l : list (vk_DescriptorType * Z)) (acc : list DescriptorPoolSize.t) :
  fold_left addPoolSize l acc
  = acc ++ map (fun p => DescriptorPoolSize.mk (fst p) (snd p))
             (filter (fun p => 0 < snd p) l).
Proof.
  revert acc. induction l as [|p l IH]; intros acc; cbn [fold_left].
  - rewrite app_nil_r. reflexivity.
  - rewrite IH. unfold addPoolSize. case_bool_decide as Hpos.
    + rewrite filter_cons_True by exact Hpos. rewrite <- app_assoc. reflexivity.
    + rewrite filter_cons_False by exact Hpos. reflexivity.
Qed.

Lemma schemaTotal_lookup schema ty c :
  fold_left countDescriptors schema ∅ !! ty = Some c -> c = schemaTotal ty schema.
Proof.
  rewrite countDescriptors_loop, lookup_empty. unfold schemaTotal.
  destruct (filter (hasType ty) schema) as [|e es]; [discriminate|].
  intros [= <-]. reflexivity.
Qed.

Lemma schemaTotal_positive_lookup schema ty :
  0 < schemaTotal ty schema ->
  fold_left countDescriptors schema ∅ !! ty = Some (schemaTotal ty schema).
Proof.
  rewrite countDescriptors_loop, lookup_empty. unfold schemaTotal.
  destruct (filter (hasType ty) schema) as [|e es]; [|reflexivity].
  cbn. unfold wrap32. rewrite Z.mod_0_l by lia. lia.
Qed.

(** Without overflow the [uint32_t] sum is the sum. *)
Lemma schemaTotal_exact (ty : vk_DescriptorType)
    (schema : list DescriptorSetLayoutBinding.t) :
  Forall (fun entry => 0 <= DescriptorSetLayoutBinding.descriptorCount entry) schema ->
  sumZ (map DescriptorSetLayoutBinding.descriptorCount (filter (hasType ty) schema))
  < 2 ^ 32 ->
  schemaTotal ty schema
  = sumZ (map DescriptorSetLayoutBinding.descriptorCount (filter (hasType ty) schema)).
Proof.
  intros Hnonneg Hfits. unfold schemaTotal. apply wrap32_small. split; [|exact Hfits].
  clear Hfits. induction Hnonneg as [|entry schema Hentry _ IH]; [cbn; lia|].
  destruct (decide (hasType ty entry)) as [Hty|Hty].
  - rewrite filter_cons_True by exact Hty. cbn [map sumZ foldr].
    fold (sumZ (map DescriptorSetLayoutBinding.descriptorCount
                  (filter (hasType ty) schema))). lia.
  - rewrite filter_cons_False by exact Hty. exact IH.
Qed.

(** The constructors leave the pool-size table empty. *)
Lemma BindingLayout_BindingLayout_pool desc layout w w' :
  BindingLayout_BindingLayout desc w = Ok (layout, w') ->
  BindingLayout.descriptorPoolSizeInfo layout = [].
Proof.
  unfold BindingLayout_BindingLayout. intros Hrun.
  apply bind_inv in Hrun. destruct Hrun as (entries & w1 & _ & Hrun).
  unfold ret in Hrun. injection Hrun as <- _. reflexivity.
Qed.

Lemma BindingLayout_BindingLayout_bindless_pool m_Context desc layout w w' :
  BindingLayout_BindingLayout_bindless m_Context desc w = Ok (layout, w') ->
  BindingLayout.descriptorPoolSizeInfo layout = [].
Proof.
  unfold BindingLayout_BindingLayout_bindless. case_bool_decide; intros Hrun.
  - apply bind_inv in Hrun. destruct Hrun as (u1 & w1 & _ & Hrun).
    apply bind_inv in Hrun. destruct Hrun as (u2 & w2 & _ & Hrun).
    unfold ret in Hrun. injection Hrun as <- _. reflexivity.
  - apply bind_inv in Hrun. destruct Hrun as (st & w1 & _ & Hrun).
    unfold ret in Hrun. injection Hrun as <- _. reflexivity.
Qed.

(** C9. For every layout whose pool-size table is still empty (as the
    constructors leave it), bake returns; when it returns success, every
    entry of the pool-size table has a count equal to the sum of the counts
    of the schema entries of the entry's native type (the [uint32_t] sum,
    which is the sum itself when the counts are not negative and their sum
    fits 32 bits), and that count is positive, so no entry has a zero
    count; every native type whose sum is positive has an entry; and no two
    entries have the same type. *)
Theorem pool_size_table (layout : BindingLayout.t) (w : World) :
  BindingLayout.descriptorPoolSizeInfo layout = [] ->
  exists res layout' w',
    bake layout w = Ok ((res, layout'), w') /\
    BindingLayout.vulkanLayoutBindings layout' = BindingLayout.vulkanLayoutBindings layout /\
    (res = eSuccess ->
     let schema := BindingLayout.vulkanLayoutBindings layout in
     let pool := BindingLayout.descriptorPoolSizeInfo layout' in
     (forall p, In p pool ->
        DescriptorPoolSize.descriptorCount p = schemaTotal (DescriptorPoolSize.type p) schema /\
        0 < DescriptorPoolSize.descriptorCount p) /\
     (forall ty, 0 < schemaTotal ty schema ->
        In ty (map DescriptorPoolSize.type pool)) /\
     NoDup (map DescriptorPoolSize.type pool) /\
     (Forall (fun entry => 0 <= DescriptorSetLayoutBinding.descriptorCount entry) schema ->
      forall p, In p pool ->
        sumZ (map DescriptorSetLayoutBinding.descriptorCount
                (filter (hasType (DescriptorPoolSize.type p)) schema)) < 2 ^ 32 ->
        DescriptorPoolSize.descriptorCount p
        = sumZ (map DescriptorSetLayoutBinding.descriptorCount
                  (filter (hasType (DescriptorPoolSize.type p)) schema)))).
Proof.
  intros Hempty. unfold bake. rewrite Hempty.
  match goal with |- context [vkCreateDescriptorSetLayout ?i] => set (info := i) end.
  destruct (vkCreateDescriptorSetLayout info) as [res handle].
  unfold bind at 1. rewrite emit_addErrors.
  case_bool_decide as Hres.
  - eexists res, _, _. unfold ret. split; [reflexivity|]. split; [reflexivity|].
    intros ->. congruence.
  - eexists eSuccess, _, _. unfold ret. split; [reflexivity|]. split; [reflexivity|].
    intros _. cbn zeta. cbn [BindingLayout.descriptorPoolSizeInfo].
    rewrite addPoolSize_loop. cbn [app].
    set (schema := BindingLayout.vulkanLayoutBindings layout).
    set (m := fold_left countDescriptors schema ∅).
    assert (Hcount : forall p,
              In p (map (fun p => DescriptorPoolSize.mk (fst p) (snd p))
                      (filter (fun p => 0 < snd p) (map_to_list m))) ->
              DescriptorPoolSize.descriptorCount p
              = schemaTotal (DescriptorPoolSize.type p) schema /\
              0 < DescriptorPoolSize.descriptorCount p).
    { intros p Hin. apply in_map_iff in Hin. destruct Hin as ([ty c] & <- & Hin).
      apply list_elem_of_In, list_elem_of_filter in Hin. destruct Hin as [Hpos Hin].
      apply elem_of_map_to_list in Hin. cbn in *.
      split; [apply schemaTotal_lookup; exact Hin|exact Hpos]. }
    split; [exact Hcount|]. split; [|split].
    + intros ty Hpos. rewrite map_map. apply in_map_iff.
      exists (ty, schemaTotal ty schema). split; [reflexivity|].
      apply list_elem_of_In, list_elem_of_filter. split; [exact Hpos|].
      apply elem_of_map_to_list. apply schemaTotal_positive_lookup. exact Hpos.
    + rewrite map_map. cbn [DescriptorPoolSize.type].
      eapply sublist_NoDup; [apply (NoDup_fst_map_to_list m)|].
      apply fmap_sublist, sublist_filter.
    + intros Hnonneg p Hin Hfits. destruct (Hcount p Hin) as [-> _].
      apply schemaTotal_exact; assumption.
Qed.

End PoolSizes.

Lemma pool_size_table_witness :
  exists res layout' w',
    bake (H := sample_collaborators) sample_unbakedLayout emptyWorld
    = Ok ((res, layout'), w') /\
    res = eSuccess /\
    (forall p, In p (BindingLayout.descriptorPoolSizeInfo layout') ->
       DescriptorPoolSize.descriptorCount p
       = schemaTotal (DescriptorPoolSize.type p)
           (BindingLayout.vulkanLayoutBindings sample_unbakedLayout)) /\
    In eSampledImage (map DescriptorPoolSize.type
                        (BindingLayout.descriptorPoolSizeInfo layout')).
Proof.
  destruct (pool_size_table (H := sample_collaborators) sample_unbakedLayout emptyWorld)
    as (res & layout' & w' & Hrun & _ & Hpool).
  - reflexivity.
  - exists res, layout', w'. split; [exact Hrun|].
    assert (Hres : res = eSuccess).
    { vm_compute in Hrun. injection Hrun as <- _ _. reflexivity. }
    split; [exact Hres|].
    destruct (Hpool Hres) as (Hcount & Hall & _). split.
    + intros p Hin. apply Hcount. exact Hin.
    + apply Hall. vm_compute. reflexivity.
Defined.

(** ** Writing into a descriptor table *)

(** Inversion of a successful run, one monadic step after the other. *)
Ltac minv H :=
  lazymatch type of H with
  | bind _ _ _ = Ok _ =>
      let a := fresh "a" in
      let w := fresh "w" in
      let H1 := fresh "Hm" in
      apply bind_inv in H; destruct H as (a & w & H1 & H); minv H1; minv H
  | ret _ _ = Ok _ => unfold ret in H; injection H as ? ?; subst
  | assert _ _ = Ok _ => apply assert_inv in H; destruct H as [? ?]; subst
  | push_back _ _ _ _ = Ok _ =>
      apply push_back_inv in H; destruct H as (? & ? & ?); subst
  | emit _ _ = Ok _ => rewrite emit_addErrors in H; injection H as ? ?; subst
  | fault _ _ = Ok _ => discriminate H
  | InvalidEnum _ = Ok _ => discriminate H
  | NotImplemented _ = Ok _ => discriminate H
  | NotSupported _ = Ok _ => discriminate H
  | _ => idtac
  end.

Section TableWrites.
Context `{Collaborators}.

Lemma bake_preserves layout res layout' w w' :
  bake layout w = Ok ((res, layout'), w') ->
  BindingLayout.bindlessDesc layout' = BindingLayout.bindlessDesc layout /\
  BindingLayout.isBindless layout' = BindingLayout.isBindless layout /\
  BindingLayout.vulkanLayoutBindings layout' = BindingLayout.vulkanLayoutBindings layout.
Proof.
  unfold bake.
  match goal with |- context [vkCreateDescriptorSetLayout ?i] => set (info := i) end.
  destruct (vkCreateDescriptorSetLayout info) as [r handle].
  intros Hrun. apply bind_inv in Hrun. destruct Hrun as (u & w1 & _ & Hrun).
  case_bool_decide; unfold ret in Hrun; injection Hrun as <- <- <-; auto.
Qed.

(** The schema of a layout made by [createBindlessLayout]. *)
Lemma createBindlessLayout_schema m_Context desc layout w w' :
  Z.of_nat (length (BindlessLayoutDesc.registerSpaces desc)) < 2 ^ 32 ->
  createBindlessLayout m_Context desc w = Ok (layout, w') ->
  BindingLayout.bindlessDesc layout = desc /\
  BindingLayout.vulkanLayoutBindings layout
  = if decide (BindlessLayoutDesc.layoutType desc = LayoutType.Immutable)
    then imap (fun i => spaceEntry desc (Z.of_nat i)) (BindlessLayoutDesc.registerSpaces desc)
    else [mutableEntry desc].
Proof.
  intros Hlen Hrun. unfold createBindlessLayout in Hrun.
  apply bind_inv in Hrun. destruct Hrun as (layout0 & w0 & Hctor & Hrun).
  apply bind_inv in Hrun. destruct Hrun as ([res layout1] & w1 & Hbake & Hrun).
  unfold ret in Hrun. injection Hrun as <- <-. cbn [snd].
  destruct (bake_preserves _ _ _ _ _ Hbake) as (Hdesc & _ & Hschema).
  rewrite Hdesc, Hschema.
  destruct (decide (BindlessLayoutDesc.layoutType desc = LayoutType.Immutable)) as [Himm|Hmut].
  - destruct (bindless_ctor_immutable m_Context desc w Himm Hlen)
      as (l & Hl & Hd & _ & Hs).
    rewrite Hl in Hctor. injection Hctor as <- _. auto.
  - destruct (bindless_ctor_mutable m_Context desc w Hmut) as (l & Hl & Hd & _ & Hs).
    rewrite Hl in Hctor. injection Hctor as <- _. auto.
Qed.

Lemma typedBufferView_inv buffer binding view w w' :
  typedBufferView buffer binding w = Ok (view, w') ->
  exists pre, trace w' = trace w ++ pre /\ Forall isCreateBufferView pre.
Proof.
  unfold typedBufferView.
  destruct (viewCache w !! _) as [cached|].
  - intros [= _ <-]. exists []. rewrite app_nil_r. split; [reflexivity|constructor].
  - match goal with |- context [vkCreateBufferView ?i] => set (info := i) end.
    destruct (vkCreateBufferView info) as [res bufferView].
    intros Hrun. minv Hrun.
    exists [EvCreateBufferView info]. cbn [trace]. split; [reflexivity|].
    repeat constructor.
Qed.

(** A successful [writeDescriptorForBinding] appends exactly one write, at
    the binding location of the layout binding, and emits nothing but the
    creation of a buffer view. *)
Lemma writeDescriptorForBinding_inv table binding st layoutBinding st' w w' :
  writeDescriptorForBinding table binding st layoutBinding w = Ok (st', w') ->
  exists pre write,
    trace w' = trace w ++ pre /\ Forall isCreateBufferView pre /\
    TableWrites.descriptorWriteInfo st' = TableWrites.descriptorWriteInfo st ++ [write] /\
    WriteDescriptorSet.dstBinding write = DescriptorSetLayoutBinding.binding layoutBinding /\
    tableWriteFor table binding write.
Proof.
  unfold writeDescriptorForBinding, generateWriteDescriptorData,
    emplace_imageInfo, emplace_bufferInfo,
    checked_cast_Texture, checked_cast_Buffer, checked_cast_Sampler.
  intros Hrun.
  destruct (BindingSetItem.type binding) eqn:Htype; minv Hrun;
    try (destruct (BindingSetItem.resourceHandle binding) as [[]|]; minv Hm);
    try (exists []; eexists; rewrite app_nil_r; cbn;
         split; [reflexivity|]; split; [constructor|]; split; [reflexivity|];
         split; [reflexivity|]; unfold tableWriteFor; cbn; rewrite Htype; auto; fail).
  all: destruct (typedBufferView_inv _ _ _ _ _ Hm0) as (pre & Hpre & Hall).
  all: exists pre; eexists; cbn.
  all: split; [exact Hpre|]; split; [exact Hall|]; split; [reflexivity|].
  all: split; [reflexivity|]; unfold tableWriteFor; cbn; rewrite Htype; auto.
Qed.

(** The scan of the register spaces, over any list of locations: one write
    per location whose register space has the type of the binding. *)
Lemma writeMatchingSpace_loop table binding desc locs st st' w w' :
  BindingLayout.bindlessDesc (DescriptorTable.layout table) = desc ->
  BindingLayout.vulkanLayoutBindings (DescriptorTable.layout table)
  = imap (fun i => spaceEntry desc (Z.of_nat i)) (BindlessLayoutDesc.registerSpaces desc) ->
  foldM (writeMatchingSpace table binding) locs st w = Ok (st', w') ->
  exists pre writes,
    trace w' = trace w ++ pre /\ Forall isCreateBufferView pre /\
    TableWrites.descriptorWriteInfo st' = TableWrites.descriptorWriteInfo st ++ writes /\
    map WriteDescriptorSet.dstBinding writes
    = filter (fun i => BindingLayoutItem.type
                         <$> BindlessLayoutDesc.registerSpaces desc !! Z.to_nat i
                       = Some (BindingSetItem.type binding)) locs /\
    Forall (tableWriteFor table binding) writes.
Proof.
  intros Hdesc Hschema. revert st w.
  induction locs as [|loc locs IH]; intros st w Hrun.
  - cbn in Hrun. injection Hrun as <- <-. exists [], [].
    rewrite !app_nil_r. repeat split; constructor.
  - cbn [foldM] in Hrun. apply bind_inv in Hrun.
    destruct Hrun as (st1 & w1 & Hstep & Hrun).
    destruct (IH _ _ Hrun) as (pre2 & writes2 & Htr2 & Hpre2 & Hw2 & Hloc2 & Hall2).
    clear IH Hrun. unfold writeMatchingSpace in Hstep. rewrite Hdesc, Hschema in Hstep.
    apply bind_inv in Hstep. destruct Hstep as (space & w0 & Hspace & Hstep).
    apply at_inv in Hspace. destruct Hspace as (Hloc & Hspace & ->).
    case_bool_decide as Htype.
    + apply bind_inv in Hstep. destruct Hstep as (layoutBinding & w0 & Hlb & Hstep).
      apply at_inv in Hlb. destruct Hlb as (_ & Hlb & ->).
      rewrite list_lookup_imap, Hspace in Hlb. injection Hlb as <-.
      apply writeDescriptorForBinding_inv in Hstep.
      destruct Hstep as (pre1 & write & Htr1 & Hpre1 & Hw1 & Hloc1 & Hfor1).
      exists (pre1 ++ pre2), (write :: writes2).
      rewrite Htr2, Htr1, Hw2, Hw1, <- !app_assoc.
      split; [reflexivity|]. split; [apply Forall_app; auto|].
      split; [reflexivity|]. split; [|constructor; assumption].
      rewrite filter_cons_True by (rewrite Hspace; cbn; congruence).
      cbn [map]. rewrite Hloc2, Hloc1. cbn. rewrite Z2Nat.id by exact Hloc. reflexivity.
    + unfold ret in Hstep. injection Hstep as <- <-.
      exists pre2, writes2.
      split; [exact Htr2|]. split; [exact Hpre2|]. split; [exact Hw2|].
      split; [|exact Hall2].
      rewrite filter_cons_False by (rewrite Hspace; cbn; congruence). exact Hloc2.
Qed.

(** C8, as the code has it.  For a table on a layout made by
    createBindlessLayout, a binding that is not of type None and a slot below
    the capacity, a call of writeDescriptorTable that returns has returned
    true and has issued exactly one descriptor-update call, as its last
    event, after at most the creation of buffer views.  The call carries one
    write per register space whose type is the type of the binding, in the
    order of the register spaces and at the binding location of each such
    space (immutable layout), or the single write at binding location 0
    (mutable layout); every write is for one descriptor, at array element
    slot, of the table's descriptor set. *)
Theorem write_targets_matching_spaces (m_Context : VulkanContext.t)
    (desc : BindlessLayoutDesc.t) (table : DescriptorTable.t)
    (binding : BindingSetItem.t) (w0 w0' w w' : World) (result : bool) :
  Z.of_nat (length (BindlessLayoutDesc.registerSpaces desc)) < 2 ^ 32 ->
  createBindlessLayout m_Context desc w0 = Ok (DescriptorTable.layout table, w0') ->
  BindingSetItem.type binding <> ResourceType.None ->
  BindingSetItem.slot binding < DescriptorTable.capacity table ->
  writeDescriptorTable table binding w = Ok (result, w') ->
  result = true /\
  exists pre writes,
    trace w' = trace w ++ pre
               ++ [EvUpdateDescriptorSets (Z.of_nat (length writes)) writes] /\
    Forall isCreateBufferView pre /\
    map WriteDescriptorSet.dstBinding writes
    = (if decide (BindlessLayoutDesc.layoutType desc = LayoutType.Immutable)
       then matchingLocations (BindlessLayoutDesc.registerSpaces desc)
              (BindingSetItem.type binding)
       else [0]) /\
    Forall (tableWriteFor table binding) writes.
Proof.
  intros Hlen Hlayout Htype Hslot Hrun.
  destruct (createBindlessLayout_schema _ _ _ _ _ Hlen Hlayout) as [Hdesc Hschema].
  unfold writeDescriptorTable in Hrun.
  rewrite bool_decide_eq_false_2 in Hrun by lia.
  rewrite bool_decide_eq_false_2 in Hrun by exact Htype.
  rewrite Hdesc in Hrun.
  apply bind_inv in Hrun. destruct Hrun as (st & w1 & Hwrites & Hrun).
  apply bind_inv in Hrun. destruct Hrun as (u & w2 & Hemit & Hrun).
  unfold ret in Hrun. injection Hrun as <- <-. split; [reflexivity|].
  rewrite emit_addErrors in Hemit. injection Hemit as _ <-. cbn [trace addErrors].
  destruct (decide (BindlessLayoutDesc.layoutType desc = LayoutType.Immutable)) as [Himm|Hmut].
  - rewrite bool_decide_eq_false_2 in Hwrites by tauto.
    rewrite wrap32_small in Hwrites by lia.
    destruct (writeMatchingSpace_loop _ _ _ _ _ _ _ _ Hdesc Hschema Hwrites)
      as (pre & writes & Htr & Hpre & Hw & Hloc & Hall).
    cbn in Hw. rewrite Hw. exists pre, writes.
    assert (Hn : Z.of_nat (length writes) < 2 ^ 32).
    { rewrite <- (length_map WriteDescriptorSet.dstBinding), Hloc.
      pose proof (length_filter
        (fun i => BindingLayoutItem.type
                    <$> BindlessLayoutDesc.registerSpaces desc !! Z.to_nat i
                  = Some (BindingSetItem.type binding))
        (seqZ 0 (Z.of_nat (length (BindlessLayoutDesc.registerSpaces desc))))) as Hle.
      rewrite length_seqZ in Hle. lia. }
    rewrite wrap32_small by lia. unfold addErrors. cbn [trace].
    rewrite Htr, <- app_assoc.
    split; [reflexivity|]. split; [exact Hpre|]. split; [exact Hloc|exact Hall].
  - rewrite bool_decide_eq_true_2 in Hwrites by exact Hmut.
    apply bind_inv in Hwrites. destruct Hwrites as (u' & w3 & Hassert & Hwrites).
    apply assert_inv in Hassert. destruct Hassert as [_ ->].
    apply bind_inv in Hwrites. destruct Hwrites as (layoutBinding & w3 & Hlb & Hwrites).
    apply at_inv in Hlb. destruct Hlb as (_ & Hlb & ->).
    rewrite Hschema in Hlb. cbn in Hlb. injection Hlb as <-.
    apply writeDescriptorForBinding_inv in Hwrites.
    destruct Hwrites as (pre & write & Htr & Hpre & Hw & Hloc & Hfor).
    cbn in Hw. rewrite Hw. exists pre, [write]. cbn [length map].
    rewrite wrap32_small by lia. unfold addErrors. cbn [trace].
    rewrite Htr, <- app_assoc.
    split; [reflexivity|]. split; [exact Hpre|].
    split; [rewrite Hloc; reflexivity|]. constructor; [exact Hfor|constructor].
Qed.

End TableWrites.

(** The sample table is on the layout that createBindlessLayout makes. *)
Lemma sample_table_layout :
  exists w,
    createBindlessLayout (H := sample_collaborators) sample_context sample_bindlessDesc
      emptyWorld = Ok (DescriptorTable.layout sample_table, w).
Proof. eexists. vm_compute. reflexivity. Qed.

Lemma write_targets_matching_spaces_witness :
  exists w' pre writes,
    writeDescriptorTable (H := sample_collaborators) sample_table
      (sample_rawBufferBinding 5) emptyWorld = Ok (true, w') /\
    trace w' = pre ++ [EvUpdateDescriptorSets (Z.of_nat (length writes)) writes] /\
    map WriteDescriptorSet.dstBinding writes = [1].
Proof.
  assert (Hrun : writeDescriptorTable (H := sample_collaborators) sample_table
                   (sample_rawBufferBinding 5) emptyWorld
                 = Ok (true,
                       mkWorld
                         [EvUpdateDescriptorSets 1
                            [WriteDescriptorSet.mk 71 1 5 1 eStorageBuffer
                               (WriteDescriptorSet.BufferInfo 41 0 256)]] ∅ []))
    by (vm_compute; reflexivity).
  destruct sample_table_layout as [w0' Hlayout].
  assert (Hlen : Z.of_nat (length (BindlessLayoutDesc.registerSpaces sample_bindlessDesc))
                 < 2 ^ 32) by (simpl; lia).
  assert (Htype : BindingSetItem.type (sample_rawBufferBinding 5) <> ResourceType.None)
    by discriminate.
  assert (Hslot : BindingSetItem.slot (sample_rawBufferBinding 5)
                  < DescriptorTable.capacity sample_table) by (simpl; lia).
  destruct (write_targets_matching_spaces (H := sample_collaborators) sample_context
              sample_bindlessDesc sample_table (sample_rawBufferBinding 5)
              emptyWorld w0' emptyWorld _ true Hlen Hlayout Htype Hslot Hrun)
    as (_ & pre & writes & Htrace & _ & Hloc & _).
  eexists _, pre, writes. split; [exact Hrun|]. split; [exact Htrace|exact Hloc].
Defined.

(** The claim of a single-element update fails on the sample table: its
    layout has two register spaces of textures, and a texture binding is
    written to both in one call of two elements. *)
Lemma single_element_update_counterexample :
  BindingSetItem.type (sample_textureBinding 5) <> ResourceType.None /\
  BindingSetItem.slot (sample_textureBinding 5) < DescriptorTable.capacity sample_table /\
  writeDescriptorTable (H := sample_collaborators) sample_table (sample_textureBinding 5)
    emptyWorld
  = Ok (true,
        mkWorld
          [EvUpdateDescriptorSets 2
             [WriteDescriptorSet.mk 71 0 5 1 eSampledImage
                (WriteDescriptorSet.ImageInfo 501 0 eShaderReadOnlyOptimal);
              WriteDescriptorSet.mk 71 2 5 1 eSampledImage
                (WriteDescriptorSet.ImageInfo 501 0 eShaderReadOnlyOptimal)]] ∅ []) /\
  ~ issuesSingleElementUpdate (H := sample_collaborators) sample_table
      (sample_textureBinding 5) emptyWorld.
Proof.
  split; [discriminate|]. split; [simpl; lia|].
  assert (Hrun : writeDescriptorTable (H := sample_collaborators) sample_table
                   (sample_textureBinding 5) emptyWorld
                 = Ok (true,
                       mkWorld
                         [EvUpdateDescriptorSets 2
                            [WriteDescriptorSet.mk 71 0 5 1 eSampledImage
                               (WriteDescriptorSet.ImageInfo 501 0 eShaderReadOnlyOptimal);
                             WriteDescriptorSet.mk 71 2 5 1 eSampledImage
                               (WriteDescriptorSet.ImageInfo 501 0 eShaderReadOnlyOptimal)]]
                         ∅ [])) by (vm_compute; reflexivity).
  split; [exact Hrun|].
  intros Hclaim. destruct (Hclaim _ Hrun) as [write Hsingle].
  vm_compute in Hsingle. discriminate Hsingle.
Qed.

(** ** Binding descriptor sets *)

Section BindLoop.
Context `{Collaborators}.
Variable m_VolatileBufferStates : gmap Z VolatileBufferState.t.
Variables bindPoint pipelineLayout : Z.

(** The offset the code computes for a written buffer is the product of the
    version and the byte size, once the product passes the assertion. *)
Lemma offset_exact (version byteSize : Z) :
  0 <= version -> 0 <= byteSize -> version * byteSize < UINT32_MAX ->
  wrap64 (wrap32 version * byteSize) < UINT32_MAX /\
  wrap32 (wrap64 (wrap32 version * byteSize)) = version * byteSize.
Proof.
  unfold UINT32_MAX. intros Hv Hb Hprod.
  destruct (decide (byteSize = 0)) as [->|Hnz].
  - rewrite !Z.mul_0_r. unfold wrap64, wrap32. rewrite !Z.mod_0_l by lia. lia.
  - assert (Hle : version <= version * byteSize) by nia.
    rewrite (wrap32_small version) by lia.
    unfold wrap64. rewrite Z.mod_small by nia.
    rewrite wrap32_small by nia. lia.
Qed.

Lemma pushVolatileOffset_loop (buffers : list Buffer.t) (dynamicOffsets : list Z)
    (w : World) :
  Forall (offsetRepresentable m_VolatileBufferStates) buffers ->
  (length dynamicOffsets + length buffers <= c_MaxVolatileConstantBuffers)%nat ->
  foldM (pushVolatileOffset m_VolatileBufferStates) buffers dynamicOffsets w
  = Ok (dynamicOffsets ++ map (dynamicOffsetOf m_VolatileBufferStates) buffers,
        addErrors w (map unwrittenError
                       (filter (unwritten m_VolatileBufferStates) buffers))).
Proof.
  intros Hrep. revert dynamicOffsets w.
  induction Hrep as [|buffer buffers Hbuffer _ IH]; intros dyn w Hcap.
  - cbn. rewrite app_nil_r, addErrors_nil. reflexivity.
  - cbn [length] in Hcap. cbn [foldM]. unfold bind at 1.
    unfold pushVolatileOffset at 1. unfold offsetRepresentable in Hbuffer.
    cbn [map]. unfold dynamicOffsetOf at 1.
    destruct (m_VolatileBufferStates !! Buffer.address buffer) as [found|] eqn:Hfound.
    + destruct Hbuffer as (Hv & Hb & Hprod).
      destruct (offset_exact _ _ Hv Hb Hprod) as [Hassert Hexact].
      unfold bind at 1. rewrite bool_decide_eq_true_2 by exact Hassert.
      rewrite assert_true, push_back_ok by lia. rewrite Hexact.
      rewrite IH by (rewrite length_app; cbn; lia).
      rewrite <- app_assoc. cbn [app].
      rewrite filter_cons_False by (unfold unwritten; rewrite Hfound; discriminate).
      reflexivity.
    + unfold error, bind at 1. rewrite emit_addErrors, push_back_ok by lia.
      rewrite IH by (rewrite length_app; cbn; lia).
      rewrite <- app_assoc, addErrors_app. cbn [app].
      rewrite filter_cons_True by exact Hfound. reflexivity.
Qed.

Lemma lookup_map {A B} (f : A -> B) (l : list A) (i : nat) :
  map f l !! i = f <$> l !! i.
Proof.
  revert i. induction l as [|x l IH]; intros [|i]; cbn; try reflexivity. apply IH.
Qed.

Lemma bindingSetHandleAt_ok bindings descriptorSetIdxToBindingIdx (i : nat) h w :
  validIndexMap bindings descriptorSetIdxToBindingIdx ->
  resolvedHandles bindings descriptorSetIdxToBindingIdx !! i = Some h ->
  bindingSetHandleAt bindings descriptorSetIdxToBindingIdx (Z.of_nat i) w = Ok (h, w).
Proof.
  intros Hvalid Hh. unfold bindingSetHandleAt, resolvedHandles in *.
  destruct (decide (descriptorSetIdxToBindingIdx = [])) as [->|Hne].
  - rewrite bool_decide_eq_true_2 by reflexivity. apply at_ok. exact Hh.
  - rewrite bool_decide_eq_false_2 by exact Hne.
    rewrite lookup_map in Hh.
    destruct (descriptorSetIdxToBindingIdx !! i) as [idx|] eqn:Hidx; [|discriminate].
    cbn in Hh. injection Hh as <-.
    rewrite (bind_Ok _ _ _ _ _ (at_ok _ _ _ w Hidx)).
    destruct (decide (idx = c_Hole)) as [->|Hhole].
    + rewrite bool_decide_eq_false_2 by tauto. reflexivity.
    + rewrite bool_decide_eq_true_2 by exact Hhole.
      unfold validIndexMap in Hvalid. rewrite Forall_lookup in Hvalid.
      destruct (Hvalid _ _ Hidx) as [?|Hrange]; [contradiction|].
      destruct (lookup_lt_is_Some_2 bindings (Z.to_nat idx)) as [x Hx]; [lia|].
      rewrite Hx. cbn. rewrite <- (Z2Nat.id idx) at 1 by lia.
      apply at_ok. exact Hx.
Qed.

Lemma runsFrom_head (hs : list (option IBindingSet)) (start : nat)
    (cur : list IBindingSet) :
  cur <> [] ->
  exists ext rest, runsFrom start cur hs = (start, cur ++ ext) :: rest.
Proof.
  revert start cur. induction hs as [|[h|] hs IH]; intros start cur Hcur.
  - exists [], []. rewrite app_nil_r. cbn. destruct cur; [contradiction|reflexivity].
  - cbn. destruct (IH start (cur ++ [h])) as (ext & rest & ->).
    { destruct cur; discriminate. }
    exists (h :: ext), rest. rewrite <- app_assoc. reflexivity.
  - cbn. exists [], (runsFrom (start + length cur + 1) [] hs).
    rewrite app_nil_r. destruct cur; [contradiction|reflexivity].
Qed.

(** The loop of [bindBindingSets] from position [pos] on, followed by the
    bind of the remaining sets: the trace gets the events of the runs. *)
Lemma bind_loop bindings descriptorSetIdxToBindingIdx :
  validIndexMap bindings descriptorSetIdxToBindingIdx ->
  forall (hs : list (option IBindingSet)) (pos start : nat) (cur : list IBindingSet)
         (w : World) (pre : list Event),
    (forall i h, hs !! i = Some h ->
       resolvedHandles bindings descriptorSetIdxToBindingIdx !! (pos + i)%nat = Some h) ->
    pos = (start + length cur)%nat ->
    Z.of_nat (pos + length hs) < 2 ^ 32 ->
    Forall (runFits m_VolatileBufferStates) (runsFrom start cur hs) ->
    trace w = pre ++ map unwrittenError
                       (filter (unwritten m_VolatileBufferStates)
                          (flat_map volatileBuffersOf cur)) ->
    exists w',
      bind (foldM (bindBindingSets_step m_VolatileBufferStates bindPoint pipelineLayout
                     bindings descriptorSetIdxToBindingIdx)
              (seqZ (Z.of_nat pos) (Z.of_nat (length hs)))
              (loopState m_VolatileBufferStates start cur))
        (bindRemaining bindPoint pipelineLayout) w
      = Ok (tt, w') /\
      trace w' = pre ++ flat_map (runEvents m_VolatileBufferStates bindPoint pipelineLayout)
                          (runsFrom start cur hs).
Proof.
  intros Hvalid hs.
  induction hs as [|h hs IH]; intros pos start cur w pre Hres Hpos Hlen Hfits Htrace.
  - (* after the loop *)
    change (seqZ (Z.of_nat pos) (Z.of_nat (length (@nil (option IBindingSet))))) with (@nil Z).
    cbn [foldM]. unfold bind, ret, bindRemaining.
    cbn [loopState BindLoop.descriptorSets runsFrom].
    destruct cur as [|c cur].
    + rewrite bool_decide_eq_false_2 by (cbn; tauto).
      exists w. split; [reflexivity|]. cbn in Htrace |- *. exact Htrace.
    + rewrite bool_decide_eq_true_2 by (cbn; discriminate).
      unfold bindDescriptorSets. rewrite emit_addErrors.
      eexists. split; [reflexivity|]. unfold addErrors. cbn [trace flat_map].
      rewrite Htrace, app_nil_r, <- app_assoc. f_equal. unfold runEvents. f_equal.
      unfold runCall, runBuffers. cbn [fst snd loopState BindLoop.descriptorSets
        BindLoop.nextDescriptorSetToBind BindLoop.dynamicOffsets].
      rewrite length_map, wrap32_small; [reflexivity|].
      cbn [length] in *. lia.
  - (* one turn *)
    cbn [length] in Hlen |- *.
    rewrite seqZ_cons by lia. cbn [foldM].
    replace (Z.succ (Z.of_nat pos)) with (Z.of_nat (S pos)) by lia.
    replace (Z.pred (Z.of_nat (S (length hs)))) with (Z.of_nat (length hs)) by lia.
    pose proof (Hres 0%nat h eq_refl) as Hh. rewrite Nat.add_0_r in Hh.
    assert (Hres' : forall i h', hs !! i = Some h' ->
              resolvedHandles bindings descriptorSetIdxToBindingIdx !! (S pos + i)%nat
              = Some h').
    { intros i h' Hi. rewrite <- (Hres (S i) h' Hi). f_equal. lia. }
    unfold bind at 1. unfold bind at 1. unfold bindBindingSets_step at 1.
    rewrite (bind_Ok _ _ _ _ _ (bindingSetHandleAt_ok _ _ _ _ w Hvalid Hh)).
    destruct h as [h|].
    + (* a concrete handle *)
      cbn [runsFrom] in Hfits.
      destruct (runsFrom_head hs start (cur ++ [h])) as (ext & rest & Hhead).
      { destruct cur; discriminate. }
      pose proof Hfits as Hfits0.
      rewrite Hhead in Hfits. apply Forall_cons in Hfits.
      destruct Hfits as [(Hsets & Hoffsets & Hrep) _].
      unfold runBuffers in Hoffsets, Hrep. cbn [snd] in Hsets, Hoffsets, Hrep.
      rewrite <- !app_assoc in Hsets, Hoffsets, Hrep.
      rewrite !flat_map_app in Hoffsets, Hrep.
      rewrite !length_app in Hsets, Hoffsets. cbn [length flat_map] in Hsets, Hoffsets.
      rewrite length_app in Hoffsets.
      apply Forall_app in Hrep. destruct Hrep as [_ Hrep].
      apply Forall_app in Hrep. destruct Hrep as [Hrep _].
      cbn [flat_map] in Hrep. rewrite app_nil_r in Hrep.
      assert (Hstate : forall wx,
        exists wy,
          (match h with
           | IsBindingSet bindingSet =>
               descriptorSets <-
                 push_back c_MaxBindingLayouts
                   (BindLoop.descriptorSets (loopState m_VolatileBufferStates start cur))
                   (BindingSet.descriptorSet bindingSet) ;;
               dynamicOffsets <-
                 foldM (pushVolatileOffset m_VolatileBufferStates)
                   (BindingSet.volatileConstantBuffers bindingSet)
                   (BindLoop.dynamicOffsets (loopState m_VolatileBufferStates start cur)) ;;
               (if BindingSetDesc.trackLiveness (BindingSet.desc bindingSet)
                then referenceResource (IsBindingSet bindingSet)
                else ret tt) ;;;
               ret (BindLoop.mk descriptorSets
                      (BindLoop.nextDescriptorSetToBind
                         (loopState m_VolatileBufferStates start cur))
                      dynamicOffsets)
           | IsDescriptorTable table =>
               descriptorSets <-
                 push_back c_MaxBindingLayouts
                   (BindLoop.descriptorSets (loopState m_VolatileBufferStates start cur))
                   (DescriptorTable.descriptorSet table) ;;
               ret (BindLoop.mk descriptorSets
                      (BindLoop.nextDescriptorSetToBind
                         (loopState m_VolatileBufferStates start cur))
                      (BindLoop.dynamicOffsets
                         (loopState m_VolatileBufferStates start cur)))
           end) wx
          = Ok (loopState m_VolatileBufferStates start (cur ++ [h]), wy) /\
          trace wy = trace wx ++ map unwrittenError
                                   (filter (unwritten m_VolatileBufferStates)
                                      (volatileBuffersOf h))).
      { intros wx. unfold loopState.
        cbn [BindLoop.descriptorSets BindLoop.nextDescriptorSetToBind
             BindLoop.dynamicOffsets].
        rewrite flat_map_app, !map_app. cbn [flat_map map]. rewrite app_nil_r.
        assert (Hcap1 : (length (map handleDescriptorSet cur) < c_MaxBindingLayouts)%nat)
          by (rewrite length_map; lia).
        destruct h as [bindingSet|table];
          cbn [volatileBuffersOf handleDescriptorSet length] in *.
        - assert (Hcap2 : (length (map (dynamicOffsetOf m_VolatileBufferStates)
                                     (flat_map volatileBuffersOf cur))
                           + length (BindingSet.volatileConstantBuffers bindingSet)
                           <= c_MaxVolatileConstantBuffers)%nat)
            by (rewrite length_map; lia).
          rewrite (bind_Ok _ _ _ _ _ (push_back_ok _ _ _ wx Hcap1)).
          rewrite (bind_Ok _ _ _ _ _ (pushVolatileOffset_loop _ _ wx Hrep Hcap2)).
          destruct (BindingSetDesc.trackLiveness (BindingSet.desc bindingSet)).
          + eexists. unfold bind, referenceResource, ret. split; reflexivity.
          + eexists. unfold bind, ret. split; reflexivity.
        - rewrite (bind_Ok _ _ _ _ _ (push_back_ok _ _ _ wx Hcap1)).
          exists wx. unfold ret. cbn. rewrite !app_nil_r. split; reflexivity. }
      destruct (Hstate w) as (w1 & Hstep & Htr1). rewrite Hstep.
      destruct (IH (S pos) start (cur ++ [h]) w1 pre Hres') as (w' & Hrun & Htr').
      * rewrite length_app. cbn [length]. lia.
      * lia.
      * exact Hfits0.
      * rewrite Htr1, Htrace, <- app_assoc. rewrite flat_map_app, filter_app, map_app.
        cbn [flat_map]. rewrite app_nil_r. reflexivity.
      * exists w'. split; [exact Hrun|]. exact Htr'.
    + (* a hole *)
      cbn [runsFrom] in Hfits |- *.
      unfold bind at 1.
      assert (Hnext : wrap32 (Z.of_nat pos + 1) = Z.of_nat (start + length cur + 1)).
      { rewrite wrap32_small by lia. lia. }
      destruct cur as [|c cur].
      * cbn [loopState map BindLoop.descriptorSets flat_map].
        rewrite bool_decide_eq_false_2 by tauto.
        unfold ret at 1 2. cbn [BindLoop.descriptorSets BindLoop.dynamicOffsets].
        rewrite Hnext.
        destruct (IH (S pos) (start + length (@nil IBindingSet) + 1)%nat [] w pre Hres')
          as (w' & Hrun & Htr').
        -- cbn [length] in *. lia.
        -- lia.
        -- exact Hfits.
        -- exact Htrace.
        -- exists w'. split; [exact Hrun|exact Htr'].
      * rewrite bool_decide_eq_true_2 by (cbn; discriminate).
        unfold bindDescriptorSets. unfold bind at 1. rewrite emit_addErrors.
        unfold ret at 1 2. cbn [BindLoop.descriptorSets BindLoop.dynamicOffsets].
        rewrite Hnext. cbn [app] in Hfits. apply Forall_cons in Hfits.
        destruct Hfits as [_ Hfits].
        match goal with |- context [addErrors w [?e]] => set (call := e) end.
        destruct (IH (S pos) (start + length (c :: cur) + 1)%nat [] (addErrors w [call])
                    (pre ++ runEvents m_VolatileBufferStates bindPoint pipelineLayout
                              (start, c :: cur)) Hres')
          as (w' & Hrun & Htr').
        -- cbn [length] in *. lia.
        -- lia.
        -- exact Hfits.
        -- unfold addErrors. cbn [trace flat_map filter map]. rewrite app_nil_r.
           rewrite Htrace, <- app_assoc. f_equal. unfold runEvents. f_equal.
           subst call. unfold runCall, runBuffers.
           cbn [fst snd loopState BindLoop.descriptorSets
                BindLoop.nextDescriptorSetToBind BindLoop.dynamicOffsets].
           rewrite length_map, wrap32_small; [reflexivity|].
           cbn [length] in *. lia.
        -- exists w'. split; [exact Hrun|].
           rewrite Htr'. cbn [app flat_map]. rewrite <- app_assoc. reflexivity.
Qed.

End BindLoop.

(** ** Runs of concrete handles *)

Section Runs.

Lemma maximalRun_concrete (all : list (option IBindingSet)) (s n : nat) :
  MaximalRun all s n -> exists h, all !! s = Some (Some h).
Proof. intros (Hn & Hconcrete & _). apply Hconcrete. lia. Qed.

(** A maximal run that begins inside a stretch of concrete handles closed
    on both sides is that stretch. *)
Lemma maximalRun_inside (all : list (option IBindingSet)) (start len s n : nat) :
  (forall i, (start <= i < start + len)%nat -> exists h, all !! i = Some (Some h)) ->
  (all !! (start + len)%nat = Datatypes.None
   \/ all !! (start + len)%nat = Some Datatypes.None) ->
  MaximalRun all s n ->
  (start <= s < start + len)%nat ->
  s = start /\ n = len.
Proof.
  intros Hstretch Hend (Hn & Hconcrete & Hleft & Hright) Hs.
  assert (s = start) as ->.
  { destruct (decide (s = start)) as [|Hne]; [assumption|].
    destruct Hleft as [->|Hleft]; [lia|].
    destruct (Hstretch (s - 1)%nat) as [h Hh]; [lia|]. congruence. }
  split; [reflexivity|].
  destruct (decide (start + n < start + len)%nat) as [Hlt|Hge].
  - destruct (Hstretch (start + n)%nat) as [h Hh]; [lia|].
    destruct Hright; congruence.
  - destruct (decide (start + len < start + n)%nat) as [Hgt|Hle]; [|lia].
    destruct (Hconcrete (start + len)%nat) as [h Hh]; [lia|].
    destruct Hend; congruence.
Qed.

Lemma runsFrom_maximal (all hs : list (option IBindingSet)) :
  forall (start : nat) (cur : list IBindingSet),
    (forall i, (start <= i < start + length cur)%nat ->
               exists h, all !! i = Some (Some h)) ->
    (start = 0%nat \/ all !! (start - 1)%nat = Some Datatypes.None) ->
    (forall j, all !! (start + length cur + j)%nat = hs !! j) ->
    forall s n,
      In (s, n) (map runShape (runsFrom start cur hs))
      <-> MaximalRun all s n /\ (start <= s)%nat.
Proof.
  induction hs as [|h hs IH]; intros start cur Hstretch Hleft Hrest s n.
  - (* the vector ends after [cur] *)
    assert (Hend : all !! (start + length cur)%nat = Datatypes.None).
    { rewrite <- (Nat.add_0_r (start + length cur)). rewrite Hrest. reflexivity. }
    cbn [runsFrom]. split.
    + destruct cur as [|c cur]; [intros []|].
      intros [[= <- <-]|[]]. split; [|lia].
      split; [cbn; lia|]. split; [exact Hstretch|]. auto.
    + intros [Hmax Hs].
      destruct (maximalRun_concrete _ _ _ Hmax) as [h Hh].
      assert (Hin : (s < start + length cur)%nat).
      { destruct (decide (s < start + length cur)%nat) as [|Hge]; [assumption|].
        replace s with (start + length cur + (s - (start + length cur)))%nat in Hh by lia.
        rewrite Hrest in Hh. rewrite lookup_nil in Hh. discriminate. }
      destruct (maximalRun_inside all start (length cur) s n Hstretch (or_introl Hend)
                  Hmax ltac:(lia)) as [-> ->].
      destruct cur as [|c cur]; [cbn in Hin; lia|]. left. reflexivity.
  - destruct h as [h|].
    + (* the run goes on *)
      cbn [runsFrom]. rewrite (IH start (cur ++ [h])); [reflexivity| |exact Hleft|].
      * intros i Hi. rewrite length_app in Hi. cbn [length] in Hi.
        destruct (decide (i < start + length cur)%nat) as [Hlt|Hge].
        -- apply Hstretch. lia.
        -- replace i with (start + length cur + 0)%nat by lia.
           rewrite Hrest. exists h. reflexivity.
      * intros j. rewrite length_app. cbn [length].
        replace (start + (length cur + 1) + j)%nat with (start + length cur + S j)%nat
          by lia.
        rewrite Hrest. reflexivity.
    + (* a hole closes the run *)
      assert (Hend : all !! (start + length cur)%nat = Some Datatypes.None).
      { rewrite <- (Nat.add_0_r (start + length cur)). rewrite Hrest. reflexivity. }
      cbn [runsFrom]. rewrite map_app, in_app_iff.
      rewrite (IH (start + length cur + 1)%nat []).
      * split.
        -- intros [Hhead|[Hmax Hs]]; [|split; [exact Hmax|lia]].
           destruct cur as [|c cur]; [destruct Hhead|].
           destruct Hhead as [[= <- <-]|[]]. split; [|lia].
           split; [cbn; lia|]. split; [exact Hstretch|]. auto.
        -- intros [Hmax Hs].
           destruct (decide (start + length cur + 1 <= s)%nat) as [Hfar|Hnear];
             [right; auto|]. left.
           destruct (maximalRun_concrete _ _ _ Hmax) as [h Hh].
           assert (Hin : (s < start + length cur)%nat).
           { destruct (decide (s = start + length cur)%nat) as [->|]; [congruence|lia]. }
           destruct (maximalRun_inside all start (length cur) s n Hstretch
                       (or_intror Hend) Hmax ltac:(lia)) as [-> ->].
           destruct cur as [|c cur]; [cbn in Hin; lia|]. left. reflexivity.
      * intros i Hi. cbn [length] in Hi. lia.
      * right. rewrite <- Hend. f_equal. lia.
      * intros j. cbn [length].
        replace (start + length cur + 1 + 0 + j)%nat with (start + length cur + S j)%nat
          by lia.
        rewrite Hrest. reflexivity.
Qed.

(** The runs are exactly the maximal runs of the vector. *)
Lemma runsOf_maximal (hs : list (option IBindingSet)) (s n : nat) :
  In (s, n) (map runShape (runsOf hs)) <-> MaximalRun hs s n.
Proof.
  unfold runsOf. rewrite (runsFrom_maximal hs hs 0 []).
  - split; [tauto|]. intros Hmax. split; [exact Hmax|lia].
  - intros i Hi. cbn in Hi. lia.
  - left. reflexivity.
  - intros j. reflexivity.
Qed.

(** Each run begins at or after [start], and no two runs begin at the same
    position. *)
Lemma runsFrom_starts (hs : list (option IBindingSet)) :
  forall (start : nat) (cur : list IBindingSet),
    Forall (fun r => (start <= fst r)%nat) (runsFrom start cur hs) /\
    NoDup (map fst (runsFrom start cur hs)).
Proof.
  induction hs as [|[h|] hs IH]; intros start cur.
  - cbn. destruct cur; split; repeat constructor.
    intros Hin. apply elem_of_nil in Hin. exact Hin.
  - cbn [runsFrom]. apply IH.
  - cbn [runsFrom]. destruct (IH (start + length cur + 1)%nat []) as (Hge & Hnd).
    assert (Hge' : Forall (fun r => (start <= fst r)%nat)
                     (runsFrom (start + length cur + 1) [] hs)).
    { eapply Forall_impl; [exact Hge|]. cbn. intros r Hr. lia. }
    destruct cur as [|c cur]; cbn [app]; split.
    + exact Hge'.
    + exact Hnd.
    + constructor; [cbn; lia|exact Hge'].
    + cbn [map fst]. apply NoDup_cons. split; [|exact Hnd].
      intros Hin. apply list_elem_of_In, in_map_iff in Hin.
      destruct Hin as (r & Hr & Hin). rewrite Forall_forall in Hge.
      apply list_elem_of_In in Hin. specialize (Hge r Hin). cbn [length] in Hge. lia.
Qed.

Lemma runsOf_NoDup (hs : list (option IBindingSet)) : NoDup (map fst (runsOf hs)).
Proof. apply (runsFrom_starts hs 0 []). Qed.

End Runs.

(** ** What [bindBindingSets] emits *)

Section BindTheorems.
Context `{Collaborators}.

Lemma resolvedHandles_length bindings descriptorSetIdxToBindingIdx :
  length (resolvedHandles bindings descriptorSetIdxToBindingIdx)
  = if decide (descriptorSetIdxToBindingIdx = []) then length bindings
    else length descriptorSetIdxToBindingIdx.
Proof.
  unfold resolvedHandles. destruct (decide _); [reflexivity|apply length_map].
Qed.

(** On the inputs it is made for, [bindBindingSets] returns, and what it
    adds to the trace are the events of the runs of the resolved handles. *)
Lemma bindBindingSets_trace m_VolatileBufferStates bindPoint pipelineLayout
    bindings descriptorSetIdxToBindingIdx w :
  bindable m_VolatileBufferStates bindings descriptorSetIdxToBindingIdx ->
  exists w',
    bindBindingSets m_VolatileBufferStates bindPoint pipelineLayout bindings
      descriptorSetIdxToBindingIdx w = Ok (tt, w') /\
    trace w' = trace w
               ++ flat_map (runEvents m_VolatileBufferStates bindPoint pipelineLayout)
                    (runsOf (resolvedHandles bindings descriptorSetIdxToBindingIdx)).
Proof.
  intros (Hvalid & Hlen & Hfits).
  set (hs := resolvedHandles bindings descriptorSetIdxToBindingIdx) in *.
  destruct (bind_loop m_VolatileBufferStates bindPoint pipelineLayout bindings
              descriptorSetIdxToBindingIdx Hvalid hs 0%nat 0%nat [] w (trace w))
    as (w' & Hrun & Htrace).
  - intros i h Hi. exact Hi.
  - reflexivity.
  - cbn. lia.
  - exact Hfits.
  - cbn. rewrite app_nil_r. reflexivity.
  - exists w'. split; [|exact Htrace].
    rewrite <- Hrun. unfold bindBindingSets.
    assert (Hn : (if bool_decide (descriptorSetIdxToBindingIdx = [])
                  then wrap32 (Z.of_nat (length bindings))
                  else wrap32 (Z.of_nat (length descriptorSetIdxToBindingIdx)))
                 = Z.of_nat (length hs)).
    { subst hs. rewrite resolvedHandles_length in Hlen |- *.
      destruct (decide (descriptorSetIdxToBindingIdx = [])) as [Hempty|Hmap].
      - rewrite bool_decide_eq_true_2 by exact Hempty. apply wrap32_small. lia.
      - rewrite bool_decide_eq_false_2 by exact Hmap. apply wrap32_small. lia. }
    cbv zeta. rewrite Hn. reflexivity.
Qed.

Lemma bindCallsOf_app (tr1 tr2 : list Event) :
  bindCallsOf (tr1 ++ tr2) = bindCallsOf tr1 ++ bindCallsOf tr2.
Proof. apply flat_map_app. Qed.

Lemma bindCallsOf_errors (buffers : list Buffer.t) :
  bindCallsOf (map unwrittenError buffers) = [].
Proof. induction buffers as [|b buffers IH]; [reflexivity|exact IH]. Qed.

Lemma bindCallsOf_runs m_VolatileBufferStates bindPoint pipelineLayout
    (runs : list (nat * list IBindingSet)) :
  bindCallsOf (flat_map (runEvents m_VolatileBufferStates bindPoint pipelineLayout) runs)
  = map (fun r => (Z.of_nat (fst r), Z.of_nat (length (snd r)),
                   map handleDescriptorSet (snd r),
                   map (dynamicOffsetOf m_VolatileBufferStates) (runBuffers r))) runs.
Proof.
  induction runs as [|r runs IH]; [reflexivity|].
  cbn [flat_map map]. rewrite bindCallsOf_app, IH. unfold runEvents at 1.
  rewrite bindCallsOf_app, bindCallsOf_errors. reflexivity.
Qed.

(** C3. For every binding-set vector and index map (empty or not) that are
    [bindable] (every entry of the map is the hole mark or an index into the
    vector, each run fits the vectors of the loop, and the offsets of the
    written buffers pass the assertion of the code), bindBindingSets returns
    and issues exactly one bind call per maximal run of concrete handles, in
    the order of the runs: the call's first set is the position at which the
    run begins, its count the length of the run, its sets the descriptor sets
    of the handles of the run.  The runs are the maximal runs of the handles
    resolved through the index map (or taken directly without one), each
    once, so no call spans a hole. *)
Theorem bind_calls_are_the_maximal_runs
    (m_VolatileBufferStates : gmap Z VolatileBufferState.t)
    (bindPoint pipelineLayout : Z) (bindings : list (option IBindingSet))
    (descriptorSetIdxToBindingIdx : list Z) (w : World) :
  bindable m_VolatileBufferStates bindings descriptorSetIdxToBindingIdx ->
  exists w',
    bindBindingSets m_VolatileBufferStates bindPoint pipelineLayout bindings
      descriptorSetIdxToBindingIdx w = Ok (tt, w') /\
    let handles := resolvedHandles bindings descriptorSetIdxToBindingIdx in
    map (fun call => fst call)
      (bindCallsOf (drop (length (trace w)) (trace w')))
    = map (fun r => (Z.of_nat (fst r), Z.of_nat (length (snd r)),
                     map handleDescriptorSet (snd r)))
        (runsOf handles) /\
    (forall s n, In (s, n) (map runShape (runsOf handles)) <-> MaximalRun handles s n) /\
    NoDup (map fst (runsOf handles)).
Proof.
  intros Hbindable.
  destruct (bindBindingSets_trace m_VolatileBufferStates bindPoint pipelineLayout
              bindings descriptorSetIdxToBindingIdx w Hbindable) as (w' & Hrun & Htrace).
  exists w'. split; [exact Hrun|]. cbv zeta. split; [|split].
  - rewrite Htrace, drop_app_length, bindCallsOf_runs, map_map. reflexivity.
  - intros s n. apply runsOf_maximal.
  - apply runsOf_NoDup.
Qed.

(** C5. For every binding-set vector and index map that are [bindable]
    (see C3), bindBindingSets returns, and what it adds to the trace is, run
    of concrete handles after run: one diagnostic for each volatile
    constant buffer of the run's binding sets that has no recorded write,
    then the bind call of the run, whose dynamic offsets are those of the
    volatile constant buffers of the run's binding sets, in the order of the
    sets and of the buffers in each set: 0 for a buffer without a recorded
    write, latest version times byte size for a buffer with one. *)
Theorem volatile_offsets_in_declaration_order
    (m_VolatileBufferStates : gmap Z VolatileBufferState.t)
    (bindPoint pipelineLayout : Z) (bindings : list (option IBindingSet))
    (descriptorSetIdxToBindingIdx : list Z) (w : World) :
  bindable m_VolatileBufferStates bindings descriptorSetIdxToBindingIdx ->
  exists w',
    bindBindingSets m_VolatileBufferStates bindPoint pipelineLayout bindings
      descriptorSetIdxToBindingIdx w = Ok (tt, w') /\
    let runs := runsOf (resolvedHandles bindings descriptorSetIdxToBindingIdx) in
    trace w' = trace w
               ++ flat_map (fun r =>
                    map unwrittenError
                      (filter (unwritten m_VolatileBufferStates) (runBuffers r))
                    ++ [runCall m_VolatileBufferStates bindPoint pipelineLayout r]) runs /\
    map (fun call => snd call) (bindCallsOf (drop (length (trace w)) (trace w')))
    = map (fun r => map (dynamicOffsetOf m_VolatileBufferStates)
                      (flat_map volatileBuffersOf (snd r))) runs /\
    (forall buffer,
       m_VolatileBufferStates !! Buffer.address buffer = Datatypes.None ->
       dynamicOffsetOf m_VolatileBufferStates buffer = 0) /\
    (forall buffer found,
       m_VolatileBufferStates !! Buffer.address buffer = Some found ->
       dynamicOffsetOf m_VolatileBufferStates buffer
       = VolatileBufferState.latestVersion found
         * BufferDesc.byteSize (Buffer.desc buffer)).
Proof.
  intros Hbindable.
  destruct (bindBindingSets_trace m_VolatileBufferStates bindPoint pipelineLayout
              bindings descriptorSetIdxToBindingIdx w Hbindable) as (w' & Hrun & Htrace).
  exists w'. split; [exact Hrun|]. cbv zeta. split; [exact Htrace|]. split; [|split].
  - rewrite Htrace, drop_app_length, bindCallsOf_runs, map_map. reflexivity.
  - intros buffer Hnone. unfold dynamicOffsetOf. rewrite Hnone. reflexivity.
  - intros buffer found Hfound. unfold dynamicOffsetOf. rewrite Hfound. reflexivity.
Qed.

End BindTheorems.

Lemma sample_bindable :
  bindable (H := sample_collaborators) sample_volatileStates
    [Some sample_set0; Datatypes.None; Some sample_set2] [].
Proof.
  split; [constructor|]. split; [simpl; lia|].
  unfold runsOf, resolvedHandles. simpl.
  repeat constructor; simpl; try lia.
Qed.

Lemma bind_calls_are_the_maximal_runs_witness :
  exists w',
    bindBindingSets (H := sample_collaborators) sample_volatileStates 0 77
      [Some sample_set0; Datatypes.None; Some sample_set2] [] emptyWorld = Ok (tt, w') /\
    map (fun call => fst (fst call)) (bindCallsOf (trace w')) = [(0, 1); (2, 1)].
Proof.
  destruct (bind_calls_are_the_maximal_runs (H := sample_collaborators)
              sample_volatileStates 0 77
              [Some sample_set0; Datatypes.None; Some sample_set2] [] emptyWorld
              sample_bindable)
    as (w' & Hrun & Hcalls & _).
  exists w'. split; [exact Hrun|].
  cbv zeta in Hcalls. change (drop _ (trace w')) with (trace w') in Hcalls.
  rewrite <- (map_map (fun call => fst call) fst), Hcalls. reflexivity.
Defined.

Lemma volatile_offsets_in_declaration_order_witness :
  exists w',
    bindBindingSets (H := sample_collaborators) sample_volatileStates 0 77
      [Some sample_set0; Datatypes.None; Some sample_set2] [] emptyWorld = Ok (tt, w') /\
    map (fun call => snd call) (bindCallsOf (trace w')) = [[768; 0]; []] /\
    In (unwrittenError (H := sample_collaborators) sample_unwrittenBuffer) (trace w').
Proof.
  destruct (volatile_offsets_in_declaration_order (H := sample_collaborators)
              sample_volatileStates 0 77
              [Some sample_set0; Datatypes.None; Some sample_set2] [] emptyWorld
              sample_bindable)
    as (w' & Hrun & Htrace & Hoffsets & _).
  exists w'. split; [exact Hrun|].
  cbv zeta in Htrace, Hoffsets. change (drop _ (trace w')) with (trace w') in Hoffsets.
  split.
  - rewrite Hoffsets. vm_compute. reflexivity.
  - rewrite Htrace. vm_compute. left. reflexivity.
Defined.

(** ** Pipeline layouts in indexed mode *)

Section PipelineLayouts.
Context `{Collaborators}.

Lemma usesDescriptorSetIdxToBindingIdx_indexed layouts w :
  indexedMode layouts -> usesDescriptorSetIdxToBindingIdx layouts w = Ok (true, w).
Proof.
  unfold indexedMode. induction layouts as [|layout layouts IH]; cbn; [tauto|].
  unfold BindingLayout_getDesc.
  destruct (BindingLayout.isBindless layout); cbn; [exact IH|].
  intros ->. reflexivity.
Qed.

Lemma countRegular_loop layouts n w :
  Forall (fun space => 0 <= space < 2 ^ 32 - 1) (regularSpaces layouts) ->
  foldM countRegularDescriptorSets layouts n w
  = Ok (fold_left (fun n layout =>
                     if BindingLayout.isBindless layout then n
                     else Z.max n (spaceOf layout + 1)) layouts n, w).
Proof.
  revert n. induction layouts as [|layout layouts IH]; intros n Hspaces; [reflexivity|].
  cbn [foldM fold_left]. unfold bind, countRegularDescriptorSets at 1.
  unfold BindingLayout_getDesc, regularSpaces, isRegular in *.
  destruct (BindingLayout.isBindless layout) eqn:Hb; cbn [negb deref ret].
  - apply IH. rewrite filter_cons_False in Hspaces by congruence. exact Hspaces.
  - rewrite filter_cons_True in Hspaces by exact Hb. cbn [map] in Hspaces.
    apply Forall_cons in Hspaces. destruct Hspaces as [Hspace Hspaces].
    unfold spaceOf in *. unfold bind, ret. rewrite wrap32_small by lia.
    apply IH. exact Hspaces.
Qed.

(** The count is one more than the largest register space, when there is a
    regular layout. *)
Lemma slotCount_bounds layouts n0 :
  let r := fold_left (fun n layout =>
                        if BindingLayout.isBindless layout then n
                        else Z.max n (spaceOf layout + 1)) layouts n0 in
  n0 <= r /\
  Forall (fun space => space + 1 <= r) (regularSpaces layouts) /\
  (r = n0 \/ exists m, In m (regularSpaces layouts) /\ r = m + 1).
Proof.
  revert n0. induction layouts as [|layout layouts IH]; intros n0; cbn zeta.
  - cbn. split; [lia|]. split; [constructor|]. left. reflexivity.
  - cbn [fold_left]. unfold regularSpaces, isRegular in *.
    destruct (BindingLayout.isBindless layout) eqn:Hb.
    + rewrite filter_cons_False by congruence. apply IH.
    + rewrite filter_cons_True by exact Hb. cbn [map].
      destruct (IH (Z.max n0 (spaceOf layout + 1))) as (Hle & Hall & Hmax).
      split; [lia|]. split; [constructor; [lia|exact Hall]|].
      destruct Hmax as [Heq|(m & Hin & Heq)].
      * destruct (Z.max_spec n0 (spaceOf layout + 1)) as [[_ Hm]|[_ Hm]].
        -- right. exists (spaceOf layout). split; [left; reflexivity|lia].
        -- left. lia.
      * right. exists m. split; [right; exact Hin|exact Heq].
Qed.

Lemma regularSlotCount_max layouts :
  indexedMode layouts ->
  Forall (fun space => 0 <= space < 2 ^ 32 - 1) (regularSpaces layouts) ->
  exists m,
    In m (regularSpaces layouts) /\
    Forall (fun space => space <= m) (regularSpaces layouts) /\
    regularSlotCount layouts = 1 + m.
Proof.
  intros Hmode Hspaces.
  destruct (slotCount_bounds layouts 0) as (_ & Hall & Hmax).
  fold (regularSlotCount layouts) in Hall, Hmax.
  assert (Hsome : regularSpaces layouts <> []).
  { unfold indexedMode in Hmode. clear -Hmode. unfold regularSpaces, isRegular.
    induction layouts as [|layout layouts IH]; cbn in Hmode; [tauto|].
    destruct (BindingLayout.isBindless layout) eqn:Hb; cbn in Hmode.
    - rewrite filter_cons_False by congruence. apply IH. exact Hmode.
    - rewrite filter_cons_True by exact Hb. discriminate. }
  destruct Hmax as [Hzero|(m & Hin & Heq)].
  - destruct (regularSpaces layouts) as [|space spaces]; [contradiction|].
    apply Forall_cons in Hall, Hspaces. lia.
  - exists m. split; [exact Hin|]. split; [|lia].
    eapply Forall_impl; [exact Hall|]. cbn. intros space Hspace. lia.
Qed.

Lemma resize_empty {A} (cap : nat) (dflt : A) (n : Z) (w : World) :
  0 <= n -> (Z.to_nat n <= cap)%nat ->
  resize cap dflt [] n w = Ok (replicate (Z.to_nat n) dflt, w).
Proof.
  intros Hn Hcap. unfold resize, bind, assert, ret.
  rewrite !bool_decide_eq_true_2 by assumption. cbn [andb].
  rewrite take_nil. cbn [length app]. rewrite Nat.sub_0_r. reflexivity.
Qed.

Lemma fill_holes (m : nat) :
  forall (k : nat) (v : list Z) (w : World),
    length v = (k + m)%nat ->
    foldM (fun v i => set_at v i c_Hole) (seqZ (Z.of_nat k) (Z.of_nat m)) v w
    = Ok (take k v ++ replicate m c_Hole, w).
Proof.
  induction m as [|m IH]; intros k v w Hlen.
  - change (seqZ (Z.of_nat k) (Z.of_nat 0)) with (@nil Z). cbn [foldM replicate].
    rewrite app_nil_r, take_ge by lia. reflexivity.
  - rewrite seqZ_cons by lia. cbn [foldM].
    replace (Z.succ (Z.of_nat k)) with (Z.of_nat (S k)) by lia.
    replace (Z.pred (Z.of_nat (S m))) with (Z.of_nat m) by lia.
    unfold bind at 1. unfold set_at at 1. unfold bind, assert, ret.
    rewrite Nat2Z.id. rewrite !bool_decide_eq_true_2 by lia. cbn [andb].
    rewrite IH by (rewrite length_insert; lia).
    f_equal. f_equal.
    rewrite (take_S_r _ _ c_Hole) by (apply list_lookup_insert_eq; lia).
    rewrite take_insert_ge by lia. rewrite <- app_assoc. reflexivity.
Qed.

Lemma placeWith_cons {A} (f : Z * BindingLayout.t -> A) p il (slots : list A) :
  placeWith f (p :: il) slots
  = placeWith f il (if BindingLayout.isBindless (snd p) then slots
                    else <[Z.to_nat (spaceOf (snd p)) := f p]> slots).
Proof. reflexivity. Qed.

Lemma placeWith_length {A} (f : Z * BindingLayout.t -> A) il (slots : list A) :
  length (placeWith f il slots) = length slots.
Proof.
  revert slots. induction il as [|p il IH]; intros slots; [reflexivity|].
  rewrite placeWith_cons.
  destruct (BindingLayout.isBindless (snd p)); rewrite IH; [reflexivity|].
  apply length_insert.
Qed.

Lemma placeWith_other {A} (f : Z * BindingLayout.t -> A) il (slots : list A) (k : nat) :
  Forall (fun p => isRegular (snd p) -> Z.to_nat (spaceOf (snd p)) <> k) il ->
  placeWith f il slots !! k = slots !! k.
Proof.
  intros Hother. revert slots.
  induction Hother as [|p il Hp _ IH]; intros slots; [reflexivity|].
  rewrite placeWith_cons. unfold isRegular in Hp.
  destruct (BindingLayout.isBindless (snd p)); rewrite IH; [reflexivity|].
  apply list_lookup_insert_ne. auto.
Qed.

Lemma placeWith_placed {A} (f : Z * BindingLayout.t -> A) il (slots : list A) p :
  NoDup (map (fun p => spaceOf (snd p)) (filter (fun p => isRegular (snd p)) il)) ->
  Forall (fun p => isRegular (snd p) -> 0 <= spaceOf (snd p)) il ->
  In p il -> isRegular (snd p) ->
  (Z.to_nat (spaceOf (snd p)) < length slots)%nat ->
  placeWith f il slots !! Z.to_nat (spaceOf (snd p)) = Some (f p).
Proof.
  intros Hnd Hpos. revert slots. induction Hpos as [|q il Hq Hpos IH];
    intros slots Hin Hreg Hlt; [destruct Hin|].
  rewrite placeWith_cons.
  destruct (decide (isRegular (snd q))) as [Hqreg|Hqbl].
  - rewrite filter_cons_True in Hnd by exact Hqreg. cbn [map] in Hnd.
    apply NoDup_cons in Hnd. destruct Hnd as [Hfresh Hnd].
    unfold isRegular in Hqreg. rewrite Hqreg.
    destruct Hin as [->|Hin].
    + rewrite placeWith_other.
      * apply list_lookup_insert_eq. exact Hlt.
      * rewrite Forall_forall. intros r Hr Hrreg. rewrite Forall_forall in Hpos.
        intros Heq. apply Hfresh. apply list_elem_of_In, in_map_iff. exists r.
        split.
        -- specialize (Hpos r Hr Hrreg). specialize (Hq Hreg). lia.
        -- apply list_elem_of_In, list_elem_of_filter. split; [exact Hrreg|exact Hr].
    + apply IH; [exact Hnd|exact Hin|exact Hreg|].
      rewrite length_insert. exact Hlt.
  - rewrite filter_cons_False in Hnd by exact Hqbl.
    unfold isRegular in Hqbl.
    destruct (BindingLayout.isBindless (snd q)) eqn:Hb; [|congruence].
    destruct Hin as [->|Hin]; [unfold isRegular in Hreg; congruence|].
    apply IH; assumption.
Qed.

(** The loop that places the layouts, on vectors made of the regular slots
    followed by the bindless layouts placed so far. *)
Lemma place_loop il :
  forall (R : list (option BindingLayout.t)) (RI : list Z)
         (B : list (option BindingLayout.t)) (BI : list Z) (w : World),
    length R = length RI -> length B = length BI ->
    NoDup (map (fun p => spaceOf (snd p)) (filter (fun p => isRegular (snd p)) il)) ->
    Forall (fun p => isRegular (snd p) ->
                     0 <= spaceOf (snd p) /\
                     R !! Z.to_nat (spaceOf (snd p)) = Some Datatypes.None) il ->
    (length R + length B + length (filter (fun p => isBindlessLayout (snd p)) il)
     <= c_MaxBindingLayouts)%nat ->
    foldM placeLayout il (R ++ B, RI ++ BI) w
    = Ok ((placeWith (fun p => Some (snd p)) il R ++ B
           ++ map (fun p => Some (snd p)) (filter (fun p => isBindlessLayout (snd p)) il),
           placeWith fst il RI ++ BI
           ++ map fst (filter (fun p => isBindlessLayout (snd p)) il)), w).
Proof.
  induction il as [|[i layout] il IH]; intros R RI B BI w HR HB Hnd Hfree Hcap.
  - cbn. rewrite !app_nil_r. reflexivity.
  - apply Forall_cons in Hfree. destruct Hfree as [Hhead Hfree]. cbn [snd] in Hhead.
    cbn [foldM]. unfold bind at 1. unfold placeLayout at 1.
    rewrite !placeWith_cons. cbn [snd fst].
    unfold isRegular, isBindlessLayout in *.
    destruct (BindingLayout.isBindless layout) eqn:Hb.
    + (* bindless: appended *)
      rewrite filter_cons_True in Hcap by exact Hb. cbn [length] in Hcap.
      rewrite filter_cons_False in Hnd by (cbn; congruence).
      rewrite (bind_Ok _ _ _ _ _ (push_back_ok c_MaxBindingLayouts (R ++ B) (Some layout) w
                                    ltac:(rewrite length_app; lia))).
      rewrite (bind_Ok _ _ _ _ _ (push_back_ok c_MaxBindingLayouts (RI ++ BI) i w
                                    ltac:(rewrite length_app; lia))).
      unfold ret at 1. rewrite <- !app_assoc.
      rewrite (IH R RI (B ++ [Some layout]) (BI ++ [i]) w HR); try assumption.
      * rewrite filter_cons_True by exact Hb. cbn [map fst snd].
        rewrite <- !app_assoc. reflexivity.
      * rewrite !length_app. cbn [length]. lia.
      * rewrite length_app. cbn [length]. lia.
    + (* regular: put at its register space *)
      destruct (Hhead eq_refl) as [Hpos Hnone].
      rewrite filter_cons_False in Hcap by (cbn; congruence).
      rewrite filter_cons_True in Hnd by exact Hb. cbn [map snd] in Hnd.
      apply NoDup_cons in Hnd. destruct Hnd as [Hfresh Hnd].
      assert (Hlt : (Z.to_nat (spaceOf layout) < length R)%nat)
        by (apply lookup_lt_is_Some; eauto).
      unfold BindingLayout_getDesc. rewrite Hb. cbn [deref].
      unfold bind at 1. unfold ret at 1. fold (spaceOf layout).
      assert (Hat : at_ (R ++ B) (spaceOf layout) w = Ok (Datatypes.None, w)).
      { rewrite <- (Z2Nat.id (spaceOf layout)) by exact Hpos. apply at_ok.
        rewrite lookup_app_l by exact Hlt. exact Hnone. }
      rewrite (bind_Ok _ _ _ _ _ Hat).
      rewrite bool_decide_eq_true_2 by reflexivity.
      unfold bind at 1. rewrite assert_true.
      unfold set_at, bind, assert, ret.
      rewrite !bool_decide_eq_true_2 by (rewrite ?length_app; lia). cbn [andb].
      rewrite !insert_app_l by lia.
      rewrite (IH (<[Z.to_nat (spaceOf layout) := Some layout]> R)
                  (<[Z.to_nat (spaceOf layout) := i]> RI) B BI w);
        try assumption.
      * rewrite filter_cons_False by (cbn; congruence). reflexivity.
      * rewrite !length_insert. exact HR.
      * rewrite Forall_forall in Hfree |- *. intros p Hp Hreg.
        destruct (Hfree p Hp Hreg) as [Hppos Hpnone]. split; [exact Hppos|].
        rewrite list_lookup_insert_ne; [exact Hpnone|].
        intros Heq. apply Hfresh. apply list_elem_of_In, in_map_iff. exists p.
        split; [lia|]. apply list_elem_of_In, list_elem_of_filter. auto.
      * rewrite length_insert. exact Hcap.
Qed.

(** The last loop: one native layout per slot, the empty one for a hole. *)
Lemma gather_loop context (slots : list (option BindingLayout.t)) :
  forall (acc : list Z) (size visibility : Z) (w : World),
    (length acc + length slots <= c_MaxBindingLayouts)%nat ->
    exists size' visibility',
      foldM (gatherSetLayout context) slots (acc, size, visibility) w
      = Ok ((acc ++ map (setLayoutOf context) slots, size', visibility'), w).
Proof.
  induction slots as [|slot slots IH]; intros acc size visibility w Hcap.
  - exists size, visibility. cbn. rewrite app_nil_r. reflexivity.
  - cbn [length] in Hcap. cbn [foldM map]. unfold bind at 1.
    unfold gatherSetLayout at 1.
    assert (Hpush : forall x, push_back c_MaxBindingLayouts acc x w = Ok (acc ++ [x], w))
      by (intros x; apply push_back_ok; lia).
    assert (Hnext : forall size1 visibility1,
              exists size' visibility',
                foldM (gatherSetLayout context) slots
                  (acc ++ [setLayoutOf context slot], size1, visibility1) w
                = Ok ((acc ++ setLayoutOf context slot :: map (setLayoutOf context) slots,
                       size', visibility'), w)).
    { intros size1 visibility1.
      destruct (IH (acc ++ [setLayoutOf context slot]) size1 visibility1 w)
        as (size' & visibility' & Hrun); [rewrite length_app; cbn [length]; lia|].
      exists size', visibility'. rewrite Hrun, <- app_assoc. reflexivity. }
    destruct slot as [layout|]; cbn [setLayoutOf] in Hnext |- *.
    + rewrite (bind_Ok _ _ _ _ _ (Hpush _)).
      destruct (BindingLayout.isBindless layout); cbn [negb].
      * unfold ret at 1. apply Hnext.
      * destruct (List.find _ _) as [item|]; unfold ret at 1; apply Hnext.
    + rewrite (bind_Ok _ _ _ _ _ (Hpush _)). unfold ret at 1. apply Hnext.
Qed.

(** The layouts with their positions, from position [k] on. *)
Lemma indexed_regular (layouts : list BindingLayout.t) (k : Z) :
  map (fun p => spaceOf (snd p))
    (filter (fun p => isRegular (snd p)) (zip (seqZ k (Z.of_nat (length layouts))) layouts))
  = regularSpaces layouts.
Proof.
  revert k. induction layouts as [|layout layouts IH]; intros k; [reflexivity|].
  cbn [length]. rewrite seqZ_cons by lia.
  replace (Z.pred (Z.of_nat (S (length layouts)))) with (Z.of_nat (length layouts)) by lia.
  cbn [zip zip_with]. unfold regularSpaces.
  destruct (decide (isRegular layout)) as [Hreg|Hbl].
  - rewrite !filter_cons_True by exact Hreg. cbn [map snd]. f_equal. apply IH.
  - rewrite !filter_cons_False by exact Hbl. apply IH.
Qed.

Lemma indexed_bindless (layouts : list BindingLayout.t) (k : Z) :
  map (fun p => Some (snd p))
    (filter (fun p => isBindlessLayout (snd p))
       (zip (seqZ k (Z.of_nat (length layouts))) layouts))
  = map Some (filter isBindlessLayout layouts).
Proof.
  revert k. induction layouts as [|layout layouts IH]; intros k; [reflexivity|].
  cbn [length]. rewrite seqZ_cons by lia.
  replace (Z.pred (Z.of_nat (S (length layouts)))) with (Z.of_nat (length layouts)) by lia.
  cbn [zip zip_with].
  destruct (decide (isBindlessLayout layout)) as [Hbl|Hreg].
  - rewrite !filter_cons_True by exact Hbl. cbn [map snd]. f_equal. apply IH.
  - rewrite !filter_cons_False by exact Hreg. apply IH.
Qed.

Lemma indexed_lookup (layouts : list BindingLayout.t) (i : nat) layout :
  layouts !! i = Some layout -> In (Z.of_nat i, layout) (indexed layouts).
Proof.
  intros Hi. apply list_elem_of_In, list_elem_of_lookup. exists i.
  unfold indexed. apply lookup_zip_with_Some. exists (Z.of_nat i), layout.
  split; [reflexivity|]. split; [|exact Hi].
  apply lookup_seqZ. split; [lia|]. apply lookup_lt_Some in Hi. lia.
Qed.

Lemma indexed_values (layouts : list BindingLayout.t) p :
  In p (indexed layouts) -> In (snd p) layouts.
Proof.
  intros Hp. apply list_elem_of_In. apply list_elem_of_In in Hp.
  destruct p as [i layout]. eapply elem_of_zip_r. exact Hp.
Qed.

(** What [createPipelineLayout] computes in indexed mode, from empty
    out-vectors. *)
Lemma createPipelineLayout_indexed context layouts w :
  indexedInputs layouts ->
  exists res handle info,
    let n := Z.to_nat (regularSlotCount layouts) in
    let slots :=
      placeWith (fun p => Some (snd p)) (indexed layouts) (replicate n Datatypes.None)
      ++ map Some (filter isBindlessLayout layouts) in
    let idxMap :=
      placeWith fst (indexed layouts) (replicate n c_Hole)
      ++ map fst (filter (fun p => isBindlessLayout (snd p)) (indexed layouts)) in
    createPipelineLayout [] [] context layouts w
    = Ok ((res, PipelineLayoutOut.mk handle slots
                  (PushConstantRange.stageFlags
                     (PipelineLayoutCreateInfo.pPushConstantRanges info)) idxMap),
          addErrors w [EvCreatePipelineLayout info]) /\
    PipelineLayoutCreateInfo.pSetLayouts info = map (setLayoutOf context) slots.
Proof.
  intros (Hmode & Hnd & Hspaces & Hlen & Hcap).
  destruct (slotCount_bounds layouts 0) as (Hnonneg & Hbound & _).
  fold (regularSlotCount layouts) in Hnonneg, Hbound.
  set (nZ := regularSlotCount layouts) in *. set (n := Z.to_nat nZ) in *.
  assert (Hfilter : length (filter (fun p => isBindlessLayout (snd p)) (indexed layouts))
                    = length (filter isBindlessLayout layouts)).
  { rewrite <- (length_map (fun p => Some (snd p))). unfold indexed.
    rewrite indexed_bindless. apply length_map. }
  unfold createPipelineLayout.
  rewrite (bind_Ok _ _ _ _ _ (usesDescriptorSetIdxToBindingIdx_indexed _ w Hmode)).
  assert (Hplace :
    (numRegularDescriptorSets <- foldM countRegularDescriptorSets layouts 0 ;;
     outBindingLayouts1 <-
       resize c_MaxBindingLayouts Datatypes.None [] numRegularDescriptorSets ;;
     outDescriptorSetIdxToBindingIdx1 <-
       resize c_MaxBindingLayouts 0 [] numRegularDescriptorSets ;;
     outDescriptorSetIdxToBindingIdx2 <-
       foldM (fun v i => set_at v i c_Hole) (seqZ 0 numRegularDescriptorSets)
         outDescriptorSetIdxToBindingIdx1 ;;
     foldM placeLayout
       (zip (seqZ 0 (wrap32 (Z.of_nat (length layouts)))) layouts)
       (outBindingLayouts1, outDescriptorSetIdxToBindingIdx2)) w
    = Ok ((placeWith (fun p => Some (snd p)) (indexed layouts) (replicate n Datatypes.None)
           ++ map Some (filter isBindlessLayout layouts),
           placeWith fst (indexed layouts) (replicate n c_Hole)
           ++ map fst (filter (fun p => isBindlessLayout (snd p)) (indexed layouts))), w)).
  { rewrite (bind_Ok _ _ _ _ _ (countRegular_loop layouts 0 w Hspaces)).
    fold (regularSlotCount layouts). fold nZ.
    rewrite (bind_Ok _ _ _ _ _ (resize_empty c_MaxBindingLayouts Datatypes.None nZ w
                                  Hnonneg ltac:(fold n; lia))).
    rewrite (bind_Ok _ _ _ _ _ (resize_empty c_MaxBindingLayouts 0 nZ w
                                  Hnonneg ltac:(fold n; lia))).
    fold n.
    assert (Hfill : foldM (fun v i => set_at v i c_Hole) (seqZ 0 nZ) (replicate n 0) w
                    = Ok (replicate n c_Hole, w)).
    { replace nZ with (Z.of_nat n) by (subst n; lia).
      pose proof (fill_holes n 0 (replicate n 0) w) as Hf.
      change (Z.of_nat 0) with 0 in Hf. rewrite Hf by (rewrite length_replicate; lia).
      reflexivity. }
    rewrite (bind_Ok _ _ _ _ _ Hfill).
    rewrite wrap32_small by lia. fold (indexed layouts).
    rewrite <- (app_nil_r (replicate n Datatypes.None)) at 1.
    rewrite <- (app_nil_r (replicate n c_Hole)) at 1.
    rewrite place_loop.
    - cbn [app]. rewrite <- (indexed_bindless layouts 0). reflexivity.
    - rewrite !length_replicate. reflexivity.
    - reflexivity.
    - unfold indexed. rewrite indexed_regular. exact Hnd.
    - rewrite Forall_forall. intros p Hp Hreg.
      assert (Hin : In (spaceOf (snd p)) (regularSpaces layouts)).
      { unfold regularSpaces. apply in_map. apply list_elem_of_In, list_elem_of_filter.
        split; [exact Hreg|]. apply list_elem_of_In, indexed_values.
        apply list_elem_of_In. exact Hp. }
      rewrite Forall_forall in Hspaces, Hbound.
      apply list_elem_of_In in Hin.
      specialize (Hspaces _ Hin). specialize (Hbound _ Hin). cbn in Hbound.
      split; [lia|]. apply lookup_replicate_2. subst n. lia.
    - rewrite length_replicate, Hfilter. cbn [length]. lia. }
  rewrite (bind_Ok _ _ _ _ _ Hplace). cbn [fst snd].
  match goal with
  | |- context [foldM (gatherSetLayout context) ?slots _] =>
      destruct (gather_loop context slots [] 0 0 w) as (size & visibility & Hgather)
  end.
  { rewrite length_app, placeWith_length, length_replicate, length_map. cbn [length]. lia. }
  rewrite (bind_Ok _ _ _ _ _ Hgather). cbn [app].
  match goal with |- context [vkCreatePipelineLayout ?i] => set (info := i) end.
  destruct (vkCreatePipelineLayout info) as [res handle] eqn:Hnative.
  exists res, handle, info. cbv zeta. split; [|reflexivity].
  unfold bind. rewrite emit_addErrors. reflexivity.
Qed.

(** C2. For every collection of layouts in indexed mode (the first layout
    that is not bindless has registerSpaceIsDescriptorSet set) whose regular
    layouts have pairwise distinct register spaces, as the code asserts, and
    that fits the capacity of the vectors ([indexedInputs]), createPipelineLayout
    called with empty out-vectors returns with these out-vectors: there are
    1 + m regular slots, m being
    the largest register space of the layouts that are not bindless; each such
    layout stands at the slot of its register space, and the index map holds
    its input position there; the bindless layouts follow the regular slots
    in input order, the index map holding their input positions; a regular
    slot that is no layout's register space is null and is marked 0xFFFFFFFF
    in the index map; and the native layouts handed to the device are those
    of the slots, the shared empty layout standing for each null slot. *)
Theorem indexed_pipeline_layout (context : VulkanContext.t)
    (layouts : list BindingLayout.t) (w : World) :
  indexedInputs layouts ->
  exists res out w' info,
    createPipelineLayout [] [] context layouts w = Ok ((res, out), w') /\
    let slots := PipelineLayoutOut.outBindingLayouts out in
    let idxMap := PipelineLayoutOut.outDescriptorSetIdxToBindingIdx out in
    let n := Z.to_nat (regularSlotCount layouts) in
    (exists m,
       In m (regularSpaces layouts) /\
       Forall (fun space => space <= m) (regularSpaces layouts) /\
       regularSlotCount layouts = 1 + m) /\
    length slots = (n + length (filter isBindlessLayout layouts))%nat /\
    length idxMap = length slots /\
    (forall (i : nat) layout,
       layouts !! i = Some layout -> isRegular layout ->
       (Z.to_nat (spaceOf layout) < n)%nat /\
       slots !! Z.to_nat (spaceOf layout) = Some (Some layout) /\
       idxMap !! Z.to_nat (spaceOf layout) = Some (Z.of_nat i)) /\
    drop n slots = map Some (filter isBindlessLayout layouts) /\
    drop n idxMap
    = map fst (filter (fun p => isBindlessLayout (snd p)) (indexed layouts)) /\
    (forall k : nat,
       (k < n)%nat -> ~ In (Z.of_nat k) (regularSpaces layouts) ->
       slots !! k = Some Datatypes.None /\ idxMap !! k = Some c_Hole /\
       PipelineLayoutCreateInfo.pSetLayouts info !! k
       = Some (VulkanContext.emptyDescriptorSetLayout context)) /\
    trace w' = trace w ++ [EvCreatePipelineLayout info] /\
    PipelineLayoutCreateInfo.pSetLayouts info = map (setLayoutOf context) slots.
Proof.
  intros Hinputs.
  destruct (createPipelineLayout_indexed context layouts w Hinputs)
    as (res & handle & info & Hrun & Hsets).
  destruct Hinputs as (Hmode & Hnd & Hspaces & Hlen & Hcap).
  destruct (slotCount_bounds layouts 0) as (Hnonneg & Hbound & _).
  fold (regularSlotCount layouts) in Hnonneg, Hbound.
  cbv zeta in Hrun, Hsets.
  set (n := Z.to_nat (regularSlotCount layouts)) in *.
  set (R := placeWith (fun p => Some (snd p)) (indexed layouts)
              (replicate n Datatypes.None)) in *.
  set (RI := placeWith fst (indexed layouts) (replicate n c_Hole)) in *.
  assert (HR : length R = n) by (subst R; rewrite placeWith_length; apply length_replicate).
  assert (HRI : length RI = n) by (subst RI; rewrite placeWith_length; apply length_replicate).
  assert (Hnd' : NoDup (map (fun p => spaceOf (snd p))
                          (filter (fun p => isRegular (snd p)) (indexed layouts))))
    by (unfold indexed; rewrite indexed_regular; exact Hnd).
  assert (Hregular : forall p, In p (indexed layouts) -> isRegular (snd p) ->
            0 <= spaceOf (snd p) /\ (Z.to_nat (spaceOf (snd p)) < n)%nat).
  { intros p Hp Hreg.
    assert (Hin : In (spaceOf (snd p)) (regularSpaces layouts)).
    { unfold regularSpaces. apply in_map. apply list_elem_of_In, list_elem_of_filter.
      split; [exact Hreg|]. apply list_elem_of_In, indexed_values. exact Hp. }
    rewrite Forall_forall in Hspaces, Hbound. apply list_elem_of_In in Hin.
    specialize (Hspaces _ Hin). specialize (Hbound _ Hin). cbn in Hbound.
    subst n. lia. }
  assert (Hpos : Forall (fun p => isRegular (snd p) -> 0 <= spaceOf (snd p))
                   (indexed layouts)).
  { rewrite Forall_forall. intros p Hp Hreg. apply Hregular; [|exact Hreg].
    apply list_elem_of_In. exact Hp. }
  eexists res, _, _, info. split; [exact Hrun|].
  cbn [PipelineLayoutOut.outBindingLayouts PipelineLayoutOut.outDescriptorSetIdxToBindingIdx].
  fold n. split; [apply regularSlotCount_max; assumption|].
  split; [rewrite length_app, HR, length_map; reflexivity|].
  split.
  { rewrite !length_app, HR, HRI, !length_map. f_equal.
    rewrite <- (length_map (fun p => Some (snd p))). unfold indexed.
    rewrite indexed_bindless. apply length_map. }
  split.
  { intros i layout Hi Hreg.
    pose proof (indexed_lookup layouts i layout Hi) as Hin.
    destruct (Hregular _ Hin Hreg) as [Hnonneg' Hlt]. cbn [snd] in Hlt.
    split; [exact Hlt|].
    rewrite !lookup_app_l by lia. subst R RI. split.
    - apply (placeWith_placed (fun p => Some (snd p)) (indexed layouts) _
               (Z.of_nat i, layout)); try assumption.
      rewrite length_replicate. exact Hlt.
    - apply (placeWith_placed fst (indexed layouts) _ (Z.of_nat i, layout));
        try assumption.
      rewrite length_replicate. exact Hlt. }
  split; [apply drop_app_length'; symmetry; exact HR|].
  split; [apply drop_app_length'; symmetry; exact HRI|].
  split.
  { intros k Hk Hfree.
    assert (Hother : Forall (fun p => isRegular (snd p) -> Z.to_nat (spaceOf (snd p)) <> k)
                       (indexed layouts)).
    { rewrite Forall_forall. intros p Hp Hreg Heq. apply Hfree.
      apply list_elem_of_In in Hp. destruct (Hregular _ Hp Hreg) as [Hnonneg' _].
      replace (Z.of_nat k) with (spaceOf (snd p)) by lia.
      unfold regularSpaces. apply in_map. apply list_elem_of_In, list_elem_of_filter.
      split; [exact Hreg|]. apply list_elem_of_In, indexed_values. exact Hp. }
    assert (Hslot : R !! k = Some Datatypes.None).
    { subst R. rewrite placeWith_other by exact Hother. apply lookup_replicate_2. exact Hk. }
    rewrite Hsets, lookup_map, !lookup_app_l by lia.
    rewrite Hslot. split; [reflexivity|]. split; [|reflexivity].
    subst RI. rewrite placeWith_other by exact Hother. apply lookup_replicate_2. exact Hk. }
  split; [reflexivity|exact Hsets].
Qed.

End PipelineLayouts.

Lemma sample_indexedInputs :
  indexedInputs (H := sample_collaborators) [sample_layoutA; sample_layoutB].
Proof.
  assert (Hspaces : regularSpaces [sample_layoutA; sample_layoutB] = [0; 2])
    by (vm_compute; reflexivity).
  unfold indexedInputs. rewrite Hspaces.
  split; [reflexivity|]. split.
  { apply NoDup_cons. split.
    - intros Hin. apply list_elem_of_In in Hin. simpl in Hin.
      destruct Hin as [Hin|[]]. discriminate Hin.
    - apply NoDup_singleton. }
  split; [repeat constructor; lia|].
  split; [simpl; lia|]. vm_compute. lia.
Qed.

Lemma indexed_pipeline_layout_witness :
  exists res out w' info,
    createPipelineLayout (H := sample_collaborators) [] [] sample_context
      [sample_layoutA; sample_layoutB] emptyWorld = Ok ((res, out), w') /\
    PipelineLayoutOut.outDescriptorSetIdxToBindingIdx out = [0; 4294967295; 1] /\
    PipelineLayoutOut.outBindingLayouts out
    = [Some sample_layoutA; Datatypes.None; Some sample_layoutB] /\
    PipelineLayoutCreateInfo.pSetLayouts info !! 1%nat
    = Some (VulkanContext.emptyDescriptorSetLayout sample_context) /\
    trace w' = [EvCreatePipelineLayout info].
Proof.
  destruct (indexed_pipeline_layout (H := sample_collaborators) sample_context
              [sample_layoutA; sample_layoutB] emptyWorld sample_indexedInputs)
    as (res & out & w' & info & Hrun & _ & _ & _ & _ & _ & _ & Hhole & Htrace & _).
  exists res, out, w', info. split; [exact Hrun|].
  assert (Hout : out = PipelineLayoutOut.mk 3000
                         [Some sample_layoutA; Datatypes.None; Some sample_layoutB]
                         0 [0; 4294967295; 1]).
  { vm_compute in Hrun. injection Hrun as _ <- _. reflexivity. }
  split; [rewrite Hout; reflexivity|]. split; [rewrite Hout; reflexivity|].
  split; [|exact Htrace].
  apply (Hhole 1%nat).
  - vm_compute. lia.
  - vm_compute. intros [Hin|[Hin|[]]]; discriminate Hin.
Defined.

(** * Further properties *)

(** ** Pipeline layouts: direct mode, push constants, the index map *)

Section PipelineLayouts2.
Context `{Collaborators}.

Lemma foldM_world {A B} (f : A -> B -> M A) (l : list B) :
  (forall a x w a' w', f a x w = Ok (a', w') -> w' = w) ->
  forall a w a' w', foldM f l a w = Ok (a', w') -> w' = w.
Proof.
  intros Hf. induction l as [|x l IH]; intros a w a' w' Hrun.
  - cbn in Hrun. injection Hrun as _ <-. reflexivity.
  - cbn [foldM] in Hrun. apply bind_inv in Hrun.
    destruct Hrun as (a1 & w1 & Hstep & Hrun).
    apply Hf in Hstep. apply IH in Hrun. congruence.
Qed.

Lemma set_at_inv {A} (v v' : list A) (i : Z) (x : A) (w w' : World) :
  set_at v i x w = Ok (v', w') ->
  w' = w /\ v' = <[Z.to_nat i := x]> v /\ 0 <= i /\ (Z.to_nat i < length v)%nat.
Proof.
  unfold set_at. intros Hrun. apply bind_inv in Hrun.
  destruct Hrun as (u & w1 & Hassert & Hrun). apply assert_inv in Hassert.
  destruct Hassert as [Hcond ->]. unfold ret in Hrun. injection Hrun as <- <-.
  apply andb_true_iff in Hcond. destruct Hcond as [Hpos Hlt].
  apply bool_decide_eq_true in Hpos, Hlt. auto.
Qed.

Lemma resize_inv {A} (cap : nat) (dflt : A) (v v' : list A) (n : Z) (w w' : World) :
  resize cap dflt v n w = Ok (v', w') ->
  w' = w /\ v' = take (Z.to_nat n) v ++ replicate (Z.to_nat n - length v) dflt /\
  0 <= n /\ (Z.to_nat n <= cap)%nat.
Proof.
  unfold resize. intros Hrun. apply bind_inv in Hrun.
  destruct Hrun as (u & w1 & Hassert & Hrun). apply assert_inv in Hassert.
  destruct Hassert as [Hcond ->]. unfold ret in Hrun. injection Hrun as <- <-.
  apply andb_true_iff in Hcond. destruct Hcond as [Hpos Hlt].
  apply bool_decide_eq_true in Hpos, Hlt. auto.
Qed.

Lemma deref_inv {A} (p : option A) (a : A) (w w' : World) :
  deref p w = Ok (a, w') -> p = Some a /\ w' = w.
Proof. destruct p; cbn; [|discriminate]. intros [= -> ->]. auto. Qed.

Ltac winv H :=
  lazymatch type of H with
  | bind _ _ _ = Ok _ =>
      let a := fresh "a" in
      let w := fresh "w" in
      let H1 := fresh "Hm" in
      apply bind_inv in H; destruct H as (a & w & H1 & H); winv H1; winv H
  | at_ _ _ _ = Ok _ => apply at_inv in H; destruct H as (? & ? & ?); subst
  | set_at _ _ _ _ = Ok _ => apply set_at_inv in H; destruct H as (? & ? & ? & ?); subst
  | resize _ _ _ _ _ = Ok _ => apply resize_inv in H; destruct H as (? & ? & ? & ?); subst
  | deref _ _ = Ok _ => apply deref_inv in H; destruct H as (? & ?); subst
  | _ => minv H
  end.

Lemma usesDescriptorSetIdxToBindingIdx_inv layouts b w w' :
  usesDescriptorSetIdxToBindingIdx layouts w = Ok (b, w') ->
  w' = w /\ (b = true <-> indexedMode layouts) /\ (b = false <-> directMode layouts).
Proof.
  unfold indexedMode, directMode.
  induction layouts as [|layout layouts IH]; cbn.
  - intros [= <- <-]. split; [reflexivity|]. split; split; try tauto; discriminate.
  - unfold BindingLayout_getDesc.
    destruct (BindingLayout.isBindless layout); cbn; [exact IH|].
    intros [= <- <-]. split; [reflexivity|].
    destruct (BindingLayoutDesc.registerSpaceIsDescriptorSet (BindingLayout.desc layout));
      split; split; congruence.
Qed.

Lemma countRegular_world n layout w n' w' :
  countRegularDescriptorSets n layout w = Ok (n', w') -> w' = w.
Proof.
  unfold countRegularDescriptorSets, BindingLayout_getDesc.
  destruct (BindingLayout.isBindless layout); cbn; intros [= _ <-]; reflexivity.
Qed.

Lemma placeLayout_world out p w out' w' :
  placeLayout out p w = Ok (out', w') -> w' = w.
Proof.
  unfold placeLayout. destruct out as [slots idxMap], p as [i layout].
  unfold BindingLayout_getDesc.
  destruct (BindingLayout.isBindless layout); intros Hrun; winv Hrun; reflexivity.
Qed.

(** The last loop adds the native layouts of the slots and keeps, of the
    push constants the slots declare, the last ones. *)
Lemma gather_inv context (slots : list (option BindingLayout.t)) :
  forall acc size visibility acc' size' visibility' w w',
    foldM (gatherSetLayout context) slots (acc, size, visibility) w
    = Ok ((acc', size', visibility'), w') ->
    w' = w /\
    acc' = acc ++ map (setLayoutOf context) slots /\
    (size', visibility')
    = fold_left (fun sv slot => default sv (declaredPushConstants slot)) slots
        (size, visibility).
Proof.
  induction slots as [|slot slots IH];
    intros acc size visibility acc' size' visibility' w w' Hrun.
  - cbn in Hrun. injection Hrun as <- <- <- <-. rewrite app_nil_r. auto.
  - cbn [foldM] in Hrun. apply bind_inv in Hrun.
    destruct Hrun as ([[acc1 size1] visibility1] & w1 & Hstep & Hrun).
    apply IH in Hrun. destruct Hrun as (-> & -> & ->).
    cbn [fold_left map]. unfold gatherSetLayout in Hstep.
    destruct slot as [layout|]; cbn [declaredPushConstants setLayoutOf].
    + apply bind_inv in Hstep. destruct Hstep as (acc2 & w2 & Hpush & Hstep).
      apply push_back_inv in Hpush. destruct Hpush as (-> & -> & _).
      destruct (BindingLayout.isBindless layout); cbn [negb] in Hstep.
      * unfold ret in Hstep. injection Hstep as <- <- <- <-.
        rewrite <- app_assoc. auto.
      * destruct (List.find _ _) as [item|]; unfold ret in Hstep;
          injection Hstep as <- <- <- <-; rewrite <- app_assoc; auto.
    + apply bind_inv in Hstep. destruct Hstep as (acc2 & w2 & Hpush & Hstep).
      apply push_back_inv in Hpush. destruct Hpush as (-> & -> & _).
      unfold ret in Hstep. injection Hstep as <- <- <- <-.
      rewrite <- app_assoc. auto.
Qed.

Lemma lastPushConstants pre slot post (sv0 p : Z * Z) :
  declaredPushConstants slot = Some p ->
  Forall (fun slot => declaredPushConstants slot = Datatypes.None) post ->
  fold_left (fun sv slot => default sv (declaredPushConstants slot))
    (pre ++ slot :: post) sv0 = p.
Proof.
  intros Hslot Hpost. rewrite fold_left_app. cbn [fold_left]. rewrite Hslot.
  cbn [default]. induction Hpost as [|s post Hs _ IH]; [reflexivity|].
  cbn [fold_left]. rewrite Hs. exact IH.
Qed.

Lemma noPushConstants slots (sv0 : Z * Z) :
  Forall (fun slot => declaredPushConstants slot = Datatypes.None) slots ->
  fold_left (fun sv slot => default sv (declaredPushConstants slot)) slots sv0 = sv0.
Proof.
  intros Hnone. induction Hnone as [|s slots Hs _ IH]; [reflexivity|].
  cbn [fold_left]. rewrite Hs. exact IH.
Qed.

(** The part of [createPipelineLayout] after the out-vectors are filled. *)
Lemma createPipelineLayout_inv out0 idx0 context layouts w res out w' :
  createPipelineLayout out0 idx0 context layouts w = Ok ((res, out), w') ->
  exists info,
    w' = addErrors w [EvCreatePipelineLayout info] /\
    PipelineLayoutCreateInfo.pSetLayouts info
    = map (setLayoutOf context) (PipelineLayoutOut.outBindingLayouts out) /\
    PushConstantRange.offset (PipelineLayoutCreateInfo.pPushConstantRanges info) = 0 /\
    (PushConstantRange.size (PipelineLayoutCreateInfo.pPushConstantRanges info),
     PushConstantRange.stageFlags (PipelineLayoutCreateInfo.pPushConstantRanges info))
    = fold_left (fun sv slot => default sv (declaredPushConstants slot))
        (PipelineLayoutOut.outBindingLayouts out) (0, 0) /\
    PipelineLayoutCreateInfo.pushConstantRangeCount info
    = (if bool_decide
            (PushConstantRange.size (PipelineLayoutCreateInfo.pPushConstantRanges info) <> 0)
       then 1 else 0) /\
    PipelineLayoutOut.outPushConstantVisibility out
    = PushConstantRange.stageFlags (PipelineLayoutCreateInfo.pPushConstantRanges info) /\
    (res, PipelineLayoutOut.outPipelineLayout out) = vkCreatePipelineLayout info.
Proof.
  unfold createPipelineLayout. intros Hrun.
  apply bind_inv in Hrun. destruct Hrun as (mode & w1 & Hmode & Hrun).
  apply usesDescriptorSetIdxToBindingIdx_inv in Hmode. destruct Hmode as (-> & _).
  apply bind_inv in Hrun. destruct Hrun as ([slots idxMap] & w2 & Hout & Hrun).
  assert (Hw2 : w2 = w).
  { destruct mode.
    - winv Hout.
      repeat match goal with
      | Hf : foldM countRegularDescriptorSets _ _ _ = Ok _ |- _ =>
          apply (foldM_world _ _ countRegular_world) in Hf; subst
      | Hf : foldM (fun v i => set_at v i c_Hole) _ _ _ = Ok _ |- _ =>
          apply (foldM_world (fun v i => set_at v i c_Hole)) in Hf;
          [subst | intros ? ? ? ? ? Hs; apply set_at_inv in Hs; tauto]
      | Hf : foldM placeLayout _ _ _ = Ok _ |- _ =>
          apply (foldM_world _ _ placeLayout_world) in Hf; subst
      end.
      reflexivity.
    - apply bind_inv in Hout. destruct Hout as (slots1 & w3 & Hpush & Hout).
      unfold ret in Hout. injection Hout as _ _ <-.
      match type of Hpush with foldM ?f _ _ _ = _ =>
        apply (foldM_world f) in Hpush; [exact Hpush|] end.
      intros ? ? ? ? ? Hs. apply push_back_inv in Hs. tauto. }
  subst w2. cbn [fst snd] in Hrun.
  apply bind_inv in Hrun. destruct Hrun as ([[sets size] visibility] & w3 & Hgather & Hrun).
  apply gather_inv in Hgather. destruct Hgather as (-> & Hsets & Hpush).
  cbn [app] in Hsets.
  apply bind_inv in Hrun. destruct Hrun as (u & w4 & Hemit & Hrun).
  rewrite emit_addErrors in Hemit. injection Hemit as _ <-.
  match type of Hrun with context [vkCreatePipelineLayout ?i] => set (info := i) in * end.
  destruct (vkCreatePipelineLayout info) as [r handle] eqn:Hnative.
  unfold ret in Hrun. injection Hrun as <- <- <-.
  exists info. subst info. cbn. rewrite Hnative. repeat split; try assumption; reflexivity.
Qed.

Lemma push_loop (layouts : list BindingLayout.t) :
  forall (slots : list (option BindingLayout.t)) (w : World),
    (length slots + length layouts <= c_MaxBindingLayouts)%nat ->
    foldM (fun v layout => push_back c_MaxBindingLayouts v (Some layout)) layouts slots w
    = Ok (slots ++ map Some layouts, w).
Proof.
  induction layouts as [|layout layouts IH]; intros slots w Hcap.
  - cbn. rewrite app_nil_r. reflexivity.
  - cbn [length] in Hcap. cbn [foldM map]. unfold bind at 1.
    rewrite push_back_ok by lia. rewrite IH by (rewrite length_app; cbn; lia).
    rewrite <- app_assoc. reflexivity.
Qed.

Lemma usesDescriptorSetIdxToBindingIdx_direct layouts w :
  directMode layouts -> usesDescriptorSetIdxToBindingIdx layouts w = Ok (false, w).
Proof.
  unfold directMode. induction layouts as [|layout layouts IH]; cbn; [reflexivity|].
  unfold BindingLayout_getDesc.
  destruct (BindingLayout.isBindless layout); cbn; [exact IH|].
  intros ->. reflexivity.
Qed.

(** X1.  Direct mode of [createPipelineLayout]: when the first layout that
    is not bindless does not say that register spaces are descriptor sets
    (or every layout is bindless), the layouts are appended to
    [outBindingLayouts] one for one in input order, whatever their register
    spaces; the index map is left as it was on entry; and the one native
    call gets the native layouts of the slots in that order. *)
Theorem direct_pipeline_layout context out0 idx0 layouts w :
  directMode layouts ->
  (length out0 + length layouts <= c_MaxBindingLayouts)%nat ->
  exists res out info,
    createPipelineLayout out0 idx0 context layouts w
    = Ok ((res, out), addErrors w [EvCreatePipelineLayout info]) /\
    PipelineLayoutOut.outBindingLayouts out = out0 ++ map Some layouts /\
    PipelineLayoutOut.outDescriptorSetIdxToBindingIdx out = idx0 /\
    PipelineLayoutCreateInfo.pSetLayouts info
    = map (setLayoutOf context) out0
      ++ map BindingLayout.descriptorSetLayout layouts /\
    (res, PipelineLayoutOut.outPipelineLayout out) = vkCreatePipelineLayout info.
Proof.
  intros Hmode Hcap. unfold createPipelineLayout.
  rewrite (bind_Ok _ _ _ _ _ (usesDescriptorSetIdxToBindingIdx_direct layouts w Hmode)).
  assert (Hpush :
    (outBindingLayouts1 <-
       foldM (fun v layout => push_back c_MaxBindingLayouts v (Some layout))
         layouts out0 ;;
     ret (outBindingLayouts1, idx0)) w
    = Ok ((out0 ++ map Some layouts, idx0), w)).
  { rewrite (bind_Ok _ _ _ _ _ (push_loop layouts out0 w Hcap)). reflexivity. }
  rewrite (bind_Ok _ _ _ _ _ Hpush). cbn [fst snd].
  destruct (gather_loop context (out0 ++ map Some layouts) [] 0 0 w)
    as (size & visibility & Hgather).
  { rewrite length_app, length_map. cbn. lia. }
  rewrite (bind_Ok _ _ _ _ _ Hgather). cbn [app]. unfold bind at 1.
  rewrite emit_addErrors.
  match goal with |- context [vkCreatePipelineLayout ?i] => set (info := i) end.
  destruct (vkCreatePipelineLayout info) as [res handle] eqn:Hnative.
  eexists res, _, info. split; [reflexivity|]. cbn.
  split; [reflexivity|]. split; [reflexivity|]. split; [|symmetry; exact Hnative].
  rewrite map_app, map_map. reflexivity.
Qed.

(** X2.  Push constants of a pipeline layout: of the slots of
    [outBindingLayouts] that hold a layout which is not bindless and has a
    PushConstants item, the last one decides.  The one range of the native
    call starts at 0, has the size of that layout's first PushConstants item
    and the stage flags of that layout's visibility, which are also returned
    as [outPushConstantVisibility]; the range is counted only when the size
    is not 0. *)
Theorem push_constants_of_last_declaring_slot
    context out0 idx0 layouts w res out w' pre slot post size flags :
  createPipelineLayout out0 idx0 context layouts w = Ok ((res, out), w') ->
  PipelineLayoutOut.outBindingLayouts out = pre ++ slot :: post ->
  declaredPushConstants slot = Some (size, flags) ->
  Forall (fun slot => declaredPushConstants slot = Datatypes.None) post ->
  exists info,
    trace w' = trace w ++ [EvCreatePipelineLayout info] /\
    PipelineLayoutCreateInfo.pPushConstantRanges info = PushConstantRange.mk 0 size flags /\
    PipelineLayoutCreateInfo.pushConstantRangeCount info
    = (if bool_decide (size <> 0) then 1 else 0) /\
    PipelineLayoutOut.outPushConstantVisibility out = flags.
Proof.
  intros Hrun Hslots Hslot Hpost. apply createPipelineLayout_inv in Hrun.
  destruct Hrun as (info & -> & _ & Hoffset & Hrange & Hcount & Hvis & _).
  rewrite Hslots, (lastPushConstants pre slot post (0, 0) (size, flags) Hslot Hpost)
    in Hrange.
  injection Hrange as Hsize Hflags.
  exists info. split; [reflexivity|].
  destruct (PipelineLayoutCreateInfo.pPushConstantRanges info) as [o s f].
  cbn in *. subst. auto.
Qed.

(** X3.  A pipeline layout without push constants: when no slot of
    [outBindingLayouts] holds a layout that is not bindless and has a
    PushConstants item, the native call counts no push-constant range, its
    range is all zero, and [outPushConstantVisibility] is 0. *)
Theorem no_push_constants context out0 idx0 layouts w res out w' :
  createPipelineLayout out0 idx0 context layouts w = Ok ((res, out), w') ->
  Forall (fun slot => declaredPushConstants slot = Datatypes.None)
    (PipelineLayoutOut.outBindingLayouts out) ->
  exists info,
    trace w' = trace w ++ [EvCreatePipelineLayout info] /\
    PipelineLayoutCreateInfo.pPushConstantRanges info = PushConstantRange.mk 0 0 0 /\
    PipelineLayoutCreateInfo.pushConstantRangeCount info = 0 /\
    PipelineLayoutOut.outPushConstantVisibility out = 0.
Proof.
  intros Hrun Hnone. apply createPipelineLayout_inv in Hrun.
  destruct Hrun as (info & -> & _ & Hoffset & Hrange & Hcount & Hvis & _).
  rewrite (noPushConstants _ (0, 0) Hnone) in Hrange.
  injection Hrange as Hsize Hflags.
  exists info. split; [reflexivity|].
  destruct (PipelineLayoutCreateInfo.pPushConstantRanges info) as [o s f].
  cbn in *. subst. auto.
Qed.

End PipelineLayouts2.

Lemma direct_pipeline_layout_witness :
  exists res out info,
    createPipelineLayout (H := sample_collaborators) [] [] sample_context
      [sample_fixedLayout; sample_bindlessLayout] emptyWorld
    = Ok ((res, out), addErrors emptyWorld [EvCreatePipelineLayout info]) /\
    PipelineLayoutOut.outBindingLayouts out
    = [Some sample_fixedLayout; Some sample_bindlessLayout] /\
    PipelineLayoutOut.outDescriptorSetIdxToBindingIdx out = [] /\
    PipelineLayoutCreateInfo.pSetLayouts info = [1000; 1000].
Proof.
  destruct (direct_pipeline_layout (H := sample_collaborators) sample_context [] []
              [sample_fixedLayout; sample_bindlessLayout] emptyWorld)
    as (res & out & info & Hrun & Hslots & Hidx & Hsets & _).
  - reflexivity.
  - vm_compute. lia.
  - exists res, out, info. auto.
Defined.

Lemma push_constants_of_last_declaring_slot_witness :
  exists info,
    PipelineLayoutCreateInfo.pPushConstantRanges info = PushConstantRange.mk 0 16 1 /\
    PipelineLayoutCreateInfo.pushConstantRangeCount info = 1.
Proof.
  destruct (push_constants_of_last_declaring_slot (H := sample_collaborators)
              sample_context [] [] [sample_fixedLayout; sample_bindlessLayout] emptyWorld
              eSuccess
              (PipelineLayoutOut.mk 3000
                 [Some sample_fixedLayout; Some sample_bindlessLayout] 1 [])
              (addErrors emptyWorld
                 [EvCreatePipelineLayout
                    (PipelineLayoutCreateInfo.mk [1000; 1000] 1
                       (PushConstantRange.mk 0 16 1))])
              [] (Some sample_fixedLayout) [Some sample_bindlessLayout] 16 1)
    as (info & _ & Hrange & Hcount & _).
  - vm_compute. reflexivity.
  - reflexivity.
  - reflexivity.
  - repeat constructor.
  - exists info. split; [exact Hrange|exact Hcount].
Defined.

Lemma no_push_constants_witness :
  exists info,
    PipelineLayoutCreateInfo.pPushConstantRanges info = PushConstantRange.mk 0 0 0 /\
    PipelineLayoutCreateInfo.pushConstantRangeCount info = 0.
Proof.
  destruct (no_push_constants (H := sample_collaborators)
              sample_context [] [] [sample_layoutA; sample_layoutB] emptyWorld
              eSuccess
              (PipelineLayoutOut.mk 3000
                 [Some sample_layoutA; Datatypes.None; Some sample_layoutB] 0
                 [0; 4294967295; 1])
              (addErrors emptyWorld
                 [EvCreatePipelineLayout
                    (PipelineLayoutCreateInfo.mk [1001; 99; 1002] 0
                       (PushConstantRange.mk 0 0 0))]))
    as (info & _ & Hrange & Hcount & _).
  - vm_compute. reflexivity.
  - repeat constructor.
  - exists info. split; [exact Hrange|exact Hcount].
Defined.

(** ** From the index map of a pipeline layout to the bind calls *)

Section Routing.
Context `{Collaborators}.

Lemma indexed_In_inv (layouts : list BindingLayout.t) p :
  In p (indexed layouts) ->
  exists i : nat, fst p = Z.of_nat i /\ layouts !! i = Some (snd p).
Proof.
  intros Hp. apply list_elem_of_In, list_elem_of_lookup in Hp. destruct Hp as [i Hi].
  unfold indexed in Hi. apply lookup_zip_with_Some in Hi.
  destruct Hi as (z & layout & -> & Hz & Hlayout).
  apply lookup_seqZ in Hz. destruct Hz as [-> _].
  exists i. split; [cbn; lia|exact Hlayout].
Qed.

Lemma placeWith_Forall {A} (P : A -> Prop) (f : Z * BindingLayout.t -> A) il :
  Forall (fun p => P (f p)) il ->
  forall slots, Forall P slots -> Forall P (placeWith f il slots).
Proof.
  induction 1 as [|p il Hp _ IH]; intros slots Hslots; [exact Hslots|].
  rewrite placeWith_cons. apply IH.
  destruct (BindingLayout.isBindless (snd p)); [exact Hslots|].
  apply Forall_insert; assumption.
Qed.

(** Every handle of a vector lies in one of its runs, at its distance from
    the start of the run. *)
Lemma runsFrom_current (hs : list (option IBindingSet)) (start : nat)
    (cur : list IBindingSet) (i : nat) h :
  cur !! i = Some h ->
  exists r, In r (runsFrom start cur hs) /\ fst r = start /\ snd r !! i = Some h.
Proof.
  intros Hi. assert (Hne : cur <> []) by (intros ->; discriminate Hi).
  destruct (runsFrom_head hs start cur Hne) as (ext & rest & ->).
  exists (start, cur ++ ext). split; [left; reflexivity|]. split; [reflexivity|].
  cbn. apply lookup_app_l_Some. exact Hi.
Qed.

Lemma runsFrom_covers (hs : list (option IBindingSet)) :
  forall (start : nat) (cur : list IBindingSet) (j : nat) h,
    hs !! j = Some (Some h) ->
    exists r, In r (runsFrom start cur hs) /\
              (fst r <= start + length cur + j)%nat /\
              snd r !! (start + length cur + j - fst r)%nat = Some h.
Proof.
  induction hs as [|x hs IH]; intros start cur j h Hj; [discriminate Hj|].
  destruct j as [|j].
  - cbn in Hj. injection Hj as ->. cbn [runsFrom].
    destruct (runsFrom_current hs start (cur ++ [h]) (length cur) h) as (r & Hr & Hs & Hl).
    { rewrite lookup_app_r by lia. rewrite Nat.sub_diag. reflexivity. }
    exists r. split; [exact Hr|]. rewrite Hs. split; [lia|].
    replace (start + length cur + 0 - start)%nat with (length cur) by lia. exact Hl.
  - cbn in Hj. destruct x as [h'|]; cbn [runsFrom].
    + destruct (IH start (cur ++ [h']) j h Hj) as (r & Hr & Hle & Hl).
      rewrite length_app in Hle, Hl. cbn [length] in Hle, Hl.
      exists r. split; [exact Hr|]. split; [lia|].
      replace (start + length cur + S j - fst r)%nat
        with (start + (length cur + 1) + j - fst r)%nat by lia.
      exact Hl.
    + destruct (IH (start + length cur + 1)%nat [] j h Hj) as (r & Hr & Hle & Hl).
      cbn [length] in Hle, Hl.
      exists r. split; [apply in_or_app; right; exact Hr|]. split; [lia|].
      replace (start + length cur + S j - fst r)%nat
        with (start + length cur + 1 + 0 + j - fst r)%nat by lia.
      exact Hl.
Qed.

Lemma runsOf_covers (hs : list (option IBindingSet)) (k : nat) h :
  hs !! k = Some (Some h) ->
  exists r, In r (runsOf hs) /\ (fst r <= k)%nat /\ snd r !! (k - fst r)%nat = Some h.
Proof.
  intros Hk. destruct (runsFrom_covers hs 0 [] k h Hk) as (r & Hr & Hle & Hl).
  exists r. split; [exact Hr|]. cbn in Hle, Hl. auto.
Qed.

(** The out-vectors of indexed mode, position by position: every input
    layout stands at a slot, a regular one at its register space, and the
    index map leads from the slot back to the input position. *)
Lemma indexed_slots (layouts : list BindingLayout.t) :
  indexedInputs layouts ->
  let n := Z.to_nat (regularSlotCount layouts) in
  let slots :=
    placeWith (fun p => Some (snd p)) (indexed layouts) (replicate n Datatypes.None)
    ++ map Some (filter isBindlessLayout layouts) in
  let idxMap :=
    placeWith fst (indexed layouts) (replicate n c_Hole)
    ++ map fst (filter (fun p => isBindlessLayout (snd p)) (indexed layouts)) in
  idxMap <> [] /\
  Forall (fun idx => idx = c_Hole \/ 0 <= idx < Z.of_nat (length layouts)) idxMap /\
  forall (i : nat) layout,
    layouts !! i = Some layout ->
    exists k : nat,
      idxMap !! k = Some (Z.of_nat i) /\
      slots !! k = Some (Some layout) /\
      (isRegular layout -> k = Z.to_nat (spaceOf layout)).
Proof.
  intros (Hmode & Hnd & Hspaces & Hlen & Hcap).
  destruct (slotCount_bounds layouts 0) as (Hnonneg & Hbound & _).
  fold (regularSlotCount layouts) in Hnonneg, Hbound.
  destruct (regularSlotCount_max layouts Hmode Hspaces) as (m & Hm & _ & Hcount).
  cbv zeta. set (n := Z.to_nat (regularSlotCount layouts)) in *.
  set (R := placeWith (fun p => Some (snd p)) (indexed layouts)
              (replicate n Datatypes.None)) in *.
  set (RI := placeWith fst (indexed layouts) (replicate n c_Hole)) in *.
  assert (HR : length R = n) by (subst R; rewrite placeWith_length; apply length_replicate).
  assert (HRI : length RI = n) by (subst RI; rewrite placeWith_length; apply length_replicate).
  assert (Hnd' : NoDup (map (fun p => spaceOf (snd p))
                          (filter (fun p => isRegular (snd p)) (indexed layouts))))
    by (unfold indexed; rewrite indexed_regular; exact Hnd).
  assert (Hregular : forall p, In p (indexed layouts) -> isRegular (snd p) ->
            0 <= spaceOf (snd p) /\ (Z.to_nat (spaceOf (snd p)) < n)%nat).
  { intros p Hp Hreg.
    assert (Hin : In (spaceOf (snd p)) (regularSpaces layouts)).
    { unfold regularSpaces. apply in_map. apply list_elem_of_In, list_elem_of_filter.
      split; [exact Hreg|]. apply list_elem_of_In, indexed_values. exact Hp. }
    rewrite Forall_forall in Hspaces, Hbound. apply list_elem_of_In in Hin.
    specialize (Hspaces _ Hin). specialize (Hbound _ Hin). cbn in Hbound.
    subst n. lia. }
  assert (Hpos : Forall (fun p => isRegular (snd p) -> 0 <= spaceOf (snd p))
                   (indexed layouts)).
  { rewrite Forall_forall. intros p Hp Hreg. apply Hregular; [|exact Hreg].
    apply list_elem_of_In. exact Hp. }
  assert (Hfst : forall p, In p (indexed layouts) ->
            0 <= fst p < Z.of_nat (length layouts)).
  { intros p Hp. apply indexed_In_inv in Hp. destruct Hp as (i & -> & Hi).
    apply lookup_lt_Some in Hi. lia. }
  split.
  { intros Hnil. apply (f_equal (@length Z)) in Hnil.
    rewrite length_app, HRI in Hnil. cbn in Hnil.
    rewrite Forall_forall in Hspaces. apply list_elem_of_In in Hm.
    specialize (Hspaces _ Hm). cbn in Hspaces. subst n. lia. }
  split.
  { apply Forall_app. split.
    - subst RI. apply placeWith_Forall.
      + rewrite Forall_forall. intros p Hp. right. apply Hfst, list_elem_of_In, Hp.
      + apply Forall_replicate. left. reflexivity.
    - rewrite Forall_forall. intros idx Hidx. apply list_elem_of_In, in_map_iff in Hidx.
      destruct Hidx as (p & <- & Hp). right. apply Hfst.
      apply list_elem_of_In, list_elem_of_filter in Hp. apply list_elem_of_In, Hp. }
  intros i layout Hi.
  pose proof (indexed_lookup layouts i layout Hi) as Hin.
  destruct (decide (isRegular layout)) as [Hreg|Hbl].
  - destruct (Hregular _ Hin Hreg) as [Hnonneg' Hlt]. cbn [snd] in Hlt.
    exists (Z.to_nat (spaceOf layout)).
    rewrite !lookup_app_l by lia. subst R RI. split; [|split; [|reflexivity]].
    + apply (placeWith_placed fst (indexed layouts) _ (Z.of_nat i, layout));
        try assumption.
      rewrite length_replicate. exact Hlt.
    + apply (placeWith_placed (fun p => Some (snd p)) (indexed layouts) _
               (Z.of_nat i, layout)); try assumption.
      rewrite length_replicate. exact Hlt.
  - assert (Hbl' : isBindlessLayout layout).
    { unfold isBindlessLayout, isRegular in *.
      destruct (BindingLayout.isBindless layout); congruence. }
    assert (Hfil : (Z.of_nat i, layout)
                   ∈ filter (fun p => isBindlessLayout (snd p)) (indexed layouts)).
    { apply list_elem_of_filter. split; [exact Hbl'|]. apply list_elem_of_In, Hin. }
    apply list_elem_of_lookup in Hfil. destruct Hfil as [j Hj].
    exists (n + j)%nat. split; [|split].
    + rewrite lookup_app_r by lia. rewrite HRI.
      replace (n + j - n)%nat with j by lia. rewrite lookup_map, Hj. reflexivity.
    + rewrite lookup_app_r by lia. rewrite HR.
      replace (n + j - n)%nat with j by lia.
      rewrite <- (indexed_bindless layouts 0). fold (indexed layouts).
      rewrite lookup_map, Hj. reflexivity.
    + intros Hreg. contradiction.
Qed.

(** X4.  A pipeline layout and the binding sets bound through its index map.
    With the index map [createPipelineLayout] builds in indexed mode and one
    concrete binding set per input layout, [bindBindingSets] binds every set
    at the descriptor-set index where the pipeline layout holds the layout
    the set was given for: a slot [k] of [outBindingLayouts] holds the
    layout, a bind call that starts at [first] has the descriptor set of the
    binding set at distance [k - first], and for a layout that is not
    bindless [k] is its register space.  The map is a valid index map for
    any vector with one entry per layout. *)
Theorem sets_are_bound_at_the_slots_of_their_layouts
    (context : VulkanContext.t) (m_VolatileBufferStates : gmap Z VolatileBufferState.t)
    (bindPoint : Z) (layouts : list BindingLayout.t)
    (sets : list (option IBindingSet)) (w w1 : World) res out :
  indexedInputs layouts ->
  createPipelineLayout [] [] context layouts w = Ok ((res, out), w1) ->
  length sets = length layouts ->
  Z.of_nat (length (PipelineLayoutOut.outDescriptorSetIdxToBindingIdx out)) < 2 ^ 32 ->
  Forall (runFits m_VolatileBufferStates)
    (runsOf (resolvedHandles sets (PipelineLayoutOut.outDescriptorSetIdxToBindingIdx out))) ->
  exists w2,
    bindBindingSets m_VolatileBufferStates bindPoint
      (PipelineLayoutOut.outPipelineLayout out) sets
      (PipelineLayoutOut.outDescriptorSetIdxToBindingIdx out) w1 = Ok (tt, w2) /\
    validIndexMap sets (PipelineLayoutOut.outDescriptorSetIdxToBindingIdx out) /\
    forall (i : nat) layout set,
      layouts !! i = Some layout -> sets !! i = Some (Some set) ->
      exists (k first : nat) count handles offsets,
        In (Z.of_nat first, count, handles, offsets)
          (bindCallsOf (drop (length (trace w1)) (trace w2))) /\
        PipelineLayoutOut.outBindingLayouts out !! k = Some (Some layout) /\
        (isRegular layout -> k = Z.to_nat (spaceOf layout)) /\
        (first <= k)%nat /\
        handles !! (k - first)%nat = Some (handleDescriptorSet set).
Proof.
  intros Hinputs Hrun Hsets Hlen Hfits.
  destruct (createPipelineLayout_indexed context layouts w Hinputs)
    as (res' & handle & info & Hrun' & _).
  cbv zeta in Hrun'. rewrite Hrun' in Hrun. injection Hrun as _ <- <-.
  destruct (indexed_slots layouts Hinputs) as (Hne & Hvalid & Hslots).
  cbv zeta in Hne, Hvalid, Hslots.
  cbn [PipelineLayoutOut.outDescriptorSetIdxToBindingIdx PipelineLayoutOut.outBindingLayouts
       PipelineLayoutOut.outPipelineLayout] in *.
  set (idxMap := placeWith fst (indexed layouts) _ ++ _) in *.
  assert (Hvalid' : validIndexMap sets idxMap).
  { unfold validIndexMap. rewrite Hsets. exact Hvalid. }
  assert (Hbindable : bindable m_VolatileBufferStates sets idxMap).
  { split; [exact Hvalid'|]. split; [|exact Hfits].
    rewrite resolvedHandles_length. destruct (decide (idxMap = [])); [contradiction|].
    exact Hlen. }
  destruct (bindBindingSets_trace m_VolatileBufferStates bindPoint handle sets idxMap
              (addErrors w [EvCreatePipelineLayout info]) Hbindable)
    as (w2 & Hbind & Htrace).
  exists w2. split; [exact Hbind|]. split; [exact Hvalid'|].
  intros i layout set Hi Hset.
  destruct (Hslots i layout Hi) as (k & Hidx & Hslot & Hspace).
  assert (Hresolved : resolvedHandles sets idxMap !! k = Some (Some set)).
  { unfold resolvedHandles. destruct (decide (idxMap = [])); [contradiction|].
    rewrite lookup_map, Hidx. cbn [fmap option_fmap option_map].
    apply lookup_lt_Some in Hi. destruct Hinputs as (_ & _ & _ & Hcount & _).
    destruct (decide (Z.of_nat i = c_Hole)) as [Hhole|_];
      [unfold c_Hole in Hhole; lia|].
    rewrite Nat2Z.id, Hset. reflexivity. }
  destruct (runsOf_covers _ k set Hresolved) as (r & Hr & Hle & Hl).
  exists k, (fst r), (Z.of_nat (length (snd r))), (map handleDescriptorSet (snd r)),
    (map (dynamicOffsetOf m_VolatileBufferStates) (runBuffers r)).
  split.
  { rewrite Htrace, drop_app_length, bindCallsOf_runs.
    apply in_map_iff. exists r. split; [reflexivity|exact Hr]. }
  split; [exact Hslot|]. split; [exact Hspace|]. split; [exact Hle|].
  rewrite lookup_map, Hl. reflexivity.
Qed.

End Routing.

Lemma sets_are_bound_at_the_slots_of_their_layouts_witness :
  exists w2 (first : nat) count handles offsets,
    bindBindingSets (H := sample_collaborators) sample_volatileStates 0 3000
      [Some sample_set0; Some sample_set2] [0; 4294967295; 1]
      (addErrors emptyWorld
         [EvCreatePipelineLayout
            (PipelineLayoutCreateInfo.mk [1001; 99; 1002] 0
               (PushConstantRange.mk 0 0 0))]) = Ok (tt, w2) /\
    In (Z.of_nat first, count, handles, offsets) (bindCallsOf (drop 1 (trace w2))) /\
    (first <= 2)%nat /\
    handles !! (2 - first)%nat = Some 12.
Proof.
  destruct (sets_are_bound_at_the_slots_of_their_layouts (H := sample_collaborators)
              sample_context sample_volatileStates 0
              [sample_layoutA; sample_layoutB] [Some sample_set0; Some sample_set2]
              emptyWorld
              (addErrors emptyWorld
                 [EvCreatePipelineLayout
                    (PipelineLayoutCreateInfo.mk [1001; 99; 1002] 0
                       (PushConstantRange.mk 0 0 0))])
              eSuccess
              (PipelineLayoutOut.mk 3000
                 [Some sample_layoutA; Datatypes.None; Some sample_layoutB] 0
                 [0; 4294967295; 1]))
    as (w2 & Hbind & _ & Hsets).
  - exact sample_indexedInputs.
  - vm_compute. reflexivity.
  - reflexivity.
  - vm_compute. reflexivity.
  - unfold runsOf, resolvedHandles. simpl.
    repeat constructor; simpl; try lia.
  - destruct (Hsets 1%nat sample_layoutB sample_set2 eq_refl eq_refl)
      as (k & first & count & handles & offsets & Hin & _ & Hk & Hle & Hhandle).
    assert (Hk2 : k = 2%nat) by (apply Hk; reflexivity). subst k.
    exists w2, first, count, handles, offsets. auto.
Defined.

(** ** What [bindBindingSets] keeps alive *)

Section Liveness.
Context `{Collaborators}.

Lemma sameStore_refl w : sameStore w w.
Proof. split; reflexivity. Qed.

Lemma sameStore_trans w1 w2 w3 : sameStore w1 w2 -> sameStore w2 w3 -> sameStore w1 w3.
Proof. intros [H1 H2] [H3 H4]. split; congruence. Qed.

Lemma sameStore_addErrors w errors : sameStore w (addErrors w errors).
Proof. split; reflexivity. Qed.

Lemma foldM_sameStore {A B} (f : A -> B -> M A) (l : list B) :
  (forall a x w a' w', f a x w = Ok (a', w') -> sameStore w w') ->
  forall a w a' w', foldM f l a w = Ok (a', w') -> sameStore w w'.
Proof.
  intros Hf. induction l as [|x l IH]; intros a w a' w' Hrun.
  - cbn in Hrun. injection Hrun as _ <-. apply sameStore_refl.
  - cbn [foldM] in Hrun. apply bind_inv in Hrun.
    destruct Hrun as (a1 & w1 & Hstep & Hrun).
    eapply sameStore_trans; [eapply Hf, Hstep|eapply IH, Hrun].
Qed.

Lemma pushVolatileOffset_sameStore m_VolatileBufferStates offsets buffer w offsets' w' :
  pushVolatileOffset m_VolatileBufferStates offsets buffer w = Ok (offsets', w') ->
  sameStore w w'.
Proof.
  unfold pushVolatileOffset, error.
  destruct (m_VolatileBufferStates !! Buffer.address buffer); intros Hrun; minv Hrun.
  - apply sameStore_refl.
  - apply sameStore_addErrors.
Qed.

Lemma bindingSetHandleAt_inv bindings descriptorSetIdxToBindingIdx i h w w' :
  bindingSetHandleAt bindings descriptorSetIdxToBindingIdx i w = Ok (h, w') ->
  w' = w /\ 0 <= i /\
  resolvedHandles bindings descriptorSetIdxToBindingIdx !! Z.to_nat i = Some h.
Proof.
  unfold bindingSetHandleAt, resolvedHandles.
  case_bool_decide as Hmap.
  - intros Hrun. apply at_inv in Hrun. destruct Hrun as (Hpos & Hlook & ->).
    destruct (decide (descriptorSetIdxToBindingIdx = [])); [auto|contradiction].
  - intros Hrun. apply bind_inv in Hrun. destruct Hrun as (idx & w1 & Hidx & Hrun).
    apply at_inv in Hidx. destruct Hidx as (Hpos & Hlook & ->).
    destruct (decide (descriptorSetIdxToBindingIdx = [])); [contradiction|].
    rewrite lookup_map, Hlook. cbn [fmap option_fmap option_map].
    case_bool_decide as Hhole.
    + apply at_inv in Hrun. destruct Hrun as (_ & Hset & ->).
      destruct (decide (idx = c_Hole)); [contradiction|].
      rewrite Hset. auto.
    + unfold ret in Hrun. injection Hrun as <- <-.
      destruct (decide (idx = c_Hole)); [auto|contradiction].
Qed.

Lemma bindBindingSets_step_inv m_VolatileBufferStates bindPoint pipelineLayout
    bindings descriptorSetIdxToBindingIdx st i st' w w' :
  bindBindingSets_step m_VolatileBufferStates bindPoint pipelineLayout bindings
    descriptorSetIdxToBindingIdx st i w = Ok (st', w') ->
  exists h,
    resolvedHandles bindings descriptorSetIdxToBindingIdx !! Z.to_nat i = Some h /\
    referencedResources w' = referencedResources w ++ trackedSets [h] /\
    viewCache w' = viewCache w.
Proof.
  unfold bindBindingSets_step. intros Hrun. apply bind_inv in Hrun.
  destruct Hrun as (h & w1 & Hhandle & Hrun).
  apply bindingSetHandleAt_inv in Hhandle. destruct Hhandle as (-> & _ & Hh).
  exists h. split; [exact Hh|]. unfold trackedSets. cbn [flat_map].
  destruct h as [[bindingSet|table]|].
  - apply bind_inv in Hrun. destruct Hrun as (sets & w1 & Hpush & Hrun).
    apply push_back_inv in Hpush. destruct Hpush as (-> & -> & _).
    apply bind_inv in Hrun. destruct Hrun as (offsets & w2 & Hloop & Hrun).
    apply (foldM_sameStore _ _ (pushVolatileOffset_sameStore m_VolatileBufferStates))
      in Hloop.
    destruct Hloop as [Hrefs Hcache].
    apply bind_inv in Hrun. destruct Hrun as (u & w3 & Htrack & Hrun).
    unfold ret in Hrun. injection Hrun as _ <-.
    destruct (BindingSetDesc.trackLiveness (BindingSet.desc bindingSet)).
    + unfold referenceResource in Htrack. injection Htrack as _ <-. cbn.
      rewrite ?app_nil_r, Hrefs. auto.
    + unfold ret in Htrack. injection Htrack as _ <-. rewrite !app_nil_r. auto.
  - apply bind_inv in Hrun. destruct Hrun as (sets & w1 & Hpush & Hrun).
    apply push_back_inv in Hpush. destruct Hpush as (-> & -> & _).
    unfold ret in Hrun. injection Hrun as _ <-. rewrite app_nil_r. auto.
  - apply bind_inv in Hrun. destruct Hrun as (st1 & w1 & Hflush & Hrun).
    unfold ret in Hrun. injection Hrun as _ <-. rewrite app_nil_r.
    case_bool_decide.
    + unfold bindDescriptorSets in Hflush. minv Hflush. auto.
    + unfold ret in Hflush. injection Hflush as _ <-. auto.
Qed.

Lemma trackedSets_app hs1 hs2 : trackedSets (hs1 ++ hs2) = trackedSets hs1 ++ trackedSets hs2.
Proof. unfold trackedSets. apply flat_map_app. Qed.

Lemma bindBindingSets_loop_inv m_VolatileBufferStates bindPoint pipelineLayout
    bindings descriptorSetIdxToBindingIdx (positions : list Z) :
  forall st st' w w',
    foldM (bindBindingSets_step m_VolatileBufferStates bindPoint pipelineLayout bindings
             descriptorSetIdxToBindingIdx) positions st w = Ok (st', w') ->
    exists hs,
      Forall2 (fun i h =>
                 resolvedHandles bindings descriptorSetIdxToBindingIdx !! Z.to_nat i
                 = Some h) positions hs /\
      referencedResources w' = referencedResources w ++ trackedSets hs /\
      viewCache w' = viewCache w.
Proof.
  induction positions as [|i positions IH]; intros st st' w w' Hrun.
  - cbn in Hrun. injection Hrun as _ <-. exists []. rewrite app_nil_r.
    split; [constructor|auto].
  - cbn [foldM] in Hrun. apply bind_inv in Hrun.
    destruct Hrun as (st1 & w1 & Hstep & Hrun).
    apply bindBindingSets_step_inv in Hstep. destruct Hstep as (h & Hh & Hrefs & Hcache).
    apply IH in Hrun. destruct Hrun as (hs & Hall & Hrefs' & Hcache').
    exists (h :: hs). split; [constructor; assumption|].
    change (h :: hs) with ([h] ++ hs). rewrite trackedSets_app, app_assoc.
    split; congruence.
Qed.

Lemma lookups_of_all_positions {A} (l hs : list A) :
  Forall2 (fun i h => l !! Z.to_nat i = Some h) (seqZ 0 (Z.of_nat (length l))) hs ->
  hs = l.
Proof.
  intros Hall. apply list_eq. intros j.
  pose proof (Forall2_length _ _ _ Hall) as Hlen. rewrite length_seqZ in Hlen.
  destruct (decide (j < length l)%nat) as [Hj|Hj].
  - destruct (lookup_lt_is_Some_2 hs j ltac:(lia)) as [h Hh].
    assert (Hpos : seqZ 0 (Z.of_nat (length l)) !! j = Some (Z.of_nat j))
      by (apply lookup_seqZ; lia).
    pose proof (Forall2_lookup_lr _ _ _ _ _ _ Hall Hpos Hh) as Hl.
    cbn beta in Hl. rewrite Nat2Z.id in Hl. congruence.
  - rewrite !lookup_ge_None_2 by lia. reflexivity.
Qed.

(** X5.  Liveness tracking of [bindBindingSets]: the command buffer's list
    of referenced resources gets, in descriptor-set order, the concrete
    handles that are binding sets with [trackLiveness] set, through the
    index map when there is one; descriptor tables and binding sets without
    the flag are never added, and the cache of buffer views is untouched. *)
Theorem bound_sets_with_liveness_are_referenced
    (m_VolatileBufferStates : gmap Z VolatileBufferState.t)
    (bindPoint pipelineLayout : Z) (bindings : list (option IBindingSet))
    (descriptorSetIdxToBindingIdx : list Z) (w : World) :
  bindable m_VolatileBufferStates bindings descriptorSetIdxToBindingIdx ->
  exists w',
    bindBindingSets m_VolatileBufferStates bindPoint pipelineLayout bindings
      descriptorSetIdxToBindingIdx w = Ok (tt, w') /\
    referencedResources w'
    = referencedResources w
      ++ trackedSets (resolvedHandles bindings descriptorSetIdxToBindingIdx) /\
    viewCache w' = viewCache w.
Proof.
  intros Hbindable.
  destruct (bindBindingSets_trace m_VolatileBufferStates bindPoint pipelineLayout
              bindings descriptorSetIdxToBindingIdx w Hbindable) as (w' & Hrun & _).
  exists w'. split; [exact Hrun|].
  destruct Hbindable as (_ & Hlen & _).
  unfold bindBindingSets in Hrun. cbv zeta in Hrun.
  apply bind_inv in Hrun. destruct Hrun as (st & w1 & Hloop & Hrun).
  apply bindBindingSets_loop_inv in Hloop. destruct Hloop as (hs & Hall & Hrefs & Hcache).
  assert (Hhs : hs = resolvedHandles bindings descriptorSetIdxToBindingIdx).
  { apply lookups_of_all_positions.
    rewrite resolvedHandles_length in Hlen |- *.
    destruct (decide (descriptorSetIdxToBindingIdx = [])) as [Hmap|Hmap];
      [rewrite bool_decide_eq_true_2 in Hall by exact Hmap
      |rewrite bool_decide_eq_false_2 in Hall by exact Hmap];
      rewrite wrap32_small in Hall by lia; exact Hall. }
  subst hs.
  assert (Hlast : sameStore w1 w').
  { case_bool_decide.
    - unfold bindDescriptorSets in Hrun. rewrite emit_addErrors in Hrun.
      injection Hrun as <-. apply sameStore_addErrors.
    - unfold ret in Hrun. injection Hrun as <-. apply sameStore_refl. }
  destruct Hlast as [Hrefs' Hcache']. split; congruence.
Qed.

End Liveness.

Lemma bound_sets_with_liveness_are_referenced_witness :
  exists w',
    bindBindingSets (H := sample_collaborators) sample_volatileStates 0 77
      [Some sample_set0; Datatypes.None; Some sample_set2] [] emptyWorld = Ok (tt, w') /\
    referencedResources w' = [sample_set0].
Proof.
  destruct (bound_sets_with_liveness_are_referenced (H := sample_collaborators)
              sample_volatileStates 0 77
              [Some sample_set0; Datatypes.None; Some sample_set2] [] emptyWorld
              sample_bindable)
    as (w' & Hrun & Hrefs & _).
  exists w'. split; [exact Hrun|]. rewrite Hrefs. reflexivity.
Defined.

(** ** Descriptor tables: writes without a target, and repeated writes *)

Section TableWrites2.
Context `{Collaborators}.

Lemma writeMatchingSpace_skip table binding (locs : list Z) st w :
  Forall (fun i =>
            0 <= i /\
            exists space,
              BindlessLayoutDesc.registerSpaces
                (BindingLayout.bindlessDesc (DescriptorTable.layout table)) !! Z.to_nat i
              = Some space /\
              BindingLayoutItem.type space <> BindingSetItem.type binding) locs ->
  foldM (writeMatchingSpace table binding) locs st w = Ok (st, w).
Proof.
  induction 1 as [|i locs (Hpos & space & Hspace & Htype) _ IH]; [reflexivity|].
  cbn [foldM]. unfold bind at 1, writeMatchingSpace at 1.
  pose proof (at_ok _ _ _ w Hspace) as Hat. rewrite Z2Nat.id in Hat by exact Hpos.
  rewrite (bind_Ok _ _ _ _ _ Hat).
  rewrite bool_decide_eq_false_2 by exact Htype. exact IH.
Qed.

(** X6.  A write to an immutable descriptor table whose layout has no
    register space of the binding's type: the call reports success and
    issues one descriptor update with no write in it; the resource handle of
    the binding is not looked at. *)
Theorem write_without_matching_space (table : DescriptorTable.t)
    (binding : BindingSetItem.t) (w : World) :
  let desc := BindingLayout.bindlessDesc (DescriptorTable.layout table) in
  BindlessLayoutDesc.layoutType desc = LayoutType.Immutable ->
  Z.of_nat (length (BindlessLayoutDesc.registerSpaces desc)) < 2 ^ 32 ->
  BindingSetItem.slot binding < DescriptorTable.capacity table ->
  BindingSetItem.type binding <> ResourceType.None ->
  Forall (fun space => BindingLayoutItem.type space <> BindingSetItem.type binding)
    (BindlessLayoutDesc.registerSpaces desc) ->
  writeDescriptorTable table binding w
  = Ok (true, addErrors w [EvUpdateDescriptorSets 0 []]).
Proof.
  intros desc Himm Hlen Hslot Htype Hnone. subst desc. unfold writeDescriptorTable.
  rewrite bool_decide_eq_false_2 by lia.
  rewrite bool_decide_eq_false_2 by exact Htype.
  rewrite bool_decide_eq_false_2 by (intros Hne; apply Hne; exact Himm).
  rewrite wrap32_small by lia.
  assert (Hloop :
    foldM (writeMatchingSpace table binding)
      (seqZ 0 (Z.of_nat (length (BindlessLayoutDesc.registerSpaces
                 (BindingLayout.bindlessDesc (DescriptorTable.layout table))))))
      (TableWrites.mk [] [] []) w = Ok (TableWrites.mk [] [] [], w)).
  { apply writeMatchingSpace_skip.
    rewrite Forall_forall. intros i Hi. apply elem_of_seqZ in Hi.
    split; [lia|].
    destruct (lookup_lt_is_Some_2
                (BindlessLayoutDesc.registerSpaces
                   (BindingLayout.bindlessDesc (DescriptorTable.layout table)))
                (Z.to_nat i) ltac:(lia)) as [space Hspace].
    exists space. split; [exact Hspace|].
    rewrite Forall_forall in Hnone. apply Hnone.
    apply list_elem_of_lookup. exists (Z.to_nat i). exact Hspace. }
  rewrite (bind_Ok _ _ _ _ _ Hloop).
  cbn [TableWrites.descriptorWriteInfo length]. unfold bind.
  rewrite emit_addErrors. reflexivity.
Qed.

Lemma replayable_ret {A} (a : A) : replayable (ret a).
Proof.
  intros w a' w' Hrun. unfold ret in Hrun. injection Hrun as <- <-.
  split; [exists []; rewrite app_nil_r; auto|].
  split; [reflexivity|]. intros wx _. reflexivity.
Qed.

Lemma replayable_fault {A} (what : string) : replayable (@fault A what).
Proof. intros w a w' Hrun. discriminate Hrun. Qed.

Lemma replayable_bind {A B} (m : M A) (k : A -> M B) :
  replayable m -> (forall a, replayable (k a)) -> replayable (bind m k).
Proof.
  intros Hm Hk w b w' Hrun. apply bind_inv in Hrun.
  destruct Hrun as (a & w1 & Hfirst & Hrest).
  destruct (Hm _ _ _ Hfirst) as ((pre1 & Htr1 & Hpre1) & Hsub1 & Hreplay1).
  destruct (Hk a _ _ _ Hrest) as ((pre2 & Htr2 & Hpre2) & Hsub2 & Hreplay2).
  split.
  { exists (pre1 ++ pre2). rewrite Htr2, Htr1, app_assoc.
    split; [reflexivity|]. apply Forall_app. auto. }
  split; [etransitivity; eassumption|].
  intros wx Hwx. unfold bind.
  rewrite Hreplay1 by (etransitivity; eassumption).
  apply Hreplay2. exact Hwx.
Qed.

Lemma replayable_assert (cond : bool) : replayable (assert cond).
Proof. destruct cond; [apply replayable_ret|apply replayable_fault]. Qed.

Lemma replayable_push_back {A} (cap : nat) (v : list A) (x : A) :
  replayable (push_back cap v x).
Proof.
  apply replayable_bind; [apply replayable_assert|]. intros _. apply replayable_ret.
Qed.

Lemma replayable_at {A} (v : list A) (i : Z) : replayable (at_ v i).
Proof.
  unfold at_. destruct (if bool_decide (0 <= i) then v !! Z.to_nat i else Datatypes.None);
    [apply replayable_ret|apply replayable_fault].
Qed.

Lemma replayable_foldM {A B} (f : A -> B -> M A) (l : list B) :
  (forall a x, replayable (f a x)) -> forall a, replayable (foldM f l a).
Proof.
  intros Hf. induction l as [|x l IH]; intros a; cbn [foldM].
  - apply replayable_ret.
  - apply replayable_bind; [apply Hf|exact IH].
Qed.

Lemma replayable_typedBufferView buffer binding :
  replayable (typedBufferView buffer binding).
Proof.
  intros w view w' Hrun. unfold typedBufferView in Hrun |- *.
  destruct (viewCache w !! _) as [found|] eqn:Hfound.
  - injection Hrun as <- <-.
    split; [exists []; rewrite app_nil_r; auto|].
    split; [reflexivity|]. intros wx Hwx.
    rewrite (lookup_weaken _ _ _ _ Hfound Hwx). reflexivity.
  - destruct (vkCreateBufferView _) as [res bufferView].
    minv Hrun. unfold addErrors. cbn [viewCache trace].
    split; [eexists; split; [reflexivity|repeat constructor]|].
    split; [apply insert_subseteq; exact Hfound|]. intros wx Hwx.
    rewrite (lookup_weaken _ (viewCache wx) _ view (lookup_insert_eq _ _ _) Hwx).
    reflexivity.
Qed.

Ltac replay :=
  repeat first
    [ apply replayable_ret
    | apply replayable_fault
    | apply replayable_assert
    | apply replayable_push_back
    | apply replayable_at
    | apply replayable_typedBufferView
    | apply replayable_bind; [|intros ?] ].

Lemma replayable_writeDescriptorForBinding table binding st layoutBinding :
  replayable (writeDescriptorForBinding table binding st layoutBinding).
Proof.
  unfold writeDescriptorForBinding, checked_cast_Texture, checked_cast_Buffer,
    checked_cast_Sampler, emplace_imageInfo, emplace_bufferInfo,
    generateWriteDescriptorData, InvalidEnum, NotImplemented, NotSupported.
  destruct (BindingSetItem.type binding);
    destruct (BindingSetItem.resourceHandle binding) as [[texture|buffer|sampler|accel]|];
    replay.
Qed.

Lemma replayable_writeMatchingSpace table binding st bindingLocation :
  replayable (writeMatchingSpace table binding st bindingLocation).
Proof.
  unfold writeMatchingSpace. apply replayable_bind; [apply replayable_at|].
  intros space. case_bool_decide; [|apply replayable_ret].
  apply replayable_bind; [apply replayable_at|]. intros layoutBinding.
  apply replayable_writeDescriptorForBinding.
Qed.

Lemma updatesOf_app (tr1 tr2 : list Event) :
  updatesOf (tr1 ++ tr2) = updatesOf tr1 ++ updatesOf tr2.
Proof. unfold updatesOf. apply filter_app. Qed.

Lemma updatesOf_views (pre : list Event) :
  Forall isCreateBufferView pre -> updatesOf pre = [].
Proof.
  unfold updatesOf. induction 1 as [|e pre He _ IH]; [reflexivity|].
  destruct e; try contradiction. rewrite filter_cons_False by discriminate. exact IH.
Qed.

(** X7.  Repeating a write to a descriptor table.  After a call that
    returned, the same call again returns the same result, creates no buffer
    view (the view of a typed buffer comes from the cache the first call
    filled), leaves the cache as it is, and issues exactly the descriptor
    updates the first call issued (none for a rejected or a clearing write,
    else one with the same writes). *)
Theorem repeated_write_reuses_the_cached_view (table : DescriptorTable.t)
    (binding : BindingSetItem.t) (w w1 : World) (result : bool) :
  writeDescriptorTable table binding w = Ok (result, w1) ->
  writeDescriptorTable table binding w1
  = Ok (result, addErrors w1 (updatesOf (drop (length (trace w)) (trace w1)))).
Proof.
  unfold writeDescriptorTable. intros Hrun.
  case_bool_decide as Hslot.
  { unfold ret in Hrun |- *. injection Hrun as <- <-.
    rewrite drop_all. destruct w as [tr cache refs]. unfold addErrors. cbn.
    rewrite app_nil_r. reflexivity. }
  case_bool_decide as Htype.
  { unfold ret in Hrun |- *. injection Hrun as <- <-.
    rewrite drop_all. destruct w as [tr cache refs]. unfold addErrors. cbn.
    rewrite app_nil_r. reflexivity. }
  apply bind_inv in Hrun. destruct Hrun as (st & wb & Hbody & Hrun).
  apply bind_inv in Hrun. destruct Hrun as (u & w2 & Hemit & Hrun).
  rewrite emit_addErrors in Hemit. injection Hemit as _ <-.
  unfold ret in Hrun. injection Hrun as <- <-.
  match type of Hbody with ?body w = _ => set (m := body) in * end.
  assert (Hreplay : replayable m).
  { subst m. case_bool_decide.
    - replay. apply replayable_writeDescriptorForBinding.
    - apply replayable_foldM. intros. apply replayable_writeMatchingSpace. }
  destruct (Hreplay _ _ _ Hbody) as ((pre & Htr & Hpre) & _ & Hagain).
  rewrite (bind_Ok _ _ _ _ _ (Hagain (addErrors wb _) ltac:(reflexivity))).
  unfold bind. rewrite emit_addErrors. unfold ret. f_equal. f_equal.
  change (trace (addErrors wb ?es)) with (trace wb ++ es).
  rewrite Htr, <- app_assoc, drop_app_length.
  rewrite updatesOf_app, (updatesOf_views pre Hpre). reflexivity.
Qed.

End TableWrites2.

Lemma write_without_matching_space_witness :
  writeDescriptorTable (H := sample_collaborators) sample_table
    (BindingSetItem.mk Datatypes.None 5 ResourceType.Sampler 0 0 (0, 0, 0, 0) (0, 0))
    emptyWorld
  = Ok (true, addErrors emptyWorld [EvUpdateDescriptorSets 0 []]).
Proof.
  apply (write_without_matching_space (H := sample_collaborators) sample_table
           (BindingSetItem.mk Datatypes.None 5 ResourceType.Sampler 0 0 (0, 0, 0, 0) (0, 0))
           emptyWorld).
  - reflexivity.
  - vm_compute. reflexivity.
  - vm_compute. reflexivity.
  - discriminate.
  - repeat constructor; discriminate.
Defined.

Lemma repeated_write_reuses_the_cached_view_witness :
  exists w1 update,
    writeDescriptorTable (H := sample_collaborators) sample_typedTable
      (sample_typedBufferBinding 5) emptyWorld = Ok (true, w1) /\
    length (trace w1) = 2%nat /\
    writeDescriptorTable (H := sample_collaborators) sample_typedTable
      (sample_typedBufferBinding 5) w1
    = Ok (true, addErrors w1 [EvUpdateDescriptorSets 1 [update]]).
Proof.
  destruct (writeDescriptorTable (H := sample_collaborators) sample_typedTable
              (sample_typedBufferBinding 5) emptyWorld) as [[result w1]|] eqn:Hrun.
  - pose proof (repeated_write_reuses_the_cached_view (H := sample_collaborators)
                  sample_typedTable (sample_typedBufferBinding 5) emptyWorld w1 result
                  Hrun) as Hagain.
    vm_compute in Hrun. injection Hrun as <- <-.
    eexists _, _. split; [reflexivity|]. split; [reflexivity|]. exact Hagain.
  - vm_compute in Hrun. discriminate Hrun.
Defined.

(** ** Creating layouts: the native call and its failure *)

Section LayoutCreation.
Context `{Collaborators}.

(** What [bake] hands to the device and what it does with the answer. *)
Lemma bake_call layout w :
  exists info res handle layout',
    bake layout w = Ok ((res, layout'), addErrors w [EvCreateDescriptorSetLayout info]) /\
    vkCreateDescriptorSetLayout info = (res, handle) /\
    DescriptorSetLayoutCreateInfo.pBindings info = BindingLayout.vulkanLayoutBindings layout /\
    (BindingLayout.isBindless layout = false ->
     DescriptorSetLayoutCreateInfo.bindingFlagCount info = Datatypes.None /\
     DescriptorSetLayoutCreateInfo.mutableTypeList info = Datatypes.None) /\
    (BindingLayout.isBindless layout = true ->
     DescriptorSetLayoutCreateInfo.bindingFlagCount info
     = Some (wrap32 (Z.of_nat (length (BindingLayout.vulkanLayoutBindings layout)))) /\
     DescriptorSetLayoutCreateInfo.mutableTypeList info
     = if decide (BindlessLayoutDesc.layoutType (BindingLayout.bindlessDesc layout)
                  = LayoutType.Immutable)
       then Datatypes.None
       else Some (mutableTypesOf
                    (BindlessLayoutDesc.layoutType (BindingLayout.bindlessDesc layout)))) /\
    BindingLayout.desc layout' = BindingLayout.desc layout /\
    BindingLayout.bindlessDesc layout' = BindingLayout.bindlessDesc layout /\
    BindingLayout.isBindless layout' = BindingLayout.isBindless layout /\
    BindingLayout.vulkanLayoutBindings layout' = BindingLayout.vulkanLayoutBindings layout /\
    BindingLayout.descriptorSetLayout layout' = handle /\
    (res <> eSuccess ->
     BindingLayout.descriptorPoolSizeInfo layout' = BindingLayout.descriptorPoolSizeInfo layout) /\
    (res = eSuccess ->
     BindingLayout.descriptorPoolSizeInfo layout'
     = fold_left addPoolSize
         (map_to_list (fold_left countDescriptors
                         (BindingLayout.vulkanLayoutBindings layout) ∅))
         (BindingLayout.descriptorPoolSizeInfo layout)).
Proof.
  unfold bake.
  match goal with |- context [vkCreateDescriptorSetLayout ?i] => set (info := i) end.
  destruct (vkCreateDescriptorSetLayout info) as [res handle] eqn:Hnative.
  assert (Hinfo :
    DescriptorSetLayoutCreateInfo.pBindings info = BindingLayout.vulkanLayoutBindings layout /\
    (BindingLayout.isBindless layout = false ->
     DescriptorSetLayoutCreateInfo.bindingFlagCount info = Datatypes.None /\
     DescriptorSetLayoutCreateInfo.mutableTypeList info = Datatypes.None) /\
    (BindingLayout.isBindless layout = true ->
     DescriptorSetLayoutCreateInfo.bindingFlagCount info
     = Some (wrap32 (Z.of_nat (length (BindingLayout.vulkanLayoutBindings layout)))) /\
     DescriptorSetLayoutCreateInfo.mutableTypeList info
     = if decide (BindlessLayoutDesc.layoutType (BindingLayout.bindlessDesc layout)
                  = LayoutType.Immutable)
       then Datatypes.None
       else Some (mutableTypesOf
                    (BindlessLayoutDesc.layoutType (BindingLayout.bindlessDesc layout))))).
  { subst info. destruct (BindingLayout.isBindless layout).
    - destruct (BindlessLayoutDesc.layoutType (BindingLayout.bindlessDesc layout));
        (split; [reflexivity|]); (split; [discriminate|intros _]);
        (split; reflexivity).
    - split; [reflexivity|]. split; [auto|discriminate]. }
  destruct Hinfo as (Hbindings & Hfixed & Hbindless).
  unfold bind. rewrite emit_addErrors.
  case_bool_decide as Hres.
  - eexists info, res, handle, _. split; [reflexivity|]. cbn.
    split; [exact Hnative|]. split; [exact Hbindings|]. split; [exact Hfixed|].
    split; [exact Hbindless|]. do 5 (split; [reflexivity|]).
    split; [reflexivity|contradiction].
  - assert (res = eSuccess) as ->
      by (destruct res;
          [reflexivity|first [discriminate Hres|exfalso; apply Hres; discriminate]]).
    eexists info, eSuccess, handle, _. split; [reflexivity|]. cbn.
    split; [exact Hnative|]. split; [exact Hbindings|]. split; [exact Hfixed|].
    split; [exact Hbindless|]. do 5 (split; [reflexivity|]).
    split; [contradiction|reflexivity].
Qed.

(** X8.  [createBindingLayout] does not look at the result of [bake].  For a
    description whose items have types the offset function knows, it makes
    exactly one native call, with the schema of the items and neither
    binding flags nor a list of mutable types, reports nothing, and returns
    a layout with whatever handle the device wrote, also when the device
    reported a failure; the pool-size table of the layout is then empty. *)
Theorem createBindingLayout_ignores_the_result_of_bake (desc : BindingLayoutDesc.t)
    (w : World) :
  Forall (fun item => knownType (BindingLayoutItem.type item))
    (BindingLayoutDesc.bindings desc) ->
  exists layout info res,
    createBindingLayout desc w
    = Ok (layout, addErrors w [EvCreateDescriptorSetLayout info]) /\
    vkCreateDescriptorSetLayout info = (res, BindingLayout.descriptorSetLayout layout) /\
    DescriptorSetLayoutCreateInfo.pBindings info = BindingLayout.vulkanLayoutBindings layout /\
    DescriptorSetLayoutCreateInfo.bindingFlagCount info = Datatypes.None /\
    DescriptorSetLayoutCreateInfo.mutableTypeList info = Datatypes.None /\
    BindingLayout.desc layout = desc /\
    BindingLayout.isBindless layout = false /\
    (res <> eSuccess -> BindingLayout.descriptorPoolSizeInfo layout = []).
Proof.
  intros Hknown. unfold createBindingLayout.
  destruct (addBinding_loop desc (BindingLayoutDesc.bindings desc) [] w Hknown)
    as (entries & Hloop & _).
  set (layout0 := BindingLayout.mk desc BindlessLayoutDesc_default false entries 0 []).
  assert (Hctor : BindingLayout_BindingLayout desc w = Ok (layout0, w)).
  { unfold BindingLayout_BindingLayout. rewrite (bind_Ok _ _ _ _ _ Hloop). reflexivity. }
  rewrite (bind_Ok _ _ _ _ _ Hctor).
  destruct (bake_call layout0 w)
    as (info & res & handle & layout' & Hbake & Hnative & Hbindings & Hfixed & _
        & Hdesc & _ & Hbindless & Hschema & Hhandle & Hfail & _).
  rewrite (bind_Ok _ _ _ _ _ Hbake). cbn [snd]. unfold ret.
  exists layout', info, res. split; [reflexivity|].
  destruct (Hfixed eq_refl) as [Hflags Htypes].
  rewrite Hhandle, Hschema, Hdesc, Hbindless. subst layout0. cbn in *.
  repeat (split; [first [reflexivity|assumption]|]).
  intros Hres. rewrite (Hfail Hres). reflexivity.
Qed.

Lemma countDescriptors_single (entry : DescriptorSetLayoutBinding.t) :
  fold_left countDescriptors [entry] ∅
  = {[ DescriptorSetLayoutBinding.descriptorType entry
       := wrap32 (0 + DescriptorSetLayoutBinding.descriptorCount entry) ]}.
Proof.
  cbn [fold_left]. unfold countDescriptors. rewrite lookup_empty.
  rewrite lookup_insert_eq. cbn [default]. rewrite insert_insert_eq. reflexivity.
Qed.

(** X9.  [createBindlessLayout] for a mutable layout type: after the
    diagnostics of the constructor, one native call with the single mutable
    schema entry, one binding flag, and the list of descriptor types that
    goes with the layout type (the storage-buffer list for MutableCounters,
    the sampler list for MutableSampler, the six image and buffer types
    otherwise).  The layout is returned whether or not the device has the
    extension and whatever the device answers; when the call succeeds and
    [maxCapacity] is a positive [uint32_t] the pool-size table is the one
    entry of [maxCapacity] mutable descriptors. *)
Theorem mutable_bindless_layout_creation (m_Context : VulkanContext.t)
    (desc : BindlessLayoutDesc.t) (w : World) :
  BindlessLayoutDesc.layoutType desc <> LayoutType.Immutable ->
  exists layout info res,
    createBindlessLayout m_Context desc w
    = Ok (layout,
          addErrors w
            ((if VulkanContext.extensions_EXT_mutable_descriptor_type m_Context
              then [] else [mutableUnsupportedError]) ++
             (match BindlessLayoutDesc.registerSpaces desc with
              | [] => []
              | _ :: _ => [registerSpacesInMutableError]
              end) ++
             [EvCreateDescriptorSetLayout info])) /\
    vkCreateDescriptorSetLayout info = (res, BindingLayout.descriptorSetLayout layout) /\
    DescriptorSetLayoutCreateInfo.pBindings info = [mutableEntry desc] /\
    DescriptorSetLayoutCreateInfo.bindingFlagCount info = Some 1 /\
    DescriptorSetLayoutCreateInfo.mutableTypeList info
    = Some (mutableTypesOf (BindlessLayoutDesc.layoutType desc)) /\
    BindingLayout.vulkanLayoutBindings layout = [mutableEntry desc] /\
    (res = eSuccess -> 0 < BindlessLayoutDesc.maxCapacity desc < 2 ^ 32 ->
     BindingLayout.descriptorPoolSizeInfo layout
     = [DescriptorPoolSize.mk eMutableEXT (BindlessLayoutDesc.maxCapacity desc)]) /\
    (res <> eSuccess -> BindingLayout.descriptorPoolSizeInfo layout = []).
Proof.
  intros Hmut. unfold createBindlessLayout.
  destruct (bindless_ctor_mutable m_Context desc w Hmut)
    as (layout0 & Hctor & Hdesc0 & Hbl0 & Hschema0).
  rewrite (bind_Ok _ _ _ _ _ Hctor).
  pose proof (BindingLayout_BindingLayout_bindless_pool _ _ _ _ _ Hctor) as Hpool0.
  match goal with |- context [bake layout0 ;; _] => idtac | _ => idtac end.
  destruct (bake_call layout0 (addErrors w
              ((if VulkanContext.extensions_EXT_mutable_descriptor_type m_Context
                then [] else [mutableUnsupportedError]) ++
               (match BindlessLayoutDesc.registerSpaces desc with
                | [] => []
                | _ :: _ => [registerSpacesInMutableError]
                end))))
    as (info & res & handle & layout' & Hbake & Hnative & Hbindings & _ & Hbindless
        & _ & _ & _ & Hschema & Hhandle & Hfail & Hok).
  rewrite (bind_Ok _ _ _ _ _ Hbake). cbn [snd]. unfold ret.
  exists layout', info, res.
  destruct (Hbindless Hbl0) as [Hflags Htypes].
  rewrite Hdesc0 in Htypes.
  destruct (decide (BindlessLayoutDesc.layoutType desc = LayoutType.Immutable));
    [contradiction|].
  rewrite Hschema0 in *. rewrite Hpool0 in *.
  split. { rewrite addErrors_app, <- app_assoc. reflexivity. }
  split; [rewrite Hhandle; exact Hnative|].
  split; [exact Hbindings|]. split; [exact Hflags|]. split; [exact Htypes|].
  split; [exact Hschema|]. split; [|exact Hfail].
  intros Hres Hcap. rewrite (Hok Hres), countDescriptors_single.
  rewrite map_to_list_singleton. cbn [fold_left mutableEntry
    DescriptorSetLayoutBinding.descriptorType DescriptorSetLayoutBinding.descriptorCount].
  unfold addPoolSize. cbn [fst snd]. rewrite wrap32_small by lia.
  rewrite bool_decide_eq_true_2 by lia. reflexivity.
Qed.

End LayoutCreation.

Lemma createBindingLayout_ignores_the_result_of_bake_witness :
  exists layout info res,
    createBindingLayout (H := sample_collaborators) sample_layoutDesc emptyWorld
    = Ok (layout, addErrors emptyWorld [EvCreateDescriptorSetLayout info]) /\
    vkCreateDescriptorSetLayout (Collaborators := sample_collaborators) info
    = (res, BindingLayout.descriptorSetLayout layout) /\
    DescriptorSetLayoutCreateInfo.bindingFlagCount info = Datatypes.None.
Proof.
  destruct (createBindingLayout_ignores_the_result_of_bake (H := sample_collaborators)
              sample_layoutDesc emptyWorld)
    as (layout & info & res & Hrun & Hnative & _ & Hflags & _).
  - repeat constructor; discriminate.
  - exists layout, info, res. auto.
Defined.

Lemma mutable_bindless_layout_creation_witness :
  exists layout info,
    createBindlessLayout (H := sample_collaborators) sample_context sample_mutableDesc
      emptyWorld
    = Ok (layout, addErrors emptyWorld [EvCreateDescriptorSetLayout info]) /\
    DescriptorSetLayoutCreateInfo.mutableTypeList info = Some cbvSrvUavTypes /\
    BindingLayout.descriptorPoolSizeInfo layout = [DescriptorPoolSize.mk eMutableEXT 512].
Proof.
  destruct (mutable_bindless_layout_creation (H := sample_collaborators) sample_context
              sample_mutableDesc emptyWorld)
    as (layout & info & res & Hrun & Hnative & _ & _ & Htypes & _ & Hpool & _).
  - discriminate.
  - exists layout, info. split; [exact Hrun|]. split; [exact Htypes|].
    apply Hpool; [|vm_compute; split; reflexivity].
    cbn in Hnative. injection Hnative as <- _. reflexivity.
Defined.

(** * Binding sets and descriptor tables *)

Section DeviceMonad.

Lemma bindD_Ok {A B} (m : D A) (k : A -> D B) (d d' : Device) (a : A) :
  m d = Ok (a, d') -> bindD m k d = k a d'.
Proof. unfold bindD. intros ->. reflexivity. Qed.

Lemma bindD_inv {A B} (m : D A) (k : A -> D B) (d d'' : Device) (b : B) :
  bindD m k d = Ok (b, d'') ->
  exists a d', m d = Ok (a, d') /\ k a d' = Ok (b, d'').
Proof.
  unfold bindD. destruct (m d) as [[a d']|]; [|discriminate].
  intros Hk. exists a, d'. split; [reflexivity|exact Hk].
Qed.

Lemma addCalls_nil (d : Device) : addCalls d [] = d.
Proof. destruct d. unfold addCalls. cbn. rewrite app_nil_r. reflexivity. Qed.

Lemma addCalls_app (d : Device) (l1 l2 : list DeviceCall) :
  addCalls (addCalls d l1) l2 = addCalls d (l1 ++ l2).
Proof. unfold addCalls. cbn. rewrite app_assoc. reflexivity. Qed.

Lemma call_run (c : DeviceCall) (d : Device) : call c d = Ok (tt, addCalls d [c]).
Proof. reflexivity. Qed.

Lemma liftM_ret {A} (a : A) (d : Device) : liftM (ret a) d = Ok (a, d).
Proof. unfold liftM, ret. cbn. rewrite app_nil_r. destruct d. reflexivity. Qed.

Lemma liftM_assert (cond : bool) (d : Device) :
  cond = true -> liftM (assert cond) d = Ok (tt, d).
Proof. intros ->. apply liftM_ret. Qed.

End DeviceMonad.

Section BindingSets.
Context `{Collaborators} `{DeviceCollaborators}.

Lemma report_run (messages : list string) (d : Device) :
  report messages d
  = Ok (tt, addCalls d (map (fun message => CallTraced (EvError message)) messages)).
Proof. reflexivity. Qed.

Lemma messages_are_calls (bindings : list SetBinding.t) (messages : list string) :
  Forall (setCall bindings)
    (map (fun message => CallTraced (EvError message)) messages).
Proof. apply Forall_map. apply Forall_true. intros message. exact I. Qed.

Lemma setCall_mono (bindings bindings' : list SetBinding.t) (c : DeviceCall) :
  (forall b, In b bindings -> In b bindings') ->
  setCall bindings c -> setCall bindings' c.
Proof.
  intros Hsub. destruct c as [[| |info| | |]| | | | |]; cbn; auto.
  intros (b & buffer & Hb & Hrest). exists b, buffer. auto.
Qed.

Lemma transitionOrVerify_run st bindingIndex permanentState requiredState isTexture
    debugName d :
  exists mid,
    transitionOrVerify st bindingIndex permanentState requiredState isTexture debugName d
    = Ok (if bool_decide (permanentState = 0) then needsTransition st bindingIndex else st,
          addCalls d mid) /\
    forall bindings, Forall (setCall bindings) mid.
Proof.
  unfold transitionOrVerify. case_bool_decide.
  - exists []. rewrite addCalls_nil. split; [reflexivity|constructor].
  - eexists. unfold bindD. rewrite report_run. split; [reflexivity|].
    intros bindings. apply messages_are_calls.
Qed.

Lemma cachedBufferView_run binding buffer d :
  viewCreatable binding buffer ->
  exists view mid views,
    liftM (cachedBufferView buffer (typedViewFormat binding buffer)
             (BindingSetItem.range binding)) d
    = Ok (view, mkDevice (calls d ++ mid) views) /\
    Forall (fun c => c = CallTraced (EvCreateBufferView (typedViewInfo binding buffer)))
      mid /\
    bufferViews d ⊆ views /\
    views !! typedViewKey binding buffer = Some view.
Proof.
  intros [Hformat Hnative]. unfold liftM, cachedBufferView. cbn [viewCache].
  change (Buffer.address buffer, viewInfoHash _ _ _) with (typedViewKey binding buffer).
  destruct (bufferViews d !! typedViewKey binding buffer) as [found|] eqn:Hfound.
  - exists found, [], (bufferViews d). cbn. split; [reflexivity|].
    split; [constructor|]. split; [reflexivity|exact Hfound].
  - change (BufferViewCreateInfo.mk _ _ _ _) with (typedViewInfo binding buffer).
    destruct (vkCreateBufferView (typedViewInfo binding buffer)) as [res view].
    cbn in Hnative. subst res.
    rewrite bool_decide_eq_true_2 by exact Hformat.
    eexists view, _, _. cbn. split; [reflexivity|].
    split; [repeat constructor|].
    split; [apply insert_subseteq; exact Hfound|apply lookup_insert_eq].
Qed.

End BindingSets.

Section BindingSetSteps.
Context `{Collaborators} `{DeviceCollaborators}.

Lemma bindD_retD {A B} (a : A) (k : A -> D B) (d : Device) : bindD (retD a) k d = k a d.
Proof. reflexivity. Qed.

Lemma bindD_liftM_ret {A B} (a : A) (k : A -> D B) (d : Device) :
  bindD (liftM (ret a)) k d = k a d.
Proof. apply bindD_Ok, liftM_ret. Qed.

Ltac decide_types :=
  repeat match goal with
  | |- context [bool_decide (?a = ?b)] =>
      first [ rewrite (bool_decide_eq_true_2 (a = b)) by reflexivity
            | rewrite (bool_decide_eq_false_2 (a = b)) by discriminate ]
  end.

Ltac run_pure :=
  repeat first
    [ rewrite bindD_liftM_ret
    | rewrite bindD_retD
    | rewrite liftM_ret
    | progress cbn [assert orb andb negb] ].

Ltac step_spec :=
  unfold bindingStep, retainedOf, volatileOf, transitionOf, trackedStateOf, typedKeysOf;
  cbn [fst snd SetBinding.item SetBinding.arrayElement BindingSetItem.resourceHandle
       BindingSetItem.type BindingSetItem.slot
       SetWrites.resources SetWrites.volatileConstantBuffers
       SetWrites.bindingsThatNeedTransitions SetWrites.descriptorWriteInfo
       needsTransition createBindingSet_generateWriteDescriptorData
       emplace_back_imageInfo emplace_back_bufferInfo emplace_back_accelStructWrite
       retainResource calls bufferViews addCalls].

Ltac written_one :=
  eexists; split; [reflexivity|];
  rewrite filter_cons_True by (split; discriminate);
  constructor; [|constructor];
  split;
  [ eexists; split; [intros ?; reflexivity|]; repeat split
  | unfold setPayloadOf, resolvedPayload, resolvedPayloadFor;
    cbn [SetBinding.item BindingSetItem.resourceHandle BindingSetItem.type
         BindingSetItem.subresources BindingSetItem.dimension BindingSetItem.format
         BindingSetItem.range SetWrite.data bufferViews addCalls];
    first [ reflexivity
          | match goal with
            | Hk : _ !! typedViewKey _ _ = Some _ |- _ =>
                unfold typedViewKey in Hk; rewrite Hk; reflexivity
            end ] ].

Ltac finish_step mid Hmid :=
  step_spec;
  split; [reflexivity|];
  split; [rewrite ?app_nil_r; reflexivity|];
  split; [first [ rewrite bool_decide_eq_true_2 by assumption
                | rewrite bool_decide_eq_false_2 by assumption
                | idtac ]; rewrite ?app_nil_r; reflexivity|];
  split; [written_one|];
  split; [exists mid; split; [reflexivity|apply Hmid]|];
  split; [reflexivity|constructor].

Ltac use_hyps :=
  repeat match goal with
  | Hx : _ /\ _ |- _ => destruct Hx
  end;
  repeat match goal with
  | Hx : ?f = true |- _ => rewrite Hx
  end;
  rewrite ?bool_decide_eq_true_2 by assumption.

Lemma pushVolatileConstantBuffer_run st buffer d :
  (length (SetWrites.volatileConstantBuffers st) < c_MaxVolatileConstantBuffers)%nat ->
  liftM (pushVolatileConstantBuffer st buffer) d
  = Ok (SetWrites.mk (SetWrites.resources st)
          (SetWrites.volatileConstantBuffers st ++ [buffer])
          (SetWrites.bindingsThatNeedTransitions st) (SetWrites.descriptorImageInfo st)
          (SetWrites.descriptorBufferInfo st) (SetWrites.descriptorWriteInfo st)
          (SetWrites.accelStructWriteInfo st), d).
Proof.
  intros Hcap. unfold pushVolatileConstantBuffer.
  match goal with |- liftM ?m d = Ok (?a, d) =>
    assert (Hm : forall w, m w = Ok (a, w)) end.
  { intros w. rewrite (bind_Ok _ _ _ _ _ (push_back_ok _ _ _ w Hcap)). reflexivity. }
  unfold liftM. rewrite Hm. cbn. rewrite app_nil_r. destruct d. reflexivity.
Qed.

Ltac tail_step :=
  match goal with |- context [transitionOrVerify ?s ?i ?p ?r ?t ?n ?d] =>
    let mid := fresh "mid" in
    let Hrun := fresh "Hrun" in
    let Hmid := fresh "Hmid" in
    destruct (transitionOrVerify_run s i p r t n d) as (mid & Hrun & Hmid);
    eexists _, _; split; [exact Hrun|];
    case_bool_decide; finish_step mid Hmid
  end.

Ltac typed_step :=
  match goal with
  | Hview : viewCreatable ?binding ?buffer |- context [?dev] =>
      match type of dev with Device =>
        let view := fresh "view" in
        let mid := fresh "mid" in
        let views := fresh "views" in
        let Hrun := fresh "Hrun" in
        let Hmid := fresh "Hmid" in
        let Hsub := fresh "Hsub" in
        let Hkey := fresh "Hkey" in
        destruct (cachedBufferView_run binding buffer dev Hview)
          as (view & mid & views & Hrun & Hmid & Hsub & Hkey);
        unfold typedViewFormat in Hrun;
        cbn [BindingSetItem.format BindingSetItem.range] in Hrun;
        rewrite (bindD_Ok _ _ _ _ _ Hrun);
        match goal with |- context [transitionOrVerify ?s ?i ?p ?r ?t ?n ?d] =>
          let mid2 := fresh "mid" in
          let Hrun2 := fresh "Hrun" in
          let Hmid2 := fresh "Hmid" in
          destruct (transitionOrVerify_run s i p r t n d) as (mid2 & Hrun2 & Hmid2);
          eexists _, _; split; [exact Hrun2|];
          case_bool_decide; step_spec;
          (split; [reflexivity|]);
          (split; [rewrite ?app_nil_r; reflexivity|]);
          (split; [first [ rewrite bool_decide_eq_true_2 by assumption
                         | rewrite bool_decide_eq_false_2 by assumption ];
                   rewrite ?app_nil_r; reflexivity|]);
          (split; [written_one|]);
          (split; [exists (mid ++ mid2); split;
                     [rewrite app_assoc; reflexivity
                     |apply Forall_app; split; [|apply Hmid2];
                      eapply Forall_impl; [exact Hmid|];
                      intros ? ->; eexists _, buffer;
                      split; [left; reflexivity|];
                      split; [reflexivity|]; split; [auto|reflexivity]]|]);
          (split; [exact Hsub|]);
          (constructor; [eexists; exact Hkey|constructor])
        end
      end
  end.

Ltac push_constants_step :=
  eexists _, _; (split; [reflexivity|]); step_spec;
  (split; [reflexivity|]); (split; [rewrite app_nil_r; reflexivity|]);
  (split; [rewrite app_nil_r; reflexivity|]);
  (split; [exists []; split; [rewrite app_nil_r; reflexivity|];
           rewrite filter_cons_False by (intros [_ Hpush]; apply Hpush; reflexivity);
           constructor|]);
  (split; [exists []; rewrite app_nil_r; split; [reflexivity|constructor]|]);
  (split; [reflexivity|constructor]).

Lemma createBindingSet_binding_ok layout descriptorSet st i b d :
  bindingOk b ->
  (length (SetWrites.volatileConstantBuffers st) + length (volatileOf b)
   <= c_MaxVolatileConstantBuffers)%nat ->
  exists st' d',
    createBindingSet_binding layout descriptorSet st (i, b) d = Ok (st', d') /\
    bindingStep layout descriptorSet (i, b) st st' d d'.
Proof.
  destruct b as [[handle slot type format dim sub range] arrayElement].
  unfold bindingOk, createBindingSet_binding.
  cbn [SetBinding.item SetBinding.arrayElement BindingSetItem.resourceHandle
       BindingSetItem.type BindingSetItem.slot BindingSetItem.format
       BindingSetItem.dimension BindingSetItem.subresources BindingSetItem.range].
  destruct handle as [resource|].
  2: { intros _ _. exists st, d. split; [reflexivity|]. step_spec.
       rewrite !app_nil_r. repeat (split; [reflexivity|]).
       split; [exists []; split; [rewrite app_nil_r; reflexivity|]|].
       { rewrite filter_cons_False by (intros [Hnull _]; apply Hnull; reflexivity).
         constructor. }
       split; [exists []; rewrite app_nil_r; split; [reflexivity|constructor]|].
       split; [reflexivity|constructor]. }
  destruct type; destruct resource as [texture|buffer|sampler|accelStruct];
    intros Hok Hcap; try contradiction;
    cbn [getRegisterOffsetForResourceType checked_cast_Texture checked_cast_Buffer
         checked_cast_Sampler checked_cast_AccelStruct];
    decide_types; run_pure; use_hyps; run_pure; use_hyps; run_pure; use_hyps; run_pure.
  - tail_step.
  - tail_step.
  - typed_step.
  - typed_step.
  - tail_step.
  - tail_step.
  - tail_step.
  - tail_step.
  - tail_step.
  - rewrite pushVolatileConstantBuffer_run
      by (unfold volatileOf in Hcap; cbn in Hcap |- *; lia).
    eexists _, _. split; [reflexivity|]. step_spec.
    split; [reflexivity|]. split; [reflexivity|].
    split; [rewrite app_nil_r; reflexivity|].
    split; [written_one|].
    split; [exists []; rewrite app_nil_r; split; [reflexivity|constructor]|].
    split; [reflexivity|constructor].
  - eexists _, _. split; [reflexivity|]. step_spec.
    split; [reflexivity|]. split; [rewrite app_nil_r; reflexivity|].
    split; [rewrite app_nil_r; reflexivity|].
    split; [written_one|].
    split; [exists []; rewrite app_nil_r; split; [reflexivity|constructor]|].
    split; [reflexivity|constructor].
  - eexists _, _. split; [reflexivity|]. step_spec.
    split; [reflexivity|]. split; [rewrite app_nil_r; reflexivity|].
    split; [reflexivity|].
    split; [written_one|].
    split; [exists []; rewrite app_nil_r; split; [reflexivity|constructor]|].
    split; [reflexivity|constructor].
  - push_constants_step.
  - push_constants_step.
  - push_constants_step.
  - push_constants_step.
Qed.
End BindingSetSteps.

(** ** [createBindingSet] *)

Section CreateBindingSet.
Context `{Collaborators} `{DeviceCollaborators}.

Lemma indexedBindings_cons (start : Z) b (bindings : list SetBinding.t) :
  indexedBindings start (b :: bindings)
  = (start, b) :: indexedBindings (start + 1) bindings.
Proof.
  unfold indexedBindings. cbn [length]. rewrite seqZ_cons by lia.
  replace (Z.pred (Z.of_nat (S (length bindings)))) with (Z.of_nat (length bindings))
    by lia.
  replace (Z.succ start) with (start + 1) by lia. reflexivity.
Qed.

Lemma filter_one {A} (P : A -> Prop) `{forall x, Decision (P x)} (x : A) (l : list A) :
  filter P (x :: l) = filter P [x] ++ filter P l.
Proof. apply (filter_app P [x] l). Qed.

Lemma resolvedPayloadFor_mono (formatOf : BindingSetItem.t -> Buffer.t -> Z)
    (views views' : gmap (Z * Z) Z) binding payload :
  views ⊆ views' ->
  resolvedPayloadFor formatOf views binding = Some payload ->
  resolvedPayloadFor formatOf views' binding = Some payload.
Proof.
  intros Hsub. unfold resolvedPayloadFor.
  destruct (BindingSetItem.resourceHandle binding) as [[texture|buffer|sampler|accel]|];
    destruct (BindingSetItem.type binding); auto;
    destruct (views !! viewKeyFor (formatOf binding buffer) binding buffer)
      as [view|] eqn:Hview;
    try discriminate;
    rewrite (lookup_weaken _ _ _ _ Hview Hsub); auto.
Qed.

Lemma resolvedPayload_mono (views views' : gmap (Z * Z) Z) binding payload :
  views ⊆ views' ->
  resolvedPayload views binding = Some payload ->
  resolvedPayload views' binding = Some payload.
Proof.
  intros Hsub. unfold resolvedPayload.
  apply resolvedPayloadFor_mono. exact Hsub.
Qed.

Lemma setPayloadOf_mono (views views' : gmap (Z * Z) Z) binding payload :
  views ⊆ views' ->
  setPayloadOf views binding = Some payload ->
  setPayloadOf views' binding = Some payload.
Proof.
  intros Hsub. unfold setPayloadOf.
  assert (Hres : SetWrite.Resource <$> resolvedPayload views binding = Some payload ->
                 SetWrite.Resource <$> resolvedPayload views' binding = Some payload).
  { destruct (resolvedPayload views binding) as [p|] eqn:Hp; [|discriminate].
    rewrite (resolvedPayload_mono _ _ _ _ Hsub Hp). auto. }
  destruct (BindingSetItem.resourceHandle binding) as [[texture|buffer|sampler|accel]|];
    destruct (BindingSetItem.type binding); auto.
Qed.

(** The loop over the bindings. *)
Lemma createBindingSet_loop layout descriptorSet (bindings : list SetBinding.t) :
  forall (start : Z) (st : SetWrites.t) (d : Device),
    Forall bindingOk bindings ->
    (length (SetWrites.volatileConstantBuffers st)
     + length (flat_map volatileOf bindings) <= c_MaxVolatileConstantBuffers)%nat ->
    exists st' d',
      foldD (createBindingSet_binding layout descriptorSet)
        (indexedBindings start bindings) st d = Ok (st', d') /\
      SetWrites.resources st' = SetWrites.resources st ++ flat_map retainedOf bindings /\
      SetWrites.volatileConstantBuffers st'
      = SetWrites.volatileConstantBuffers st ++ flat_map volatileOf bindings /\
      SetWrites.bindingsThatNeedTransitions st'
      = SetWrites.bindingsThatNeedTransitions st
        ++ flat_map transitionOf (indexedBindings start bindings) /\
      (exists writes,
         SetWrites.descriptorWriteInfo st' = SetWrites.descriptorWriteInfo st ++ writes /\
         Forall2 (setWriteOf layout descriptorSet (bufferViews d'))
           (filter isWritten bindings) writes) /\
      (exists mid, calls d' = calls d ++ mid /\ Forall (setCall bindings) mid) /\
      bufferViews d ⊆ bufferViews d' /\
      Forall (fun key => is_Some (bufferViews d' !! key)) (flat_map typedKeysOf bindings).
Proof.
  induction bindings as [|b bindings IH]; intros start st d Hok Hcap.
  - exists st, d. split; [reflexivity|]. cbn. rewrite !app_nil_r.
    repeat (split; [reflexivity|]).
    split; [exists []; rewrite app_nil_r; split; [reflexivity|constructor]|].
    split; [exists []; rewrite app_nil_r; split; [reflexivity|constructor]|].
    split; [reflexivity|constructor].
  - apply Forall_cons in Hok. destruct Hok as [Hb Hok].
    cbn [flat_map] in Hcap. rewrite length_app in Hcap.
    destruct (createBindingSet_binding_ok layout descriptorSet st start b d Hb
                ltac:(lia))
      as (st1 & d1 & Hstep & Hres1 & Hvol1 & Htr1 & (ws1 & Hw1 & Hws1)
          & (mid1 & Hc1 & Hmid1) & Hsub1 & Hkeys1).
    cbn [snd] in *.
    destruct (IH (start + 1) st1 d1 Hok ltac:(rewrite Hvol1, length_app; lia))
      as (st' & d' & Hloop & Hres & Hvol & Htr & (ws & Hw & Hws)
          & (mid & Hc & Hmid) & Hsub & Hkeys).
    exists st', d'. rewrite indexedBindings_cons. cbn [foldD flat_map].
    split; [rewrite (bindD_Ok _ _ _ _ _ Hstep); exact Hloop|].
    split; [rewrite Hres, Hres1, app_assoc; reflexivity|].
    split; [rewrite Hvol, Hvol1, app_assoc; reflexivity|].
    split; [rewrite Htr, Htr1, app_assoc; reflexivity|].
    split.
    { exists (ws1 ++ ws). split; [rewrite Hw, Hw1, app_assoc; reflexivity|].
      rewrite filter_one. apply Forall2_app; [|exact Hws].
      eapply Forall2_impl; [exact Hws1|]. intros b' write [Hheader Hpayload].
      split; [exact Hheader|]. eapply setPayloadOf_mono; eassumption. }
    split.
    { exists (mid1 ++ mid). split; [rewrite Hc, Hc1, app_assoc; reflexivity|].
      apply Forall_app. split.
      - eapply Forall_impl; [exact Hmid1|]. intros c. apply setCall_mono.
        intros b' [<-|[]]. left. reflexivity.
      - eapply Forall_impl; [exact Hmid|]. intros c. apply setCall_mono.
        intros b' Hb'. right. exact Hb'. }
    split; [etransitivity; eassumption|].
    apply Forall_app. split; [|exact Hkeys].
    eapply Forall_impl; [exact Hkeys1|]. intros key [view Hview].
    exists view. eapply lookup_weaken; eassumption.
Qed.

(** What [createBindingSet] does when the device gives a pool and a set and
    every binding can be resolved. *)
Lemma createBindingSet_ok desc layout descriptorPool descriptorSet d :
  vkCreateDescriptorPool (poolInfoOf layout) = (eSuccess, descriptorPool) ->
  vkAllocateDescriptorSets (allocInfoOf layout descriptorPool)
  = (eSuccess, descriptorSet) ->
  Forall bindingOk (SetDesc.bindings desc) ->
  (length (flat_map volatileOf (SetDesc.bindings desc))
   <= c_MaxVolatileConstantBuffers)%nat ->
  exists d' mid writes,
    createBindingSet desc layout d
    = Ok (Some (SetObject.mk desc layout descriptorPool descriptorSet
                  (flat_map retainedOf (SetDesc.bindings desc))
                  (flat_map volatileOf (SetDesc.bindings desc))
                  (flat_map transitionOf (indexedBindings 0 (SetDesc.bindings desc)))),
          d') /\
    calls d'
    = calls d
      ++ [CallCreateDescriptorPool (poolInfoOf layout);
          CallAllocateDescriptorSets (allocInfoOf layout descriptorPool)]
      ++ mid ++ [CallUpdateDescriptorSets (wrap32 (Z.of_nat (length writes))) writes] /\
    Forall (setCall (SetDesc.bindings desc)) mid /\
    Forall2 (setWriteOf layout descriptorSet (bufferViews d'))
      (filter isWritten (SetDesc.bindings desc)) writes /\
    bufferViews d ⊆ bufferViews d' /\
    Forall (fun key => is_Some (bufferViews d' !! key))
      (flat_map typedKeysOf (SetDesc.bindings desc)).
Proof.
  intros Hpool Hset Hok Hcap. unfold createBindingSet.
  fold (poolInfoOf layout). unfold bindD at 1. rewrite call_run, Hpool.
  rewrite bool_decide_eq_false_2 by (intros Hne; apply Hne; reflexivity).
  fold (allocInfoOf layout descriptorPool). unfold bindD at 1. rewrite call_run, Hset.
  rewrite bool_decide_eq_false_2 by (intros Hne; apply Hne; reflexivity).
  fold (indexedBindings 0 (SetDesc.bindings desc)).
  destruct (createBindingSet_loop layout descriptorSet (SetDesc.bindings desc) 0
              (SetWrites.mk [] [] [] [] [] [] [])
              (addCalls (addCalls d [CallCreateDescriptorPool (poolInfoOf layout)])
                 [CallAllocateDescriptorSets (allocInfoOf layout descriptorPool)])
              Hok Hcap)
    as (st' & d' & Hloop & Hres & Hvol & Htr & (ws & Hw & Hws)
        & (mid & Hc & Hmid) & Hsub & Hkeys).
  cbn [SetWrites.resources SetWrites.volatileConstantBuffers
       SetWrites.bindingsThatNeedTransitions SetWrites.descriptorWriteInfo app] in *.
  rewrite (bindD_Ok _ _ _ _ _ Hloop). unfold bindD. rewrite call_run. unfold retD.
  rewrite Hres, Hvol, Htr, Hw.
  eexists _, mid, ws. split; [reflexivity|].
  cbn [calls bufferViews addCalls] in *. rewrite Hc, <- !app_assoc.
  split; [reflexivity|]. auto.
Qed.

End CreateBindingSet.

Section BindingSetTheorems.
Context `{Collaborators} `{DeviceCollaborators}.

(** X10.  [createBindingSet] writes a binding set in one update.  When the
    device gives a pool and a set and every binding can be resolved, the
    calls on the device are: the creation of a pool of the layout's pool
    sizes for one set, the allocation of one set of the layout's native
    layout from that pool, messages of the state check and views of typed
    buffers, and one update.  The
    update has one write for every binding that has a resource and is not
    push constants, in the order of the description; the write goes to the
    allocated set, at binding location offset plus slot for the offset of
    the binding's type in the layout's offsets, at the binding's array
    element, for one descriptor of the native type of the binding's type,
    and points at what the binding resolves to: the image view of a texture
    in shader-read-only layout for an SRV and in general layout for a UAV,
    the view of a typed buffer that the cache holds, the resolved range of
    another buffer, the sampler, the acceleration structure. *)
Theorem binding_set_is_written_in_one_update (desc : SetDesc.t)
    (layout : BindingLayout.t) (descriptorPool descriptorSet : Z) (d : Device) :
  vkCreateDescriptorPool (poolInfoOf layout) = (eSuccess, descriptorPool) ->
  vkAllocateDescriptorSets (allocInfoOf layout descriptorPool)
  = (eSuccess, descriptorSet) ->
  Forall bindingOk (SetDesc.bindings desc) ->
  (length (flat_map volatileOf (SetDesc.bindings desc))
   <= c_MaxVolatileConstantBuffers)%nat ->
  exists set d' mid writes,
    createBindingSet desc layout d = Ok (Some set, d') /\
    SetObject.descriptorPool set = descriptorPool /\
    SetObject.descriptorSet set = descriptorSet /\
    calls d'
    = calls d
      ++ [CallCreateDescriptorPool
            (DescriptorPoolCreateInfo.mk
               (wrap32 (Z.of_nat (length (BindingLayout.descriptorPoolSizeInfo layout))))
               (BindingLayout.descriptorPoolSizeInfo layout) 1);
          CallAllocateDescriptorSets
            (DescriptorSetAllocateInfo.mk descriptorPool 1
               (BindingLayout.descriptorSetLayout layout))]
      ++ mid ++ [CallUpdateDescriptorSets (wrap32 (Z.of_nat (length writes))) writes] /\
    Forall (setCall (SetDesc.bindings desc)) mid /\
    Forall2 (setWriteOf layout descriptorSet (bufferViews d'))
      (filter isWritten (SetDesc.bindings desc)) writes.
Proof.
  intros Hpool Hset Hok Hcap.
  destruct (createBindingSet_ok desc layout descriptorPool descriptorSet d
              Hpool Hset Hok Hcap)
    as (d' & mid & writes & Hrun & Hcalls & Hmid & Hwrites & _).
  eexists _, d', mid, writes. split; [exact Hrun|]. cbn. auto.
Qed.

Lemma wrap16_small (z : Z) : 0 <= z < 2 ^ 16 -> wrap16 z = z.
Proof. intros Hz. unfold wrap16. apply Z.mod_small. exact Hz. Qed.

Lemma indexedBindings_lookup (bindings : list SetBinding.t) (start : Z) ib :
  In ib (indexedBindings start bindings) <->
  exists i : nat, fst ib = start + Z.of_nat i /\ bindings !! i = Some (snd ib).
Proof.
  unfold indexedBindings. split.
  - intros Hin. apply list_elem_of_In, list_elem_of_lookup in Hin. destruct Hin as [i Hi].
    apply lookup_zip_with_Some in Hi. destruct Hi as (z & b & -> & Hz & Hb).
    apply lookup_seqZ in Hz. destruct Hz as [-> _]. exists i. auto.
  - intros (i & Hfst & Hb). apply list_elem_of_In, list_elem_of_lookup. exists i.
    apply lookup_zip_with_Some. exists (fst ib), (snd ib).
    split; [destruct ib; reflexivity|]. split; [|exact Hb].
    rewrite Hfst. apply lookup_seqZ. split; [reflexivity|].
    apply lookup_lt_Some in Hb. lia.
Qed.

(** X11.  What a binding set keeps.  The set [createBindingSet] returns
    holds, in the order of the description: in [resources] the resource of
    every binding that has one, push constants included; in
    [volatileConstantBuffers] the buffers of the VolatileConstantBuffer
    bindings; in [bindingsThatNeedTransitions] the positions, cut to 16
    bits, of the bindings of a texture or buffer without a permanent state
    and of every acceleration structure.  With at most 65536 bindings a
    position is on that list exactly when the binding there is one of
    those. *)
Theorem binding_set_keeps_what_it_binds (desc : SetDesc.t)
    (layout : BindingLayout.t) (descriptorPool descriptorSet : Z) (d : Device) :
  vkCreateDescriptorPool (poolInfoOf layout) = (eSuccess, descriptorPool) ->
  vkAllocateDescriptorSets (allocInfoOf layout descriptorPool)
  = (eSuccess, descriptorSet) ->
  Forall bindingOk (SetDesc.bindings desc) ->
  (length (flat_map volatileOf (SetDesc.bindings desc))
   <= c_MaxVolatileConstantBuffers)%nat ->
  exists set d',
    createBindingSet desc layout d = Ok (Some set, d') /\
    SetObject.desc set = desc /\
    SetObject.layout set = layout /\
    SetObject.resources set = flat_map retainedOf (SetDesc.bindings desc) /\
    SetObject.volatileConstantBuffers set
    = flat_map volatileOf (SetDesc.bindings desc) /\
    SetObject.bindingsThatNeedTransitions set
    = flat_map transitionOf (indexedBindings 0 (SetDesc.bindings desc)) /\
    (Z.of_nat (length (SetDesc.bindings desc)) <= 2 ^ 16 ->
     forall i : nat,
       In (Z.of_nat i) (SetObject.bindingsThatNeedTransitions set) <->
       exists b, SetDesc.bindings desc !! i = Some b /\ trackedStateOf b = Some 0).
Proof.
  intros Hpool Hset Hok Hcap.
  destruct (createBindingSet_ok desc layout descriptorPool descriptorSet d
              Hpool Hset Hok Hcap)
    as (d' & mid & writes & Hrun & _).
  eexists _, d'. split; [exact Hrun|]. cbn.
  do 5 (split; [reflexivity|]).
  intros Hlen i. rewrite in_flat_map. split.
  - intros ([j b] & Hin & Hi). apply indexedBindings_lookup in Hin.
    destruct Hin as (k & Hj & Hb). cbn [fst snd] in Hj, Hb. subst j.
    unfold transitionOf in Hi. cbn [fst snd] in Hi.
    destruct (trackedStateOf b) as [permanentState|] eqn:Hstate; [|destruct Hi].
    case_bool_decide as Hzero; [|destruct Hi]. destruct Hi as [Hi|[]].
    apply lookup_lt_Some in Hb as Hk. rewrite wrap16_small in Hi by lia.
    assert (k = i) by lia. subst k permanentState. exists b. auto.
  - intros (b & Hb & Hstate). exists (Z.of_nat i, b). split.
    + apply indexedBindings_lookup. exists i. auto.
    + unfold transitionOf. cbn [fst snd]. rewrite Hstate.
      rewrite bool_decide_eq_true_2 by reflexivity.
      apply lookup_lt_Some in Hb. rewrite wrap16_small by lia. left. reflexivity.
Qed.

(** X12.  [createBindingSet] when the device fails.  When the pool cannot
    be created, or the set cannot be allocated from it, the call returns a
    null handle after these one or two calls: no binding is looked at, no
    descriptor is written, and a pool that was created is not destroyed. *)
Theorem createBindingSet_gives_up_when_the_device_fails (desc : SetDesc.t)
    (layout : BindingLayout.t) (d : Device) :
  let created := vkCreateDescriptorPool (poolInfoOf layout) in
  let allocated := vkAllocateDescriptorSets (allocInfoOf layout (snd created)) in
  fst created <> eSuccess \/ fst allocated <> eSuccess ->
  createBindingSet desc layout d
  = Ok (Datatypes.None,
        addCalls d
          (CallCreateDescriptorPool (poolInfoOf layout)
           :: if decide (fst created = eSuccess)
              then [CallAllocateDescriptorSets (allocInfoOf layout (snd created))]
              else [])).
Proof.
  intros created allocated Hfailed. subst created allocated.
  unfold createBindingSet. fold (poolInfoOf layout).
  unfold bindD at 1. rewrite call_run.
  destruct (vkCreateDescriptorPool (poolInfoOf layout)) as [res1 descriptorPool].
  cbn [fst snd] in *. fold (allocInfoOf layout descriptorPool).
  destruct (decide (res1 = eSuccess)) as [->|Hres1].
  - rewrite bool_decide_eq_false_2 by (intros Hne; apply Hne; reflexivity).
    unfold bindD at 1. rewrite call_run.
    destruct (vkAllocateDescriptorSets (allocInfoOf layout descriptorPool))
      as [res2 descriptorSet].
    cbn [fst] in Hfailed. destruct Hfailed as [Hne|Hres2]; [contradiction|].
    rewrite bool_decide_eq_true_2 by exact Hres2.
    unfold retD. rewrite addCalls_app. reflexivity.
  - rewrite bool_decide_eq_true_2 by exact Hres1. reflexivity.
Qed.



Lemma resolvedHandles_direct (bindings : list (option IBindingSet)) :
  resolvedHandles bindings [] = bindings.
Proof. unfold resolvedHandles. destruct (decide _); [reflexivity|contradiction]. Qed.

(** X14.  From [createBindingSet] to [bindBindingSets].  Binding the set
    that [createBindingSet] returned, alone, is one bind call for its
    descriptor set at index 0, and the dynamic offsets of the call are those
    of the buffers of the VolatileConstantBuffer bindings of the
    description, in the order of the description. *)
Theorem volatile_bindings_give_the_dynamic_offsets (desc : SetDesc.t)
    (layout : BindingLayout.t) (descriptorPool descriptorSet : Z) (d : Device)
    (m_VolatileBufferStates : gmap Z VolatileBufferState.t)
    (bindPoint pipelineLayout : Z) (w : World) :
  vkCreateDescriptorPool (poolInfoOf layout) = (eSuccess, descriptorPool) ->
  vkAllocateDescriptorSets (allocInfoOf layout descriptorPool)
  = (eSuccess, descriptorSet) ->
  Forall bindingOk (SetDesc.bindings desc) ->
  (length (flat_map volatileOf (SetDesc.bindings desc))
   <= c_MaxVolatileConstantBuffers)%nat ->
  (0 < c_MaxBindingLayouts)%nat ->
  Forall (offsetRepresentable m_VolatileBufferStates)
    (flat_map volatileOf (SetDesc.bindings desc)) ->
  exists set d' w',
    createBindingSet desc layout d = Ok (Some set, d') /\
    bindBindingSets m_VolatileBufferStates bindPoint pipelineLayout
      [Some (IsBindingSet (asBindingSet set))] [] w = Ok (tt, w') /\
    bindCallsOf (drop (length (trace w)) (trace w'))
    = [(0, 1, [descriptorSet],
        map (dynamicOffsetOf m_VolatileBufferStates)
          (flat_map volatileOf (SetDesc.bindings desc)))].
Proof.
  intros Hpool Hset Hok Hcap Hlayouts Hoffsets.
  destruct (createBindingSet_ok desc layout descriptorPool descriptorSet d
              Hpool Hset Hok Hcap)
    as (d' & mid & writes & Hrun & _).
  match type of Hrun with _ = Ok (Some ?object, _) => set (set := object) in * end.
  assert (Hbindable : bindable m_VolatileBufferStates
                        [Some (IsBindingSet (asBindingSet set))] []).
  { split; [constructor|]. rewrite resolvedHandles_direct. split; [cbn; lia|].
    unfold runsOf. cbn. constructor; [|constructor].
    unfold runFits, runBuffers. cbn. rewrite app_nil_r.
    split; [lia|]. split; [exact Hcap|exact Hoffsets]. }
  destruct (bindBindingSets_trace m_VolatileBufferStates bindPoint pipelineLayout
              [Some (IsBindingSet (asBindingSet set))] [] w Hbindable)
    as (w' & Hbind & Htrace).
  exists set, d', w'. split; [exact Hrun|]. split; [exact Hbind|].
  rewrite Htrace, drop_app_length, bindCallsOf_runs, resolvedHandles_direct.
  unfold runsOf, runBuffers. cbn. rewrite app_nil_r. reflexivity.
Qed.

End BindingSetTheorems.

Lemma sample_setDesc_ok :
  Forall (bindingOk (H := sample_collaborators) (H0 := sample_deviceCollaborators))
    (SetDesc.bindings sample_setDesc).
Proof.
  repeat (constructor; [first [exact I | cbn; discriminate]|]). constructor.
Qed.

Lemma sample_volatileSetDesc_ok :
  Forall (bindingOk (H := sample_collaborators) (H0 := sample_deviceCollaborators))
    (SetDesc.bindings sample_volatileSetDesc).
Proof.
  constructor; [split; [reflexivity|discriminate]|].
  constructor; [split; [reflexivity|split; [discriminate|reflexivity]]|].
  constructor; [split; [reflexivity|discriminate]|]. constructor.
Qed.

Lemma binding_set_is_written_in_one_update_witness :
  exists set d' mid writes,
    createBindingSet (H := sample_collaborators) (H0 := sample_deviceCollaborators)
      sample_setDesc sample_fixedLayout emptyDevice = Ok (Some set, d') /\
    calls d'
    = [CallCreateDescriptorPool
         (DescriptorPoolCreateInfo.mk 3
            (BindingLayout.descriptorPoolSizeInfo sample_fixedLayout) 1);
       CallAllocateDescriptorSets (DescriptorSetAllocateInfo.mk 4000 1 1000)]
      ++ mid ++ [CallUpdateDescriptorSets (wrap32 (Z.of_nat (length writes))) writes] /\
    length writes = 3%nat.
Proof.
  destruct (binding_set_is_written_in_one_update (H := sample_collaborators)
              (H0 := sample_deviceCollaborators) sample_setDesc sample_fixedLayout
              4000 5000 emptyDevice)
    as (set & d' & mid & writes & Hrun & _ & _ & Hcalls & _ & Hwrites).
  - reflexivity.
  - reflexivity.
  - exact sample_setDesc_ok.
  - vm_compute. lia.
  - exists set, d', mid, writes. split; [exact Hrun|]. split; [exact Hcalls|].
    apply Forall2_length in Hwrites. rewrite <- Hwrites. reflexivity.
Defined.

Lemma binding_set_keeps_what_it_binds_witness :
  exists set d',
    createBindingSet (H := sample_collaborators) (H0 := sample_deviceCollaborators)
      sample_setDesc sample_fixedLayout emptyDevice = Ok (Some set, d') /\
    SetObject.resources set
    = [IsTexture 500; IsBuffer sample_writtenBuffer; IsBuffer sample_writtenBuffer;
       IsSampler 600] /\
    SetObject.volatileConstantBuffers set = [] /\
    SetObject.bindingsThatNeedTransitions set = [0; 1].
Proof.
  destruct (binding_set_keeps_what_it_binds (H := sample_collaborators)
              (H0 := sample_deviceCollaborators) sample_setDesc sample_fixedLayout
              4000 5000 emptyDevice)
    as (set & d' & Hrun & _ & _ & Hres & Hvol & Htr & _).
  - reflexivity.
  - reflexivity.
  - exact sample_setDesc_ok.
  - vm_compute. lia.
  - exists set, d'. split; [exact Hrun|]. rewrite Hres, Hvol, Htr.
    split; [reflexivity|]. split; reflexivity.
Defined.

Lemma createBindingSet_gives_up_when_the_device_fails_witness :
  createBindingSet (H := sample_collaborators) (H0 := sample_deviceWithoutSets)
    sample_setDesc sample_fixedLayout emptyDevice
  = Ok (Datatypes.None,
        mkDevice
          [CallCreateDescriptorPool
             (DescriptorPoolCreateInfo.mk 3
                (BindingLayout.descriptorPoolSizeInfo sample_fixedLayout) 1);
           CallAllocateDescriptorSets (DescriptorSetAllocateInfo.mk 4000 1 1000)] ∅).
Proof.
  apply (createBindingSet_gives_up_when_the_device_fails (H := sample_collaborators)
           (H0 := sample_deviceWithoutSets) sample_setDesc sample_fixedLayout
           emptyDevice).
  right. discriminate.
Defined.


Lemma volatile_bindings_give_the_dynamic_offsets_witness :
  exists set d' w',
    createBindingSet (H := sample_collaborators) (H0 := sample_deviceCollaborators)
      sample_volatileSetDesc sample_fixedLayout emptyDevice = Ok (Some set, d') /\
    bindBindingSets (H := sample_collaborators) sample_volatileStates 0 77
      [Some (IsBindingSet (asBindingSet set))] [] emptyWorld = Ok (tt, w') /\
    bindCallsOf (trace w') = [(0, 1, [5000], [768; 0])].
Proof.
  destruct (volatile_bindings_give_the_dynamic_offsets (H := sample_collaborators)
              (H0 := sample_deviceCollaborators) sample_volatileSetDesc
              sample_fixedLayout 4000 5000 emptyDevice sample_volatileStates 0 77
              emptyWorld)
    as (set & d' & w' & Hrun & Hbind & Hcalls).
  - reflexivity.
  - reflexivity.
  - exact sample_volatileSetDesc_ok.
  - vm_compute. lia.
  - vm_compute. lia.
  - repeat constructor; vm_compute; congruence.
  - exists set, d', w'. split; [exact Hrun|]. split; [exact Hbind|].
    change (drop _ (trace w')) with (trace w') in Hcalls. rewrite Hcalls.
    vm_compute. reflexivity.
Defined.

(** ** Views of typed buffers: binding sets and descriptor tables *)

Section TypedBufferViews.
Context `{Collaborators} `{DeviceCollaborators}.

(** X15.  The buffer views [createBindingSet] creates.  Every view created
    is the view of a binding of a typed buffer, over the range of the
    binding resolved against the buffer, in the format of the binding or,
    when the binding has none, in the format of the buffer.  Afterwards the
    cache holds a view for every binding of a typed buffer, and what was in
    the cache before is still there. *)
Theorem typed_buffer_views_of_a_binding_set (desc : SetDesc.t)
    (layout : BindingLayout.t) (descriptorPool descriptorSet : Z) (d : Device) :
  vkCreateDescriptorPool (poolInfoOf layout) = (eSuccess, descriptorPool) ->
  vkAllocateDescriptorSets (allocInfoOf layout descriptorPool)
  = (eSuccess, descriptorSet) ->
  Forall bindingOk (SetDesc.bindings desc) ->
  (length (flat_map volatileOf (SetDesc.bindings desc))
   <= c_MaxVolatileConstantBuffers)%nat ->
  exists set d',
    createBindingSet desc layout d = Ok (Some set, d') /\
    (forall info,
       In (CallTraced (EvCreateBufferView info)) (drop (length (calls d)) (calls d')) ->
       exists b buffer,
         In b (SetDesc.bindings desc) /\
         BindingSetItem.resourceHandle (SetBinding.item b) = Some (IsBuffer buffer) /\
         (BindingSetItem.type (SetBinding.item b) = ResourceType.TypedBuffer_SRV \/
          BindingSetItem.type (SetBinding.item b) = ResourceType.TypedBuffer_UAV) /\
         let range :=
           BufferRange_resolve (BindingSetItem.range (SetBinding.item b))
             (Buffer.desc buffer) in
         info
         = BufferViewCreateInfo.mk (Buffer.buffer buffer) (fst range) (snd range)
             (convertFormat
                (if bool_decide (BindingSetItem.format (SetBinding.item b) = Format_UNKNOWN)
                 then Buffer_format buffer
                 else BindingSetItem.format (SetBinding.item b)))) /\
    (forall b buffer,
       In b (SetDesc.bindings desc) ->
       BindingSetItem.resourceHandle (SetBinding.item b) = Some (IsBuffer buffer) ->
       BindingSetItem.type (SetBinding.item b) = ResourceType.TypedBuffer_SRV \/
       BindingSetItem.type (SetBinding.item b) = ResourceType.TypedBuffer_UAV ->
       is_Some (bufferViews d' !! typedViewKey (SetBinding.item b) buffer)) /\
    bufferViews d ⊆ bufferViews d'.
Proof.
  intros Hpool Hset Hok Hcap.
  destruct (createBindingSet_ok desc layout descriptorPool descriptorSet d
              Hpool Hset Hok Hcap)
    as (d' & mid & writes & Hrun & Hcalls & Hmid & _ & Hsub & Hkeys).
  eexists _, d'. split; [exact Hrun|]. split; [|split; [|exact Hsub]].
  - intros info Hin. rewrite Hcalls, drop_app_length in Hin.
    cbn [app] in Hin. destruct Hin as [Hin|[Hin|Hin]]; try discriminate Hin.
    apply in_app_or in Hin. destruct Hin as [Hin|[Hin|[]]]; [|discriminate Hin].
    rewrite Forall_forall in Hmid. apply list_elem_of_In in Hin.
    exact (Hmid _ Hin).
  - intros b buffer Hb Hhandle Htype.
    rewrite Forall_forall in Hkeys. apply Hkeys.
    apply list_elem_of_In, in_flat_map. exists b. split; [exact Hb|].
    unfold typedKeysOf. rewrite Hhandle.
    destruct Htype as [-> | ->]; left; reflexivity.
Qed.

(** A write of a typed buffer whose view is in the cache leaves the world
    as it is. *)
Lemma typed_write_with_cached_view table binding buffer st layoutBinding st' w w' :
  BindingSetItem.resourceHandle binding = Some (IsBuffer buffer) ->
  BindingSetItem.type binding = ResourceType.TypedBuffer_SRV \/
  BindingSetItem.type binding = ResourceType.TypedBuffer_UAV ->
  BindingSetItem.format binding <> Format_UNKNOWN ->
  is_Some (viewCache w !! typedViewKey binding buffer) ->
  writeDescriptorForBinding table binding st layoutBinding w = Ok (st', w') ->
  w' = w.
Proof.
  intros Hhandle Htype Hformat [view Hview] Hrun.
  unfold typedViewKey, typedViewFormat, viewKeyFor in Hview. cbv zeta in Hview.
  rewrite bool_decide_eq_false_2 in Hview by exact Hformat.
  unfold writeDescriptorForBinding in Hrun. rewrite Hhandle in Hrun.
  assert (Hhit : typedBufferView buffer binding w = Ok (view, w)).
  { unfold typedBufferView. cbv zeta. rewrite Hview. reflexivity. }
  destruct Htype as [Htype|Htype]; rewrite Htype in Hrun;
    cbn [checked_cast_Buffer] in Hrun;
    rewrite (bind_Ok _ _ _ _ _ (eq_refl : ret buffer w = Ok (buffer, w))) in Hrun;
    rewrite (bind_Ok _ _ _ _ _ Hhit) in Hrun;
    unfold generateWriteDescriptorData in Hrun; minv Hrun; reflexivity.
Qed.

Lemma typed_writes_with_cached_view table binding buffer (locs : list Z) :
  BindingSetItem.resourceHandle binding = Some (IsBuffer buffer) ->
  BindingSetItem.type binding = ResourceType.TypedBuffer_SRV \/
  BindingSetItem.type binding = ResourceType.TypedBuffer_UAV ->
  BindingSetItem.format binding <> Format_UNKNOWN ->
  forall st st' w w',
    is_Some (viewCache w !! typedViewKey binding buffer) ->
    foldM (writeMatchingSpace table binding) locs st w = Ok (st', w') ->
    w' = w.
Proof.
  intros Hhandle Htype Hformat.
  induction locs as [|loc locs IH]; intros st st' w w' Hview Hrun.
  - cbn in Hrun. injection Hrun as _ <-. reflexivity.
  - cbn [foldM] in Hrun. apply bind_inv in Hrun.
    destruct Hrun as (st1 & w1 & Hstep & Hrun).
    assert (w1 = w) as ->.
    { unfold writeMatchingSpace in Hstep. apply bind_inv in Hstep.
      destruct Hstep as (space & w2 & Hspace & Hstep).
      apply at_inv in Hspace. destruct Hspace as (_ & _ & ->).
      case_bool_decide.
      - apply bind_inv in Hstep. destruct Hstep as (layoutBinding & w3 & Hat & Hstep).
        apply at_inv in Hat. destruct Hat as (_ & _ & ->).
        eapply typed_write_with_cached_view; eassumption.
      - unfold ret in Hstep. injection Hstep as _ <-. reflexivity. }
    eapply IH; eassumption.
Qed.

(** X16.  The cache of buffer views is shared between binding sets and
    descriptor tables.  After [createBindingSet] has bound a typed buffer
    with a format of its own, writing the same binding item to a descriptor
    table, in a world with the cache the device was left with, creates no
    buffer view and leaves the cache as it is: the new events are the
    descriptor updates alone. *)
Theorem views_of_a_binding_set_serve_descriptor_tables (desc : SetDesc.t)
    (layout : BindingLayout.t) (descriptorPool descriptorSet : Z) (d : Device) :
  vkCreateDescriptorPool (poolInfoOf layout) = (eSuccess, descriptorPool) ->
  vkAllocateDescriptorSets (allocInfoOf layout descriptorPool)
  = (eSuccess, descriptorSet) ->
  Forall bindingOk (SetDesc.bindings desc) ->
  (length (flat_map volatileOf (SetDesc.bindings desc))
   <= c_MaxVolatileConstantBuffers)%nat ->
  exists set d',
    createBindingSet desc layout d = Ok (Some set, d') /\
    forall b buffer table w result w',
      In b (SetDesc.bindings desc) ->
      BindingSetItem.resourceHandle (SetBinding.item b) = Some (IsBuffer buffer) ->
      BindingSetItem.type (SetBinding.item b) = ResourceType.TypedBuffer_SRV \/
      BindingSetItem.type (SetBinding.item b) = ResourceType.TypedBuffer_UAV ->
      BindingSetItem.format (SetBinding.item b) <> Format_UNKNOWN ->
      viewCache w = bufferViews d' ->
      writeDescriptorTable table (SetBinding.item b) w = Ok (result, w') ->
      viewCache w' = viewCache w /\
      drop (length (trace w)) (trace w')
      = updatesOf (drop (length (trace w)) (trace w')).
Proof.
  intros Hpool Hset Hok Hcap.
  destruct (createBindingSet_ok desc layout descriptorPool descriptorSet d
              Hpool Hset Hok Hcap)
    as (d' & mid & writes & Hrun & _ & _ & _ & _ & Hkeys).
  eexists _, d'. split; [exact Hrun|].
  intros b buffer table w result w' Hb Hhandle Htype Hformat Hcache Hwrite.
  assert (Hview : is_Some (viewCache w !! typedViewKey (SetBinding.item b) buffer)).
  { rewrite Hcache. rewrite Forall_forall in Hkeys. apply Hkeys.
    apply list_elem_of_In, in_flat_map. exists b. split; [exact Hb|].
    unfold typedKeysOf. rewrite Hhandle.
    destruct Htype as [-> | ->]; left; reflexivity. }
  unfold writeDescriptorTable in Hwrite.
  case_bool_decide.
  { unfold ret in Hwrite. injection Hwrite as _ <-. rewrite drop_all. auto. }
  case_bool_decide.
  { unfold ret in Hwrite. injection Hwrite as _ <-. rewrite drop_all. auto. }
  apply bind_inv in Hwrite. destruct Hwrite as (st & wb & Hbody & Hwrite).
  assert (wb = w) as ->.
  { revert Hbody. case_bool_decide; intros Hbody.
    - apply bind_inv in Hbody. destruct Hbody as (u & w1 & Hassert & Hbody).
      apply assert_inv in Hassert. destruct Hassert as [_ ->].
      apply bind_inv in Hbody. destruct Hbody as (layoutBinding & w2 & Hat & Hbody).
      apply at_inv in Hat. destruct Hat as (_ & _ & ->).
      eapply typed_write_with_cached_view; eassumption.
    - eapply typed_writes_with_cached_view; eassumption. }
  apply bind_inv in Hwrite. destruct Hwrite as (u & w2 & Hemit & Hwrite).
  rewrite emit_addErrors in Hemit. injection Hemit as _ <-.
  unfold ret in Hwrite. injection Hwrite as _ <-.
  split; [reflexivity|].
  change (trace (addErrors w ?es)) with (trace w ++ es).
  rewrite drop_app_length. reflexivity.
Qed.

End TypedBufferViews.

Lemma typed_buffer_views_of_a_binding_set_witness :
  exists set d',
    createBindingSet (H := sample_collaborators) (H0 := sample_deviceCollaborators)
      sample_volatileSetDesc sample_fixedLayout emptyDevice = Ok (Some set, d') /\
    is_Some (bufferViews d' !! (7000, 0 + 1000 * 256 + 1000000 * 2)).
Proof.
  destruct (typed_buffer_views_of_a_binding_set (H := sample_collaborators)
              (H0 := sample_deviceCollaborators) sample_volatileSetDesc
              sample_fixedLayout 4000 5000 emptyDevice)
    as (set & d' & Hrun & _ & Hkeys & _).
  - reflexivity.
  - reflexivity.
  - exact sample_volatileSetDesc_ok.
  - vm_compute. lia.
  - exists set, d'. split; [exact Hrun|].
    apply (Hkeys (SetBinding.mk (sample_typedBufferBinding 4) 0)
             (Buffer.mk 7000 (BufferDesc.mk 256 "scene") 41)).
    + cbn. auto.
    + reflexivity.
    + left. reflexivity.
Defined.

Lemma views_of_a_binding_set_serve_descriptor_tables_witness :
  exists set d' w',
    createBindingSet (H := sample_collaborators) (H0 := sample_deviceCollaborators)
      sample_volatileSetDesc sample_fixedLayout emptyDevice = Ok (Some set, d') /\
    writeDescriptorTable (H := sample_collaborators) sample_typedTable
      (sample_typedBufferBinding 4) (mkWorld [] (bufferViews d') [])
    = Ok (true, w') /\
    viewCache w' = bufferViews d' /\
    trace w' = updatesOf (trace w').
Proof.
  destruct (views_of_a_binding_set_serve_descriptor_tables (H := sample_collaborators)
              (H0 := sample_deviceCollaborators) sample_volatileSetDesc
              sample_fixedLayout 4000 5000 emptyDevice)
    as (set & d' & Hrun & Hshare).
  - reflexivity.
  - reflexivity.
  - exact sample_volatileSetDesc_ok.
  - vm_compute. lia.
  - destruct (writeDescriptorTable (H := sample_collaborators) sample_typedTable
                (sample_typedBufferBinding 4) (mkWorld [] (bufferViews d') []))
      as [[result w']|] eqn:Hwrite.
    + destruct (Hshare (SetBinding.mk (sample_typedBufferBinding 4) 0)
                  (Buffer.mk 7000 (BufferDesc.mk 256 "scene") 41)
                  sample_typedTable (mkWorld [] (bufferViews d') []) result w')
        as [Hcache Htrace].
      * cbn. auto.
      * reflexivity.
      * left. reflexivity.
      * discriminate.
      * reflexivity.
      * exact Hwrite.
      * exists set, d', w'. split; [exact Hrun|].
        vm_compute in Hrun. injection Hrun as _ <-.
        vm_compute in Hwrite. injection Hwrite as <- <-.
        split; [reflexivity|]. split; [exact Hcache|exact Htrace].
    + vm_compute in Hrun. injection Hrun as _ <-.
      vm_compute in Hwrite. discriminate Hwrite.
Defined.

(** ** Creating and destroying descriptor tables *)

Section DescriptorTables.
Context `{Collaborators} `{DeviceCollaborators}.

Lemma liftM_at {A} (v : list A) (x : A) (d : Device) :
  v !! 0%nat = Some x -> liftM (at_ v 0) d = Ok (x, d).
Proof.
  intros Hx. unfold liftM. rewrite (at_ok v 0 x _ Hx). cbn.
  rewrite app_nil_r. destruct d. reflexivity.
Qed.

(** [createDescriptorTable] on a layout with a schema entry. *)
Lemma createDescriptorTable_run layout first d :
  BindingLayout.vulkanLayoutBindings layout !! 0%nat = Some first ->
  createDescriptorTable layout d
  = let created := vkCreateDescriptorPool (poolInfoOf layout) in
    let allocated := vkAllocateDescriptorSets (allocInfoOf layout (snd created)) in
    if decide (fst created = eSuccess)
    then
      if decide (fst allocated = eSuccess)
      then Ok (Some (DescriptorTable.mk layout
                       (DescriptorSetLayoutBinding.descriptorCount first)
                       (snd created) (snd allocated)),
               addCalls d [CallCreateDescriptorPool (poolInfoOf layout);
                           CallAllocateDescriptorSets
                             (allocInfoOf layout (snd created))])
      else Ok (Datatypes.None,
               addCalls d [CallCreateDescriptorPool (poolInfoOf layout);
                           CallAllocateDescriptorSets
                             (allocInfoOf layout (snd created))])
    else Ok (Datatypes.None, addCalls d [CallCreateDescriptorPool (poolInfoOf layout)]).
Proof.
  intros Hfirst. unfold createDescriptorTable.
  rewrite (bindD_Ok _ _ _ _ _ (liftM_at _ _ d Hfirst)).
  fold (poolInfoOf layout). unfold bindD at 1. rewrite call_run. cbv zeta.
  destruct (vkCreateDescriptorPool (poolInfoOf layout)) as [res1 descriptorPool].
  cbn [fst snd]. fold (allocInfoOf layout descriptorPool).
  destruct (decide (res1 = eSuccess)) as [->|Hres1].
  - rewrite bool_decide_eq_false_2 by (intros Hne; apply Hne; reflexivity).
    unfold bindD at 1. rewrite call_run, addCalls_app. cbn [app].
    destruct (vkAllocateDescriptorSets (allocInfoOf layout descriptorPool))
      as [res2 descriptorSet].
    cbn [fst snd]. destruct (decide (res2 = eSuccess)) as [->|Hres2].
    + rewrite bool_decide_eq_false_2 by (intros Hne; apply Hne; reflexivity).
      reflexivity.
    + rewrite bool_decide_eq_true_2 by exact Hres2. reflexivity.
  - rewrite bool_decide_eq_true_2 by exact Hres1. reflexivity.
Qed.

Lemma createBindlessLayout_isBindless m_Context desc layout w w' :
  createBindlessLayout m_Context desc w = Ok (layout, w') ->
  BindingLayout.isBindless layout = true.
Proof.
  intros Hrun. unfold createBindlessLayout in Hrun.
  apply bind_inv in Hrun. destruct Hrun as (layout0 & w0 & Hctor & Hrun).
  apply bind_inv in Hrun. destruct Hrun as ([res layout1] & w1 & Hbake & Hrun).
  unfold ret in Hrun. injection Hrun as <- <-. cbn [snd].
  destruct (bake_preserves _ _ _ _ _ Hbake) as (_ & -> & _).
  unfold BindingLayout_BindingLayout_bindless in Hctor.
  revert Hctor. case_bool_decide; intros Hctor; minv Hctor; reflexivity.
Qed.

(** X17.  The capacity of a descriptor table.  For a layout made by
    [createBindlessLayout] that has a schema entry (any mutable layout, an
    immutable one with a register space) and a device that gives a pool and
    a set, [createDescriptorTable] makes these two calls and returns a table
    whose capacity is the [maxCapacity] of the description.  Such a table
    refuses every write at a slot from [maxCapacity] on, and can be resized
    to any size up to [maxCapacity]. *)
Theorem descriptor_table_has_the_capacity_of_its_layout (m_Context : VulkanContext.t)
    (desc : BindlessLayoutDesc.t) (layout : BindingLayout.t) (w w' : World)
    (descriptorPool descriptorSet : Z) (d : Device) :
  Z.of_nat (length (BindlessLayoutDesc.registerSpaces desc)) < 2 ^ 32 ->
  createBindlessLayout m_Context desc w = Ok (layout, w') ->
  (BindlessLayoutDesc.layoutType desc = LayoutType.Immutable ->
   BindlessLayoutDesc.registerSpaces desc <> []) ->
  vkCreateDescriptorPool (poolInfoOf layout) = (eSuccess, descriptorPool) ->
  vkAllocateDescriptorSets (allocInfoOf layout descriptorPool)
  = (eSuccess, descriptorSet) ->
  let table :=
    DescriptorTable.mk layout (BindlessLayoutDesc.maxCapacity desc)
      descriptorPool descriptorSet in
  createDescriptorTable layout d
  = Ok (Some table,
        addCalls d
          [CallCreateDescriptorPool
             (DescriptorPoolCreateInfo.mk
                (wrap32 (Z.of_nat (length (BindingLayout.descriptorPoolSizeInfo layout))))
                (BindingLayout.descriptorPoolSizeInfo layout) 1);
           CallAllocateDescriptorSets
             (DescriptorSetAllocateInfo.mk descriptorPool 1
                (BindingLayout.descriptorSetLayout layout))]) /\
  (forall binding w0,
     BindlessLayoutDesc.maxCapacity desc <= BindingSetItem.slot binding ->
     writeDescriptorTable table binding w0 = Ok (false, w0)) /\
  (forall newSize keepContents w0,
     newSize <= BindlessLayoutDesc.maxCapacity desc ->
     resizeDescriptorTable table newSize keepContents w0 = Ok (table, w0)).
Proof.
  intros Hlen Hlayout Hspaces Hpool Hset table.
  destruct (createBindlessLayout_schema m_Context desc layout w w' Hlen Hlayout)
    as [Hdesc Hschema].
  pose proof (createBindlessLayout_isBindless _ _ _ _ _ Hlayout) as Hbindless.
  assert (Hfirst : exists first,
            BindingLayout.vulkanLayoutBindings layout !! 0%nat = Some first /\
            DescriptorSetLayoutBinding.descriptorCount first
            = BindlessLayoutDesc.maxCapacity desc).
  { rewrite Hschema.
    destruct (decide (BindlessLayoutDesc.layoutType desc = LayoutType.Immutable))
      as [Himm|Hmut].
    - destruct (BindlessLayoutDesc.registerSpaces desc) as [|space spaces] eqn:Hs;
        [exfalso; apply (Hspaces Himm); reflexivity|].
      eexists. split; reflexivity.
    - eexists. split; reflexivity. }
  destruct Hfirst as (first & Hfirst & Hcount).
  split; [|split].
  - rewrite (createDescriptorTable_run layout first d Hfirst). cbv zeta.
    rewrite Hpool. cbn [fst snd]. rewrite Hset. cbn [fst snd].
    rewrite !decide_True by reflexivity. rewrite Hcount. reflexivity.
  - intros binding w0 Hslot. unfold writeDescriptorTable. subst table.
    cbn [DescriptorTable.capacity].
    rewrite bool_decide_eq_true_2 by lia. reflexivity.
  - intros newSize keepContents w0 Hsize. unfold resizeDescriptorTable.
    subst table. cbn [DescriptorTable.layout].
    unfold BindingLayout_getBindlessDesc. rewrite Hbindless. cbn [deref].
    rewrite (bind_Ok _ _ _ _ _ (eq_refl : ret _ w0 = Ok (_, w0))).
    rewrite Hdesc. rewrite bool_decide_eq_true_2 by exact Hsize. reflexivity.
Qed.

(** X18.  [createDescriptorTable] when the device fails.  When the pool
    cannot be created, or the set cannot be allocated from it, the call
    returns a null handle after these one or two calls; a pool that was
    created is not destroyed. *)
Theorem createDescriptorTable_gives_up_when_the_device_fails
    (layout : BindingLayout.t) (d : Device) :
  let created := vkCreateDescriptorPool (poolInfoOf layout) in
  let allocated := vkAllocateDescriptorSets (allocInfoOf layout (snd created)) in
  BindingLayout.vulkanLayoutBindings layout <> [] ->
  fst created <> eSuccess \/ fst allocated <> eSuccess ->
  createDescriptorTable layout d
  = Ok (Datatypes.None,
        addCalls d
          (CallCreateDescriptorPool (poolInfoOf layout)
           :: if decide (fst created = eSuccess)
              then [CallAllocateDescriptorSets (allocInfoOf layout (snd created))]
              else [])).
Proof.
  intros created allocated Hschema Hfailed. subst created allocated.
  destruct (BindingLayout.vulkanLayoutBindings layout) as [|first rest] eqn:Hs;
    [contradiction|].
  rewrite (createDescriptorTable_run layout first d) by (rewrite Hs; reflexivity).
  cbv zeta.
  destruct (decide (fst (vkCreateDescriptorPool (poolInfoOf layout)) = eSuccess))
    as [Hres1|Hres1]; [|reflexivity].
  destruct Hfailed as [Hne|Hres2]; [contradiction|].
  rewrite decide_False by exact Hres2. reflexivity.
Qed.

(** X19.  A descriptor table for a layout without a schema entry.  An
    immutable bindless description without register spaces gives a layout
    with an empty schema; [createDescriptorTable] reads the first entry of
    the schema before anything else, so on this layout it makes no call on
    the device and ends in the fault that stands for reading past the end of
    the vector. *)
Theorem descriptor_table_of_a_layout_without_register_spaces
    (m_Context : VulkanContext.t) (desc : BindlessLayoutDesc.t)
    (layout : BindingLayout.t) (w w' : World) (d : Device) :
  BindlessLayoutDesc.layoutType desc = LayoutType.Immutable ->
  BindlessLayoutDesc.registerSpaces desc = [] ->
  createBindlessLayout m_Context desc w = Ok (layout, w') ->
  BindingLayout.vulkanLayoutBindings layout = [] /\
  createDescriptorTable layout d = Fault "index out of range".
Proof.
  intros Himm Hspaces Hlayout.
  destruct (createBindlessLayout_schema m_Context desc layout w w'
              ltac:(rewrite Hspaces; cbn; lia) Hlayout) as [_ Hschema].
  rewrite decide_True in Hschema by exact Himm. rewrite Hspaces in Hschema.
  cbn in Hschema. split; [exact Hschema|].
  unfold createDescriptorTable. rewrite Hschema. reflexivity.
Qed.

(** X20.  The destructors release the native object once.  The body of
    each of the three destructors makes one destroy call for the pool (or
    the native layout) when the handle is not null, none otherwise, and
    leaves the object with a null handle; run on the object it left, it
    does nothing. *)
Theorem destructors_release_once (set : SetObject.t) (table : DescriptorTable.t)
    (layout : BindingLayout.t) (d : Device) :
  (exists set',
     BindingSet_destroy set d
     = Ok (set', addCalls d (if decide (SetObject.descriptorPool set = 0) then []
                             else [CallDestroyDescriptorPool
                                     (SetObject.descriptorPool set)])) /\
     SetObject.descriptorPool set' = 0 /\
     forall d', BindingSet_destroy set' d' = Ok (set', d')) /\
  (exists table',
     DescriptorTable_destroy table d
     = Ok (table', addCalls d (if decide (DescriptorTable.descriptorPool table = 0)
                               then []
                               else [CallDestroyDescriptorPool
                                       (DescriptorTable.descriptorPool table)])) /\
     DescriptorTable.descriptorPool table' = 0 /\
     forall d', DescriptorTable_destroy table' d' = Ok (table', d')) /\
  (exists layout',
     BindingLayout_destroy layout d
     = Ok (layout', addCalls d (if decide (BindingLayout.descriptorSetLayout layout = 0)
                                then []
                                else [CallDestroyDescriptorSetLayout
                                        (BindingLayout.descriptorSetLayout layout)])) /\
     BindingLayout.descriptorSetLayout layout' = 0 /\
     forall d', BindingLayout_destroy layout' d' = Ok (layout', d')).
Proof.
  split; [|split].
  - unfold BindingSet_destroy.
    destruct (decide (SetObject.descriptorPool set = 0)) as [Hnull|Hpool].
    + exists set. rewrite bool_decide_eq_false_2 by (intros Hne; contradiction).
      rewrite addCalls_nil. split; [reflexivity|]. split; [exact Hnull|].
      intros d'. reflexivity.
    + eexists. rewrite bool_decide_eq_true_2 by exact Hpool.
      unfold bindD. rewrite call_run. split; [reflexivity|]. cbn.
      split; [reflexivity|]. intros d'.
      rewrite bool_decide_eq_false_2 by (intros Hne; apply Hne; reflexivity).
      reflexivity.
  - unfold DescriptorTable_destroy.
    destruct (decide (DescriptorTable.descriptorPool table = 0)) as [Hnull|Hpool].
    + exists table. rewrite bool_decide_eq_false_2 by (intros Hne; contradiction).
      rewrite addCalls_nil. split; [reflexivity|]. split; [exact Hnull|].
      intros d'. reflexivity.
    + eexists. rewrite bool_decide_eq_true_2 by exact Hpool.
      unfold bindD. rewrite call_run. split; [reflexivity|]. cbn.
      split; [reflexivity|]. intros d'.
      rewrite bool_decide_eq_false_2 by (intros Hne; apply Hne; reflexivity).
      reflexivity.
  - unfold BindingLayout_destroy.
    destruct (decide (BindingLayout.descriptorSetLayout layout = 0)) as [Hnull|Hhandle].
    + exists layout. rewrite bool_decide_eq_false_2 by (intros Hne; contradiction).
      rewrite addCalls_nil. split; [reflexivity|]. split; [exact Hnull|].
      intros d'. reflexivity.
    + eexists. rewrite bool_decide_eq_true_2 by exact Hhandle.
      unfold bindD. rewrite call_run. split; [reflexivity|]. cbn.
      split; [reflexivity|]. intros d'.
      rewrite bool_decide_eq_false_2 by (intros Hne; apply Hne; reflexivity).
      reflexivity.
Qed.

End DescriptorTables.

Lemma descriptor_table_has_the_capacity_of_its_layout_witness :
  exists layout w' table d',
    createBindlessLayout (H := sample_collaborators) sample_context sample_bindlessDesc
      emptyWorld = Ok (layout, w') /\
    createDescriptorTable (H0 := sample_deviceCollaborators)
      layout emptyDevice = Ok (Some table, d') /\
    DescriptorTable.capacity table = 1024 /\
    writeDescriptorTable (H := sample_collaborators) table (sample_textureBinding 1024)
      emptyWorld = Ok (false, emptyWorld).
Proof.
  destruct (createBindlessLayout (H := sample_collaborators) sample_context
              sample_bindlessDesc emptyWorld) as [[layout w']|] eqn:Hlayout;
    [|vm_compute in Hlayout; discriminate Hlayout].
  destruct (descriptor_table_has_the_capacity_of_its_layout (H := sample_collaborators)
              (H0 := sample_deviceCollaborators) sample_context sample_bindlessDesc
              layout emptyWorld w' 4000 5000 emptyDevice)
    as (Hrun & Hwrite & _).
  - vm_compute. reflexivity.
  - exact Hlayout.
  - discriminate.
  - reflexivity.
  - reflexivity.
  - eexists layout, w', _, _. split; [reflexivity|]. split; [exact Hrun|].
    split; [reflexivity|]. apply Hwrite. vm_compute. discriminate.
Defined.

Lemma createDescriptorTable_gives_up_when_the_device_fails_witness :
  createDescriptorTable (H0 := sample_deviceWithoutPools)
    sample_bindlessLayout emptyDevice
  = Ok (Datatypes.None,
        mkDevice
          [CallCreateDescriptorPool
             (DescriptorPoolCreateInfo.mk 2
                (BindingLayout.descriptorPoolSizeInfo sample_bindlessLayout) 1)] ∅).
Proof.
  apply (createDescriptorTable_gives_up_when_the_device_fails
           (H0 := sample_deviceWithoutPools) sample_bindlessLayout emptyDevice).
  - discriminate.
  - left. discriminate.
Defined.

Lemma descriptor_table_of_a_layout_without_register_spaces_witness :
  exists layout w',
    createBindlessLayout (H := sample_collaborators) sample_context
      (BindlessLayoutDesc.mk 1 64 [] LayoutType.Immutable) emptyWorld
    = Ok (layout, w') /\
    createDescriptorTable (H0 := sample_deviceCollaborators)
      layout emptyDevice = Fault "index out of range".
Proof.
  destruct (createBindlessLayout (H := sample_collaborators) sample_context
              (BindlessLayoutDesc.mk 1 64 [] LayoutType.Immutable) emptyWorld)
    as [[layout w']|] eqn:Hlayout; [|vm_compute in Hlayout; discriminate Hlayout].
  exists layout, w'. split; [reflexivity|].
  apply (descriptor_table_of_a_layout_without_register_spaces (H := sample_collaborators)
           (H0 := sample_deviceCollaborators) sample_context
           (BindlessLayoutDesc.mk 1 64 [] LayoutType.Immutable) layout emptyWorld w'
           emptyDevice eq_refl eq_refl Hlayout).
Defined.

(** ** Descriptor tables: what a write puts where *)

Section TableWrites3.
Context `{Collaborators}.

Lemma withTableView_refs w binding :
  referencedResources (withTableView w binding) = referencedResources w.
Proof. unfold withTableView. destruct (missingTableView _ _); reflexivity. Qed.

Lemma withTableView_cache w binding :
  viewCache w ⊆ viewCache (withTableView w binding).
Proof.
  unfold withTableView, missingTableView.
  destruct (BindingSetItem.resourceHandle binding) as [[texture|buffer|sampler|accel]|];
    try reflexivity;
    destruct (BindingSetItem.type binding); try reflexivity;
    destruct (viewCache w !! _) eqn:Hview; try reflexivity;
    cbn [viewCache]; apply insert_subseteq; exact Hview.
Qed.

Lemma withTableView_idem w binding :
  withTableView (withTableView w binding) binding = withTableView w binding.
Proof.
  unfold withTableView at 1 3. unfold missingTableView at 1.
  unfold withTableView, missingTableView.
  destruct (BindingSetItem.resourceHandle binding) as [[texture|buffer|sampler|accel]|];
    try reflexivity;
    destruct (BindingSetItem.type binding); try reflexivity;
    destruct (viewCache w !! _) eqn:Hview; try (rewrite Hview; reflexivity);
    cbn [viewCache]; rewrite lookup_insert_eq; reflexivity.
Qed.


Lemma typedBufferView_run buffer binding w :
  BindingSetItem.resourceHandle binding = Some (IsBuffer buffer) ->
  BindingSetItem.type binding = ResourceType.TypedBuffer_SRV \/
  BindingSetItem.type binding = ResourceType.TypedBuffer_UAV ->
  BindingSetItem.format binding <> Format_UNKNOWN ->
  fst (vkCreateBufferView (viewInfoFor (BindingSetItem.format binding) binding buffer))
  = eSuccess ->
  exists view,
    typedBufferView buffer binding w = Ok (view, withTableView w binding) /\
    viewCache (withTableView w binding)
      !! viewKeyFor (BindingSetItem.format binding) binding buffer = Some view.
Proof.
  intros Hhandle Htype Hformat Hres.
  unfold typedBufferView, withTableView, missingTableView, viewKeyFor, viewInfoFor in *.
  cbv zeta in *. rewrite Hhandle.
  destruct Htype as [-> | ->];
    (destruct (viewCache w !! _) as [view|] eqn:Hview;
     [exists view; split; [reflexivity|exact Hview]|]);
    destruct (vkCreateBufferView _) as [res view]; cbn [fst snd] in *; subst res;
    exists view; unfold bind, assert, emit, ret;
    rewrite bool_decide_eq_true_2 by exact Hformat; cbn;
    (split; [reflexivity|apply lookup_insert_eq]).
Qed.

Lemma writeDescriptorForBinding_run table binding st layoutBinding w :
  tableBindingOk binding ->
  infosWithinWrites st ->
  (length (TableWrites.descriptorWriteInfo st) < c_MaxBindlessRegisterSpaces)%nat ->
  exists payload st',
    tablePayload (viewCache (withTableView w binding)) binding = Some payload /\
    writeDescriptorForBinding table binding st layoutBinding w
    = Ok (st', withTableView w binding) /\
    TableWrites.descriptorWriteInfo st'
    = TableWrites.descriptorWriteInfo st
      ++ [tableWriteAt table binding payload
            (DescriptorSetLayoutBinding.binding layoutBinding)] /\
    infosWithinWrites st'.
Proof.
  intros Hok [Himage Hbuffer] Hcap.
  unfold tableBindingOk in Hok.
  destruct (BindingSetItem.type binding) eqn:Htype;
    destruct (BindingSetItem.resourceHandle binding)
      as [[texture|buffer|sampler|accel]|] eqn:Hhandle;
    try contradiction.
  3,4: destruct Hok as [Hformat Hres];
       destruct (typedBufferView_run buffer binding w Hhandle
                   ltac:(rewrite Htype; auto) Hformat Hres) as (view & Hview & Hkey).
  all: unfold writeDescriptorForBinding, tablePayload, resolvedPayloadFor, tableWriteAt,
         infosWithinWrites.
  all: rewrite ?Htype, ?Hhandle.
  3,4: rewrite Hkey; cbn [checked_cast_Buffer];
       rewrite (bind_Ok _ _ _ _ _ (eq_refl : ret buffer w = Ok (buffer, w)));
       rewrite (bind_Ok _ _ _ _ _ Hview).
  all: try (assert (Hsame : withTableView w binding = w)
              by (unfold withTableView, missingTableView; rewrite Hhandle, ?Htype;
                  reflexivity);
            rewrite Hsame).
  all: eexists _, _; split; [reflexivity|].
  all: unfold checked_cast_Texture, checked_cast_Buffer, checked_cast_Sampler,
         emplace_imageInfo, emplace_bufferInfo, generateWriteDescriptorData, push_back,
         bind, assert, ret.
  all: repeat (rewrite bool_decide_eq_true_2 by (cbn; first [lia | assumption]); cbn).
  all: split; [reflexivity|]; split; [reflexivity|];
       cbn [TableWrites.descriptorImageInfo TableWrites.descriptorBufferInfo
            TableWrites.descriptorWriteInfo];
       rewrite ?length_app; cbn [length]; split; lia.
Qed.

Lemma writeMatchingSpace_run table binding desc payload (locs : list Z) :
  BindingLayout.bindlessDesc (DescriptorTable.layout table) = desc ->
  BindingLayout.vulkanLayoutBindings (DescriptorTable.layout table)
  = imap (fun i => spaceEntry desc (Z.of_nat i)) (BindlessLayoutDesc.registerSpaces desc) ->
  tableBindingOk binding ->
  Forall (fun i => 0 <= i < Z.of_nat (length (BindlessLayoutDesc.registerSpaces desc)))
    locs ->
  let matching :=
    filter (fun i => BindingLayoutItem.type
                       <$> BindlessLayoutDesc.registerSpaces desc !! Z.to_nat i
                     = Some (BindingSetItem.type binding)) locs in
  forall st w,
    tablePayload (viewCache (withTableView w binding)) binding = Some payload ->
    infosWithinWrites st ->
    (length (TableWrites.descriptorWriteInfo st) + length matching
     <= c_MaxBindlessRegisterSpaces)%nat ->
    exists st',
      foldM (writeMatchingSpace table binding) locs st w
      = Ok (st', if decide (matching = []) then w else withTableView w binding) /\
      TableWrites.descriptorWriteInfo st'
      = TableWrites.descriptorWriteInfo st
        ++ map (tableWriteAt table binding payload) matching.
Proof.
  intros Hdesc Hschema Hok Hlocs. cbv zeta.
  induction Hlocs as [|i locs Hi _ IH]; intros st w Hpayload Hinv Hcap.
  - exists st. cbn. rewrite app_nil_r. auto.
  - destruct (lookup_lt_is_Some_2 (BindlessLayoutDesc.registerSpaces desc)
                (Z.to_nat i) ltac:(lia)) as [space Hspace].
    pose proof (at_ok _ _ _ w Hspace) as Hat. rewrite Z2Nat.id in Hat by lia.
    cbn [foldM].
    destruct (decide (BindingLayoutItem.type space = BindingSetItem.type binding))
      as [Hmatch|Hmatch].
    + rewrite filter_cons_True in Hcap |- * by (rewrite Hspace; cbn; congruence).
      cbn [length] in Hcap.
      destruct (writeDescriptorForBinding_run table binding st
                  (spaceEntry desc i space) w Hok Hinv ltac:(lia))
        as (payload' & st1 & Hpayload' & Hwrite & Hwrites & Hinv1).
      assert (payload' = payload) as -> by congruence.
      assert (Hstep : writeMatchingSpace table binding st i w
                      = Ok (st1, withTableView w binding)).
      { unfold writeMatchingSpace. rewrite Hdesc, (bind_Ok _ _ _ _ _ Hat).
        rewrite bool_decide_eq_true_2 by exact Hmatch.
        assert (Hentry : at_ (BindingLayout.vulkanLayoutBindings (DescriptorTable.layout table))
                           i w = Ok (spaceEntry desc i space, w)).
        { rewrite <- (Z2Nat.id i) at 1 by lia. apply at_ok.
          rewrite Hschema, list_lookup_imap, Hspace. cbn.
          rewrite Z2Nat.id by lia. reflexivity. }
        rewrite (bind_Ok _ _ _ _ _ Hentry). exact Hwrite. }
      rewrite (bind_Ok _ _ _ _ _ Hstep).
      destruct (IH st1 (withTableView w binding)) as (st' & Hrun & Hwrites').
      { rewrite withTableView_idem. exact Hpayload. }
      { exact Hinv1. }
      { rewrite Hwrites, length_app. cbn [length]. lia. }
      exists st'. split.
      * rewrite Hrun, withTableView_idem.
        destruct (decide (_ :: _ = [])) as [Hnil|_]; [discriminate Hnil|].
        destruct (decide (_ = [])); reflexivity.
      * rewrite Hwrites', Hwrites, <- app_assoc. reflexivity.
    + rewrite filter_cons_False in Hcap |- * by (rewrite Hspace; cbn; congruence).
      assert (Hstep : writeMatchingSpace table binding st i w = Ok (st, w)).
      { unfold writeMatchingSpace. rewrite Hdesc, (bind_Ok _ _ _ _ _ Hat).
        rewrite bool_decide_eq_false_2 by exact Hmatch. reflexivity. }
      rewrite (bind_Ok _ _ _ _ _ Hstep). apply IH; assumption.
Qed.

Lemma tablePayload_defined binding w :
  tableBindingOk binding ->
  is_Some (tablePayload (viewCache (withTableView w binding)) binding).
Proof.
  intros Hok. unfold tableBindingOk in Hok.
  unfold tablePayload, resolvedPayloadFor, withTableView, missingTableView.
  destruct (BindingSetItem.type binding);
    destruct (BindingSetItem.resourceHandle binding)
      as [[texture|buffer|sampler|accel]|];
    try contradiction; try (eexists; reflexivity);
    destruct (viewCache w !! _) as [view|] eqn:Hview;
    cbn [viewCache]; rewrite ?Hview, ?lookup_insert_eq; eexists; reflexivity.
Qed.

(** The whole call, for a table whose layout has the schema of its
    description. *)
Lemma writeDescriptorTable_run (desc : BindlessLayoutDesc.t) (table : DescriptorTable.t)
    (binding : BindingSetItem.t) (w : World) :
  Z.of_nat (length (BindlessLayoutDesc.registerSpaces desc)) < 2 ^ 32 ->
  (length (BindlessLayoutDesc.registerSpaces desc) <= c_MaxBindlessRegisterSpaces)%nat ->
  (0 < c_MaxBindlessRegisterSpaces)%nat ->
  BindingLayout.bindlessDesc (DescriptorTable.layout table) = desc ->
  BindingLayout.vulkanLayoutBindings (DescriptorTable.layout table)
  = (if decide (BindlessLayoutDesc.layoutType desc = LayoutType.Immutable)
     then imap (fun i => spaceEntry desc (Z.of_nat i))
            (BindlessLayoutDesc.registerSpaces desc)
     else [mutableEntry desc]) ->
  BindingSetItem.slot binding < DescriptorTable.capacity table ->
  tableBindingOk binding ->
  exists payload,
    tablePayload (viewCache (withTableView w binding)) binding = Some payload /\
    writeDescriptorTable table binding w
    = Ok (true,
          addErrors
            (if decide (tableLocations desc binding = []) then w
             else withTableView w binding)
            [EvUpdateDescriptorSets
               (Z.of_nat (length (tableLocations desc binding)))
               (map (tableWriteAt table binding payload)
                  (tableLocations desc binding))]).
Proof.
  intros Hlen Hcap Hpos Hdesc Hschema Hslot Hok.
  destruct (tablePayload_defined binding w Hok) as [payload Hpayload].
  exists payload. split; [exact Hpayload|].
  assert (Htype : BindingSetItem.type binding <> ResourceType.None).
  { intros Hnone. unfold tableBindingOk in Hok. rewrite Hnone in Hok. exact Hok. }
  unfold writeDescriptorTable, tableLocations.
  rewrite bool_decide_eq_false_2 by lia.
  rewrite bool_decide_eq_false_2 by exact Htype.
  rewrite Hdesc.
  destruct (decide (BindlessLayoutDesc.layoutType desc = LayoutType.Immutable))
    as [Himm|Hmut].
  - rewrite bool_decide_eq_false_2 by tauto.
    rewrite wrap32_small by lia.
    pose proof (length_filter
      (fun i => BindingLayoutItem.type
                  <$> BindlessLayoutDesc.registerSpaces desc !! Z.to_nat i
                = Some (BindingSetItem.type binding))
      (seqZ 0 (Z.of_nat (length (BindlessLayoutDesc.registerSpaces desc))))) as Hle.
    rewrite length_seqZ in Hle.
    destruct (writeMatchingSpace_run table binding desc payload
                (seqZ 0 (Z.of_nat (length (BindlessLayoutDesc.registerSpaces desc))))
                Hdesc Hschema Hok
                ltac:(rewrite Forall_forall; intros i Hi; apply elem_of_seqZ in Hi; lia)
                (TableWrites.mk [] [] []) w Hpayload
                ltac:(split; reflexivity)
                ltac:(cbn [TableWrites.descriptorWriteInfo length];
                      unfold matchingLocations in *; lia))
      as (st' & Hrun & Hwrites).
    rewrite (bind_Ok _ _ _ _ _ Hrun). cbn [TableWrites.descriptorWriteInfo app] in Hwrites.
    unfold bind. rewrite emit_addErrors. unfold ret.
    rewrite Hwrites, length_map. unfold matchingLocations.
    rewrite wrap32_small by lia. reflexivity.
  - rewrite bool_decide_eq_true_2 by exact Hmut.
    rewrite Hschema. cbn [length].
    rewrite bool_decide_eq_true_2 by lia.
    destruct (writeDescriptorForBinding_run table binding (TableWrites.mk [] [] [])
                (mutableEntry desc) w Hok ltac:(split; reflexivity) Hpos)
      as (payload' & st' & Hpayload' & Hrun & Hwrites & _).
    assert (payload' = payload) as -> by congruence.
    assert (Hbody :
      (assert true ;;;
       layoutBinding <- at_ [mutableEntry desc] 0 ;;
       writeDescriptorForBinding table binding (TableWrites.mk [] [] []) layoutBinding) w
      = Ok (st', withTableView w binding)) by exact Hrun.
    rewrite (bind_Ok _ _ _ _ _ Hbody). cbn [TableWrites.descriptorWriteInfo app] in Hwrites.
    destruct (decide ([0] = [])) as [Hnil|_]; [discriminate Hnil|].
    unfold bind. rewrite emit_addErrors. unfold ret.
    rewrite Hwrites. reflexivity.
Qed.

(** X21.  What a write to a descriptor table does, in closed form.  For a
    table on a layout made by [createBindlessLayout], a slot below the
    capacity and a binding whose resource is of the class of its type and
    passes the assertions of its case, [writeDescriptorTable] returns true.
    It creates the view of a typed buffer when the cache does not hold it
    and there is a location to write, once, however many register spaces
    match; then it issues one descriptor update with one write per location
    of the binding (the matching register spaces in order, or location 0 of
    a mutable layout), all with the same payload: the image view of the
    texture, the cached view of the typed buffer, the range of the buffer,
    or the sampler. *)
Theorem table_write_in_closed_form (m_Context : VulkanContext.t)
    (desc : BindlessLayoutDesc.t) (table : DescriptorTable.t)
    (binding : BindingSetItem.t) (w0 w0' w : World) :
  Z.of_nat (length (BindlessLayoutDesc.registerSpaces desc)) < 2 ^ 32 ->
  (length (BindlessLayoutDesc.registerSpaces desc) <= c_MaxBindlessRegisterSpaces)%nat ->
  (0 < c_MaxBindlessRegisterSpaces)%nat ->
  createBindlessLayout m_Context desc w0 = Ok (DescriptorTable.layout table, w0') ->
  BindingSetItem.slot binding < DescriptorTable.capacity table ->
  tableBindingOk binding ->
  exists payload,
    tablePayload (viewCache (withTableView w binding)) binding = Some payload /\
    writeDescriptorTable table binding w
    = Ok (true,
          addErrors
            (if decide (tableLocations desc binding = []) then w
             else withTableView w binding)
            [EvUpdateDescriptorSets
               (Z.of_nat (length (tableLocations desc binding)))
               (map (tableWriteAt table binding payload)
                  (tableLocations desc binding))]).
Proof.
  intros Hlen Hcap Hpos Hlayout Hslot Hok.
  destruct (createBindlessLayout_schema _ _ _ _ _ Hlen Hlayout) as [Hdesc Hschema].
  apply writeDescriptorTable_run; assumption.
Qed.

End TableWrites3.

Lemma table_write_in_closed_form_witness :
  exists payload,
    writeDescriptorTable (H := sample_collaborators) sample_typedTable
      (sample_typedBufferBinding 5) emptyWorld
    = Ok (true,
          addErrors (withTableView (H := sample_collaborators) emptyWorld
                       (sample_typedBufferBinding 5))
            [EvUpdateDescriptorSets 1
               [tableWriteAt (H := sample_collaborators) sample_typedTable
                  (sample_typedBufferBinding 5) payload 0]]) /\
    length (trace (withTableView (H := sample_collaborators) emptyWorld
                     (sample_typedBufferBinding 5))) = 1%nat.
Proof.
  assert (Hlayout :
    { w0' | createBindlessLayout (H := sample_collaborators) sample_context
              (BindingLayout.bindlessDesc (DescriptorTable.layout sample_typedTable))
              emptyWorld = Ok (DescriptorTable.layout sample_typedTable, w0') }).
  { eexists. vm_compute. reflexivity. }
  destruct Hlayout as [w0' Hlayout].
  destruct (table_write_in_closed_form (H := sample_collaborators) sample_context
              (BindingLayout.bindlessDesc (DescriptorTable.layout sample_typedTable))
              sample_typedTable (sample_typedBufferBinding 5) emptyWorld w0' emptyWorld)
    as (payload & _ & Hrun).
  - vm_compute. reflexivity.
  - vm_compute. lia.
  - vm_compute. lia.
  - exact Hlayout.
  - vm_compute. reflexivity.
  - vm_compute. split; [discriminate|reflexivity].
  - exists payload. split; [exact Hrun|reflexivity].
Defined.

Section SetsAndTables.
Context `{Collaborators} `{DeviceCollaborators}.

Lemma tablePayload_resolved (views : gmap (Z * Z) Z) binding :
  tableBindingOk binding ->
  setPayloadOf views binding = SetWrite.Resource <$> tablePayload views binding.
Proof.
  intros Hok. unfold tableBindingOk in Hok.
  unfold setPayloadOf, resolvedPayload, tablePayload, resolvedPayloadFor, typedViewFormat.
  destruct (BindingSetItem.type binding);
    destruct (BindingSetItem.resourceHandle binding)
      as [[texture|buffer|sampler|accel]|];
    try contradiction; try reflexivity;
    destruct Hok as [Hformat _];
    rewrite bool_decide_eq_false_2 by exact Hformat; reflexivity.
Qed.

Lemma withTableView_cached w b :
  tableBindingOk (SetBinding.item b) ->
  Forall (fun key => is_Some (viewCache w !! key)) (typedKeysOf b) ->
  withTableView w (SetBinding.item b) = w.
Proof.
  intros Hok Hkeys. unfold tableBindingOk in Hok.
  unfold withTableView, missingTableView.
  unfold typedKeysOf, typedViewKey, typedViewFormat in Hkeys.
  destruct (BindingSetItem.type (SetBinding.item b));
    destruct (BindingSetItem.resourceHandle (SetBinding.item b))
      as [[texture|buffer|sampler|accel]|];
    try contradiction; try reflexivity;
    destruct Hok as [Hformat _];
    rewrite bool_decide_eq_false_2 in Hkeys by exact Hformat;
    apply Forall_cons in Hkeys; destruct Hkeys as [[view Hview] _];
    rewrite Hview; reflexivity.
Qed.

Lemma tableBindingOk_isWritten b : tableBindingOk (SetBinding.item b) -> isWritten b.
Proof.
  unfold tableBindingOk, isWritten.
  destruct (BindingSetItem.type (SetBinding.item b));
    destruct (BindingSetItem.resourceHandle (SetBinding.item b))
      as [[texture|buffer|sampler|accel]|];
    try contradiction; intros _; split; discriminate.
Qed.

(** X22.  A binding set and a descriptor table describe a resource the same
    way.  When [createBindingSet] has written a set with a binding that a
    descriptor table can take as well (a resource of the class of its type
    and, for a typed buffer, a format of its own), the update of the set has
    a write for that binding, and writing the item of the binding to a
    table, in a world with the cache the device was left with, succeeds,
    creates no view, and puts the payload of that write at every location
    of the table for the binding. *)
Theorem sets_and_tables_write_the_same_descriptor (desc : SetDesc.t)
    (layout : BindingLayout.t) (descriptorPool descriptorSet : Z) (d : Device)
    (m_Context : VulkanContext.t) (tableDesc : BindlessLayoutDesc.t)
    (table : DescriptorTable.t) (b : SetBinding.t) (w0 w0' : World) :
  vkCreateDescriptorPool (poolInfoOf layout) = (eSuccess, descriptorPool) ->
  vkAllocateDescriptorSets (allocInfoOf layout descriptorPool)
  = (eSuccess, descriptorSet) ->
  Forall bindingOk (SetDesc.bindings desc) ->
  (length (flat_map volatileOf (SetDesc.bindings desc))
   <= c_MaxVolatileConstantBuffers)%nat ->
  Z.of_nat (length (BindlessLayoutDesc.registerSpaces tableDesc)) < 2 ^ 32 ->
  (length (BindlessLayoutDesc.registerSpaces tableDesc)
   <= c_MaxBindlessRegisterSpaces)%nat ->
  (0 < c_MaxBindlessRegisterSpaces)%nat ->
  createBindlessLayout m_Context tableDesc w0 = Ok (DescriptorTable.layout table, w0') ->
  In b (SetDesc.bindings desc) ->
  BindingSetItem.slot (SetBinding.item b) < DescriptorTable.capacity table ->
  tableBindingOk (SetBinding.item b) ->
  exists set d' count writes write payload,
    createBindingSet desc layout d = Ok (Some set, d') /\
    last (calls d') = Some (CallUpdateDescriptorSets count writes) /\
    In write writes /\
    setWriteFor layout descriptorSet b write /\
    SetWrite.data write = SetWrite.Resource payload /\
    forall w,
      viewCache w = bufferViews d' ->
      writeDescriptorTable table (SetBinding.item b) w
      = Ok (true,
            addErrors w
              [EvUpdateDescriptorSets
                 (Z.of_nat (length (tableLocations tableDesc (SetBinding.item b))))
                 (map (tableWriteAt table (SetBinding.item b) payload)
                    (tableLocations tableDesc (SetBinding.item b)))]).
Proof.
  intros Hpool Hset Hok Hvol Hlen Hcap Hpos Hlayout Hb Hslot Htable.
  destruct (createBindingSet_ok desc layout descriptorPool descriptorSet d
              Hpool Hset Hok Hvol)
    as (d' & mid & writes & Hrun & Hcalls & _ & Hwrites & _ & Hkeys).
  destruct (createBindlessLayout_schema _ _ _ _ _ Hlen Hlayout) as [Hdesc Hschema].
  assert (Hin : b ∈ filter isWritten (SetDesc.bindings desc)).
  { apply list_elem_of_filter. split; [apply tableBindingOk_isWritten; exact Htable|].
    apply list_elem_of_In. exact Hb. }
  apply list_elem_of_lookup in Hin. destruct Hin as [i Hi].
  destruct (Forall2_lookup_l _ _ _ _ _ Hwrites Hi) as (write & Hwrite & Hfor & Hdata).
  assert (Hkey : Forall (fun key => is_Some (bufferViews d' !! key)) (typedKeysOf b)).
  { rewrite Forall_forall in Hkeys |- *. intros key Hkey. apply Hkeys.
    apply list_elem_of_In, in_flat_map. exists b. split; [exact Hb|].
    apply list_elem_of_In. exact Hkey. }
  rewrite (tablePayload_resolved _ _ Htable) in Hdata.
  destruct (tablePayload (bufferViews d') (SetBinding.item b)) as [payload|] eqn:Hpayload;
    [|discriminate Hdata].
  injection Hdata as Hdata.
  eexists _, d', _, writes, write, payload.
  split; [exact Hrun|].
  split; [rewrite Hcalls, !app_assoc; apply last_snoc|].
  split; [apply list_elem_of_In, list_elem_of_lookup; exists i; exact Hwrite|].
  split; [exact Hfor|]. split; [symmetry; exact Hdata|].
  intros w Hcache.
  destruct (writeDescriptorTable_run tableDesc table (SetBinding.item b) w
              Hlen Hcap Hpos Hdesc Hschema Hslot Htable) as (payload' & Hpayload' & Hwrite').
  rewrite (withTableView_cached w b Htable) in Hpayload', Hwrite'
    by (rewrite Hcache; exact Hkey).
  rewrite Hcache, Hpayload in Hpayload'. injection Hpayload' as <-.
  rewrite Hwrite'. destruct (decide (_ = [])); reflexivity.
Qed.

End SetsAndTables.

Lemma sets_and_tables_write_the_same_descriptor_witness :
  exists set d' write payload,
    createBindingSet (H := sample_collaborators) (H0 := sample_deviceCollaborators)
      sample_volatileSetDesc sample_fixedLayout emptyDevice = Ok (Some set, d') /\
    SetWrite.data write = SetWrite.Resource payload /\
    writeDescriptorTable (H := sample_collaborators) sample_typedTable
      (sample_typedBufferBinding 4) (mkWorld [] (bufferViews d') [])
    = Ok (true,
          mkWorld
            [EvUpdateDescriptorSets 1
               [tableWriteAt (H := sample_collaborators) sample_typedTable
                  (sample_typedBufferBinding 4) payload 0]]
            (bufferViews d') []).
Proof.
  assert (Hlayout :
    { w0' | createBindlessLayout (H := sample_collaborators) sample_context
              (BindingLayout.bindlessDesc (DescriptorTable.layout sample_typedTable))
              emptyWorld = Ok (DescriptorTable.layout sample_typedTable, w0') }).
  { eexists. vm_compute. reflexivity. }
  destruct Hlayout as [w0' Hlayout].
  destruct (sets_and_tables_write_the_same_descriptor (H := sample_collaborators)
              (H0 := sample_deviceCollaborators) sample_volatileSetDesc
              sample_fixedLayout 4000 5000 emptyDevice sample_context
              (BindingLayout.bindlessDesc (DescriptorTable.layout sample_typedTable))
              sample_typedTable (SetBinding.mk (sample_typedBufferBinding 4) 0)
              emptyWorld w0')
    as (set & d' & count & writes & write & payload & Hrun & _ & _ & _ & Hdata & Htable).
  - reflexivity.
  - reflexivity.
  - exact sample_volatileSetDesc_ok.
  - vm_compute. lia.
  - vm_compute. reflexivity.
  - vm_compute. lia.
  - vm_compute. lia.
  - exact Hlayout.
  - cbn. auto.
  - vm_compute. reflexivity.
  - vm_compute. split; [discriminate|reflexivity].
  - exists set, d', write, payload. split; [exact Hrun|]. split; [exact Hdata|].
    apply (Htable (mkWorld [] (bufferViews d') [])). reflexivity.
Defined.
